(** * jkh-server: task lifecycle, inspection results and inspection acts

    A shallow embedding of the core of the inspection workflow:
    - [pkg/service/task.go]: the status automaton and [UpdateTaskStatus];
    - the inspection-result service: [validateTaskAndElement],
      [CreateOrUpdateResult];
    - [pkg/service/inspectionact.go]: [CreateOrUpdateAct], [ApproveAct],
      [GeneratePDFForAct], [generatePDF];
    - [pkg/handlers/task.go]: [SubmitTask].

    The ent client is modelled as an in-memory relational store, the file
    system as a finite map from paths to file contents, the logger as a list
    of lines, and the wall clock as a sequence of readings.  Every call that
    can fail for reasons outside the program (a database round trip, a file
    operation, loading a font) consults a fault oracle, so that each
    [if err != nil] branch of the source can be taken. *)

From Stdlib Require Import Ascii.
From stdpp Require Import gmap strings list pretty sorting.

Local Open Scope string_scope.
Local Open Scope list_scope.
Local Open Scope Z_scope.

(** ** Wall-clock time *)

(** A [time.Time] value, by its calendar fields.  Two readings of the clock
    in the same second differ in [nsec] only. *)
Record Time := mkTime {
  year : Z; month : Z; day : Z;
  hour : Z; minute : Z; second : Z;
  nsec : Z
}.

#[global] Instance Time_eq_dec : EqDecision Time.
Proof. solve_decision. Defined.

(** The zero value of [time.Time]: January 1, year 1, 00:00:00. *)
Definition zeroTime : Time := mkTime 1 1 1 0 0 0 0.

Definition IsZero (t : Time) : bool := bool_decide (t = zeroTime).

(** The calendar fields are in the range the layouts below print them in. *)
Definition valid_time (t : Time) : Prop :=
  0 <= year t <= 9999 /\ 1 <= month t <= 12 /\ 1 <= day t <= 31 /\
  0 <= hour t <= 23 /\ 0 <= minute t <= 59 /\ 0 <= second t <= 59.

Definition digit (n : Z) : ascii :=
  ascii_of_nat (Z.to_nat (48 + n mod 10)).

(** Layout elements [01], [02], [15], [04], [05]: two digits, zero padded. *)
Definition pad2 (n : Z) : string :=
  String (digit (n / 10)) (String (digit n) "").

(** Layout element [2006]: four digits, zero padded. *)
Definition pad4 (n : Z) : string :=
  String (digit (n / 1000)) (String (digit (n / 100)) (pad2 n)).

(** [t.Format("02.01.2006 15:04")] *)
Definition format_date_time (t : Time) : string :=
  pad2 (day t) +:+ "." +:+ pad2 (month t) +:+ "." +:+ pad4 (year t) +:+ " " +:+
  pad2 (hour t) +:+ ":" +:+ pad2 (minute t).

(** [t.Format("02.01.2006")] *)
Definition format_date (t : Time) : string :=
  pad2 (day t) +:+ "." +:+ pad2 (month t) +:+ "." +:+ pad4 (year t).

(** [t.Format("20060102_150405")] *)
Definition format_stamp (t : Time) : string :=
  pad4 (year t) +:+ pad2 (month t) +:+ pad2 (day t) +:+ "_" +:+
  pad2 (hour t) +:+ pad2 (minute t) +:+ pad2 (second t).

(** [fmt.Sprintf("%d", n)] *)
Definition itoa (n : Z) : string := pretty n.

(** ** Task status automaton (pkg/service/task.go) *)

(** [task.Status] is a string type; the schema admits seven values. *)
Definition Status := string.

Definition StatusNew : Status := "New".
Definition StatusPending : Status := "Pending".
Definition StatusInProgress : Status := "InProgress".
Definition StatusOnReview : Status := "OnReview".
Definition StatusForRevision : Status := "ForRevision".
Definition StatusApproved : Status := "Approved".
Definition StatusCanceled : Status := "Canceled".

(** ent/schema/task.go *)
Definition Statuses : list string :=
  ["New"; "Pending"; "InProgress"; "OnReview"; "ForRevision"; "Approved"; "Canceled"].

(** The enum validator ent generates for the [status] column. *)
Definition StatusValidator (s : Status) : bool := bool_decide (s ∈ Statuses).

Definition transitionTable : list (Status * list Status) :=
  [ (StatusNew,         [StatusPending; StatusCanceled]);
    (StatusPending,     [StatusInProgress; StatusCanceled]);
    (StatusInProgress,  [StatusOnReview; StatusCanceled]);
    (StatusOnReview,    [StatusApproved; StatusForRevision]);
    (StatusForRevision, [StatusOnReview; StatusCanceled]);
    (StatusApproved,    []);
    (StatusCanceled,    []) ].

Definition allowedTransitions : gmap Status (list Status) :=
  list_to_map transitionTable.

(** The [for _, status := range allowed] loop of [isTransitionAllowed]. *)
Fixpoint rangeAllowed (allowed : list Status) (newStatus : Status) : bool :=
  match allowed with
  | [] => false
  | status :: rest =>
      if decide (status = newStatus) then true else rangeAllowed rest newStatus
  end.

Definition isTransitionAllowed (currentStatus newStatus : Status) : bool :=
  match allowedTransitions !! currentStatus with
  | None => false
  | Some allowed => rangeAllowed allowed newStatus
  end.

(** The legal (current, target) pairs, written out. *)
Definition legalPairs : list (Status * Status) :=
  [ (StatusNew, StatusPending); (StatusNew, StatusCanceled);
    (StatusPending, StatusInProgress); (StatusPending, StatusCanceled);
    (StatusInProgress, StatusOnReview); (StatusInProgress, StatusCanceled);
    (StatusOnReview, StatusApproved); (StatusOnReview, StatusForRevision);
    (StatusForRevision, StatusOnReview); (StatusForRevision, StatusCanceled) ].

(** ** Errors *)

Inductive Error :=
| ErrTaskNotFound
| ErrInvalidStatusTransition
| ErrActNotFound
| ErrResultNotFound
| ErrTaskNotInProgress
| ErrChecklistElementInvalid
| ErrNotFound            (* ent.NotFoundError *)
| ErrNotSingular         (* ent.NotSingularError *)
| ErrConstraint          (* ent.ConstraintError *)
| ErrValidation          (* ent.ValidationError *)
| ErrIO                  (* a driver, file-system or rendering failure *)
| Errorf (msg : string). (* fmt.Errorf / errors.New with this text *)

#[global] Instance Error_eq_dec : EqDecision Error.
Proof. solve_decision. Defined.

Definition IsNotFound (e : Error) : bool := bool_decide (e = ErrNotFound).

(** [err.Error()], used where the source prints an error with [%v]. *)
Definition Error_string (e : Error) : string :=
  match e with
  | ErrTaskNotFound => "task not found"
  | ErrInvalidStatusTransition => "invalid status transition"
  | ErrActNotFound => "inspection act not found"
  | ErrResultNotFound => "inspection result not found"
  | ErrTaskNotInProgress => "task is not in progress (cannot add results)"
  | ErrChecklistElementInvalid => "checklist element does not belong to task's checklist"
  | ErrNotFound => "ent: entity not found"
  | ErrNotSingular => "ent: entity not singular"
  | ErrConstraint => "ent: constraint failed"
  | ErrValidation => "ent: validator failed"
  | ErrIO => "input/output error"
  | Errorf msg => msg
  end.

Inductive Result (A : Type) :=
| Ok (a : A)
| Err (e : Error).
Arguments Ok {A} a.
Arguments Err {A} e.

(** ** Entities (the structs ent generates from ent/schema)

    An entity carries its columns and its [Edges]; an edge is [None] (nil)
    unless the query that produced the value loaded it.  Rows kept in the
    store have no edge loaded.  A nullable column holds the zero value of
    its Go type when it is NULL, which is how ent scans it. *)

Record District := mkDistrict { d_ID : Z; d_Name : string }.
Record JkhUnit := mkJkhUnit { j_ID : Z; j_Name : string }.

Record Building := mkBuilding {
  b_ID : Z; b_Address : string; b_ConstructionYear : Z;
  b_DistrictID : Z; b_JkhUnitID : Z;
  b_Edges_District : option District;
  b_Edges_JkhUnit : option JkhUnit
}.

Record ElementCatalog := mkElementCatalog {
  ec_ID : Z; ec_Name : string; ec_Category : string
}.

Record ChecklistElement := mkChecklistElement {
  ce_ID : Z; ce_ChecklistID : Z; ce_ElementID : Z; ce_OrderIndex : Z;
  ce_Edges_ElementCatalog : option ElementCatalog
}.

Record Checklist := mkChecklist {
  cl_ID : Z; cl_Title : string; cl_InspectionType : string;
  cl_Edges_Elements : list ChecklistElement
}.

Record User := mkUser {
  u_ID : Z; u_FirstName : string; u_LastName : string; u_Email : string
}.

Record Task := mkTask {
  t_ID : Z; t_BuildingID : Z; t_ChecklistID : Z; t_InspectorID : Z;
  t_Title : string; t_Priority : string; t_Status : Status;
  t_Description : string; t_ScheduledDate : Time;
  t_CreatedAt : Time; t_UpdatedAt : Time;
  t_Edges_Building : option Building;
  t_Edges_Checklist : option Checklist;
  t_Edges_Inspector : option User
}.

Record InspectionResult := mkInspectionResult {
  ir_ID : Z; ir_TaskID : Z; ir_ChecklistElementID : Z;
  ir_ConditionStatus : string; ir_Comment : string;
  ir_CreatedAt : Time; ir_UpdatedAt : Time;
  ir_Edges_ChecklistElement : option ChecklistElement
}.

Record InspectionAct := mkInspectionAct {
  ia_ID : Z; ia_TaskID : Z; ia_CreatedAt : Time; ia_ApprovedAt : Time;
  ia_Status : string; ia_Conclusion : string; ia_DocumentPath : string;
  ia_Edges_Task : option Task
}.

(** ent/schema/inspectionresult.go *)
Definition ConditionStatuses : list string :=
  ["Исправное"; "Удовлетворительное"; "Неудовлетворительное"; "Аварийное"].

Definition ConditionStatusValidator (s : string) : bool :=
  bool_decide (s ∈ ConditionStatuses).

(** Field setters used by the update builders. *)
Definition Task_SetStatus (s : Status) (now : Time) (t : Task) : Task :=
  mkTask (t_ID t) (t_BuildingID t) (t_ChecklistID t) (t_InspectorID t)
         (t_Title t) (t_Priority t) s (t_Description t) (t_ScheduledDate t)
         (t_CreatedAt t) now
         (t_Edges_Building t) (t_Edges_Checklist t) (t_Edges_Inspector t).

Definition Act_SetConclusion (c : string) (a : InspectionAct) : InspectionAct :=
  mkInspectionAct (ia_ID a) (ia_TaskID a) (ia_CreatedAt a) (ia_ApprovedAt a)
                  (ia_Status a) c (ia_DocumentPath a) (ia_Edges_Task a).

Definition Act_SetStatus (s : string) (a : InspectionAct) : InspectionAct :=
  mkInspectionAct (ia_ID a) (ia_TaskID a) (ia_CreatedAt a) (ia_ApprovedAt a)
                  s (ia_Conclusion a) (ia_DocumentPath a) (ia_Edges_Task a).

Definition Act_SetApprovedAt (t : Time) (a : InspectionAct) : InspectionAct :=
  mkInspectionAct (ia_ID a) (ia_TaskID a) (ia_CreatedAt a) t
                  (ia_Status a) (ia_Conclusion a) (ia_DocumentPath a)
                  (ia_Edges_Task a).

Definition Act_SetDocumentPath (p : string) (a : InspectionAct) : InspectionAct :=
  mkInspectionAct (ia_ID a) (ia_TaskID a) (ia_CreatedAt a) (ia_ApprovedAt a)
                  (ia_Status a) (ia_Conclusion a) p (ia_Edges_Task a).

Definition Act_WithTask (t : option Task) (a : InspectionAct) : InspectionAct :=
  mkInspectionAct (ia_ID a) (ia_TaskID a) (ia_CreatedAt a) (ia_ApprovedAt a)
                  (ia_Status a) (ia_Conclusion a) (ia_DocumentPath a) t.

Definition Result_SetCondition (c : string) (r : InspectionResult) : InspectionResult :=
  mkInspectionResult (ir_ID r) (ir_TaskID r) (ir_ChecklistElementID r)
                     c (ir_Comment r) (ir_CreatedAt r) (ir_UpdatedAt r)
                     (ir_Edges_ChecklistElement r).

Definition Result_SetComment (c : string) (r : InspectionResult) : InspectionResult :=
  mkInspectionResult (ir_ID r) (ir_TaskID r) (ir_ChecklistElementID r)
                     (ir_ConditionStatus r) c (ir_CreatedAt r) (ir_UpdatedAt r)
                     (ir_Edges_ChecklistElement r).

Definition Result_SetUpdatedAt (t : Time) (r : InspectionResult) : InspectionResult :=
  mkInspectionResult (ir_ID r) (ir_TaskID r) (ir_ChecklistElementID r)
                     (ir_ConditionStatus r) (ir_Comment r) (ir_CreatedAt r) t
                     (ir_Edges_ChecklistElement r).

Definition Result_WithChecklistElement (ce : option ChecklistElement)
    (r : InspectionResult) : InspectionResult :=
  mkInspectionResult (ir_ID r) (ir_TaskID r) (ir_ChecklistElementID r)
                     (ir_ConditionStatus r) (ir_Comment r) (ir_CreatedAt r)
                     (ir_UpdatedAt r) ce.

(** ** The store, the file system and the world *)

(** Tables addressed by primary key only are finite maps; tables that the
    services scan by another column are lists of rows.  The order of such a
    list stands for the order in which a query without an ORDER BY clause
    returns the rows; an insert appends its row. *)
Record DB := mkDB {
  tasks : gmap Z Task;
  buildings : gmap Z Building;
  districts : gmap Z District;
  jkh_units : gmap Z JkhUnit;
  checklists : gmap Z Checklist;
  users : gmap Z User;
  element_catalogs : gmap Z ElementCatalog;
  checklist_elements : list ChecklistElement;
  inspection_results : list InspectionResult;
  inspection_acts : list InspectionAct;
  result_seq : Z;   (* last primary key handed out for inspection_results *)
  act_seq : Z       (* last primary key handed out for inspection_acts *)
}.

Definition DB_set_tasks (v : gmap Z Task) (d : DB) : DB :=
  mkDB v (buildings d) (districts d) (jkh_units d) (checklists d) (users d)
       (element_catalogs d) (checklist_elements d) (inspection_results d)
       (inspection_acts d) (result_seq d) (act_seq d).

Definition DB_set_results (v : list InspectionResult) (seq : Z) (d : DB) : DB :=
  mkDB (tasks d) (buildings d) (districts d) (jkh_units d) (checklists d) (users d)
       (element_catalogs d) (checklist_elements d) v
       (inspection_acts d) seq (act_seq d).

Definition DB_set_acts (v : list InspectionAct) (seq : Z) (d : DB) : DB :=
  mkDB (tasks d) (buildings d) (districts d) (jkh_units d) (checklists d) (users d)
       (element_catalogs d) (checklist_elements d) (inspection_results d)
       v (result_seq d) seq.

(** ** Rendered documents: the calls made on the gofpdf document *)

Inductive Cmd :=
| AddPage
| SetFont (family style : string) (size : Z)
| SetFillColor (r g b : Z)
| Ln (h : Z)
| CellFormat (w h : Z) (txt border : string) (ln : Z) (align : string) (fill : bool)
| MultiCell (w h : Z) (txt border align : string) (fill : bool).

#[global] Instance Cmd_eq_dec : EqDecision Cmd.
Proof. solve_decision. Defined.

(** The bytes [pdf.Output] writes are determined by the calls made on the
    document; a file's contents are represented by that sequence. *)
Definition PDF := list Cmd.

Record World := mkWorld {
  db : DB;
  fs : gmap string PDF;   (* regular files by path *)
  logs : list string;     (* lines written with log.Printf, oldest first *)
  ticks : nat             (* number of clock readings so far *)
}.

Definition World_set_db (d : DB) (w : World) : World :=
  mkWorld d (fs w) (logs w) (ticks w).
Definition World_set_fs (f : gmap string PDF) (w : World) : World :=
  mkWorld (db w) f (logs w) (ticks w).

(** ** Points of failure outside the program, by call site *)

Inductive Op :=
| OpTaskOnly            (* Task.Query().Only *)
| OpTaskUpdate          (* Task.UpdateOneID(..).Exec *)
| OpActOnly             (* InspectionAct.Query().Only *)
| OpActSetConclusion    (* UpdateOne(act).SetConclusion(..).Save *)
| OpActCreate           (* InspectionAct.Create()..Save *)
| OpActApprove          (* UpdateOne(act).SetApprovedAt(..)..Save *)
| OpActSetDocumentPath  (* UpdateOne(act).SetDocumentPath(..).Save *)
| OpResultAll           (* InspectionResult.Query()..All *)
| OpResultOnly          (* InspectionResult.Query()..Only, existence probe *)
| OpResultUpdate        (* InspectionResult.UpdateOne(..).Save *)
| OpResultCreate        (* InspectionResult.Create()..Save *)
| OpResultFetch         (* InspectionResult.Query()..Only, reload *)
| OpElementExist        (* ChecklistElement.Query()..Exist *)
| OpMkdirAll | OpRemove | OpReadFile | OpWriteFile
| OpFontRegular | OpFontBold | OpOutput.

#[global] Instance Op_eq_dec : EqDecision Op.
Proof. solve_decision. Defined.

Record Env := mkEnv {
  faults : Op -> bool;   (* true: the call at this site fails *)
  clock : nat -> Time    (* the n-th reading of time.Now() *)
}.

Definition no_faults (env : Env) : Prop := forall op, faults env op = false.

(** ** A state-and-error monad for the services *)

Definition M (A : Type) : Type := World -> Result A * World.

#[global] Instance M_ret : MRet M := fun A a w => (Ok a, w).
#[global] Instance M_bind : MBind M := fun A B f m w =>
  match m w with
  | (Ok a, w') => f a w'
  | (Err e, w') => (Err e, w')
  end.

Definition fail {A} (e : Error) : M A := fun w => (Err e, w).

(** Runs [m] and hands its outcome to the caller as a value: the
    [x, err := ...] of Go, for the places that inspect [err]. *)
Definition try {A} (m : M A) : M (Result A) := fun w =>
  match m w with
  | (r, w') => (Ok r, w')
  end.

Definition getDB : M DB := fun w => (Ok (db w), w).
Definition putDB (d : DB) : M unit := fun w => (Ok tt, World_set_db d w).

Definition logPrintf (line : string) : M unit := fun w =>
  (Ok tt, mkWorld (db w) (fs w) (logs w ++ [line]) (ticks w)).

(** [fmt.Errorf(prefix + ": %w", err)] *)
Definition wrap (prefix : string) (err : Error) : Error :=
  Errorf (prefix +:+ ": " +:+ Error_string err).

(** ** Eager loading of edges ([With...] on a query) *)

Definition loadBuilding (d : DB) (id : Z) : option Building :=
  b ← buildings d !! id;
  Some (mkBuilding (b_ID b) (b_Address b) (b_ConstructionYear b)
          (b_DistrictID b) (b_JkhUnitID b)
          (districts d !! b_DistrictID b) (jkh_units d !! b_JkhUnitID b)).

Definition loadElement (d : DB) (ce : ChecklistElement) : ChecklistElement :=
  mkChecklistElement (ce_ID ce) (ce_ChecklistID ce) (ce_ElementID ce)
    (ce_OrderIndex ce) (element_catalogs d !! ce_ElementID ce).

Definition findElement (d : DB) (id : Z) : option ChecklistElement :=
  head (filter (fun ce => ce_ID ce = id) (checklist_elements d)).

(** [WithChecklist(WithElements(WithElementCatalog()))] *)
Definition loadChecklistFull (d : DB) (id : Z) : option Checklist :=
  c ← checklists d !! id;
  Some (mkChecklist (cl_ID c) (cl_Title c) (cl_InspectionType c)
          (loadElement d <$>
             filter (fun ce => ce_ChecklistID ce = id) (checklist_elements d))).

(** The task graph that [ApproveAct] and [GeneratePDFForAct] request. *)
Definition loadTaskFull (d : DB) (id : Z) : option Task :=
  t ← tasks d !! id;
  Some (mkTask (t_ID t) (t_BuildingID t) (t_ChecklistID t) (t_InspectorID t)
          (t_Title t) (t_Priority t) (t_Status t) (t_Description t)
          (t_ScheduledDate t) (t_CreatedAt t) (t_UpdatedAt t)
          (loadBuilding d (t_BuildingID t))
          (loadChecklistFull d (t_ChecklistID t))
          (users d !! t_InspectorID t)).

(** [WithChecklistElement(WithElementCatalog())] on a result. *)
Definition loadResult (d : DB) (r : InspectionResult) : InspectionResult :=
  Result_WithChecklistElement
    (loadElement d <$> findElement d (ir_ChecklistElementID r)) r.

(** The rows of one task, and of one (task, element) pair. *)
Definition actsOfTask (d : DB) (taskID : Z) : list InspectionAct :=
  filter (fun a => ia_TaskID a = taskID) (inspection_acts d).

Definition resultsOfTask (d : DB) (taskID : Z) : list InspectionResult :=
  filter (fun r => ir_TaskID r = taskID) (inspection_results d).

Definition resultsOfPair (d : DB) (taskID elementID : Z) : list InspectionResult :=
  filter (fun r => ir_TaskID r = taskID /\ ir_ChecklistElementID r = elementID)
         (inspection_results d).

(** [Only]: exactly one row, or a not-found / not-singular error. *)
Definition only {A} (rows : list A) : M A :=
  match rows with
  | [] => fail ErrNotFound
  | [a] => mret a
  | _ => fail ErrNotSingular
  end.

(** ** Paths (path/filepath, with [/] as the separator) *)

(** The elements of a path: the text between its separators.  A leading,
    a trailing and a doubled separator each give an empty element. *)
Fixpoint pathElements (path acc : string) : list string :=
  match path with
  | EmptyString => [acc]
  | String c rest =>
      if decide (c = "/"%char) then acc :: pathElements rest ""
      else pathElements rest (acc +:+ String c "")
  end.

(** Elements written out again, one separator between two of them. *)
Fixpoint joinElements (elems : list string) : string :=
  match elems with
  | [] => ""
  | [e] => e
  | e :: rest => e +:+ "/" +:+ joinElements rest
  end.

Definition isRooted (path : string) : bool :=
  match path with
  | String c _ => bool_decide (c = "/"%char)
  | EmptyString => false
  end.

(** One turn of the loop of [filepath.Clean], on the next element of the
    path.  [out] holds the elements written so far (without the leading
    separator of a rooted path); the first [dotdot] of them are the [..]
    elements a relative path begins with, below which [..] cannot step
    back. *)
Definition cleanElement (rooted : bool) (buf : list string * nat) (elem : string)
    : list string * nat :=
  let '(out, dotdot) := buf in
  if decide (elem = "") then buf             (* empty path element *)
  else if decide (elem = ".") then buf       (* . element *)
  else if decide (elem = "..") then          (* .. element *)
    if decide (dotdot < length out)%nat
    then (removelast out, dotdot)            (* can backtrack *)
    else if rooted then buf                  (* nothing above the root *)
    else (out ++ [".."], S (length out))     (* cannot backtrack: keep the .. *)
  else (out ++ [elem], dotdot).              (* real path element *)

(** [filepath.Clean(path)]: no empty and no [.] element, every inner [..]
    resolved against the element before it, no trailing separator; the
    empty path becomes [.]. *)
Definition filepath_Clean (path : string) : string :=
  if decide (path = "") then "."
  else
    let rooted := isRooted path in
    let out := fst (foldl (cleanElement rooted) ([], 0%nat) (pathElements path "")) in
    if rooted then "/" +:+ joinElements out
    else if decide (out = []) then "." else joinElements out.

(** [filepath.Join(dir, name)]: the non-empty arguments joined by a
    separator, and the result cleaned; empty when both are. *)
Definition filepath_Join (dir name : string) : string :=
  if decide (dir <> "") then filepath_Clean (dir +:+ "/" +:+ name)
  else if decide (name <> "") then filepath_Clean name
  else "".

(** [filepath.Base(path)]: the last element of the path, trailing
    separators set aside; [.] for the empty path and [/] for a path of
    separators only. *)
Definition filepath_Base (path : string) : string :=
  if decide (path = "") then "."
  else default "/" (last (filter (fun e => e <> "") (pathElements path ""))).

(** An UPDATE by primary key, row by row. *)
Definition updateByID (act : InspectionAct) (set : InspectionAct -> InspectionAct)
    (a : InspectionAct) : InspectionAct :=
  if decide (ia_ID a = ia_ID act) then set a else a.

Section Services.

Context (env : Env).

(** *** Primitive effects *)

Definition fault (op : Op) : M unit := fun w =>
  if faults env op then (Err ErrIO, w) else (Ok tt, w).

Definition time_Now : M Time := fun w =>
  (Ok (clock env (ticks w)), mkWorld (db w) (fs w) (logs w) (S (ticks w))).

Definition os_MkdirAll (path : string) : M unit := fault OpMkdirAll.

Definition os_Remove (path : string) : M unit := fun w =>
  if faults env OpRemove then (Err ErrIO, w)
  else match fs w !! path with
       | None => (Err ErrIO, w)
       | Some _ => (Ok tt, World_set_fs (delete path (fs w)) w)
       end.

Definition os_ReadFile (path : string) : M PDF := fun w =>
  if faults env OpReadFile then (Err ErrIO, w)
  else match fs w !! path with
       | None => (Err ErrIO, w)
       | Some data => (Ok data, w)
       end.

Definition os_WriteFile (path : string) (data : PDF) : M unit := fun w =>
  if faults env OpWriteFile then (Err ErrIO, w)
  else (Ok tt, World_set_fs (<[path := data]> (fs w)) w).

(** *** The ent client *)

(** Modelled from the spec: the package [jkh/ent] that ent generates is not
    among the sources.  The queries and builders the services call are
    modelled on the persistence contract (rows created, read and updated by
    key; a missing row and a violated constraint are typed errors) and on the
    schema of ent/schema: which columns exist, their defaults ([time.Now] for
    [created_at] and [updated_at]), their validators (the enums, the length
    of [document_path]), the required edges and the unique [task_id] of an
    act.  [Only] fails with a not-found error on no row and a not-singular
    error on several; [UpdateOne] addresses the row by primary key. *)

(** [Task.Query().Where(task.IDEQ(id)).Only(ctx)] *)
Definition Task_Only (id : Z) : M Task :=
  fault OpTaskOnly;;
  d ← getDB;
  match tasks d !! id with
  | Some t => mret t
  | None => fail ErrNotFound
  end.

(** [Task.Query().Where(task.IDEQ(id)).WithChecklist().Only(ctx)] *)
Definition Task_Only_WithChecklist (id : Z) : M Task :=
  fault OpTaskOnly;;
  d ← getDB;
  match tasks d !! id with
  | Some t =>
      mret (mkTask (t_ID t) (t_BuildingID t) (t_ChecklistID t) (t_InspectorID t)
              (t_Title t) (t_Priority t) (t_Status t) (t_Description t)
              (t_ScheduledDate t) (t_CreatedAt t) (t_UpdatedAt t)
              None (checklists d !! t_ChecklistID t) None)
  | None => fail ErrNotFound
  end.

(** [Task.UpdateOneID(id).SetStatus(s).Exec(ctx)]: the update default of
    [updated_at], the enum validator, then the UPDATE. *)
Definition Task_UpdateOneID_SetStatus (id : Z) (s : Status) : M unit :=
  now ← time_Now;
  if negb (StatusValidator s) then fail ErrValidation else
  fault OpTaskUpdate;;
  d ← getDB;
  match tasks d !! id with
  | None => fail ErrNotFound
  | Some t => putDB (DB_set_tasks (<[id := Task_SetStatus s now t]> (tasks d)) d)
  end.

(** [InspectionAct.Query().Where(inspectionact.TaskIDEQ(taskID)).Only(ctx)] *)
Definition Act_Only (taskID : Z) : M InspectionAct :=
  fault OpActOnly;;
  d ← getDB;
  only (actsOfTask d taskID).

(** The same query with [WithTask(...)] loading the task graph. *)
Definition Act_Only_WithTask (taskID : Z) : M InspectionAct :=
  fault OpActOnly;;
  d ← getDB;
  act ← only (actsOfTask d taskID);
  mret (Act_WithTask (loadTaskFull d (ia_TaskID act)) act).

(** [InspectionAct.UpdateOne(act)...Save(ctx)]: the UPDATE of the row with the
    primary key of [act], applying the setters [set]; returns the row as
    stored.  [ok] is the outcome of the field validators. *)
Definition Act_UpdateOne (op : Op) (act : InspectionAct) (ok : bool)
    (set : InspectionAct -> InspectionAct) : M InspectionAct :=
  if negb ok then fail ErrValidation else
  fault op;;
  d ← getDB;
  match filter (fun a => ia_ID a = ia_ID act) (inspection_acts d) with
  | [] => fail ErrNotFound
  | row :: _ =>
      putDB (DB_set_acts (updateByID act set <$> inspection_acts d)
               (act_seq d) d);;
      mret (set row)
  end.

(** [InspectionAct.Create().SetTaskID(..).SetStatus(..).SetConclusion(..).Save(ctx)]:
    [created_at] defaults to the clock; [task_id] is a required foreign key
    and is unique. *)
Definition Act_Create (taskID : Z) (status conclusion : string) : M InspectionAct :=
  now ← time_Now;
  fault OpActCreate;;
  d ← getDB;
  if decide (tasks d !! taskID = None) then fail ErrConstraint else
  if decide (actsOfTask d taskID = []) then
    let act := mkInspectionAct (act_seq d + 1) taskID now zeroTime
                 status conclusion "" None in
    putDB (DB_set_acts (inspection_acts d ++ [act]) (act_seq d + 1) d);;
    mret act
  else fail ErrConstraint.

(** [InspectionResult.Query().Where(TaskIDEQ(taskID)).WithChecklistElement(..).All(ctx)] *)
Definition Result_All (taskID : Z) : M (list InspectionResult) :=
  fault OpResultAll;;
  d ← getDB;
  mret (loadResult d <$> resultsOfTask d taskID).

(** [InspectionResult.Query().Where(TaskIDEQ(..), ChecklistElementIDEQ(..)).Only(ctx)] *)
Definition Result_Only (taskID elementID : Z) : M InspectionResult :=
  fault OpResultOnly;;
  d ← getDB;
  only (resultsOfPair d taskID elementID).

(** The reload of the pair with [WithChecklistElement(WithElementCatalog())]. *)
Definition Result_Fetch (taskID elementID : Z) : M InspectionResult :=
  fault OpResultFetch;;
  d ← getDB;
  r ← only (resultsOfPair d taskID elementID);
  mret (loadResult d r).

(** [InspectionResult.UpdateOne(existing).SetConditionStatus(..)] followed by
    [SetComment]/[ClearComment] and [Save]. *)
Definition Result_UpdateOne (existing : InspectionResult)
    (condition : string) (comment : option string) : M unit :=
  now ← time_Now;
  if negb (ConditionStatusValidator condition) then fail ErrValidation else
  fault OpResultUpdate;;
  d ← getDB;
  let set r :=
    Result_SetUpdatedAt now
      (Result_SetComment (default "" comment) (Result_SetCondition condition r)) in
  match filter (fun r => ir_ID r = ir_ID existing) (inspection_results d) with
  | [] => fail ErrNotFound
  | _ :: _ =>
      putDB (DB_set_results
               ((fun r => if decide (ir_ID r = ir_ID existing) then set r else r)
                  <$> inspection_results d)
               (result_seq d) d)
  end.

(** [InspectionResult.Create().SetTaskID(..).SetChecklistElementID(..)
    .SetConditionStatus(..)], an optional [SetComment], and [Save]. *)
Definition Result_Create (taskID elementID : Z)
    (condition : string) (comment : option string) : M unit :=
  created ← time_Now;
  updated ← time_Now;
  if negb (ConditionStatusValidator condition) then fail ErrValidation else
  fault OpResultCreate;;
  d ← getDB;
  if decide (tasks d !! taskID = None) then fail ErrConstraint else
  if decide (findElement d elementID = None) then fail ErrConstraint else
  let r := mkInspectionResult (result_seq d + 1) taskID elementID condition
             (default "" comment) created updated None in
  putDB (DB_set_results (inspection_results d ++ [r]) (result_seq d + 1) d).

(** [ChecklistElement.Query().Where(IDEQ(elementID), ChecklistIDEQ(checklistID)).Exist(ctx)] *)
Definition Element_Exist (elementID checklistID : Z) : M bool :=
  fault OpElementExist;;
  d ← getDB;
  mret (bool_decide
          (filter (fun ce => ce_ID ce = elementID /\ ce_ChecklistID ce = checklistID)
                  (checklist_elements d) <> [])).

(** *** pkg/service/inspectionact.go *)

(** [NewInspectionActService]: the service value is its [StoragePath]. *)
Definition NewInspectionActService (storagePath : string) : M string :=
  r ← try (os_MkdirAll storagePath);
  match r with
  | Err err =>
      logPrintf ("failed to create storage directory " +:+ storagePath +:+ ": "
                 +:+ Error_string err)
  | Ok _ => mret tt
  end;;
  mret storagePath.

Definition statusDrafted : string := "создан".
Definition statusApproved : string := "утверждён".
Definition approvedConclusion : string := "Акт осмотра утверждён координатором.".

Definition CreateOrUpdateAct (taskID : Z) (conclusion : string) : M InspectionAct :=
  r ← try (Act_Only taskID);
  match r with
  | Ok act =>
      (* the act exists: only the conclusion is rewritten, the PDF is left alone *)
      r ← try (Act_UpdateOne OpActSetConclusion act true (Act_SetConclusion conclusion));
      match r with
      | Err err => fail (wrap "failed to update inspection act" err)
      | Ok act => mret act
      end
  | Err err =>
      if negb (IsNotFound err) then fail (wrap "database error" err) else
      r ← try (Act_Create taskID statusDrafted conclusion);
      match r with
      | Err err =>
          logPrintf ("DB error creating inspection act: " +:+ Error_string err);;
          fail (Errorf "database error")
      | Ok act => mret act
      end
  end.

(** One labelled line of the information blocks. *)
Definition labelled (label value : string) : list Cmd :=
  [ CellFormat 55 6 label "" 0 "L" false;
    CellFormat 0 6 value "" 0 "L" false;
    Ln 6 ].

Definition sectionTitle (title : string) (size : Z) : list Cmd :=
  [ SetFont "Times" "B" 12;
    CellFormat 0 8 title "" 0 "L" false;
    Ln 8;
    SetFont "Times" "" size ].

(** The body of [for i, r := range results]: one table row. *)
Definition resultRow (i : nat) (r : InspectionResult) : list Cmd :=
  let elemName :=
    match ir_Edges_ChecklistElement r with
    | Some ce =>
        match ce_Edges_ElementCatalog ce with
        | Some ec => ec_Name ec
        | None => ""
        end
    | None => ""
    end in
  [ CellFormat 10 6 (itoa (Z.of_nat i + 1)) "1" 0 "C" false;
    CellFormat 45 6 elemName "1" 0 "L" false;
    CellFormat 40 6 (ir_ConditionStatus r) "1" 0 "L" false;
    CellFormat 95 6 (ir_Comment r) "1" 1 "L" false ].

Fixpoint rangeResults (i : nat) (results : list InspectionResult) : list Cmd :=
  match results with
  | [] => []
  | r :: rest => resultRow i r ++ rangeResults (S i) rest
  end.

(** Everything [generatePDF] draws, given the date printed in the
    signature line. *)
Definition drawAct (act : InspectionAct) (t : Task)
    (results : list InspectionResult) (today : Time) : PDF :=
  [ AddPage;
    SetFont "Times" "B" 16;
    CellFormat 0 10 "АКТ ОСМОТРА ЖИЛОГО ПОМЕЩЕНИЯ" "" 0 "C" false;
    Ln 13 ] ++
  sectionTitle "ОСНОВНАЯ ИНФОРМАЦИЯ" 11 ++
  labelled "Номер акта:" (itoa (ia_ID act)) ++
  labelled "Дата создания акта:" (format_date_time (ia_CreatedAt act)) ++
  labelled "Статус акта:" (ia_Status act) ++
  (if IsZero (ia_ApprovedAt act) then []
   else labelled "Дата утверждения:" (format_date_time (ia_ApprovedAt act))) ++
  labelled "Дата осмотра:" (format_date (t_ScheduledDate t)) ++
  match t_Edges_Inspector t with
  | Some ins =>
      labelled "Инспектор:" (u_FirstName ins +:+ " " +:+ u_LastName ins) ++
      labelled "Email инспектора:" (u_Email ins)
  | None => []
  end ++
  [ Ln 3 ] ++
  sectionTitle "ИНФОРМАЦИЯ О ЗДАНИИ" 11 ++
  match t_Edges_Building t with
  | Some b =>
      labelled "Адрес:" (b_Address b) ++
      labelled "Год постройки:" (itoa (b_ConstructionYear b)) ++
      match b_Edges_District b with
      | Some dist => labelled "Район:" (d_Name dist)
      | None => []
      end ++
      match b_Edges_JkhUnit b with
      | Some unit => labelled "ЖКХ:" (j_Name unit)
      | None => []
      end
  | None => []
  end ++
  [ Ln 3 ] ++
  sectionTitle "ЧЕК-ЛИСТ ОСМОТРА" 11 ++
  match t_Edges_Checklist t with
  | Some cl =>
      labelled "Название:" (cl_Title cl) ++
      labelled "Тип осмотра:" (cl_InspectionType cl)
  | None => []
  end ++
  [ Ln 3 ] ++
  sectionTitle "РЕЗУЛЬТАТЫ ОСМОТРА" 9 ++
  [ SetFillColor 220 220 220;
    CellFormat 10 7 "№" "1" 0 "C" true;
    CellFormat 45 7 "Элемент" "1" 0 "L" true;
    CellFormat 40 7 "Статус" "1" 0 "L" true;
    CellFormat 95 7 "Примечание" "1" 1 "L" true;
    SetFillColor 255 255 255 ] ++
  rangeResults 0 results ++
  [ Ln 4 ] ++
  sectionTitle "ЗАКЛЮЧЕНИЕ" 10 ++
  [ MultiCell 0 5
      (if decide (ia_Conclusion act = "")
       then "Осмотр выполнен. Результаты представлены в таблице выше."
       else ia_Conclusion act)
      "" "L" false;
    Ln 8;
    SetFont "Times" "" 10;
    CellFormat 90 6 "Подпись инспектора: ____________________" "" 0 "L" false;
    CellFormat 0 6 ("Дата: " +:+ format_date today) "" 1 "L" false ].

(** [fmt.Sprintf("act_%d_%s.pdf", act.TaskID, time.Now().Format("20060102_150405"))] *)
Definition actFilename (taskID : Z) (now : Time) : string :=
  "act_" +:+ itoa taskID +:+ "_" +:+ format_stamp now +:+ ".pdf".

Definition generatePDF (act : InspectionAct) (results : list InspectionResult)
    : M (PDF * string) :=
  match ia_Edges_Task act with
  | None => fail (Errorf "task edge not loaded for inspection act")
  | Some t =>
      r ← try (fault OpFontRegular);
      match r with
      | Err err => fail (wrap "failed to load regular font" err)
      | Ok _ =>
      r ← try (fault OpFontBold);
      match r with
      | Err err => fail (wrap "failed to load bold font" err)
      | Ok _ =>
      today ← time_Now;
      let pdf := drawAct act t results today in
      r ← try (fault OpOutput);
      match r with
      | Err err => fail (wrap "failed to generate PDF" err)
      | Ok _ =>
      stamp ← time_Now;
      mret (pdf, actFilename (ia_TaskID act) stamp)
      end end end
  end.

(** The setters of the approval UPDATE. *)
Definition approve (now : Time) (a : InspectionAct) : InspectionAct :=
  Act_SetConclusion approvedConclusion
    (Act_SetStatus statusApproved (Act_SetApprovedAt now a)).

(** The validator of [document_path]: [MaxLen(500)]. *)
Definition DocumentPathValidator (p : string) : bool :=
  bool_decide (String.length p <= 500)%nat.

(** Steps 4 to 7 of [ApproveAct], on the act as updated in memory: remove
    the old PDF, load the results, render, save, record the path.  Each
    failure is logged and ends the call with [nil]. *)
Definition regenerateApproved (storagePath : string) (taskID : Z)
    (act : InspectionAct) : M unit :=
  (if decide (ia_DocumentPath act <> "") then
     r ← try (os_Remove (ia_DocumentPath act));
     match r with
     | Err err => logPrintf ("failed to delete draft PDF: " +:+ Error_string err)
     | Ok _ => mret tt
     end
   else mret tt);;
  r ← try (Result_All taskID);
  match r with
  | Err err =>
      logPrintf ("failed to fetch results for approved PDF: " +:+ Error_string err);;
      mret tt
  | Ok results =>
  r ← try (generatePDF act results);
  match r with
  | Err err =>
      logPrintf ("failed to generate approved PDF: " +:+ Error_string err);;
      mret tt
  | Ok (pdfData, filename) =>
  let fullPath := filepath_Join storagePath filename in
  r ← try (os_WriteFile fullPath pdfData);
  match r with
  | Err err =>
      logPrintf ("failed to save approved PDF: " +:+ Error_string err);;
      mret tt
  | Ok _ =>
  r ← try (Act_UpdateOne OpActSetDocumentPath act
             (DocumentPathValidator fullPath) (Act_SetDocumentPath fullPath));
  match r with
  | Err err => logPrintf ("failed to update document_path: " +:+ Error_string err)
  | Ok _ => mret tt
  end;;
  logPrintf ("Approved PDF generated for task " +:+ itoa taskID);;
  mret tt
  end end end.

Definition ApproveAct (storagePath : string) (taskID : Z) : M unit :=
  (* 1. the act with its edges *)
  r ← try (Act_Only_WithTask taskID);
  match r with
  | Err err =>
      if IsNotFound err then fail ErrActNotFound
      else fail (wrap "database error" err)
  | Ok act =>
  now ← time_Now;
  (* 2. status, date and conclusion in the database *)
  r ← try (Act_UpdateOne OpActApprove act true (approve now));
  match r with
  | Err err => fail (wrap "failed to approve inspection act" err)
  | Ok _ =>
  (* 3. the same on the value in memory *)
  regenerateApproved storagePath taskID (approve now act)
  end
  end.

(** Step 2 of [GeneratePDFForAct]: the stored PDF, when there is one to read. *)
Definition readStored (act : InspectionAct) : M (option (PDF * string)) :=
  if decide (ia_DocumentPath act <> "") then
    r ← try (os_ReadFile (ia_DocumentPath act));
    match r with
    | Ok data => mret (Some (data, filepath_Base (ia_DocumentPath act)))
    | Err err =>
        logPrintf ("failed to read existing PDF, will regenerate: "
                   +:+ Error_string err);;
        mret None
    end
  else mret None.

(** Steps 3 to 6 of [GeneratePDFForAct]: load the results, render, save,
    record the path. *)
Definition renderAndStore (storagePath : string) (taskID : Z)
    (act : InspectionAct) : M (PDF * string) :=
  r ← try (Result_All taskID);
  match r with
  | Err err => fail (wrap "failed to fetch inspection results" err)
  | Ok results =>
  '(pdfData, filename) ← generatePDF act results;
  let fullPath := filepath_Join storagePath filename in
  r ← try (os_WriteFile fullPath pdfData);
  match r with
  | Err err =>
      logPrintf ("failed to save PDF to " +:+ fullPath +:+ ": " +:+ Error_string err);;
      fail (Errorf "failed to save PDF")
  | Ok _ =>
  r ← try (Act_UpdateOne OpActSetDocumentPath act
             (DocumentPathValidator fullPath) (Act_SetDocumentPath fullPath));
  match r with
  | Err err =>
      logPrintf ("failed to update inspection act with document_path: "
                 +:+ Error_string err)
  | Ok _ => mret tt
  end;;
  mret (pdfData, filename)
  end end.

Definition GeneratePDFForAct (storagePath : string) (taskID : Z) : M (PDF * string) :=
  (* 1. the act with its task *)
  r ← try (Act_Only_WithTask taskID);
  match r with
  | Err err =>
      if IsNotFound err then fail ErrActNotFound
      else fail (wrap "database error" err)
  | Ok act =>
  cached ← readStored act;
  match cached with
  | Some hit => mret hit
  | None => renderAndStore storagePath taskID act
  end
  end.

(** *** pkg/service/task.go *)

Definition defaultConclusion : string :=
  "Осмотр выполнен. Ожидает проверки координатором.".

(** The block of [UpdateTaskStatus] that follows the status update: the
    integration with the inspection act. *)
Definition actIntegration (id : Z) (newStatus : Status) : M unit :=
  (* 4. entering OnReview: create the act *)
  (if decide (newStatus = StatusOnReview) then
     actService ← NewInspectionActService "storage/acts";
     r ← try (CreateOrUpdateAct id defaultConclusion);
     match r with
     | Err err =>
         logPrintf ("Failed to create inspection act for task " +:+ itoa id
                    +:+ ": " +:+ Error_string err)
     | Ok _ => logPrintf ("Inspection act created for task " +:+ itoa id)
     end
   else mret tt);;
  (* 5. entering Approved: approve the act *)
  (if decide (newStatus = StatusApproved) then
     actService ← NewInspectionActService "storage/acts";
     r ← try (ApproveAct actService id);
     match r with
     | Err err =>
         logPrintf ("Failed to approve inspection act for task " +:+ itoa id
                    +:+ ": " +:+ Error_string err)
     | Ok _ => logPrintf ("Inspection act approved for task " +:+ itoa id)
     end
   else mret tt);;
  mret tt.

Definition UpdateTaskStatus (id : Z) (newStatus : Status) : M unit :=
  (* 1. the current task *)
  r ← try (Task_Only id);
  match r with
  | Err err =>
      if IsNotFound err then fail ErrTaskNotFound
      else fail (wrap "database error" err)
  | Ok t =>
  (* 2. the transition guard *)
  if negb (isTransitionAllowed (t_Status t) newStatus)
  then fail ErrInvalidStatusTransition else
  (* 3. the status update *)
  r ← try (Task_UpdateOneID_SetStatus id newStatus);
  match r with
  | Err err => fail (wrap "database error" err)
  | Ok _ => actIntegration id newStatus
  end
  end.

(** *** The inspection-result service *)

(** models.CreateInspectionResultRequest *)
Record CreateInspectionResultRequest := mkRequest {
  req_ChecklistElementID : Z;
  req_ConditionStatus : string;
  req_Comment : option string   (* *string: nil when absent *)
}.

(** models.InspectionResultResponse *)
Record InspectionResultResponse := mkResponse {
  resp_TaskID : Z;
  resp_ChecklistElementID : Z;
  resp_ElementName : string;
  resp_ElementCategory : string;
  resp_OrderIndex : Z;
  resp_ConditionStatus : string;
  resp_Comment : string;
  resp_CreatedAt : string;
  resp_UpdatedAt : string
}.

(** [t.Format("2006-01-02T15:04:05Z07:00")], for times kept in UTC. *)
Definition format_rfc3339 (t : Time) : string :=
  pad4 (year t) +:+ "-" +:+ pad2 (month t) +:+ "-" +:+ pad2 (day t) +:+ "T" +:+
  pad2 (hour t) +:+ ":" +:+ pad2 (minute t) +:+ ":" +:+ pad2 (second t) +:+ "Z".

Definition toInspectionResultResponse (ir : InspectionResult)
    : InspectionResultResponse :=
  let ce := ir_Edges_ChecklistElement ir in
  let ec := ce ≫= ce_Edges_ElementCatalog in
  mkResponse (ir_TaskID ir) (ir_ChecklistElementID ir)
    (from_option ec_Name "" ec)
    (from_option ec_Category "" ec)
    (from_option ce_OrderIndex 0 ce)
    (ir_ConditionStatus ir) (ir_Comment ir)
    (format_rfc3339 (ir_CreatedAt ir)) (format_rfc3339 (ir_UpdatedAt ir)).

Definition validateTaskAndElement (taskID checklistElementID : Z) : M unit :=
  (* 1. the task with its checklist *)
  r ← try (Task_Only_WithChecklist taskID);
  match r with
  | Err err =>
      if IsNotFound err then fail ErrTaskNotFound
      else fail (wrap "database error" err)
  | Ok t =>
  (* 2. the task is in progress *)
  if decide (t_Status t <> StatusInProgress) then fail ErrTaskNotInProgress else
  (* 3. the element belongs to the checklist of the task *)
  r ← try (Element_Exist checklistElementID (t_ChecklistID t));
  match r with
  | Ok true => mret tt
  | _ => fail ErrChecklistElementInvalid
  end
  end.

Definition CreateOrUpdateResult (taskID : Z) (req : CreateInspectionResultRequest)
    : M InspectionResultResponse :=
  (* 1. validation *)
  validateTaskAndElement taskID (req_ChecklistElementID req);;
  (* 2. is there a result already? *)
  r ← try (Result_Only taskID (req_ChecklistElementID req));
  match r with
  | Ok existing =>
      r ← try (Result_UpdateOne existing (req_ConditionStatus req) (req_Comment req));
      match r with
      | Err err =>
          logPrintf ("DB error updating inspection result: " +:+ Error_string err);;
          fail (Errorf "database error")
      | Ok _ => mret tt
      end
  | Err err =>
      if negb (IsNotFound err) then fail (wrap "database error" err) else
      r ← try (Result_Create taskID (req_ChecklistElementID req)
                 (req_ConditionStatus req) (req_Comment req));
      match r with
      | Err err =>
          logPrintf ("DB error creating inspection result: " +:+ Error_string err);;
          fail (Errorf "database error")
      | Ok _ => mret tt
      end
  end;;
  (* 3. reload with the edges for the response *)
  r ← try (Result_Fetch taskID (req_ChecklistElementID req));
  match r with
  | Err err => fail (wrap "failed to fetch result" err)
  | Ok result => mret (toInspectionResultResponse result)
  end.

(** *** pkg/handlers/task.go *)

Fixpoint parseDigits (s : string) (acc : Z) : option Z :=
  match s with
  | EmptyString => Some acc
  | String c rest =>
      let n := Z.of_nat (nat_of_ascii c) in
      if decide (48 <= n <= 57) then parseDigits rest (10 * acc + (n - 48))
      else None
  end.

(** [strconv.Atoi]: an optional sign, at least one digit, the range of [int]. *)
Definition strconv_Atoi (s : string) : option Z :=
  n ← match s with
      | EmptyString => None
      | String "-" EmptyString | String "+" EmptyString => None
      | String "-" rest => Z.opp <$> parseDigits rest 0
      | String "+" rest => parseDigits rest 0
      | _ => parseDigits s 0
      end;
  if decide (- 2 ^ 63 <= n < 2 ^ 63) then Some n else None.

(** What a handler writes with [c.JSON]: the status code and the message. *)
Record Response := mkHTTP { code : Z; message : string }.

(** [SubmitTask], given the [id] parameter of the route.  Nothing on this
    path reads the inspection results of the task. *)
Definition SubmitTask (idParam : string) : M Response :=
  match strconv_Atoi idParam with
  | None => mret (mkHTTP 400 "Invalid task ID")
  | Some id =>
      r ← try (UpdateTaskStatus id StatusOnReview);
      match r with
      | Err err =>
          if decide (err = ErrTaskNotFound) then mret (mkHTTP 404 "Task not found")
          else if decide (err = ErrInvalidStatusTransition)
          then mret (mkHTTP 400 "Task cannot be submitted (invalid status)")
          else mret (mkHTTP 500 "Failed to submit task")
      | Ok _ => mret (mkHTTP 200 "Task submitted for review")
      end
  end.

End Services.

(** ** Notions used in the statements *)

(** The element belongs to the checklist: there is a checklist-element row
    with this primary key in this checklist. *)
Definition elementInChecklist (d : DB) (elementID checklistID : Z) : Prop :=
  exists ce, ce ∈ checklist_elements d /\
             ce_ID ce = elementID /\ ce_ChecklistID ce = checklistID.

(** The cells of the body of the results table: the bordered cells of
    height 6 (the header row has height 7, every other cell no border). *)
Definition isRowCell (c : Cmd) : Prop :=
  match c with
  | CellFormat _ h _ border _ _ _ => h = 6 /\ border = "1"
  | _ => False
  end.

#[global] Instance isRowCell_dec (c : Cmd) : Decision (isRowCell c).
Proof. destruct c; simpl; apply _. Defined.

Definition tableRows (pdf : PDF) : list Cmd := filter isRowCell pdf.

(** The element names printed in the body of the results table: its cells
    of width 45. *)
Definition elementColumn (pdf : PDF) : list string :=
  omap (fun c => match c with
                 | CellFormat w h txt border _ _ _ =>
                     if decide (w = 45 /\ h = 6 /\ border = "1") then Some txt
                     else None
                 | _ => None
                 end) pdf.

(** The order index of the checklist element a result refers to. *)
Definition orderIndexOf (r : InspectionResult) : Z :=
  from_option ce_OrderIndex 0 (ir_Edges_ChecklistElement r).

(** Results arranged by the order index of their elements: the row order
    the specification asks of the results table. *)
Definition byOrderIndex (r1 r2 : InspectionResult) : Prop :=
  orderIndexOf r1 <= orderIndexOf r2.

#[global] Instance byOrderIndex_dec : RelDecision byOrderIndex.
Proof. intros r1 r2. unfold byOrderIndex. apply _. Defined.

Definition checklistOrder (results : list InspectionResult) : list InspectionResult :=
  merge_sort byOrderIndex results.

(** *** Reading a rendered document *)

(** A row of the results table, by its four cells. *)
Record TableRow := mkTableRow {
  row_Number : string;
  row_Element : string;
  row_Status : string;
  row_Note : string
}.

(** Cells taken four at a time. *)
Fixpoint rowsOf (cells : list Cmd) : list TableRow :=
  match cells with
  | CellFormat _ _ number _ _ _ _ :: CellFormat _ _ element _ _ _ _ ::
    CellFormat _ _ status _ _ _ _ :: CellFormat _ _ note _ _ _ _ :: rest =>
      mkTableRow number element status note :: rowsOf rest
  | _ => []
  end.

(** The body of the results table, row by row from the top. *)
Definition tableOf (pdf : PDF) : list TableRow := rowsOf (tableRows pdf).

(** The value printed beside a label of the information blocks: the cell
    that follows the first cell of width 55 with this text. *)
Fixpoint valueOf (label : string) (pdf : PDF) : option string :=
  match pdf with
  | [] => None
  | c :: rest =>
      match c, rest with
      | CellFormat w _ txt _ _ _ _, CellFormat _ _ value _ _ _ _ :: _ =>
          if decide (w = 55 /\ txt = label) then Some value
          else valueOf label rest
      | _, _ => valueOf label rest
      end
  end.

(** The paragraphs of the document: the conclusion is its only one. *)
Definition paragraphs (pdf : PDF) : list string :=
  omap (fun c => match c with
                 | MultiCell _ _ txt _ _ _ => Some txt
                 | _ => None
                 end) pdf.

(** The name of the catalogue entry of the element a loaded result refers
    to; empty when an edge is missing. *)
Definition elementName (r : InspectionResult) : string :=
  from_option ec_Name "" (ir_Edges_ChecklistElement r ≫= ce_Edges_ElementCatalog).

(** The same, looked up in the store for a stored result. *)
Definition catalogName (d : DB) (r : InspectionResult) : string :=
  from_option ec_Name ""
    (findElement d (ir_ChecklistElementID r) ≫=
       fun ce => element_catalogs d !! ce_ElementID ce).

(** The table of [pdf] has one row per result of [results], in the order
    of the list: row [k] (from 0) is numbered [k + 1] and carries the
    element name, the condition and the comment of the [k]-th result. *)
Definition tableFollows (pdf : PDF) (name : InspectionResult -> string)
    (results : list InspectionResult) : Prop :=
  length (tableOf pdf) = length results /\
  forall (k : nat) r, results !! k = Some r ->
    tableOf pdf !! k
      = Some (mkTableRow (itoa (Z.of_nat k + 1)) (name r)
                (ir_ConditionStatus r) (ir_Comment r)).

(** What the document shows of the act: its number, its status, the date
    of approval once there is one, and the conclusion (a stock sentence
    when the act has none). *)
Definition showsAct (pdf : PDF) (a : InspectionAct) : Prop :=
  valueOf "Номер акта:" pdf = Some (itoa (ia_ID a)) /\
  valueOf "Статус акта:" pdf = Some (ia_Status a) /\
  valueOf "Дата утверждения:" pdf
    = (if decide (ia_ApprovedAt a = zeroTime) then None
       else Some (format_date_time (ia_ApprovedAt a))) /\
  paragraphs pdf
    = [if decide (ia_Conclusion a = "")
       then "Осмотр выполнен. Результаты представлены в таблице выше."
       else ia_Conclusion a].

(** *** Paths *)

(** A file name: no separator in it. *)
Fixpoint slashFree (s : string) : Prop :=
  match s with
  | EmptyString => True
  | String c rest => c <> "/"%char /\ slashFree rest
  end.

(** A real path element: a name that is not empty, holds no separator and
    is neither [.] nor [..]. *)
Definition realElement (e : string) : Prop :=
  e <> "" /\ slashFree e /\ e <> "." /\ e <> "..".

(** A directory written clean: real elements only, after the leading
    separator when the path is rooted (the root itself is left out). *)
Definition cleanDir (dir : string) : Prop :=
  match pathElements dir "" with
  | "" :: e :: rest => Forall realElement (e :: rest)
  | elems => Forall realElement elems
  end.

(** The second-resolution part of a clock reading. *)
Definition toSecond (t : Time) : Z * Z * Z * Z * Z * Z :=
  (year t, month t, day t, hour t, minute t, second t).

(** A computation leaves a component of the database as it found it,
    whatever it returns. *)
Definition preserves {A B} (f : DB -> B) (m : M A) : Prop :=
  forall w, f (db (snd (m w))) = f (db w).

(** The world once [UpdateTaskStatus] has stored the new status of task
    [t]: one clock reading was taken for [updated_at]. *)
Definition persisted (env : Env) (id : Z) (newStatus : Status) (t : Task)
    (w : World) : World :=
  mkWorld
    (DB_set_tasks
       (<[id := Task_SetStatus newStatus (clock env (ticks w)) t]> (tasks (db w)))
       (db w))
    (fs w) (logs w) (S (ticks w)).

(** What the integration block of [UpdateTaskStatus] leaves behind, by
    target status. *)
Definition afterIntegration (env : Env) (id : Z) (newStatus : Status)
    (w1 : World) : World :=
  let w1' := snd (NewInspectionActService env "storage/acts" w1) in
  if decide (newStatus = StatusOnReview) then
    let (r, w2) := CreateOrUpdateAct env id defaultConclusion w1' in
    snd (logPrintf
           match r with
           | Ok _ => "Inspection act created for task " +:+ itoa id
           | Err err => "Failed to create inspection act for task " +:+ itoa id
                        +:+ ": " +:+ Error_string err
           end w2)
  else if decide (newStatus = StatusApproved) then
    let (r, w2) := ApproveAct env "storage/acts" id w1' in
    snd (logPrintf
           match r with
           | Ok _ => "Inspection act approved for task " +:+ itoa id
           | Err err => "Failed to approve inspection act for task " +:+ itoa id
                        +:+ ": " +:+ Error_string err
           end w2)
  else w1.

(** The row an update of a result leaves in place of [r]. *)
Definition updatedRow (condition : string) (comment : option string) (now : Time)
    (r : InspectionResult) : InspectionResult :=
  Result_SetUpdatedAt now
    (Result_SetComment (default "" comment) (Result_SetCondition condition r)).

(** The row an insert of a result appends. *)
Definition createdRow (env : Env) (w : World) (taskID elementID : Z)
    (condition : string) (comment : option string) : InspectionResult :=
  mkInspectionResult (result_seq (db w) + 1) taskID elementID condition
    (default "" comment) (clock env (ticks w)) (clock env (S (ticks w))) None.

(** The act row an insert appends. *)
Definition createdAct (env : Env) (w : World) (taskID : Z)
    (status conclusion : string) : InspectionAct :=
  mkInspectionAct (act_seq (db w) + 1) taskID (clock env (ticks w)) zeroTime
    status conclusion "" None.

(** From [d] to [d'] the task got its act: one row was appended, drafted,
    with this conclusion, not approved and without a document. *)
Definition actCreated (d d' : DB) (taskID : Z) (conclusion : string) : Prop :=
  exists act,
    inspection_acts d' = inspection_acts d ++ [act] /\
    actsOfTask d' taskID = [act] /\
    ia_Status act = statusDrafted /\ ia_Conclusion act = conclusion /\
    ia_DocumentPath act = "" /\ ia_ApprovedAt act = zeroTime.

(** From [d] to [d'] no act row was added or removed, the task still has
    one act, and every row kept all its columns but the conclusion; rows
    with another primary key than [a] are untouched. *)
Definition actKept (d d' : DB) (taskID : Z) (a : InspectionAct) : Prop :=
  length (inspection_acts d') = length (inspection_acts d) /\
  length (actsOfTask d' taskID) = 1%nat /\
  forall i r, inspection_acts d !! i = Some r ->
    exists r', inspection_acts d' !! i = Some r' /\
      ia_ID r' = ia_ID r /\ ia_TaskID r' = ia_TaskID r /\
      ia_CreatedAt r' = ia_CreatedAt r /\ ia_ApprovedAt r' = ia_ApprovedAt r /\
      ia_Status r' = ia_Status r /\ ia_DocumentPath r' = ia_DocumentPath r /\
      (ia_ID r <> ia_ID a -> r' = r).

(** In [d'] the act of the task is [a] with this conclusion and every
    other column as [a] has it. *)
Definition conclusionRefreshed (d' : DB) (taskID : Z) (a : InspectionAct)
    (conclusion : string) : Prop :=
  exists a',
    actsOfTask d' taskID = [a'] /\
    ia_Conclusion a' = conclusion /\
    ia_ID a' = ia_ID a /\ ia_TaskID a' = ia_TaskID a /\
    ia_CreatedAt a' = ia_CreatedAt a /\ ia_ApprovedAt a' = ia_ApprovedAt a /\
    ia_Status a' = ia_Status a /\ ia_DocumentPath a' = ia_DocumentPath a.

(** The act [a'] is [a] approved at [now]: approval time, status and
    conclusion are those of the approval, the key, the task and the
    creation time are kept. *)
Definition approvalCommitted (now : Time) (a a' : InspectionAct) : Prop :=
  ia_ApprovedAt a' = now /\
  ia_Status a' = "утверждён" /\
  ia_Conclusion a' = "Акт осмотра утверждён координатором." /\
  ia_ID a' = ia_ID a /\ ia_TaskID a' = ia_TaskID a /\
  ia_CreatedAt a' = ia_CreatedAt a.

(** The act [a'] is [a] with another document path, at most. *)
Definition pathRecorded (a a' : InspectionAct) : Prop :=
  ia_ID a' = ia_ID a /\ ia_TaskID a' = ia_TaskID a /\
  ia_CreatedAt a' = ia_CreatedAt a /\ ia_ApprovedAt a' = ia_ApprovedAt a /\
  ia_Status a' = ia_Status a /\ ia_Conclusion a' = ia_Conclusion a.

(** The stored document cannot be served: no path is recorded, or the file
    is not there, or reading it fails. *)
Definition cacheMiss (env : Env) (w : World) (a : InspectionAct) : Prop :=
  ia_DocumentPath a = "" \/ fs w !! ia_DocumentPath a = None \/
  faults env OpReadFile = true.

(** The line [ApproveAct] logs for the first step that fails after the
    approval is stored, by the order of its steps: loading the results,
    rendering (the two fonts, the output), writing the file. *)
Definition approveFailureLine (env : Env) : option string :=
  if faults env OpResultAll
  then Some "failed to fetch results for approved PDF: input/output error"
  else if faults env OpFontRegular
  then Some "failed to generate approved PDF: failed to load regular font: input/output error"
  else if faults env OpFontBold
  then Some "failed to generate approved PDF: failed to load bold font: input/output error"
  else if faults env OpOutput
  then Some "failed to generate approved PDF: failed to generate PDF: input/output error"
  else if faults env OpWriteFile
  then Some "failed to save approved PDF: input/output error"
  else None.

(** The error [GeneratePDFForAct] returns for the first step of a fresh
    rendering that fails, by the order of its steps: loading the results,
    rendering (the two fonts, the output), writing the file.  Recording the
    path on the act is not among them. *)
Definition renderFailure (env : Env) : option Error :=
  if faults env OpResultAll
  then Some (Errorf "failed to fetch inspection results: input/output error")
  else if faults env OpFontRegular
  then Some (Errorf "failed to load regular font: input/output error")
  else if faults env OpFontBold
  then Some (Errorf "failed to load bold font: input/output error")
  else if faults env OpOutput
  then Some (Errorf "failed to generate PDF: input/output error")
  else if faults env OpWriteFile
  then Some (Errorf "failed to save PDF")
  else None.

(** ** A sample installation *)

Module Sample.

Definition at_nsec (n : Z) : Time := mkTime 2024 5 17 10 30 15 n.

(** No call fails; successive clock readings fall in the same second. *)
Definition env : Env := mkEnv (fun _ => false) (fun n => at_nsec (Z.of_nat n)).

(** The clock advances by one second per reading. *)
Definition slowEnv : Env :=
  mkEnv (fun _ => false) (fun n => mkTime 2024 5 17 10 30 (Z.of_nat n) 0).

(** Every call that may fail after the approval is committed does. *)
Definition rainyEnv : Env :=
  mkEnv (fun op => bool_decide (op ∈ [OpMkdirAll; OpRemove; OpResultAll;
                                      OpFontRegular; OpFontBold; OpOutput;
                                      OpWriteFile; OpActSetDocumentPath;
                                      OpActSetConclusion; OpActCreate]))
        (fun n => at_nsec (Z.of_nat n)).

(** Only recording the document path on the act fails. *)
Definition pathFailEnv : Env :=
  mkEnv (fun op => bool_decide (op = OpActSetDocumentPath))
        (fun n => at_nsec (Z.of_nat n)).

Definition task1 (st : Status) : Task :=
  mkTask 1 1 1 1 "Весенний осмотр" "обычный" st "" (at_nsec 0) (at_nsec 0)
         (at_nsec 0) None None None.

Definition foundation : ChecklistElement := mkChecklistElement 10 1 1 1 None.
Definition roof : ChecklistElement := mkChecklistElement 11 1 2 2 None.
(** An element of another checklist. *)
Definition stairs : ChecklistElement := mkChecklistElement 20 2 3 1 None.

(** Task 1 on checklist 1, whose elements are the foundation (first) and
    the roof (second); no result and no act yet. *)
Definition db0 (st : Status) : DB :=
  mkDB {[ 1 := task1 st ]}
       {[ 1 := mkBuilding 1 "ул. Ленина, 1" 1975 1 1 None None ]}
       {[ 1 := mkDistrict 1 "Центральный" ]}
       {[ 1 := mkJkhUnit 1 "ЖЭУ-1" ]}
       {[ 1 := mkChecklist 1 "Весенний" "spring" [];
          2 := mkChecklist 2 "Зимний" "winter" [] ]}
       {[ 1 := mkUser 1 "Иван" "Петров" "ivan@example.com" ]}
       {[ 1 := mkElementCatalog 1 "Фундамент" "Основание";
          2 := mkElementCatalog 2 "Кровля" "Крыша";
          3 := mkElementCatalog 3 "Лестница" "Подъезд" ]}
       [ foundation; roof; stairs ]
       [] [] 0 0.

Definition world0 (st : Status) : World := mkWorld (db0 st) ∅ [] 0.

Definition roofResult : InspectionResult :=
  mkInspectionResult 1 1 11 "Аварийное" "течь" (at_nsec 0) (at_nsec 0) None.
Definition foundationResult : InspectionResult :=
  mkInspectionResult 2 1 10 "Исправное" "" (at_nsec 0) (at_nsec 0) None.

Definition draft : InspectionAct :=
  mkInspectionAct 1 1 (at_nsec 0) zeroTime statusDrafted defaultConclusion "" None.

(** Task 1 on review: the roof was recorded before the foundation, and the
    draft act has no rendered document yet. *)
Definition dbReview : DB :=
  DB_set_acts [draft] 1
    (DB_set_results [roofResult; foundationResult] 2 (db0 StatusOnReview)).

Definition worldReview : World := mkWorld dbReview ∅ [] 0.

(** The same, with a rendered draft on disk. *)
Definition oldPath : string := "storage/acts/act_1_20240516_090000.pdf".
Definition oldPDF : PDF := [AddPage; Ln 1].
Definition dbRendered : DB :=
  DB_set_acts [Act_SetDocumentPath oldPath draft] 1 dbReview.
Definition worldRendered : World :=
  mkWorld dbRendered {[ oldPath := oldPDF ]} [] 0.

(** Task 1 sent back for revision, its draft rendered before. *)
Definition worldRevision : World :=
  mkWorld
    (DB_set_acts [Act_SetDocumentPath oldPath draft] 1
       (DB_set_results [roofResult; foundationResult] 2 (db0 StatusForRevision)))
    {[ oldPath := oldPDF ]} [] 0.

(** The draft act as [GeneratePDFForAct] loads it. *)
Definition loadedDraft : InspectionAct :=
  Act_WithTask (loadTaskFull dbReview 1) draft.

(** A first explicit request for the document of task 1 on review. *)
Definition firstRender : Result (PDF * string) * World :=
  GeneratePDFForAct env "storage/acts" 1 worldReview.

Definition firstPDF : PDF :=
  match fst firstRender with Ok (pdf, _) => pdf | Err _ => [] end.
Definition firstName : string :=
  match fst firstRender with Ok (_, name) => name | Err _ => "" end.

(** Two renderings of the draft, one right after the other. *)
Definition renderTwice (e : Env)
    : (Result (PDF * string) * World) * (Result (PDF * string) * World) :=
  let r1 := generatePDF e loadedDraft [] worldReview in
  (r1, generatePDF e loadedDraft [] (snd r1)).

Definition nameOf (r : Result (PDF * string) * World) : string :=
  match fst r with Ok (_, name) => name | Err _ => "" end.
Definition pdfOf (r : Result (PDF * string) * World) : PDF :=
  match fst r with Ok (pdf, _) => pdf | Err _ => [] end.

(** New, Pending, InProgress, both elements recorded, OnReview, ForRevision,
    OnReview again, Approved, then the document is requested. *)
Definition inspection : M (PDF * string) :=
  UpdateTaskStatus env 1 StatusPending;;
  UpdateTaskStatus env 1 StatusInProgress;;
  CreateOrUpdateResult env 1 (mkRequest 11 "Аварийное" (Some "течь"));;
  CreateOrUpdateResult env 1 (mkRequest 10 "Исправное" None);;
  UpdateTaskStatus env 1 StatusOnReview;;
  UpdateTaskStatus env 1 StatusForRevision;;
  UpdateTaskStatus env 1 StatusOnReview;;
  UpdateTaskStatus env 1 StatusApproved;;
  GeneratePDFForAct env "storage/acts" 1.

End Sample.

(** * The rest of the task, result and act code

    The functions of pkg/service/task.go, of the inspection-result service
    and of the task, result and act handlers that the first part leaves
    out, and [DeleteBuilding] of the building service, on the same store,
    monad and conventions. *)

(** ** Further points of failure, by call site *)

Inductive CrudOp :=
| OpTaskAll             (* Task.Query()..All *)
| OpTaskDelete          (* Task.DeleteOneID(..).Exec *)
| OpTaskCreate          (* Task.Create()..Save *)
| OpUserExist           (* User.Query()..Exist *)
| OpBuildingExist       (* Building.Query()..Exist *)
| OpChecklistExist      (* Checklist.Query()..Exist *)
| OpBuildingOnly        (* Building.Query()..Only *)
| OpInspectorUnitExist  (* InspectorUnit.Query()..Exist *)
| OpResultDelete        (* InspectionResult.Delete()..Exec *)
| OpBuildingDelete.     (* Building.DeleteOneID(..).Exec *)

#[global] Instance CrudOp_eq_dec : EqDecision CrudOp.
Proof. solve_decision. Defined.

Record CrudEnv := mkCrudEnv {
  core : Env;                    (* the call sites listed in [Op], and the clock *)
  crudFaults : CrudOp -> bool    (* true: the call at this site fails *)
}.

Definition no_crud_faults (cenv : CrudEnv) : Prop :=
  no_faults (core cenv) /\ forall op, crudFaults cenv op = false.

(** ** Further errors of pkg/service/task.go

    These sentinels are kept by their message, which no other error of the
    functions below carries. *)

Definition ErrInvalidForeignKey : Error :=
  Errorf "invalid building, checklist, or inspector ID".
Definition ErrInspectorNotAssigned : Error :=
  Errorf "inspector not assigned to building's JKH unit".

(** The building service, in the file of the act service. *)
Definition ErrBuildingNotFound : Error := Errorf "building not found".
Definition IsConstraintError (e : Error) : bool := bool_decide (e = ErrConstraint).

(** A nil pointer dereference: the value a panicking call is given here. *)
Definition nilDereference : Error :=
  Errorf "runtime error: invalid memory address or nil pointer dereference".

(** ** Entities and transfer objects *)

(** ent/schema/inspectorunit.go *)
Record InspectorUnit := mkInspectorUnit {
  iu_ID : Z; iu_UserID : Z; iu_JkhUnitID : Z
}.

Definition DB_set_buildings (v : gmap Z Building) (d : DB) : DB :=
  mkDB (tasks d) v (districts d) (jkh_units d) (checklists d) (users d)
       (element_catalogs d) (checklist_elements d) (inspection_results d)
       (inspection_acts d) (result_seq d) (act_seq d).

(** No task is of the building. *)
Definition noTaskOfBuilding (d : DB) (buildingID : Z) : Prop :=
  map_Forall (fun _ t => t_BuildingID t <> buildingID) (tasks d).

Definition Task_SetInspectorID (inspectorID : Z) (now : Time) (t : Task) : Task :=
  mkTask (t_ID t) (t_BuildingID t) (t_ChecklistID t) inspectorID
         (t_Title t) (t_Priority t) (t_Status t) (t_Description t)
         (t_ScheduledDate t) (t_CreatedAt t) now
         (t_Edges_Building t) (t_Edges_Checklist t) (t_Edges_Inspector t).

(** models.CreateTaskRequest *)
Record CreateTaskRequest := mkCreateTaskRequest {
  ctr_BuildingID : Z;
  ctr_ChecklistID : Z;
  ctr_InspectorID : Z;
  ctr_Title : string;
  ctr_Priority : string;
  ctr_Description : option string;   (* *string *)
  ctr_ScheduledDate : string
}.

(** models.TaskResponse *)
Record TaskResponse := mkTaskResponse {
  tr_ID : Z; tr_Title : string; tr_Status : string; tr_Priority : string;
  tr_ScheduledDate : string; tr_CreatedAt : string;
  tr_BuildingAddress : string; tr_ChecklistTitle : string;
  tr_InspectorName : string
}.

(** models.BuildingInfo, models.ChecklistInfo, models.InspectorInfo *)
Record BuildingInfo := mkBuildingInfo { bi_ID : Z; bi_Address : string }.
Record ChecklistInfo := mkChecklistInfo {
  ci_ID : Z; ci_Title : string; ci_InspectionType : string
}.
Record InspectorInfo := mkInspectorInfo {
  ii_ID : Z; ii_FirstName : string; ii_LastName : string; ii_Email : string
}.

(** models.TaskDetailResponse *)
Record TaskDetailResponse := mkTaskDetailResponse {
  td_ID : Z; td_Title : string; td_Status : string; td_Priority : string;
  td_Description : string; td_ScheduledDate : string;
  td_CreatedAt : string; td_UpdatedAt : string;
  td_Building : BuildingInfo; td_Checklist : ChecklistInfo;
  td_Inspector : InspectorInfo
}.

(** models.TaskResultsSummary *)
Record TaskResultsSummary := mkTaskResultsSummary {
  trs_TaskID : Z; trs_TaskTitle : string;
  trs_TotalElements : Z; trs_CompletedElements : Z;
  trs_Results : list InspectionResultResponse
}.

(** models.UpdateTaskStatusRequest *)
Record UpdateTaskStatusRequest := mkUpdateTaskStatusRequest {
  utsr_Status : string
}.

(** models.AssignInspectorRequest *)
Record AssignInspectorRequest := mkAssignInspectorRequest {
  air_InspectorID : Z
}.

(** [toTaskResponse] *)
Definition toTaskResponse (t : Task) : TaskResponse :=
  mkTaskResponse (t_ID t) (t_Title t) (t_Status t) (t_Priority t)
    (format_rfc3339 (t_ScheduledDate t)) (format_rfc3339 (t_CreatedAt t))
    (from_option b_Address "" (t_Edges_Building t))
    (from_option cl_Title "" (t_Edges_Checklist t))
    (from_option (fun u => u_FirstName u +:+ " " +:+ u_LastName u) ""
       (t_Edges_Inspector t)).

(** [toTaskDetailResponse] *)
Definition toTaskDetailResponse (t : Task) : TaskDetailResponse :=
  mkTaskDetailResponse (t_ID t) (t_Title t) (t_Status t) (t_Priority t)
    (t_Description t)
    (format_rfc3339 (t_ScheduledDate t)) (format_rfc3339 (t_CreatedAt t))
    (format_rfc3339 (t_UpdatedAt t))
    (from_option (fun b => mkBuildingInfo (b_ID b) (b_Address b))
       (mkBuildingInfo 0 "") (t_Edges_Building t))
    (from_option (fun c => mkChecklistInfo (cl_ID c) (cl_Title c) (cl_InspectionType c))
       (mkChecklistInfo 0 "" "") (t_Edges_Checklist t))
    (from_option (fun u => mkInspectorInfo (u_ID u) (u_FirstName u) (u_LastName u)
                             (u_Email u))
       (mkInspectorInfo 0 "" "" "") (t_Edges_Inspector t)).

(** [WithBuilding().WithChecklist().WithInspector()] on a task query. *)
Definition loadTaskEdges (d : DB) (t : Task) : Task :=
  mkTask (t_ID t) (t_BuildingID t) (t_ChecklistID t) (t_InspectorID t)
    (t_Title t) (t_Priority t) (t_Status t) (t_Description t)
    (t_ScheduledDate t) (t_CreatedAt t) (t_UpdatedAt t)
    (buildings d !! t_BuildingID t)
    (checklists d !! t_ChecklistID t)
    (users d !! t_InspectorID t).

(** [WithChecklist(WithElements(WithElementCatalog()))] on a task query. *)
Definition loadTaskChecklist (d : DB) (t : Task) : Task :=
  mkTask (t_ID t) (t_BuildingID t) (t_ChecklistID t) (t_InspectorID t)
    (t_Title t) (t_Priority t) (t_Status t) (t_Description t)
    (t_ScheduledDate t) (t_CreatedAt t) (t_UpdatedAt t)
    None (loadChecklistFull d (t_ChecklistID t)) None.

(** The rows that are not of the pair: what a DELETE of the pair leaves. *)
Definition resultsNotOfPair (d : DB) (taskID elementID : Z) : list InspectionResult :=
  filter (fun r => ~ (ir_TaskID r = taskID /\ ir_ChecklistElementID r = elementID))
         (inspection_results d).

(** The tasks a list query selects: the optional inspector and status filters. *)
Definition taskMatches (inspectorID : option Z) (status : option string)
    (t : Task) : Prop :=
  (forall i, inspectorID = Some i -> t_InspectorID t = i) /\
  (forall s, status = Some s -> t_Status t = s).

#[global] Instance taskMatches_dec inspectorID status t :
  Decision (taskMatches inspectorID status t).
Proof.
  unfold taskMatches. destruct inspectorID as [i|], status as [s|].
  - destruct (decide (t_InspectorID t = i)) as [Hi|Hi],
             (decide (t_Status t = s)) as [Hs|Hs].
    + left. split; intros ? [= <-]; assumption.
    + right. intros [_ H]. apply Hs, H. reflexivity.
    + right. intros [H _]. apply Hi, H. reflexivity.
    + right. intros [H _]. apply Hi, H. reflexivity.
  - destruct (decide (t_InspectorID t = i)) as [Hi|Hi].
    + left. split; [intros ? [= <-]; assumption | intros ? [=]].
    + right. intros [H _]. apply Hi, H. reflexivity.
  - destruct (decide (t_Status t = s)) as [Hs|Hs].
    + left. split; [intros ? [=] | intros ? [= <-]; assumption].
    + right. intros [_ H]. apply Hs, H. reflexivity.
  - left. split; intros ? [=].
Defined.

(** ** What a handler writes *)

Inductive Payload :=
| ErrorJSON (msg : string)               (* gin.H{"error": msg} *)
| MessageJSON (msg : string)             (* gin.H{"message": msg} *)
| ResultJSON (r : InspectionResultResponse)
| SummaryJSON (s : TaskResultsSummary)
| TaskJSON (t : TaskDetailResponse)
| TaskListJSON (l : list TaskResponse)
| PDFData (disposition : string) (data : PDF)   (* the header, then c.Data *)
| NoPayload.                             (* c.JSON(code, nil) *)

Record Reply := mkReply { reply_code : Z; reply_body : Payload }.

Section ReadServices.

Context (env : Env).

(** *** pkg/service/task.go: reading *)

(** [Task.Query().Where(task.IDEQ(id)).WithBuilding().WithChecklist()
    .WithInspector().Only(ctx)] *)
Definition Task_Only_WithEdges (id : Z) : M Task :=
  fault env OpTaskOnly;;
  d ← getDB;
  match tasks d !! id with
  | Some t => mret (loadTaskEdges d t)
  | None => fail ErrNotFound
  end.

Definition RetrieveTask (id : Z) : M TaskDetailResponse :=
  r ← try (Task_Only_WithEdges id);
  match r with
  | Err err =>
      if IsNotFound err then fail ErrTaskNotFound
      else fail (wrap "database error" err)
  | Ok t => mret (toTaskDetailResponse t)
  end.

(** *** The inspection-result service: reading *)

(** [Task.Query().Where(task.IDEQ(taskID)).WithChecklist(WithElements(
    WithElementCatalog())).Only(ctx)] *)
Definition Task_Only_WithElements (id : Z) : M Task :=
  fault env OpTaskOnly;;
  d ← getDB;
  match tasks d !! id with
  | Some t => mret (loadTaskChecklist d t)
  | None => fail ErrNotFound
  end.

Definition GetTaskResults (taskID : Z) : M TaskResultsSummary :=
  (* 1. the task with its checklist and elements *)
  r ← try (Task_Only_WithElements taskID);
  match r with
  | Err err =>
      if IsNotFound err then fail ErrTaskNotFound
      else fail (wrap "database error" err)
  | Ok t =>
  (* 2. all results of the task *)
  r ← try (Result_All env taskID);
  match r with
  | Err err => fail (wrap "database error" err)
  | Ok results =>
  (* 3. the summary; [t.Edges.Checklist] is dereferenced *)
  match t_Edges_Checklist t with
  | None => fail nilDereference
  | Some cl =>
      mret (mkTaskResultsSummary (t_ID t) (t_Title t)
              (Z.of_nat (length (cl_Edges_Elements cl)))
              (Z.of_nat (length results))
              (toInspectionResultResponse <$> results))
  end
  end
  end.

(** *** pkg/handlers/task.go *)

Definition AcceptTask (idParam : string) : M Reply :=
  match strconv_Atoi idParam with
  | None => mret (mkReply 400 (ErrorJSON "Invalid task ID"))
  | Some id =>
      r ← try (UpdateTaskStatus env id StatusInProgress);
      match r with
      | Err err =>
          if decide (err = ErrTaskNotFound)
          then mret (mkReply 404 (ErrorJSON "Task not found"))
          else if decide (err = ErrInvalidStatusTransition)
          then mret (mkReply 400 (ErrorJSON "Task cannot be accepted (invalid status)"))
          else mret (mkReply 500 (ErrorJSON "Failed to accept task"))
      | Ok _ => mret (mkReply 200 (MessageJSON "Task accepted successfully"))
      end
  end.

(** The validation of [binding:"required,oneof=Pending InProgress OnReview
    ForRevision Approved Canceled"]. *)
Definition validUpdateTaskStatusRequest (req : UpdateTaskStatusRequest) : bool :=
  bool_decide (utsr_Status req ∈
    ["Pending"; "InProgress"; "OnReview"; "ForRevision"; "Approved"; "Canceled"]).

(** [c.ShouldBindJSON(&req)], given the request as decoded from the body
    ([None]: the body is not JSON for the structure). *)
Definition bindUpdateTaskStatusRequest (decoded : option UpdateTaskStatusRequest)
    : option UpdateTaskStatusRequest :=
  req ← decoded;
  if validUpdateTaskStatusRequest req then Some req else None.

(** The handler [UpdateTaskStatus]. *)
Definition UpdateTaskStatusHandler (idParam : string)
    (decoded : option UpdateTaskStatusRequest) : M Reply :=
  match strconv_Atoi idParam with
  | None => mret (mkReply 400 (ErrorJSON "Invalid task ID"))
  | Some id =>
      match bindUpdateTaskStatusRequest decoded with
      | None => mret (mkReply 400 (ErrorJSON "Invalid request or validation failed"))
      | Some req =>
          r ← try (UpdateTaskStatus env id (utsr_Status req));
          match r with
          | Err err =>
              if decide (err = ErrTaskNotFound)
              then mret (mkReply 404 (ErrorJSON "Task not found"))
              else if decide (err = ErrInvalidStatusTransition)
              then mret (mkReply 400 (ErrorJSON "Invalid status transition"))
              else mret (mkReply 500 (ErrorJSON "Failed to update task status"))
          | Ok _ => mret (mkReply 200 (MessageJSON "Task status updated successfully"))
          end
      end
  end.

(** The handler [GetTask]. *)
Definition GetTask (idParam : string) : M Reply :=
  match strconv_Atoi idParam with
  | None => mret (mkReply 400 (ErrorJSON "Invalid task ID"))
  | Some id =>
      r ← try (RetrieveTask id);
      match r with
      | Err err =>
          if decide (err = ErrTaskNotFound)
          then mret (mkReply 404 (ErrorJSON "Task not found"))
          else mret (mkReply 500 (ErrorJSON "Failed to retrieve task"))
      | Ok resp => mret (mkReply 200 (TaskJSON resp))
      end
  end.

(** *** pkg/handlers/inspectionact.go *)

(** [DownloadAct], for the service built with [storagePath]. *)
Definition DownloadAct (storagePath : string) (idParam : string) : M Reply :=
  match strconv_Atoi idParam with
  | None => mret (mkReply 400 (ErrorJSON "Invalid task ID"))
  | Some taskID =>
      if decide (taskID <= 0)
      then mret (mkReply 400 (ErrorJSON "Invalid task ID")) else
      r ← try (GeneratePDFForAct env storagePath taskID);
      match r with
      | Err err =>
          if decide (err = ErrActNotFound)
          then mret (mkReply 404 (ErrorJSON "Inspection act not found"))
          else mret (mkReply 500 (ErrorJSON "Failed to generate inspection act"))
      | Ok (pdfData, filename) =>
          mret (mkReply 200
                  (PDFData ("attachment; filename=" +:+ String "034" filename
                            +:+ String "034" "") pdfData))
      end
  end.

(** *** pkg/handlers/inspectionresult.go *)

(** The validation of the binding tags of
    [models.CreateInspectionResultRequest]: [required,min=1] on the element
    id, [required,oneof=...] on the condition. *)
Definition validCreateInspectionResultRequest
    (req : CreateInspectionResultRequest) : bool :=
  bool_decide (1 <= req_ChecklistElementID req) &&
  bool_decide (req_ConditionStatus req ∈
    ["Исправное"; "Удовлетворительное"; "Неудовлетворительное"; "Аварийное"]).

Definition bindCreateInspectionResultRequest
    (decoded : option CreateInspectionResultRequest)
    : option CreateInspectionResultRequest :=
  req ← decoded;
  if validCreateInspectionResultRequest req then Some req else None.

(** The handler [CreateOrUpdateResult]. *)
Definition CreateOrUpdateResultHandler (idParam : string)
    (decoded : option CreateInspectionResultRequest) : M Reply :=
  match strconv_Atoi idParam with
  | None => mret (mkReply 400 (ErrorJSON "Invalid task ID"))
  | Some taskID =>
      match bindCreateInspectionResultRequest decoded with
      | None => mret (mkReply 400 (ErrorJSON "Invalid request or validation failed"))
      | Some req =>
          r ← try (CreateOrUpdateResult env taskID req);
          match r with
          | Err err =>
              if decide (err = ErrTaskNotFound)
              then mret (mkReply 404 (ErrorJSON "Task not found"))
              else if decide (err = ErrTaskNotInProgress)
              then mret (mkReply 400
                           (ErrorJSON "Task is not in progress (cannot add results)"))
              else if decide (err = ErrChecklistElementInvalid)
              then mret (mkReply 400
                           (ErrorJSON "Checklist element does not belong to task's checklist"))
              else mret (mkReply 500 (ErrorJSON "Failed to save result"))
          | Ok resp => mret (mkReply 201 (ResultJSON resp))
          end
      end
  end.

(** The handler [GetTaskResults]. *)
Definition GetTaskResultsHandler (idParam : string) : M Reply :=
  match strconv_Atoi idParam with
  | None => mret (mkReply 400 (ErrorJSON "Invalid task ID"))
  | Some taskID =>
      r ← try (GetTaskResults taskID);
      match r with
      | Err err =>
          if decide (err = ErrTaskNotFound)
          then mret (mkReply 404 (ErrorJSON "Task not found"))
          else mret (mkReply 500 (ErrorJSON "Failed to retrieve results"))
      | Ok resp => mret (mkReply 200 (SummaryJSON resp))
      end
  end.

End ReadServices.

Section CrudServices.

Context (cenv : CrudEnv).

(** The table [inspector_units], which none of these functions writes; the
    primary key the database gives to the next task; and
    [time.Parse(time.RFC3339, s)], a function of the string. *)
Context (inspector_units : list InspectorUnit).
Context (nextTaskID : Z).
Context (time_Parse : string -> option Time).

Definition cfault (op : CrudOp) : M unit := fun w =>
  if crudFaults cenv op then (Err ErrIO, w) else (Ok tt, w).

(** *** The ent client, continued

    On the same contract as the queries and builders above. *)

(** [User.Query().Where(user.IDEQ(id)).Exist(ctx)] *)
Definition User_Exist (id : Z) : M bool :=
  cfault OpUserExist;;
  d ← getDB;
  mret (bool_decide (is_Some (users d !! id))).

(** [Building.Query().Where(building.IDEQ(id)).Exist(ctx)] *)
Definition Building_Exist (id : Z) : M bool :=
  cfault OpBuildingExist;;
  d ← getDB;
  mret (bool_decide (is_Some (buildings d !! id))).

(** [Checklist.Query().Where(checklist.IDEQ(id)).Exist(ctx)] *)
Definition Checklist_Exist (id : Z) : M bool :=
  cfault OpChecklistExist;;
  d ← getDB;
  mret (bool_decide (is_Some (checklists d !! id))).

(** [Building.Query().Where(building.IDEQ(id)).Only(ctx)] *)
Definition Building_Only (id : Z) : M Building :=
  cfault OpBuildingOnly;;
  d ← getDB;
  match buildings d !! id with
  | Some b => mret b
  | None => fail ErrNotFound
  end.

(** [InspectorUnit.Query().Where(UserIDEQ(..), JkhUnitIDEQ(..)).Exist(ctx)] *)
Definition InspectorUnit_Exist (userID jkhUnitID : Z) : M bool :=
  cfault OpInspectorUnitExist;;
  mret (bool_decide
          (filter (fun iu => iu_UserID iu = userID /\ iu_JkhUnitID iu = jkhUnitID)
                  inspector_units <> [])).

(** [Task.Query().WithBuilding().WithChecklist().WithInspector()], the
    optional [Where] clauses, and [All(ctx)].  The query has no order. *)
Definition Task_All_WithEdges (inspectorID : option Z) (status : option string)
    : M (list Task) :=
  cfault OpTaskAll;;
  d ← getDB;
  mret (loadTaskEdges d <$>
          filter (taskMatches inspectorID status) (map_to_list (tasks d)).*2).

(** [Task.UpdateOneID(taskID).SetInspectorID(inspectorID).Exec(ctx)]: the
    update default of [updated_at], then the UPDATE; [inspector_id] is a
    required foreign key. *)
Definition Task_UpdateOneID_SetInspectorID (taskID inspectorID : Z) : M unit :=
  now ← time_Now (core cenv);
  fault (core cenv) OpTaskUpdate;;
  d ← getDB;
  match tasks d !! taskID with
  | None => fail ErrNotFound
  | Some t =>
      if decide (users d !! inspectorID = None) then fail ErrConstraint else
      putDB (DB_set_tasks (<[taskID := Task_SetInspectorID inspectorID now t]> (tasks d)) d)
  end.

(** [Task.DeleteOneID(id).Exec(ctx)]: a task is the required edge of its
    results and of its act, so the DELETE of a task that has either violates
    their foreign key. *)
Definition Task_DeleteOneID (id : Z) : M unit :=
  cfault OpTaskDelete;;
  d ← getDB;
  match tasks d !! id with
  | None => fail ErrNotFound
  | Some _ =>
      if decide (resultsOfTask d id = [] /\ actsOfTask d id = [])
      then putDB (DB_set_tasks (delete id (tasks d)) d)
      else fail ErrConstraint
  end.

(** [Task.Create().SetBuildingID(..)...SetStatus(task.StatusNew)], an
    optional [SetDescription], and [Save]: the defaults of [created_at] and
    [updated_at], then the INSERT with its three required foreign keys. *)
Definition Task_Create (buildingID checklistID inspectorID : Z)
    (title priority : string) (scheduledDate : Time)
    (description : option string) : M Task :=
  created ← time_Now (core cenv);
  updated ← time_Now (core cenv);
  if negb (StatusValidator StatusNew) then fail ErrValidation else
  cfault OpTaskCreate;;
  d ← getDB;
  if decide (buildings d !! buildingID = None) then fail ErrConstraint else
  if decide (checklists d !! checklistID = None) then fail ErrConstraint else
  if decide (users d !! inspectorID = None) then fail ErrConstraint else
  if decide (tasks d !! nextTaskID = None) then
    let t := mkTask nextTaskID buildingID checklistID inspectorID title priority
               StatusNew (default "" description) scheduledDate created updated
               None None None in
    putDB (DB_set_tasks (<[nextTaskID := t]> (tasks d)) d);;
    mret t
  else fail ErrConstraint.

(** [InspectionResult.Delete().Where(TaskIDEQ(..), ChecklistElementIDEQ(..))
    .Exec(ctx)]: the number of rows deleted. *)
Definition Result_Delete (taskID elementID : Z) : M Z :=
  cfault OpResultDelete;;
  d ← getDB;
  putDB (DB_set_results (resultsNotOfPair d taskID elementID) (result_seq d) d);;
  mret (Z.of_nat (length (resultsOfPair d taskID elementID))).

(** *** pkg/service/task.go: writing *)

Definition validateForeignKeys (buildingID checklistID inspectorID : Z) : M unit :=
  r ← try (Building_Exist buildingID);
  match r with
  | Ok true => mret tt
  | _ => fail ErrInvalidForeignKey
  end;;
  r ← try (Checklist_Exist checklistID);
  match r with
  | Ok true => mret tt
  | _ => fail ErrInvalidForeignKey
  end;;
  r ← try (User_Exist inspectorID);
  match r with
  | Ok true => mret tt
  | _ => fail ErrInvalidForeignKey
  end.

Definition defaultPriority : string := "обычный".

Definition CreateTask (req : CreateTaskRequest) : M TaskDetailResponse :=
  (* 1. the foreign keys *)
  validateForeignKeys (ctr_BuildingID req) (ctr_ChecklistID req) (ctr_InspectorID req);;
  (* 1.1. the inspector is assigned to the JKH unit of the building *)
  r ← try (Building_Only (ctr_BuildingID req));
  match r with
  | Err err => fail (wrap "database error" err)
  | Ok b =>
  if decide (b_JkhUnitID b = 0)
  then fail (Errorf "building has no JKH unit assigned") else
  r ← try (InspectorUnit_Exist (ctr_InspectorID req) (b_JkhUnitID b));
  match r with
  | Err err => fail (wrap "database error" err)
  | Ok assigned =>
  if negb assigned then fail ErrInspectorNotAssigned else
  (* 2. the date *)
  match time_Parse (ctr_ScheduledDate req) with
  | None => fail (Errorf "invalid scheduled_date format (use ISO 8601)")
  | Some scheduledDate =>
  (* 3. the default priority *)
  let priority :=
    if decide (ctr_Priority req = "") then defaultPriority else ctr_Priority req in
  (* 4. the task *)
  r ← try (Task_Create (ctr_BuildingID req) (ctr_ChecklistID req)
             (ctr_InspectorID req) (ctr_Title req) priority scheduledDate
             (ctr_Description req));
  match r with
  | Err err =>
      logPrintf ("DB error creating task: " +:+ Error_string err);;
      fail (Errorf "database error")
  | Ok t =>
  (* 5. the edges, for the response *)
  r ← try (Task_Only_WithEdges (core cenv) (t_ID t));
  match r with
  | Err err => fail (wrap "failed to fetch created task" err)
  | Ok t => mret (toTaskDetailResponse t)
  end
  end
  end
  end
  end.

Definition ListTasks (inspectorID : option Z) (status : option string)
    : M (list TaskResponse) :=
  r ← try (Task_All_WithEdges inspectorID status);
  match r with
  | Err _ => fail (Errorf "database error")
  | Ok tasks => mret (toTaskResponse <$> tasks)
  end.

Definition AssignInspector (taskID inspectorID : Z) : M unit :=
  (* the inspector exists *)
  r ← try (User_Exist inspectorID);
  match r with
  | Ok true =>
      (* the update of the task *)
      r ← try (Task_UpdateOneID_SetInspectorID taskID inspectorID);
      match r with
      | Err err =>
          if IsNotFound err then fail ErrTaskNotFound
          else fail (wrap "database error" err)
      | Ok _ => mret tt
      end
  | _ => fail ErrInvalidForeignKey
  end.

Definition DeleteTask (id : Z) : M unit :=
  r ← try (Task_DeleteOneID id);
  match r with
  | Err err =>
      if IsNotFound err then fail ErrTaskNotFound
      else fail (wrap "database error" err)
  | Ok _ => mret tt
  end.

(** *** The inspection-result service: deleting *)

Definition DeleteResult (taskID checklistElementID : Z) : M unit :=
  r ← try (Result_Delete taskID checklistElementID);
  match r with
  | Err err => fail (wrap "database error" err)
  | Ok deleted =>
      if decide (deleted = 0) then fail ErrResultNotFound else mret tt
  end.

(** *** pkg/service/inspectionact.go: the building service *)

(** [Building.DeleteOneID(id).Exec(ctx)]: a building is the required edge of
    its tasks, so the DELETE of a building that has tasks violates their
    foreign key. *)
Definition Building_DeleteOneID (id : Z) : M unit :=
  cfault OpBuildingDelete;;
  d ← getDB;
  match buildings d !! id with
  | None => fail ErrNotFound
  | Some _ =>
      if decide (noTaskOfBuilding d id)
      then putDB (DB_set_buildings (delete id (buildings d)) d)
      else fail ErrConstraint
  end.

Definition DeleteBuilding (id : Z) : M unit :=
  r ← try (Building_DeleteOneID id);
  match r with
  | Err err =>
      if IsNotFound err then fail ErrBuildingNotFound
      else if IsConstraintError err
      then fail (Errorf "building has active dependencies (tasks)")
      else fail (wrap "database error" err)
  | Ok _ => mret tt
  end.

(** *** pkg/handlers/task.go, continued *)

(** The validation of the binding tags of [models.CreateTaskRequest]. *)
Definition validCreateTaskRequest (req : CreateTaskRequest) : bool :=
  bool_decide (1 <= ctr_BuildingID req) &&
  bool_decide (1 <= ctr_ChecklistID req) &&
  bool_decide (1 <= ctr_InspectorID req) &&
  bool_decide (ctr_Title req <> "") &&
  bool_decide (ctr_Priority req = "" \/
               ctr_Priority req ∈ ["срочный"; "высокий"; "обычный"; "низкий"]) &&
  bool_decide (ctr_ScheduledDate req <> "").

(** The handler [CreateTask]. *)
Definition CreateTaskHandler (decoded : option CreateTaskRequest) : M Reply :=
  match decoded with
  | None => mret (mkReply 400 (ErrorJSON "Invalid request or validation failed"))
  | Some req =>
      if negb (validCreateTaskRequest req)
      then mret (mkReply 400 (ErrorJSON "Invalid request or validation failed")) else
      r ← try (CreateTask req);
      match r with
      | Err err =>
          if decide (err = ErrInvalidForeignKey)
          then mret (mkReply 400 (ErrorJSON "Invalid building, checklist, or inspector ID"))
          else if decide (err = ErrInspectorNotAssigned)
          then mret (mkReply 400 (ErrorJSON "Inspector is not assigned to this JKH unit"))
          else mret (mkReply 500 (ErrorJSON "Failed to create task"))
      | Ok resp => mret (mkReply 201 (TaskJSON resp))
      end
  end.

(** The handler [ListAllTasks], given the [status] parameter of the query
    (the empty string when it is absent). *)
Definition ListAllTasks (statusParam : string) : M Reply :=
  let statusFilter := if decide (statusParam = "") then None else Some statusParam in
  r ← try (ListTasks None statusFilter);
  match r with
  | Err _ => mret (mkReply 500 (ErrorJSON "Failed to retrieve task list"))
  | Ok resp => mret (mkReply 200 (TaskListJSON resp))
  end.

(** The handler [ListMyTasks], given what the context holds under [userID]. *)
Definition ListMyTasks (userID : option Z) (statusParam : string) : M Reply :=
  match userID with
  | None => mret (mkReply 401 (ErrorJSON "User not authenticated"))
  | Some inspectorID =>
      let statusFilter :=
        if decide (statusParam = "") then None else Some statusParam in
      r ← try (ListTasks (Some inspectorID) statusFilter);
      match r with
      | Err _ => mret (mkReply 500 (ErrorJSON "Failed to retrieve task list"))
      | Ok resp => mret (mkReply 200 (TaskListJSON resp))
      end
  end.

(** The validation of [binding:"required,min=1"]. *)
Definition bindAssignInspectorRequest (decoded : option AssignInspectorRequest)
    : option AssignInspectorRequest :=
  req ← decoded;
  if bool_decide (1 <= air_InspectorID req) then Some req else None.

(** The handler [AssignInspector]. *)
Definition AssignInspectorHandler (idParam : string)
    (decoded : option AssignInspectorRequest) : M Reply :=
  match strconv_Atoi idParam with
  | None => mret (mkReply 400 (ErrorJSON "Invalid task ID"))
  | Some id =>
      match bindAssignInspectorRequest decoded with
      | None => mret (mkReply 400 (ErrorJSON "Invalid request or validation failed"))
      | Some req =>
          r ← try (AssignInspector id (air_InspectorID req));
          match r with
          | Err err =>
              if decide (err = ErrTaskNotFound)
              then mret (mkReply 404 (ErrorJSON "Task not found"))
              else if decide (err = ErrInvalidForeignKey)
              then mret (mkReply 400 (ErrorJSON "Invalid inspector ID"))
              else mret (mkReply 500 (ErrorJSON "Failed to assign inspector"))
          | Ok _ => mret (mkReply 200 (MessageJSON "Inspector assigned successfully"))
          end
      end
  end.

(** The handler [DeleteTask]. *)
Definition DeleteTaskHandler (idParam : string) : M Reply :=
  match strconv_Atoi idParam with
  | None => mret (mkReply 400 (ErrorJSON "Invalid task ID"))
  | Some id =>
      r ← try (DeleteTask id);
      match r with
      | Err err =>
          if decide (err = ErrTaskNotFound)
          then mret (mkReply 404 (ErrorJSON "Task not found"))
          else mret (mkReply 500 (ErrorJSON "Failed to delete task"))
      | Ok _ => mret (mkReply 204 NoPayload)
      end
  end.

(** *** pkg/handlers/inspectionresult.go, continued *)

(** The handler [DeleteResult], given the [id] and [element_id] parameters
    of the route. *)
Definition DeleteResultHandler (idParam elementParam : string) : M Reply :=
  match strconv_Atoi idParam with
  | None => mret (mkReply 400 (ErrorJSON "Invalid task ID"))
  | Some taskID =>
      match strconv_Atoi elementParam with
      | None => mret (mkReply 400 (ErrorJSON "Invalid element ID"))
      | Some elementID =>
          if decide (elementID <= 0)
          then mret (mkReply 400 (ErrorJSON "Invalid element ID")) else
          r ← try (DeleteResult taskID elementID);
          match r with
          | Err err =>
              if decide (err = ErrResultNotFound)
              then mret (mkReply 404 (ErrorJSON "Result not found"))
              else mret (mkReply 500 (ErrorJSON "Failed to delete result"))
          | Ok _ => mret (mkReply 204 NoPayload)
          end
      end
  end.

End CrudServices.

(** ** Notions used in the further statements *)

(** A history of statuses in which every step passes the transition guard. *)
Fixpoint legalPath (c : Status) (path : list Status) : Prop :=
  match path with
  | [] => True
  | n :: rest => isTransitionAllowed c n = true /\ legalPath n rest
  end.

(** The status a history ends in. *)
Definition finalStatus (c : Status) (path : list Status) : Status :=
  List.last path c.

(** The columns of a task that a change of status leaves alone. *)
Definition sameButStatus (t t' : Task) : Prop :=
  t_ID t' = t_ID t /\ t_BuildingID t' = t_BuildingID t /\
  t_ChecklistID t' = t_ChecklistID t /\ t_InspectorID t' = t_InspectorID t /\
  t_Title t' = t_Title t /\ t_Priority t' = t_Priority t /\
  t_Description t' = t_Description t /\
  t_ScheduledDate t' = t_ScheduledDate t /\ t_CreatedAt t' = t_CreatedAt t.

(** The tables that hold no task, result or act. *)
Definition catalogue (d : DB) :=
  (buildings d, districts d, jkh_units d, checklists d, users d,
   element_catalogs d, checklist_elements d).

(** A task has at most one act. *)
Definition oneActPerTask (d : DB) : Prop :=
  forall taskID, (length (actsOfTask d taskID) <= 1)%nat.

(** A task has at most one result per checklist element. *)
Definition oneResultPerPair (d : DB) : Prop :=
  forall taskID elementID, (length (resultsOfPair d taskID elementID) <= 1)%nat.

(** Every result is of an element of the checklist of its task. *)
Definition resultsWithinChecklist (d : DB) : Prop :=
  forall r, r ∈ inspection_results d ->
    exists t, tasks d !! ir_TaskID r = Some t /\
              elementInChecklist d (ir_ChecklistElementID r) (t_ChecklistID t).

Definition consistent (d : DB) : Prop :=
  oneActPerTask d /\ oneResultPerPair d /\ resultsWithinChecklist d.

(** A computation keeps a property of the database, whatever it returns. *)
Definition keeps {A} (P : DB -> Prop) (m : M A) : Prop :=
  forall w, P (db w) -> P (db (snd (m w))).

(** A property of the database that every write of these services keeps:
    the updates, inserts and deletes of tasks, acts and results as the
    services perform them, with what their guards have established. *)
Record Closed (P : DB -> Prop) : Prop := mkClosed {
  closed_task_status : forall d id t s now,
    P d -> tasks d !! id = Some t ->
    P (DB_set_tasks (<[id := Task_SetStatus s now t]> (tasks d)) d);
  closed_task_inspector : forall d id t inspectorID now,
    P d -> tasks d !! id = Some t ->
    P (DB_set_tasks (<[id := Task_SetInspectorID inspectorID now t]> (tasks d)) d);
  closed_task_delete : forall d id,
    P d -> resultsOfTask d id = [] -> actsOfTask d id = [] ->
    P (DB_set_tasks (delete id (tasks d)) d);
  closed_task_create : forall d id t,
    P d -> tasks d !! id = None ->
    P (DB_set_tasks (<[id := t]> (tasks d)) d);
  closed_act_update : forall d act set,
    (forall a, ia_TaskID (set a) = ia_TaskID a) ->
    P d ->
    P (DB_set_acts (updateByID act set <$> inspection_acts d) (act_seq d) d);
  closed_act_create : forall d act,
    P d -> actsOfTask d (ia_TaskID act) = [] ->
    P (DB_set_acts (inspection_acts d ++ [act]) (act_seq d + 1) d);
  closed_result_delete : forall d taskID elementID,
    P d ->
    P (DB_set_results (resultsNotOfPair d taskID elementID) (result_seq d) d);
  closed_upsert : forall env taskID req,
    keeps P (CreateOrUpdateResult env taskID req)
}.

(** ** The requests of the task, result and act handlers *)

Inductive Request :=
| PostTask (units : list InspectorUnit) (nextTaskID : Z)
           (time_Parse : string -> option Time)
           (decoded : option CreateTaskRequest)
| GetTasks (statusParam : string)
| GetTaskByID (idParam : string)
| PutTaskStatus (idParam : string) (decoded : option UpdateTaskStatusRequest)
| PutTaskAssign (idParam : string) (decoded : option AssignInspectorRequest)
| DeleteTaskByID (idParam : string)
| GetMyTasks (userID : option Z) (statusParam : string)
| PostTaskAccept (idParam : string)
| PostTaskSubmit (idParam : string)
| PostTaskResult (idParam : string) (decoded : option CreateInspectionResultRequest)
| GetTaskResultsByID (idParam : string)
| DeleteTaskResult (idParam elementParam : string)
| GetTaskAct (idParam : string).

(** The world after a request is served; the act service is the one the
    router builds, on [storage/acts]. *)
Definition serve (cenv : CrudEnv) (req : Request) (w : World) : World :=
  match req with
  | PostTask units nextTaskID time_Parse decoded =>
      snd (CreateTaskHandler cenv units nextTaskID time_Parse decoded w)
  | GetTasks statusParam => snd (ListAllTasks cenv statusParam w)
  | GetTaskByID idParam => snd (GetTask (core cenv) idParam w)
  | PutTaskStatus idParam decoded =>
      snd (UpdateTaskStatusHandler (core cenv) idParam decoded w)
  | PutTaskAssign idParam decoded =>
      snd (AssignInspectorHandler cenv idParam decoded w)
  | DeleteTaskByID idParam => snd (DeleteTaskHandler cenv idParam w)
  | GetMyTasks userID statusParam => snd (ListMyTasks cenv userID statusParam w)
  | PostTaskAccept idParam => snd (AcceptTask (core cenv) idParam w)
  | PostTaskSubmit idParam => snd (SubmitTask (core cenv) idParam w)
  | PostTaskResult idParam decoded =>
      snd (CreateOrUpdateResultHandler (core cenv) idParam decoded w)
  | GetTaskResultsByID idParam => snd (GetTaskResultsHandler (core cenv) idParam w)
  | DeleteTaskResult idParam elementParam =>
      snd (DeleteResultHandler cenv idParam elementParam w)
  | GetTaskAct idParam => snd (DownloadAct (core cenv) "storage/acts" idParam w)
  end.

(** A history of requests, each served under its own failures and clock. *)
Fixpoint serveAll (history : list (CrudEnv * Request)) (w : World) : World :=
  match history with
  | [] => w
  | (cenv, req) :: rest => serveAll rest (serve cenv req w)
  end.

(** The columns of an act that recording a document path leaves alone. *)
Definition sameButPath (a a' : InspectionAct) : Prop :=
  ia_ID a' = ia_ID a /\ ia_TaskID a' = ia_TaskID a /\
  ia_CreatedAt a' = ia_CreatedAt a /\ ia_ApprovedAt a' = ia_ApprovedAt a /\
  ia_Status a' = ia_Status a /\ ia_Conclusion a' = ia_Conclusion a.

(** From [d] to [d'] nothing changed but document paths of acts. *)
Definition onlyPathsDiffer (d d' : DB) : Prop :=
  tasks d' = tasks d /\ inspection_results d' = inspection_results d /\
  catalogue d' = catalogue d /\
  Forall2 sameButPath (inspection_acts d) (inspection_acts d').

(** The task that [CreateTask] stores for a request, given the parsed date
    and the two clock readings of the insert. *)
Definition createdTask (nextTaskID : Z) (req : CreateTaskRequest)
    (scheduledDate created updated : Time) : Task :=
  mkTask nextTaskID (ctr_BuildingID req) (ctr_ChecklistID req) (ctr_InspectorID req)
    (ctr_Title req)
    (if decide (ctr_Priority req = "") then defaultPriority else ctr_Priority req)
    StatusNew (default "" (ctr_Description req)) scheduledDate created updated
    None None None.

(** The inspector is assigned to the JKH unit. *)
Definition assignedTo (units : list InspectorUnit) (userID jkhUnitID : Z) : Prop :=
  exists iu, iu ∈ units /\ iu_UserID iu = userID /\ iu_JkhUnitID iu = jkhUnitID.

#[global] Instance assignedTo_dec units userID jkhUnitID :
  Decision (assignedTo units userID jkhUnitID).
Proof.
  destruct (filter (fun iu => iu_UserID iu = userID /\ iu_JkhUnitID iu = jkhUnitID)
                   units) as [|iu rest] eqn:Hf.
  - right. intros (iu & Hin & Hu & Hj).
    assert (iu ∈ filter (fun iu => iu_UserID iu = userID /\ iu_JkhUnitID iu = jkhUnitID)
                   units) as Hmem by (apply list_elem_of_filter; auto).
    rewrite Hf in Hmem. inversion Hmem.
  - left. exists iu.
    assert (iu ∈ filter (fun iu => iu_UserID iu = userID /\ iu_JkhUnitID iu = jkhUnitID)
                   units) as Hmem by (rewrite Hf; left).
    apply list_elem_of_filter in Hmem. tauto.
Defined.

(** ** The sample installation, continued *)

Module Office.

(** No database call of the task and result services fails. *)
Definition cenv : CrudEnv := mkCrudEnv Sample.env (fun _ => false).

(** Inspector 1 serves JKH unit 1. *)
Definition units : list InspectorUnit := [mkInspectorUnit 1 1 1].

(** A second inspector, who serves no unit. *)
Definition second : User := mkUser 2 "Пётр" "Иванов" "petr@example.com".

(** The installation with the second inspector registered. *)
Definition db2 (st : Status) : DB :=
  let d := Sample.db0 st in
  mkDB (tasks d) (buildings d) (districts d) (jkh_units d) (checklists d)
       (<[2 := second]> (users d)) (element_catalogs d) (checklist_elements d)
       (inspection_results d) (inspection_acts d) (result_seq d) (act_seq d).

Definition world2 (st : Status) : World := mkWorld (db2 st) ∅ [] 0.

(** [time.Parse] at the date the requests below carry. *)
Definition time_Parse (s : string) : option Time :=
  if decide (s = "2024-06-01T09:00:00Z") then Some (mkTime 2024 6 1 9 0 0 0)
  else None.

Definition autumn (inspectorID : Z) : CreateTaskRequest :=
  mkCreateTaskRequest 1 1 inspectorID "Осенний осмотр" "" None
    "2024-06-01T09:00:00Z".

(** The requests of one inspection, from its assignment to the download of
    the approved act. *)
Definition day : list (CrudEnv * Request) :=
  [ (cenv, PutTaskStatus "1" (Some (mkUpdateTaskStatusRequest StatusPending)));
    (cenv, PostTaskAccept "1");
    (cenv, PostTaskResult "1" (Some (mkRequest 11 "Аварийное" (Some "течь"))));
    (cenv, PostTaskResult "1" (Some (mkRequest 10 "Исправное" None)));
    (cenv, DeleteTaskResult "1" "10");
    (cenv, PostTaskSubmit "1");
    (cenv, GetTaskAct "1");
    (cenv, PutTaskStatus "1" (Some (mkUpdateTaskStatusRequest StatusApproved)));
    (cenv, GetTaskAct "1") ].

(** A permitted history of a task. *)
Definition career : list Status :=
  [ StatusPending; StatusInProgress; StatusOnReview; StatusForRevision;
    StatusOnReview; StatusApproved ].

End Office.
(** ** The transition table *)

Lemma allowedTransitions_lookup (c : Status) (allowed : list Status) :
  allowedTransitions !! c = Some allowed <-> (c, allowed) ∈ transitionTable.
Proof.
  unfold allowedTransitions. rewrite <- elem_of_list_to_map; [done|].
  compute_done.
Qed.

Lemma rangeAllowed_elem_of (allowed : list Status) (n : Status) :
  rangeAllowed allowed n = true <-> n ∈ allowed.
Proof.
  induction allowed as [|s rest IH]; simpl.
  - split; [discriminate | intros H; inversion H].
  - destruct (decide (s = n)) as [->|Hne].
    + split; [intros _; left | done].
    + rewrite IH. split; [by right|]. intros H. inversion H; subst; done.
Qed.

Lemma isTransitionAllowed_legal (c n : Status) :
  isTransitionAllowed c n = true <-> (c, n) ∈ legalPairs.
Proof.
  unfold isTransitionAllowed. split.
  - destruct (allowedTransitions !! c) as [allowed|] eqn:E; [|discriminate].
    apply allowedTransitions_lookup in E. rewrite rangeAllowed_elem_of.
    unfold transitionTable in E. intros Hn.
    repeat (apply elem_of_cons in E as [E|E];
            [injection E as -> ->; revert Hn; rewrite ?elem_of_cons, elem_of_nil; intros Hn; decompose [or] Hn; subst; try compute_done; done|]).
    inversion E.
  - intros H. unfold legalPairs in H.
    repeat (apply elem_of_cons in H as [H|H]; [injection H as -> ->; reflexivity|]).
    inversion H.
Qed.

(** ** Running the monad *)

Lemma bind_run {A B} (m : M A) (k : A -> M B) (w : World) :
  (m ≫= k) w =
    match m w with
    | (Ok a, w') => k a w'
    | (Err e, w') => (Err e, w')
    end.
Proof. reflexivity. Qed.

Lemma bind_try {A B} (m : M A) (k : Result A -> M B) (w : World) :
  (try m ≫= k) w = k (fst (m w)) (snd (m w)).
Proof. unfold mbind, M_bind, try. by destruct (m w). Qed.

Ltac run_M :=
  unfold mbind, M_bind, mret, M_ret, try, fail, getDB, putDB; simpl.

Lemma Task_Only_run env id w :
  Task_Only env id w =
    if faults env OpTaskOnly then (Err ErrIO, w)
    else match tasks (db w) !! id with
         | Some t => (Ok t, w)
         | None => (Err ErrNotFound, w)
         end.
Proof.
  unfold Task_Only, fault. run_M.
  destruct (faults env OpTaskOnly); [done|]. simpl.
  by destruct (tasks (db w) !! id).
Qed.

Lemma Task_UpdateOneID_SetStatus_run env id s w t :
  faults env OpTaskUpdate = false ->
  tasks (db w) !! id = Some t ->
  StatusValidator s = true ->
  Task_UpdateOneID_SetStatus env id s w = (Ok tt, persisted env id s t w).
Proof.
  intros Hf Ht Hv. unfold Task_UpdateOneID_SetStatus, fault, time_Now. run_M.
  rewrite Hv, Hf. simpl. by rewrite Ht.
Qed.

Lemma UpdateTaskStatus_run env id s w :
  UpdateTaskStatus env id s w =
    match Task_Only env id w with
    | (Err err, w1) =>
        (Err (if IsNotFound err then ErrTaskNotFound
              else wrap "database error" err), w1)
    | (Ok t, w1) =>
        if isTransitionAllowed (t_Status t) s then
          match Task_UpdateOneID_SetStatus env id s w1 with
          | (Err err, w2) => (Err (wrap "database error" err), w2)
          | (Ok _, w2) => actIntegration env id s w2
          end
        else (Err ErrInvalidStatusTransition, w1)
    end.
Proof.
  unfold UpdateTaskStatus. rewrite bind_try.
  destruct (Task_Only env id w) as [[t|err] w1]; simpl.
  - destruct (isTransitionAllowed (t_Status t) s); simpl; [|done].
    rewrite bind_try.
    by destruct (Task_UpdateOneID_SetStatus env id s w1) as [[[]|err] w2].
  - by destruct (IsNotFound err).
Qed.

Lemma legal_target_valid (c n : Status) :
  (c, n) ∈ legalPairs -> StatusValidator n = true.
Proof.
  unfold legalPairs. intros H.
  repeat (apply elem_of_cons in H as [H|H]; [injection H as -> ->; reflexivity|]).
  inversion H.
Qed.

(** ** UpdateTaskStatus: the guards *)

(** C1.  [UpdateTaskStatus] succeeds only on a pair of the transition table;
    when the lookup reaches the store, a missing task is answered with
    [ErrTaskNotFound] and every pair outside the table with
    [ErrInvalidStatusTransition], and in both cases the world (so the status
    of every task) is left as it was. *)
Theorem UpdateTaskStatus_guards (env : Env) (w : World) (id : Z) (newStatus : Status) :
  (forall w', UpdateTaskStatus env id newStatus w = (Ok tt, w') ->
     exists t, tasks (db w) !! id = Some t /\ (t_Status t, newStatus) ∈ legalPairs) /\
  (faults env OpTaskOnly = false -> tasks (db w) !! id = None ->
     UpdateTaskStatus env id newStatus w = (Err ErrTaskNotFound, w)) /\
  (forall t, faults env OpTaskOnly = false -> tasks (db w) !! id = Some t ->
     (t_Status t, newStatus) ∉ legalPairs ->
     UpdateTaskStatus env id newStatus w = (Err ErrInvalidStatusTransition, w)).
Proof.
  rewrite UpdateTaskStatus_run, Task_Only_run.
  split; [|split].
  - intros w'. destruct (faults env OpTaskOnly); [discriminate|].
    destruct (tasks (db w) !! id) as [t|]; [|discriminate].
    destruct (isTransitionAllowed (t_Status t) newStatus) eqn:E; [|discriminate].
    intros _. exists t. split; [done|]. by apply isTransitionAllowed_legal.
  - intros -> ->. reflexivity.
  - intros t -> -> Hno.
    destruct (isTransitionAllowed (t_Status t) newStatus) eqn:E; [|done].
    apply isTransitionAllowed_legal in E. done.
Qed.

(** ** Frame reasoning *)

Section Frame.
Context {B : Type} (f : DB -> B).

Lemma preserves_ret {A} (a : A) : preserves f (mret a).
Proof. by intros w. Qed.

Lemma preserves_fail {A} (e : Error) : preserves f (@fail A e).
Proof. by intros w. Qed.

Lemma preserves_bind {A C} (m : M A) (k : A -> M C) :
  preserves f m -> (forall a, preserves f (k a)) -> preserves f (m ≫= k).
Proof.
  intros Hm Hk w. unfold mbind, M_bind. specialize (Hm w).
  destruct (m w) as [[a|e] w1]; simpl in *; [|done].
  by rewrite Hk.
Qed.

Lemma preserves_try {A} (m : M A) : preserves f m -> preserves f (try m).
Proof. intros Hm w. unfold try. specialize (Hm w). by destruct (m w). Qed.

Lemma preserves_logPrintf line : preserves f (logPrintf line).
Proof. by intros w. Qed.

Lemma preserves_getDB : preserves f getDB.
Proof. by intros w. Qed.

Lemma preserves_only {A} (rows : list A) : preserves f (only rows).
Proof. intros w. by destruct rows as [|? [|? ?]]. Qed.

Lemma preserves_fault env op : preserves f (fault env op).
Proof. intros w. unfold fault. by destruct (faults env op). Qed.

Lemma preserves_time_Now env : preserves f (time_Now env).
Proof. by intros w. Qed.

Lemma preserves_os_MkdirAll env path : preserves f (os_MkdirAll env path).
Proof. apply preserves_fault. Qed.

Lemma preserves_os_Remove env path : preserves f (os_Remove env path).
Proof.
  intros w. unfold os_Remove.
  destruct (faults env OpRemove); [done|]. by destruct (fs w !! path).
Qed.

Lemma preserves_os_ReadFile env path : preserves f (os_ReadFile env path).
Proof.
  intros w. unfold os_ReadFile.
  destruct (faults env OpReadFile); [done|]. by destruct (fs w !! path).
Qed.

Lemma preserves_os_WriteFile env path data : preserves f (os_WriteFile env path data).
Proof. intros w. unfold os_WriteFile. by destruct (faults env OpWriteFile). Qed.

End Frame.

Create HintDb frame.

#[local] Hint Resolve preserves_ret preserves_fail preserves_logPrintf
  preserves_getDB preserves_only preserves_fault preserves_time_Now
  preserves_os_MkdirAll preserves_os_Remove preserves_os_ReadFile
  preserves_os_WriteFile : frame.

(** Decomposes a frame goal along the structure of the computation. *)
Ltac frame :=
  repeat first
    [ solve [eauto with frame]
    | apply preserves_try
    | match goal with
      | |- preserves _ (match ?x with _ => _ end) => destruct x
      end
    | apply preserves_bind; [|intros ?] ].

(** Components of the database that the act table does not show through. *)
Section ActFrame.
Context {B : Type} (f : DB -> B).
Hypothesis f_acts : forall d v s, f (DB_set_acts v s d) = f d.

Lemma preserves_Act_Only env taskID : preserves f (Act_Only env taskID).
Proof. unfold Act_Only. frame. Qed.

Lemma preserves_Act_Only_WithTask env taskID :
  preserves f (Act_Only_WithTask env taskID).
Proof. unfold Act_Only_WithTask. frame. Qed.

Lemma preserves_Act_UpdateOne env op act ok set :
  preserves f (Act_UpdateOne env op act ok set).
Proof.
  intros w. unfold Act_UpdateOne, fault. run_M.
  destruct ok; simpl; [|done].
  destruct (faults env op); simpl; [done|].
  destruct (filter _ _); simpl; [done|]. apply f_acts.
Qed.

Lemma preserves_Act_Create env taskID status conclusion :
  preserves f (Act_Create env taskID status conclusion).
Proof.
  intros w. unfold Act_Create, fault, time_Now. run_M.
  destruct (faults env OpActCreate); simpl; [done|].
  destruct (decide _); simpl; [done|].
  destruct (decide _); simpl; [|done]. apply f_acts.
Qed.

Lemma preserves_Result_All env taskID : preserves f (Result_All env taskID).
Proof. unfold Result_All. frame. Qed.

Lemma preserves_generatePDF env act results :
  preserves f (generatePDF env act results).
Proof. unfold generatePDF. frame. Qed.

Lemma preserves_NewInspectionActService env path :
  preserves f (NewInspectionActService env path).
Proof. unfold NewInspectionActService. frame. Qed.

Lemma preserves_CreateOrUpdateAct env taskID conclusion :
  preserves f (CreateOrUpdateAct env taskID conclusion).
Proof.
  unfold CreateOrUpdateAct.
  pose proof preserves_Act_Only. pose proof preserves_Act_UpdateOne.
  pose proof preserves_Act_Create. frame.
Qed.

Lemma preserves_regenerateApproved env storagePath taskID act :
  preserves f (regenerateApproved env storagePath taskID act).
Proof.
  unfold regenerateApproved.
  pose proof preserves_Act_UpdateOne.
  pose proof preserves_Result_All. pose proof preserves_generatePDF.
  frame.
Qed.

Lemma preserves_ApproveAct env storagePath taskID :
  preserves f (ApproveAct env storagePath taskID).
Proof.
  unfold ApproveAct.
  pose proof preserves_Act_Only_WithTask. pose proof preserves_Act_UpdateOne.
  pose proof preserves_regenerateApproved.
  frame.
Qed.

Lemma preserves_readStored env act : preserves f (readStored env act).
Proof. unfold readStored. frame. Qed.

Lemma preserves_renderAndStore env storagePath taskID act :
  preserves f (renderAndStore env storagePath taskID act).
Proof.
  unfold renderAndStore.
  pose proof preserves_Act_UpdateOne.
  pose proof preserves_Result_All. pose proof preserves_generatePDF.
  frame.
Qed.

Lemma preserves_GeneratePDFForAct env storagePath taskID :
  preserves f (GeneratePDFForAct env storagePath taskID).
Proof.
  unfold GeneratePDFForAct.
  pose proof preserves_Act_Only_WithTask.
  pose proof preserves_readStored. pose proof preserves_renderAndStore.
  frame.
Qed.

Lemma preserves_actIntegration env id newStatus :
  preserves f (actIntegration env id newStatus).
Proof.
  unfold actIntegration.
  pose proof preserves_NewInspectionActService.
  pose proof preserves_CreateOrUpdateAct. pose proof preserves_ApproveAct.
  frame.
Qed.

End ActFrame.

(** ** UpdateTaskStatus: the side effect *)

Lemma NewInspectionActService_fst env path w :
  fst (NewInspectionActService env path w) = Ok path.
Proof.
  unfold NewInspectionActService, os_MkdirAll, fault. run_M.
  by destruct (faults env OpMkdirAll).
Qed.

Lemma actIntegration_run env id newStatus w1 :
  actIntegration env id newStatus w1 = (Ok tt, afterIntegration env id newStatus w1).
Proof.
  unfold actIntegration, afterIntegration.
  pose proof (NewInspectionActService_fst env "storage/acts" w1) as Hsvc.
  destruct (decide (newStatus = StatusOnReview)) as [->|Hrev].
  - rewrite decide_False by done.
    unfold mbind, M_bind, try, mret, M_ret.
    destruct (NewInspectionActService env "storage/acts" w1) as [r1 w1'].
    simpl in Hsvc. subst r1. simpl.
    by destruct (CreateOrUpdateAct env id defaultConclusion w1') as [[act|err] w2].
  - destruct (decide (newStatus = StatusApproved)) as [->|Happ]; [|done].
    unfold mbind, M_bind, try, mret, M_ret.
    destruct (NewInspectionActService env "storage/acts" w1) as [r1 w1'].
    simpl in Hsvc. subst r1. simpl.
    by destruct (ApproveAct env "storage/acts" id w1') as [[[]|err] w2].
Qed.

Lemma UpdateTaskStatus_permitted env w id newStatus t :
  faults env OpTaskOnly = false ->
  faults env OpTaskUpdate = false ->
  tasks (db w) !! id = Some t ->
  (t_Status t, newStatus) ∈ legalPairs ->
  UpdateTaskStatus env id newStatus w =
    (Ok tt, afterIntegration env id newStatus (persisted env id newStatus t w)).
Proof.
  intros Hq Hu Ht Hlegal.
  rewrite UpdateTaskStatus_run, Task_Only_run, Hq, Ht.
  apply isTransitionAllowed_legal in Hlegal as Hallowed. rewrite Hallowed.
  rewrite (Task_UpdateOneID_SetStatus_run env id newStatus w t Hu Ht
             (legal_target_valid _ _ Hlegal)).
  apply actIntegration_run.
Qed.

(** C2.  On a permitted transition whose own two database calls go through,
    [UpdateTaskStatus] first stores the new status and then runs the side
    effect chosen by the target (OnReview: create-or-refresh the draft with
    the default conclusion; Approved: approve the act; otherwise nothing).
    Whatever the side effect returns, the call returns success, the world is
    the one the side effect left plus one log line, and the task table stays
    as stored: the new status is not rolled back. *)
Theorem UpdateTaskStatus_persists_then_runs_side_effect
    (env : Env) (w : World) (id : Z) (newStatus : Status) (t : Task) :
  faults env OpTaskOnly = false ->
  faults env OpTaskUpdate = false ->
  tasks (db w) !! id = Some t ->
  (t_Status t, newStatus) ∈ legalPairs ->
  let w1 := persisted env id newStatus t w in
  let w' := afterIntegration env id newStatus w1 in
  UpdateTaskStatus env id newStatus w = (Ok tt, w') /\
  t_Status <$> tasks (db w1) !! id = Some newStatus /\
  tasks (db w') = tasks (db w1) /\
  (newStatus = StatusOnReview ->
     forall r w2,
       CreateOrUpdateAct env id defaultConclusion
         (snd (NewInspectionActService env "storage/acts" w1)) = (r, w2) ->
       db w' = db w2 /\ fs w' = fs w2 /\
       exists line, logs w' = logs w2 ++ [line]) /\
  (newStatus = StatusApproved ->
     forall r w2,
       ApproveAct env "storage/acts" id
         (snd (NewInspectionActService env "storage/acts" w1)) = (r, w2) ->
       db w' = db w2 /\ fs w' = fs w2 /\
       exists line, logs w' = logs w2 ++ [line]) /\
  (newStatus <> StatusOnReview -> newStatus <> StatusApproved -> w' = w1).
Proof.
  intros Hq Hu Ht Hlegal w1 w'.
  split; [|split; [|split; [|split; [|split]]]].
  - by apply UpdateTaskStatus_permitted.
  - subst w1. unfold persisted. simpl. by rewrite lookup_insert_eq.
  - pose proof (preserves_actIntegration tasks (fun _ _ _ => eq_refl)
                  env id newStatus w1) as Hfr.
    rewrite actIntegration_run in Hfr. exact Hfr.
  - intros -> r w2 Hside. subst w'. unfold afterIntegration.
    rewrite decide_True by done. rewrite Hside. simpl. eauto.
  - intros -> r w2 Hside. subst w'. unfold afterIntegration.
    rewrite decide_False by done. rewrite decide_True by done.
    rewrite Hside. simpl. eauto.
  - intros H1 H2. subst w'. unfold afterIntegration.
    rewrite !decide_False by done. done.
Qed.

(** ** Recording results: the guards *)

Lemma Task_Only_WithChecklist_run env id w :
  Task_Only_WithChecklist env id w =
    if faults env OpTaskOnly then (Err ErrIO, w)
    else match tasks (db w) !! id with
         | Some t =>
             (Ok (mkTask (t_ID t) (t_BuildingID t) (t_ChecklistID t)
                    (t_InspectorID t) (t_Title t) (t_Priority t) (t_Status t)
                    (t_Description t) (t_ScheduledDate t) (t_CreatedAt t)
                    (t_UpdatedAt t) None (checklists (db w) !! t_ChecklistID t)
                    None), w)
         | None => (Err ErrNotFound, w)
         end.
Proof.
  unfold Task_Only_WithChecklist, fault. run_M.
  destruct (faults env OpTaskOnly); [done|]. simpl.
  by destruct (tasks (db w) !! id).
Qed.

Lemma Element_Exist_run env elementID checklistID w :
  Element_Exist env elementID checklistID w =
    if faults env OpElementExist then (Err ErrIO, w)
    else (Ok (bool_decide
                (filter (fun ce => ce_ID ce = elementID /\ ce_ChecklistID ce = checklistID)
                        (checklist_elements (db w)) <> [])), w).
Proof.
  unfold Element_Exist, fault. run_M. by destruct (faults env OpElementExist).
Qed.

Lemma elementInChecklist_filter (d : DB) (elementID checklistID : Z) :
  elementInChecklist d elementID checklistID <->
  filter (fun ce => ce_ID ce = elementID /\ ce_ChecklistID ce = checklistID)
         (checklist_elements d) <> [].
Proof.
  unfold elementInChecklist. split.
  - intros (ce & Hin & Hid & Hcl) Hnil.
    assert (ce ∈ filter (fun ce => ce_ID ce = elementID /\ ce_ChecklistID ce = checklistID)
                        (checklist_elements d)) as Hf
      by (apply list_elem_of_filter; auto).
    rewrite Hnil in Hf. inversion Hf.
  - destruct (filter _ _) as [|ce rest] eqn:E; [done|]. intros _.
    assert (ce ∈ ce :: rest) as Hin by left.
    rewrite <- E in Hin. apply list_elem_of_filter in Hin as [[Hid Hcl] Hin].
    by exists ce.
Qed.

Lemma validateTaskAndElement_run env taskID elementID w :
  validateTaskAndElement env taskID elementID w =
    match Task_Only_WithChecklist env taskID w with
    | (Err err, w1) =>
        (Err (if IsNotFound err then ErrTaskNotFound
              else wrap "database error" err), w1)
    | (Ok t, w1) =>
        if decide (t_Status t <> StatusInProgress) then (Err ErrTaskNotInProgress, w1)
        else match Element_Exist env elementID (t_ChecklistID t) w1 with
             | (Ok true, w2) => (Ok tt, w2)
             | (_, w2) => (Err ErrChecklistElementInvalid, w2)
             end
    end.
Proof.
  unfold validateTaskAndElement. rewrite bind_try.
  destruct (Task_Only_WithChecklist env taskID w) as [[t|err] w1]; simpl.
  - destruct (decide (t_Status t <> StatusInProgress)); [done|].
    rewrite bind_try.
    by destruct (Element_Exist env elementID (t_ChecklistID t) w1) as [[[]|?] w2].
  - by destruct (IsNotFound err).
Qed.

(** C3.  When the task lookup reaches the store, [CreateOrUpdateResult]
    answers a missing task with [ErrTaskNotFound]; a task that is not in
    progress with [ErrTaskNotInProgress], for every element, of its checklist
    or not; and a task in progress with an element outside its checklist with
    [ErrChecklistElementInvalid].  In each case the world is left as it was,
    so no result row is written. *)
Theorem CreateOrUpdateResult_guards (env : Env) (w : World) (taskID : Z)
    (req : CreateInspectionResultRequest) :
  faults env OpTaskOnly = false ->
  match tasks (db w) !! taskID with
  | None => CreateOrUpdateResult env taskID req w = (Err ErrTaskNotFound, w)
  | Some t =>
      (t_Status t <> StatusInProgress ->
         CreateOrUpdateResult env taskID req w = (Err ErrTaskNotInProgress, w)) /\
      (t_Status t = StatusInProgress ->
       ~ elementInChecklist (db w) (req_ChecklistElementID req) (t_ChecklistID t) ->
         CreateOrUpdateResult env taskID req w = (Err ErrChecklistElementInvalid, w))
  end.
Proof.
  intros Hq. unfold CreateOrUpdateResult. rewrite bind_run.
  rewrite validateTaskAndElement_run, Task_Only_WithChecklist_run, Hq.
  destruct (tasks (db w) !! taskID) as [t|]; [|done]. simpl.
  split.
  - intros Hst. by rewrite decide_True.
  - intros Hst Hout. rewrite decide_False by (by intros ?).
    rewrite Element_Exist_run. destruct (faults env OpElementExist); [done|].
    rewrite elementInChecklist_filter in Hout.
    by rewrite bool_decide_eq_false_2.
Qed.

(** ** Recording results: the upsert *)

Lemma filter_fmap_stable {A} (P : A -> Prop) `{!forall x, Decision (P x)}
    (g : A -> A) (l : list A) :
  (forall x, P (g x) <-> P x) -> filter P (g <$> l) = g <$> filter P l.
Proof.
  intros Hg. induction l as [|x l IH]; [done|].
  rewrite fmap_cons. destruct (decide (P x)) as [Hx|Hx].
  - rewrite (filter_cons_True P x l Hx).
    rewrite filter_cons_True by (by apply Hg). by rewrite fmap_cons, IH.
  - rewrite (filter_cons_False P x l Hx).
    rewrite filter_cons_False by (by rewrite Hg). done.
Qed.

Lemma only_run {A} (rows : list A) (w : World) :
  only rows w =
    (match rows with
     | [] => Err ErrNotFound
     | [a] => Ok a
     | _ => Err ErrNotSingular
     end, w).
Proof. by destruct rows as [|? [|? ?]]. Qed.

Lemma Result_Only_run env taskID elementID w :
  faults env OpResultOnly = false ->
  Result_Only env taskID elementID w = only (resultsOfPair (db w) taskID elementID) w.
Proof. intros Hf. unfold Result_Only, fault. run_M. by rewrite Hf. Qed.

Lemma Result_Fetch_run env taskID elementID w row :
  faults env OpResultFetch = false ->
  resultsOfPair (db w) taskID elementID = [row] ->
  Result_Fetch env taskID elementID w = (Ok (loadResult (db w) row), w).
Proof.
  intros Hf Hrow. unfold Result_Fetch, fault. run_M. by rewrite Hf, Hrow.
Qed.

Lemma Result_UpdateOne_run env existing condition comment w :
  faults env OpResultUpdate = false ->
  ConditionStatusValidator condition = true ->
  existing ∈ inspection_results (db w) ->
  Result_UpdateOne env existing condition comment w =
    (Ok tt,
     mkWorld
       (DB_set_results
          ((fun r => if decide (ir_ID r = ir_ID existing)
                     then updatedRow condition comment (clock env (ticks w)) r
                     else r) <$> inspection_results (db w))
          (result_seq (db w)) (db w))
       (fs w) (logs w) (S (ticks w))).
Proof.
  intros Hf Hv Hin. unfold Result_UpdateOne, fault, time_Now. run_M.
  rewrite Hv, Hf. simpl.
  destruct (filter _ _) as [|x rest] eqn:E; [|done].
  assert (existing ∈ filter (fun r => ir_ID r = ir_ID existing)
                            (inspection_results (db w))) as Hx
    by (by apply list_elem_of_filter).
  rewrite E in Hx. inversion Hx.
Qed.

Lemma Result_Create_run env taskID elementID condition comment w t :
  faults env OpResultCreate = false ->
  ConditionStatusValidator condition = true ->
  tasks (db w) !! taskID = Some t ->
  findElement (db w) elementID <> None ->
  Result_Create env taskID elementID condition comment w =
    (Ok tt,
     mkWorld
       (DB_set_results
          (inspection_results (db w) ++
             [createdRow env w taskID elementID condition comment])
          (result_seq (db w) + 1) (db w))
       (fs w) (logs w) (S (S (ticks w)))).
Proof.
  intros Hf Hv Ht He. unfold Result_Create, fault, time_Now. run_M.
  rewrite Hv, Hf. simpl. rewrite Ht.
  rewrite decide_False by done. by rewrite decide_False.
Qed.

Lemma elementInChecklist_find (d : DB) (elementID checklistID : Z) :
  elementInChecklist d elementID checklistID -> findElement d elementID <> None.
Proof.
  intros (ce & Hin & Hid & _). unfold findElement.
  destruct (filter _ _) as [|x rest] eqn:E; [|done].
  assert (ce ∈ filter (fun ce => ce_ID ce = elementID) (checklist_elements d)) as Hx
    by (by apply list_elem_of_filter).
  rewrite E in Hx. inversion Hx.
Qed.

(** One upsert on a task in progress, for an element of its checklist, with
    at most one row for the pair beforehand: it returns a response and leaves
    exactly one row for the pair, carrying the condition and the comment of
    the request. *)
Lemma CreateOrUpdateResult_once (env : Env) (w : World) (taskID : Z) (t : Task)
    (elementID : Z) (condition : string) (comment : option string) :
  no_faults env ->
  tasks (db w) !! taskID = Some t ->
  t_Status t = StatusInProgress ->
  elementInChecklist (db w) elementID (t_ChecklistID t) ->
  ConditionStatusValidator condition = true ->
  (length (resultsOfPair (db w) taskID elementID) <= 1)%nat ->
  exists resp w' row,
    CreateOrUpdateResult env taskID (mkRequest elementID condition comment) w
      = (Ok resp, w') /\
    tasks (db w') = tasks (db w) /\
    checklist_elements (db w') = checklist_elements (db w) /\
    resultsOfPair (db w') taskID elementID = [row] /\
    ir_ConditionStatus row = condition /\
    ir_Comment row = default "" comment /\
    resp_ConditionStatus resp = condition /\
    resp_Comment resp = default "" comment.
Proof.
  intros Hnf Ht Hst Hin Hv Hlen.
  unfold CreateOrUpdateResult. simpl. rewrite bind_run.
  rewrite validateTaskAndElement_run, Task_Only_WithChecklist_run, Hnf, Ht. simpl.
  rewrite decide_False by (by intros ?).
  rewrite Element_Exist_run, Hnf.
  rewrite bool_decide_eq_true_2 by (by apply elementInChecklist_filter).
  rewrite bind_try, Result_Only_run, only_run by apply Hnf. simpl.
  destruct (resultsOfPair (db w) taskID elementID) as [|existing [|]] eqn:Hrows;
    [| |simpl in Hlen; lia]; simpl.
  - (* no row yet: insert *)
    rewrite bind_run, bind_try.
    rewrite (Result_Create_run env taskID elementID condition comment w t)
      by eauto using elementInChecklist_find.
    simpl. rewrite bind_try.
    set (row := createdRow env w taskID elementID condition comment).
    erewrite (Result_Fetch_run _ _ _ _ row); [|apply Hnf|].
    + simpl. eexists _, _, row. repeat split; try reflexivity.
      unfold resultsOfPair. simpl. rewrite filter_app.
      unfold resultsOfPair in Hrows. rewrite Hrows. simpl.
      by rewrite filter_cons_True, filter_nil.
    + unfold resultsOfPair. simpl. rewrite filter_app.
      unfold resultsOfPair in Hrows. rewrite Hrows. simpl.
      by rewrite filter_cons_True, filter_nil.
  - (* one row: overwrite *)
    assert (existing ∈ resultsOfPair (db w) taskID elementID) as Hex
      by (rewrite Hrows; left).
    apply list_elem_of_filter in Hex as [[Htid Heid] Hex].
    rewrite bind_run, bind_try.
    rewrite Result_UpdateOne_run by (try apply Hnf; done). simpl.
    rewrite bind_try.
    set (now := clock env (ticks w)).
    assert (forall db', inspection_results db' =
              (fun r => if decide (ir_ID r = ir_ID existing)
                        then updatedRow condition comment now r else r)
                <$> inspection_results (db w) ->
            resultsOfPair db' taskID elementID
              = [updatedRow condition comment now existing]) as Hone.
    { intros db' Hdb. unfold resultsOfPair in *. rewrite Hdb.
      rewrite filter_fmap_stable; [rewrite Hrows; simpl; by rewrite decide_True|].
      intros r. by destruct (decide (ir_ID r = ir_ID existing)). }
    erewrite Result_Fetch_run; [|apply Hnf|by apply Hone].
    simpl. eexists _, _, (updatedRow condition comment now existing).
    repeat split; try reflexivity. by apply Hone.
Qed.

(** *** Uniqueness of the (task, element) pair is an invariant *)

Lemma validateTaskAndElement_world env taskID elementID w :
  snd (validateTaskAndElement env taskID elementID w) = w.
Proof.
  rewrite validateTaskAndElement_run, Task_Only_WithChecklist_run.
  destruct (faults env OpTaskOnly); [done|].
  destruct (tasks (db w) !! taskID) as [t|]; [|done]. simpl.
  destruct (decide _); [done|]. rewrite Element_Exist_run.
  destruct (faults env OpElementExist); [done|]. by destruct (bool_decide _).
Qed.

Lemma preserves_Result_Fetch {B} (f : DB -> B) env taskID elementID :
  preserves f (Result_Fetch env taskID elementID).
Proof. unfold Result_Fetch. frame. Qed.

Lemma Result_UpdateOne_results env existing condition comment w :
  let w' := snd (Result_UpdateOne env existing condition comment w) in
  inspection_results (db w') = inspection_results (db w) \/
  inspection_results (db w') =
    (fun r => if decide (ir_ID r = ir_ID existing)
              then updatedRow condition comment (clock env (ticks w)) r else r)
      <$> inspection_results (db w).
Proof.
  unfold Result_UpdateOne, fault, time_Now. run_M.
  destruct (ConditionStatusValidator condition); simpl; [|auto].
  destruct (faults env OpResultUpdate); simpl; [auto|].
  destruct (filter _ _); simpl; auto.
Qed.

Lemma Result_Create_results env taskID elementID condition comment w :
  let w' := snd (Result_Create env taskID elementID condition comment w) in
  inspection_results (db w') = inspection_results (db w) \/
  inspection_results (db w') =
    inspection_results (db w) ++ [createdRow env w taskID elementID condition comment].
Proof.
  unfold Result_Create, fault, time_Now. run_M.
  destruct (ConditionStatusValidator condition); simpl; [|auto].
  destruct (faults env OpResultCreate); simpl; [auto|].
  destruct (decide _); simpl; [auto|].
  destruct (decide _); simpl; auto.
Qed.

(** Whatever fails, an upsert never leaves a pair with more rows than it
    found, except that the pair of the request may go from none to one. *)
Lemma CreateOrUpdateResult_pairs_unique (env : Env) (w : World) (taskID : Z)
    (req : CreateInspectionResultRequest) (t e : Z) :
  (length (resultsOfPair (db w) t e) <= 1)%nat ->
  (length (resultsOfPair (db (snd (CreateOrUpdateResult env taskID req w))) t e)
     <= 1)%nat.
Proof.
  intros Hlen. unfold CreateOrUpdateResult. rewrite bind_run.
  pose proof (validateTaskAndElement_world env taskID (req_ChecklistElementID req) w)
    as Hw.
  destruct (validateTaskAndElement env taskID _ w) as [[[]|err] w0];
    simpl in Hw; subst w0; [|done].
  rewrite bind_try.
  assert (Result_Only env taskID (req_ChecklistElementID req) w =
            if faults env OpResultOnly then (Err ErrIO, w)
            else only (resultsOfPair (db w) taskID (req_ChecklistElementID req)) w)
    as -> by (unfold Result_Only, fault; run_M;
              by destruct (faults env OpResultOnly)).
  destruct (faults env OpResultOnly); simpl; [done|].
  rewrite only_run. simpl.
  destruct (resultsOfPair (db w) taskID (req_ChecklistElementID req))
    as [|existing [|]] eqn:Hrows; simpl; [| |done].
  - (* insert *)
    rewrite bind_run, bind_try.
    pose proof (Result_Create_results env taskID (req_ChecklistElementID req)
                  (req_ConditionStatus req) (req_Comment req) w) as Hres.
    destruct (Result_Create env taskID _ _ _ w) as [[[]|err] w1]; simpl in *.
    + rewrite bind_try.
      assert (inspection_results
                (db (snd (Result_Fetch env taskID (req_ChecklistElementID req) w1)))
              = inspection_results (db w1)) as Hfetch
        by apply (preserves_Result_Fetch inspection_results).
      destruct (Result_Fetch env taskID (req_ChecklistElementID req) w1)
        as [[row|err] w2]; simpl in *;
        unfold resultsOfPair in *; rewrite Hfetch;
        (destruct Hres as [-> | ->]; [done|]);
        rewrite filter_app, length_app;
        (destruct (decide (taskID = t /\ req_ChecklistElementID req = e))
           as [[<- <-]|Hne];
         [rewrite Hrows; simpl; by rewrite filter_cons_True
         |rewrite (filter_cons_False _ (createdRow _ _ _ _ _ _)) by done;
          rewrite filter_nil; simpl; lia]).
    + unfold resultsOfPair in *. destruct Hres as [-> | ->]; [done|].
      rewrite filter_app, length_app.
      destruct (decide (taskID = t /\ req_ChecklistElementID req = e))
        as [[<- <-]|Hne].
      * rewrite Hrows. simpl. by rewrite filter_cons_True.
      * rewrite (filter_cons_False _ (createdRow _ _ _ _ _ _)) by done.
        rewrite filter_nil. simpl. lia.
  - (* overwrite *)
    rewrite bind_run, bind_try.
    pose proof (Result_UpdateOne_results env existing (req_ConditionStatus req)
                  (req_Comment req) w) as Hres.
    assert (forall w1, inspection_results (db w1) = inspection_results (db w) \/
              inspection_results (db w1) =
                (fun r => if decide (ir_ID r = ir_ID existing)
                          then updatedRow (req_ConditionStatus req) (req_Comment req)
                                 (clock env (ticks w)) r else r)
                  <$> inspection_results (db w) ->
            (length (resultsOfPair (db w1) t e) <= 1)%nat) as Hkeep.
    { intros w1 [Hsame|Hupd]; unfold resultsOfPair in *; [by rewrite Hsame|].
      rewrite Hupd, filter_fmap_stable, length_fmap; [done|].
      intros r. by destruct (decide (ir_ID r = ir_ID existing)). }
    destruct (Result_UpdateOne env existing _ _ w) as [[[]|err] w1]; simpl in *.
    + rewrite bind_try.
      assert (inspection_results
                (db (snd (Result_Fetch env taskID (req_ChecklistElementID req) w1)))
              = inspection_results (db w1)) as Hfetch
        by apply (preserves_Result_Fetch inspection_results).
      destruct (Result_Fetch env taskID (req_ChecklistElementID req) w1)
        as [[row|err] w2]; simpl in *; apply Hkeep; by rewrite Hfetch.
    + by apply Hkeep.
Qed.

(** C4.  Two upserts in a row for the same (task, element), the task in
    progress and the element in its checklist, the pair holding at most one
    row beforehand: both return a response, and afterwards the pair holds
    exactly one row, with the condition and the comment of the second call
    (the empty comment when the second call supplies none). *)
Theorem CreateOrUpdateResult_twice (env1 env2 : Env) (w : World) (taskID : Z)
    (t : Task) (elementID : Z) (c1 c2 : string) (m1 m2 : option string) :
  no_faults env1 -> no_faults env2 ->
  tasks (db w) !! taskID = Some t ->
  t_Status t = StatusInProgress ->
  elementInChecklist (db w) elementID (t_ChecklistID t) ->
  ConditionStatusValidator c1 = true ->
  ConditionStatusValidator c2 = true ->
  (length (resultsOfPair (db w) taskID elementID) <= 1)%nat ->
  exists resp1 w1 resp2 w2 row,
    CreateOrUpdateResult env1 taskID (mkRequest elementID c1 m1) w = (Ok resp1, w1) /\
    CreateOrUpdateResult env2 taskID (mkRequest elementID c2 m2) w1 = (Ok resp2, w2) /\
    resultsOfPair (db w2) taskID elementID = [row] /\
    ir_ConditionStatus row = c2 /\
    ir_Comment row = default "" m2 /\
    (m2 = None -> ir_Comment row = "").
Proof.
  intros Hnf1 Hnf2 Ht Hst Hin Hv1 Hv2 Hlen.
  destruct (CreateOrUpdateResult_once env1 w taskID t elementID c1 m1)
    as (resp1 & w1 & row1 & Hrun1 & Htasks & Helems & Hrow1 & _); try done.
  destruct (CreateOrUpdateResult_once env2 w1 taskID t elementID c2 m2)
    as (resp2 & w2 & row2 & Hrun2 & _ & _ & Hrow2 & Hc & Hm & _); try done.
  - by rewrite Htasks.
  - unfold elementInChecklist in *. by rewrite Helems.
  - by rewrite Hrow1.
  - exists resp1, w1, resp2, w2, row2. repeat split; try done.
    intros ->. exact Hm.
Qed.

(** ** The act record: create or refresh *)

Lemma Act_Only_run env taskID w :
  faults env OpActOnly = false ->
  Act_Only env taskID w = only (actsOfTask (db w) taskID) w.
Proof. intros Hf. unfold Act_Only, fault. run_M. by rewrite Hf. Qed.

Lemma Act_Create_run env taskID status conclusion w :
  faults env OpActCreate = false ->
  is_Some (tasks (db w) !! taskID) ->
  actsOfTask (db w) taskID = [] ->
  Act_Create env taskID status conclusion w =
    (Ok (createdAct env w taskID status conclusion),
     mkWorld
       (DB_set_acts
          (inspection_acts (db w) ++ [createdAct env w taskID status conclusion])
          (act_seq (db w) + 1) (db w))
       (fs w) (logs w) (S (ticks w))).
Proof.
  intros Hf [t Ht] Hnone. unfold Act_Create, fault, time_Now. run_M.
  rewrite Hf. simpl. rewrite Ht, Hnone. by rewrite decide_False.
Qed.

Lemma Act_UpdateOne_run env op act a ok set w :
  faults env op = false ->
  ok = true ->
  a ∈ inspection_acts (db w) ->
  ia_ID act = ia_ID a ->
  exists row,
    Act_UpdateOne env op act ok set w =
      (Ok (set row), mkWorld (DB_set_acts (updateByID a set <$> inspection_acts (db w))
                                (act_seq (db w)) (db w))
                       (fs w) (logs w) (ticks w)) /\
    ia_ID row = ia_ID a.
Proof.
  intros Hf -> Hin Hid. unfold Act_UpdateOne, fault, updateByID. run_M.
  rewrite Hf, Hid. simpl.
  destruct (filter _ _) as [|row rest] eqn:E.
  - assert (a ∈ filter (fun x => ia_ID x = ia_ID a) (inspection_acts (db w))) as Hx
      by (by apply list_elem_of_filter).
    rewrite E in Hx. inversion Hx.
  - exists row. split; [done|].
    assert (row ∈ row :: rest) as Hx by left.
    rewrite <- E in Hx. by apply list_elem_of_filter in Hx as [? _].
Qed.

(** Whatever happens at the call site, an [UpdateOne] either leaves the act
    table alone or rewrites the rows with the primary key of [act]. *)
Lemma Act_UpdateOne_acts env op act ok set w :
  let w' := snd (Act_UpdateOne env op act ok set w) in
  (db w' = db w \/
   db w' = DB_set_acts (updateByID act set <$> inspection_acts (db w))
             (act_seq (db w)) (db w)) /\
  fs w' = fs w.
Proof.
  unfold Act_UpdateOne, fault. run_M.
  destruct ok; simpl; [|auto].
  destruct (faults env op); simpl; [auto|].
  destruct (filter _ _); simpl; auto.
Qed.

Lemma actsOfTask_update (d : DB) (taskID : Z) (act : InspectionAct)
    (set : InspectionAct -> InspectionAct) :
  (forall a, ia_TaskID (set a) = ia_TaskID a) ->
  filter (fun a => ia_TaskID a = taskID) (updateByID act set <$> inspection_acts d)
    = updateByID act set <$> actsOfTask d taskID.
Proof.
  intros Hset. unfold actsOfTask. apply filter_fmap_stable.
  intros a. unfold updateByID. destruct (decide _); [by rewrite Hset|done].
Qed.

Lemma CreateOrUpdateAct_first env w taskID conclusion :
  faults env OpActOnly = false ->
  faults env OpActCreate = false ->
  is_Some (tasks (db w) !! taskID) ->
  actsOfTask (db w) taskID = [] ->
  let act := createdAct env w taskID statusDrafted conclusion in
  let w' := snd (CreateOrUpdateAct env taskID conclusion w) in
  fst (CreateOrUpdateAct env taskID conclusion w) = Ok act /\
  inspection_acts (db w') = inspection_acts (db w) ++ [act] /\
  actsOfTask (db w') taskID = [act].
Proof.
  intros Hq Hc Ht Hnone act w'. subst w'.
  unfold CreateOrUpdateAct. rewrite bind_try, Act_Only_run, only_run, Hnone by done.
  simpl. rewrite bind_try, Act_Create_run by done. simpl.
  repeat split. unfold actsOfTask in *. simpl. rewrite filter_app, Hnone. simpl.
  by rewrite filter_cons_True, filter_nil.
Qed.

Lemma CreateOrUpdateAct_later env w taskID conclusion a :
  faults env OpActOnly = false ->
  actsOfTask (db w) taskID = [a] ->
  let refresh := updateByID a (Act_SetConclusion conclusion) in
  let w' := snd (CreateOrUpdateAct env taskID conclusion w) in
  (inspection_acts (db w') = inspection_acts (db w) \/
   inspection_acts (db w') = refresh <$> inspection_acts (db w)) /\
  (faults env OpActSetConclusion = false ->
     (exists act, fst (CreateOrUpdateAct env taskID conclusion w) = Ok act) /\
     inspection_acts (db w') = refresh <$> inspection_acts (db w) /\
     actsOfTask (db w') taskID = [Act_SetConclusion conclusion a]).
Proof.
  intros Hq Hone refresh w'. subst w'.
  assert (a ∈ inspection_acts (db w)) as Hin.
  { assert (a ∈ actsOfTask (db w) taskID) as Hx by (rewrite Hone; left).
    by apply list_elem_of_filter in Hx as [_ ?]. }
  unfold CreateOrUpdateAct. rewrite bind_try, Act_Only_run, only_run, Hone by done.
  simpl. rewrite bind_try. split.
  - pose proof (Act_UpdateOne_acts env OpActSetConclusion a true
                  (Act_SetConclusion conclusion) w) as [Hdb _].
    destruct (Act_UpdateOne env OpActSetConclusion a true _ w) as [[row|err] w1];
      simpl in *; destruct Hdb as [-> | ->]; auto.
  - intros Hu.
    destruct (Act_UpdateOne_run env OpActSetConclusion a a true
                (Act_SetConclusion conclusion) w Hu eq_refl Hin eq_refl)
      as (row & -> & Hrow).
    simpl. split; [by eexists|]. split; [done|].
    unfold actsOfTask at 1. simpl. subst refresh.
    rewrite actsOfTask_update by done. rewrite Hone. simpl.
    unfold updateByID. by rewrite decide_True.
Qed.

(** Refreshing the conclusion touches no other column of any row. *)
Lemma refresh_keeps_columns (a : InspectionAct) (conclusion : string)
    (r : InspectionAct) :
  let r' := updateByID a (Act_SetConclusion conclusion) r in
  ia_ID r' = ia_ID r /\ ia_TaskID r' = ia_TaskID r /\
  ia_CreatedAt r' = ia_CreatedAt r /\ ia_ApprovedAt r' = ia_ApprovedAt r /\
  ia_Status r' = ia_Status r /\ ia_DocumentPath r' = ia_DocumentPath r /\
  (ia_ID r <> ia_ID a -> r' = r).
Proof.
  unfold updateByID. destruct (decide (ia_ID r = ia_ID a)); simpl; by repeat split.
Qed.

Lemma CreateOrUpdateAct_spec (env : Env) (w : World) (taskID : Z)
    (conclusion : string) :
  faults env OpActOnly = false ->
  let w' := snd (CreateOrUpdateAct env taskID conclusion w) in
  (actsOfTask (db w) taskID = [] ->
   faults env OpActCreate = false ->
   is_Some (tasks (db w) !! taskID) ->
     actCreated (db w) (db w') taskID conclusion) /\
  (forall a, actsOfTask (db w) taskID = [a] ->
     actKept (db w) (db w') taskID a /\
     (faults env OpActSetConclusion = false ->
        actsOfTask (db w') taskID = [Act_SetConclusion conclusion a])).
Proof.
  intros Hq w'. split.
  - intros Hnone Hc Ht.
    destruct (CreateOrUpdateAct_first env w taskID conclusion Hq Hc Ht Hnone)
      as (Hfst & Hacts & Hone).
    eexists. split; [exact Hacts|]. split; [exact Hone|]. by repeat split.
  - intros a Hone.
    destruct (CreateOrUpdateAct_later env w taskID conclusion a Hq Hone)
      as [Hacts Hok]. fold w' in Hacts, Hok.
    split; [|intros Hu; by apply Hok].
    assert (length (actsOfTask (db w') taskID) = 1%nat) as Hlen.
    { unfold actsOfTask at 1. destruct Hacts as [-> | ->].
      - fold (actsOfTask (db w) taskID). by rewrite Hone.
      - rewrite actsOfTask_update by done. by rewrite Hone. }
    split; [|split; [exact Hlen|]].
    + destruct Hacts as [-> | ->]; [done|]. by rewrite length_fmap.
    + intros i r Hi. destruct Hacts as [-> | ->].
      * exists r. by repeat split.
      * exists (updateByID a (Act_SetConclusion conclusion) r).
        split; [by rewrite list_lookup_fmap, Hi|].
        apply refresh_keeps_columns.
Qed.

(** Entering OnReview runs [CreateOrUpdateAct] with the default conclusion
    on the act table as it was before the transition. *)
Lemma UpdateTaskStatus_OnReview_acts env w id t :
  faults env OpTaskOnly = false ->
  faults env OpTaskUpdate = false ->
  tasks (db w) !! id = Some t ->
  (t_Status t, StatusOnReview) ∈ legalPairs ->
  exists w1,
    inspection_acts (db w1) = inspection_acts (db w) /\
    tasks (db w1) !! id = Some (Task_SetStatus StatusOnReview (clock env (ticks w)) t) /\
    inspection_results (db w1) = inspection_results (db w) /\
    fst (UpdateTaskStatus env id StatusOnReview w) = Ok tt /\
    db (snd (UpdateTaskStatus env id StatusOnReview w))
      = db (snd (CreateOrUpdateAct env id defaultConclusion w1)).
Proof.
  intros Hq Hu Ht Hlegal.
  rewrite (UpdateTaskStatus_permitted env w id StatusOnReview t) by done.
  set (w0 := persisted env id StatusOnReview t w).
  exists (snd (NewInspectionActService env "storage/acts" w0)).
  pose proof (preserves_NewInspectionActService (fun d => d) env "storage/acts" w0)
    as Hdb. simpl in Hdb. rewrite Hdb.
  split; [done|]. split; [subst w0; simpl; by rewrite lookup_insert_eq|].
  split; [done|]. split; [done|].
  simpl. unfold afterIntegration. rewrite decide_True by done.
  by destruct (CreateOrUpdateAct env id defaultConclusion _).
Qed.

Lemma Act_Only_world env taskID w : snd (Act_Only env taskID w) = w.
Proof.
  unfold Act_Only, fault, only. run_M.
  destruct (faults env OpActOnly); [done|]. simpl.
  by destruct (actsOfTask (db w) taskID) as [|? [|? ?]].
Qed.

Lemma Act_Create_fs env taskID status conclusion w :
  fs (snd (Act_Create env taskID status conclusion w)) = fs w.
Proof.
  unfold Act_Create, fault, time_Now. run_M.
  destruct (faults env OpActCreate); simpl; [done|].
  destruct (decide (tasks (db w) !! taskID = None)); simpl; [done|].
  by destruct (decide (actsOfTask (db w) taskID = [])).
Qed.

(** [CreateOrUpdateAct] touches no file, whatever happens. *)
Lemma CreateOrUpdateAct_fs env taskID conclusion w :
  fs (snd (CreateOrUpdateAct env taskID conclusion w)) = fs w.
Proof.
  unfold CreateOrUpdateAct. rewrite bind_try.
  pose proof (Act_Only_world env taskID w) as Hw.
  destruct (Act_Only env taskID w) as [[act|err] w1]; simpl in Hw; subst w1; simpl.
  - rewrite bind_try.
    pose proof (Act_UpdateOne_acts env OpActSetConclusion act true
                  (Act_SetConclusion conclusion) w) as [_ Hfs].
    by destruct (Act_UpdateOne env OpActSetConclusion act true _ w) as [[?|?] ?].
  - destruct (IsNotFound err); simpl; [|done].
    rewrite bind_try.
    pose proof (Act_Create_fs env taskID statusDrafted conclusion w) as Hfs.
    by destruct (Act_Create env taskID statusDrafted conclusion w) as [[?|?] ?].
Qed.

(** A refresh whose update fails leaves the act table as it was. *)
Lemma CreateOrUpdateAct_refused env w taskID conclusion a :
  faults env OpActOnly = false ->
  faults env OpActSetConclusion = true ->
  actsOfTask (db w) taskID = [a] ->
  (exists e, fst (CreateOrUpdateAct env taskID conclusion w) = Err e) /\
  db (snd (CreateOrUpdateAct env taskID conclusion w)) = db w.
Proof.
  intros Hq Hu Hone.
  unfold CreateOrUpdateAct. rewrite bind_try, Act_Only_run, only_run, Hone by done.
  simpl. rewrite bind_try. unfold Act_UpdateOne, fault. simpl. rewrite Hu. simpl.
  split; [by eexists|done].
Qed.

Lemma refreshed_act (d' : DB) (taskID : Z) (a : InspectionAct) (conclusion : string) :
  actsOfTask d' taskID = [Act_SetConclusion conclusion a] ->
  conclusionRefreshed d' taskID a conclusion.
Proof. intros Hone. eexists. split; [exact Hone|]. by repeat split. Qed.

Lemma created_act_drafted (d d' : DB) (taskID : Z) (conclusion : string) :
  actCreated d d' taskID conclusion ->
  ia_Status <$> actsOfTask d' taskID = ["создан"].
Proof. intros (act & _ & -> & Hst & _). simpl. by rewrite Hst. Qed.

(** C5.  [CreateOrUpdateAct] touches no file.  For a task without an act it
    appends exactly one row: status "создан", the given conclusion, no
    approval time and no document.  For a task that has its act [a] it never
    adds or removes a row, and every row keeps every column but the
    conclusion; when the update goes through, the act of the task carries
    the new conclusion and has every other column, the document path among
    them, as [a] had it; when the update fails the act table is as it was.
    The transition into OnReview does exactly this with the conclusion
    "Осмотр выполнен. Ожидает проверки координатором.", on first entry and
    on re-entry. *)
Theorem CreateOrUpdateAct_one_row (env : Env) (taskID : Z) :
  faults env OpActOnly = false ->
  (forall w conclusion,
     let w' := snd (CreateOrUpdateAct env taskID conclusion w) in
     fs w' = fs w /\
     (actsOfTask (db w) taskID = [] ->
      faults env OpActCreate = false ->
      is_Some (tasks (db w) !! taskID) ->
        actCreated (db w) (db w') taskID conclusion /\
        ia_Status <$> actsOfTask (db w') taskID = ["создан"]) /\
     (forall a, actsOfTask (db w) taskID = [a] ->
        actKept (db w) (db w') taskID a /\
        (faults env OpActSetConclusion = false ->
           conclusionRefreshed (db w') taskID a conclusion) /\
        (faults env OpActSetConclusion = true ->
           inspection_acts (db w') = inspection_acts (db w)))) /\
  (forall w t,
     tasks (db w) !! taskID = Some t ->
     (t_Status t, StatusOnReview) ∈ legalPairs ->
     faults env OpTaskOnly = false ->
     faults env OpTaskUpdate = false ->
     let w' := snd (UpdateTaskStatus env taskID StatusOnReview w) in
     (actsOfTask (db w) taskID = [] ->
      faults env OpActCreate = false ->
        actCreated (db w) (db w') taskID
          "Осмотр выполнен. Ожидает проверки координатором." /\
        ia_Status <$> actsOfTask (db w') taskID = ["создан"]) /\
     (forall a, actsOfTask (db w) taskID = [a] ->
        actKept (db w) (db w') taskID a /\
        (faults env OpActSetConclusion = false ->
           conclusionRefreshed (db w') taskID a
             "Осмотр выполнен. Ожидает проверки координатором."))).
Proof.
  intros Hq. split.
  - intros w conclusion w'. split; [apply CreateOrUpdateAct_fs|].
    destruct (CreateOrUpdateAct_spec env w taskID conclusion Hq) as [Hfirst Hlater].
    split.
    + intros Hnone Hc Ht. pose proof (Hfirst Hnone Hc Ht) as Hcreated.
      split; [exact Hcreated|]. exact (created_act_drafted _ _ _ _ Hcreated).
    + intros a Hone. destruct (Hlater a Hone) as [Hkept Hnew].
      split; [exact Hkept|]. split.
      * intros Hu. by apply refreshed_act, Hnew.
      * intros Hu.
        destruct (CreateOrUpdateAct_refused env w taskID conclusion a Hq Hu Hone)
          as [_ Hdb].
        unfold w'. by rewrite Hdb.
  - intros w t Ht Hlegal Hq0 Hu w'.
    destruct (UpdateTaskStatus_OnReview_acts env w taskID t Hq0 Hu Ht Hlegal)
      as (w1 & Hacts & Htask & _ & _ & Hdb).
    subst w'. rewrite Hdb.
    destruct (CreateOrUpdateAct_spec env w1 taskID defaultConclusion Hq)
      as [Hfirst Hlater].
    unfold actCreated, actKept, actsOfTask in Hfirst, Hlater.
    rewrite Hacts in Hfirst, Hlater.
    split.
    + intros Hnone Hc.
      assert (actCreated (db w)
                (db (snd (CreateOrUpdateAct env taskID defaultConclusion w1)))
                taskID defaultConclusion) as Hcreated
        by (apply Hfirst; [done|done|by rewrite Htask]).
      split; [exact Hcreated|]. exact (created_act_drafted _ _ _ _ Hcreated).
    + intros a Hone. destruct (Hlater a Hone) as [Hkept Hnew].
      split; [exact Hkept|]. intros Hc. by apply refreshed_act, Hnew.
Qed.

(** ** Paths and file names *)

Lemma append_cons (c : ascii) (s t : string) :
  String c s +:+ t = String c (s +:+ t).
Proof. reflexivity. Qed.

Lemma append_empty_r (s : string) : s +:+ "" = s.
Proof. induction s as [|c s IH]; [done|]. by rewrite append_cons, IH. Qed.

Lemma append_snoc (acc s : string) (c : ascii) :
  (acc +:+ String c "") +:+ s = acc +:+ String c s.
Proof. induction acc as [|c' acc IH]; [done|]. by rewrite !append_cons, IH. Qed.

Lemma append_assoc (a b c : string) : (a +:+ b) +:+ c = a +:+ (b +:+ c).
Proof. induction a as [|x a IH]; [done|]. by rewrite !append_cons, IH. Qed.

Lemma slashFree_app (a b : string) :
  slashFree a -> slashFree b -> slashFree (a +:+ b).
Proof. induction a as [|c a IH]; simpl; [done|]. intros [? ?] ?. auto. Qed.

Lemma pathElements_slashFree (s acc : string) :
  slashFree s -> pathElements s acc = [acc +:+ s].
Proof.
  revert acc. induction s as [|c s IH]; intros acc; simpl.
  - intros _. by rewrite append_empty_r.
  - intros [Hc Hs]. rewrite decide_False by done. rewrite IH by done.
    by rewrite append_snoc.
Qed.

Lemma pathElements_app (a b acc : string) :
  pathElements (a +:+ String "/" b) acc = pathElements a acc ++ pathElements b "".
Proof.
  revert acc. induction a as [|c a IH]; intros acc.
  - reflexivity.
  - rewrite append_cons. simpl. destruct (decide (c = "/"%char)).
    + by rewrite IH.
    + apply IH.
Qed.

Lemma pathElements_nonempty (s acc : string) : pathElements s acc <> [].
Proof.
  revert acc. induction s as [|c s IH]; intros acc; simpl; [done|].
  destruct (decide _); [done|apply IH].
Qed.

(** Writing the elements of a path out again gives the path back. *)
Lemma joinElements_pathElements (s acc : string) :
  joinElements (pathElements s acc) = acc +:+ s.
Proof.
  revert acc. induction s as [|c s IH]; intros acc; simpl.
  - by rewrite append_empty_r.
  - destruct (decide (c = "/"%char)) as [->|Hc].
    + pose proof (pathElements_nonempty s "") as Hne.
      specialize (IH "").
      destruct (pathElements s "") as [|e rest]; [done|].
      change (joinElements (acc :: e :: rest))
        with (acc +:+ "/" +:+ joinElements (e :: rest)).
      rewrite IH. reflexivity.
    + rewrite IH. apply append_snoc.
Qed.

Lemma joinElements_snoc (out : list string) (e : string) :
  out <> [] -> joinElements (out ++ [e]) = joinElements out +:+ String "/" e.
Proof.
  induction out as [|x out IH]; [done|]. intros _.
  destruct out as [|y out]; [reflexivity|].
  change (joinElements ((x :: y :: out) ++ [e]))
    with (x +:+ "/" +:+ joinElements ((y :: out) ++ [e])).
  rewrite IH by done.
  change (joinElements (x :: y :: out)) with (x +:+ "/" +:+ joinElements (y :: out)).
  by rewrite !append_assoc.
Qed.

Lemma cleanElement_real rooted out dotdot e :
  realElement e -> cleanElement rooted (out, dotdot) e = (out ++ [e], dotdot).
Proof.
  intros (Hne & _ & Hdot & Hdotdot). unfold cleanElement.
  by rewrite !decide_False by done.
Qed.

Lemma foldl_cleanElement_real rooted out dotdot elems :
  Forall realElement elems ->
  foldl (cleanElement rooted) (out, dotdot) elems = (out ++ elems, dotdot).
Proof.
  intros Hall. revert out.
  induction Hall as [|e elems He _ IH]; intros out; cbn [foldl].
  - by rewrite app_nil_r.
  - rewrite cleanElement_real by done. rewrite IH. by rewrite <- app_assoc.
Qed.

(** Cleaning writes no empty element. *)
Lemma cleanElement_nonempty rooted buf e :
  Forall (fun x => x <> "") (fst buf) ->
  Forall (fun x => x <> "") (fst (cleanElement rooted buf e)).
Proof.
  destruct buf as [out dotdot]. simpl. intros Hall.
  destruct (decide (e = "")); [done|].
  destruct (decide (e = ".")); [done|].
  destruct (decide (e = "..")).
  - destruct (decide (dotdot < length out)%nat); simpl.
    + destruct out as [|x out _] using rev_ind; [done|].
      rewrite removelast_last. by apply Forall_app in Hall as [? _].
    + destruct rooted; [done|]. simpl. apply Forall_app. split; [done|].
      by repeat constructor.
  - simpl. apply Forall_app. split; [done|]. by repeat constructor.
Qed.

Lemma foldl_cleanElement_nonempty rooted buf elems :
  Forall (fun x => x <> "") (fst buf) ->
  Forall (fun x => x <> "") (fst (foldl (cleanElement rooted) buf elems)).
Proof.
  revert buf. induction elems as [|e elems IH]; intros buf Hall; [done|].
  simpl. apply IH. by apply cleanElement_nonempty.
Qed.

Lemma joinElements_nonempty (out : list string) :
  out <> [] -> Forall (fun x => x <> "") out -> joinElements out <> "".
Proof.
  destruct out as [|x [|y out]]; [done| |]; intros _ Hall;
    apply Forall_cons in Hall as [Hx _].
  - done.
  - change (joinElements (x :: y :: out)) with (x +:+ "/" +:+ joinElements (y :: out)).
    destruct x; [done|discriminate].
Qed.

Lemma filepath_Clean_nonempty (path : string) : filepath_Clean path <> "".
Proof.
  unfold filepath_Clean. destruct (decide (path = "")); [done|]. cbv zeta.
  destruct (isRooted path); [discriminate|].
  destruct (decide _) as [|Hne]; [done|].
  apply joinElements_nonempty; [done|].
  by apply foldl_cleanElement_nonempty.
Qed.

Lemma filepath_Join_nonempty (dir name : string) :
  name <> "" -> filepath_Join dir name <> "".
Proof.
  intros Hne. unfold filepath_Join.
  destruct (decide (dir <> "")); [apply filepath_Clean_nonempty|].
  rewrite decide_True by done. apply filepath_Clean_nonempty.
Qed.

(** A path that ends in a real element, once cleaned, ends in that element. *)
Lemma filepath_Clean_last (elems : list string) (path name : string) :
  path <> "" ->
  pathElements path "" = elems ++ [name] ->
  realElement name ->
  filepath_Clean path = name \/
  exists front, filepath_Clean path = front +:+ String "/" name.
Proof.
  intros Hpath Helems Hreal. unfold filepath_Clean.
  rewrite decide_False by done. cbv zeta. rewrite Helems, foldl_app. simpl.
  destruct (foldl (cleanElement (isRooted path)) ([], 0%nat) elems) as [out dotdot].
  rewrite cleanElement_real by done. simpl.
  destruct (isRooted path).
  - right. destruct out as [|x out].
    + by exists "".
    + exists ("/" +:+ joinElements (x :: out)).
      rewrite joinElements_snoc by done. by rewrite append_assoc.
  - rewrite decide_False by (by destruct out).
    destruct out as [|x out]; [by left|].
    right. exists (joinElements (x :: out)). by rewrite joinElements_snoc.
Qed.

Lemma filepath_Base_real (name : string) :
  realElement name -> filepath_Base name = name.
Proof.
  intros (Hne & Hfree & _). unfold filepath_Base. rewrite decide_False by done.
  rewrite pathElements_slashFree by done. simpl.
  rewrite filter_cons_True by done. by rewrite filter_nil.
Qed.

Lemma filepath_Base_last (front name : string) :
  realElement name -> filepath_Base (front +:+ String "/" name) = name.
Proof.
  intros (Hne & Hfree & _). unfold filepath_Base.
  rewrite decide_False by (destruct front; discriminate).
  rewrite pathElements_app, (pathElements_slashFree name) by done. simpl.
  rewrite filter_app, filter_cons_True, filter_nil by done.
  by rewrite last_snoc.
Qed.

(** The base name of a joined path is the file name joined on. *)
Lemma filepath_Base_Join (dir name : string) :
  realElement name -> filepath_Base (filepath_Join dir name) = name.
Proof.
  intros Hreal. pose proof Hreal as (Hne & Hfree & _).
  assert (forall path elems, path <> "" -> pathElements path "" = elems ++ [name] ->
            filepath_Base (filepath_Clean path) = name) as Hlast.
  { intros path elems Hpath Helems.
    destruct (filepath_Clean_last elems path name Hpath Helems Hreal)
      as [-> | [front ->]];
      [by apply filepath_Base_real | by apply filepath_Base_last]. }
  unfold filepath_Join. destruct (decide (dir <> "")) as [Hdir|Hdir].
  - apply (Hlast _ (pathElements dir "")).
    + destruct dir; [done|discriminate].
    + change (dir +:+ "/" +:+ name) with (dir +:+ String "/" name).
      by rewrite pathElements_app, (pathElements_slashFree name).
  - rewrite decide_True by done. apply (Hlast _ []); [done|].
    by rewrite pathElements_slashFree.
Qed.

Lemma realElement_not_rooted (e rest : string) :
  realElement e -> isRooted (e +:+ rest) = false.
Proof.
  intros (Hne & Hfree & _). destruct e as [|c e]; [done|].
  destruct Hfree as [Hc _]. rewrite append_cons. simpl.
  by apply bool_decide_eq_false.
Qed.

(** Joining a file name on a clean directory puts one separator between
    the two and changes neither. *)
Lemma filepath_Join_cleanDir (dir name : string) :
  cleanDir dir -> realElement name ->
  filepath_Join dir name = dir +:+ "/" +:+ name.
Proof.
  intros Hclean Hreal. pose proof Hreal as (Hne & Hfree & _).
  assert (dir <> "") as Hdir.
  { intros ->. unfold cleanDir in Hclean. simpl in Hclean.
    apply Forall_cons in Hclean as [(? & _) _]. done. }
  unfold filepath_Join. rewrite decide_True by done.
  unfold filepath_Clean.
  rewrite decide_False by (destruct dir; [done|discriminate]). cbv zeta.
  change (dir +:+ "/" +:+ name) with (dir +:+ String "/" name).
  rewrite pathElements_app, (pathElements_slashFree name) by done.
  change ("" +:+ name) with name.
  pose proof (joinElements_pathElements dir "") as Hjoin.
  change ("" +:+ dir) with dir in Hjoin.
  unfold cleanDir in Hclean.
  destruct (pathElements dir "") as [|first elems] eqn:Helems;
    [by apply pathElements_nonempty in Helems|].
  destruct (decide (first = "")) as [->|Hfirst].
  - destruct elems as [|e rest].
    { apply Forall_cons in Hclean as [(? & _) _]. done. }
    assert (isRooted (dir +:+ String "/" name) = true) as ->.
    { rewrite <- Hjoin. reflexivity. }
    rewrite foldl_app.
    change (foldl (cleanElement true) ([], 0%nat) ("" :: e :: rest))
      with (foldl (cleanElement true) ([], 0%nat) (e :: rest)).
    rewrite foldl_cleanElement_real by done. cbn [foldl app].
    rewrite cleanElement_real by done. cbn [fst].
    rewrite joinElements_snoc by done.
    rewrite <- Hjoin.
    change (joinElements ("" :: e :: rest)) with ("/" +:+ joinElements (e :: rest)).
    by rewrite append_assoc.
  - assert (Forall realElement (first :: elems)) as Hall.
    { destruct first; [done|exact Hclean]. }
    assert (isRooted (dir +:+ String "/" name) = false) as ->.
    { rewrite <- Hjoin. apply Forall_cons in Hall as [Hf _].
      destruct elems as [|e rest].
      - by apply realElement_not_rooted.
      - change (joinElements (first :: e :: rest))
          with (first +:+ "/" +:+ joinElements (e :: rest)).
        rewrite append_assoc. by apply realElement_not_rooted. }
    rewrite foldl_app, foldl_cleanElement_real by done. cbn [foldl app].
    rewrite cleanElement_real by done. cbn [fst].
    rewrite decide_False by done.
    change (first :: elems ++ [name]) with ((first :: elems) ++ [name]).
    rewrite joinElements_snoc by done. by rewrite Hjoin.
Qed.

(** *** File names *)

Lemma digit_not_slash (n : Z) : digit n <> "/"%char.
Proof.
  unfold digit. intros H. apply (f_equal nat_of_ascii) in H.
  assert (0 <= n mod 10 < 10) as Hmod by (apply Z.mod_pos_bound; lia).
  rewrite nat_ascii_embedding in H by lia.
  change (nat_of_ascii "/") with 47%nat in H. lia.
Qed.

Lemma slashFree_pad2 (n : Z) : slashFree (pad2 n).
Proof. unfold pad2. simpl. auto using digit_not_slash. Qed.

Lemma slashFree_pad4 (n : Z) : slashFree (pad4 n).
Proof.
  unfold pad4. simpl. split; [apply digit_not_slash|].
  split; [apply digit_not_slash|]. apply slashFree_pad2.
Qed.

Lemma slashFree_pretty_N_go (x : N) (s : string) :
  slashFree s -> slashFree (pretty_N_go x s).
Proof.
  revert s. induction (N.lt_wf_0 x) as [x _ IH]; intros s Hs.
  destruct (decide (x = 0)%N) as [->|Hne]; [by rewrite pretty_N_go_0|].
  rewrite pretty_N_go_step by lia. apply IH.
  - apply N.div_lt; lia.
  - simpl. split; [|done]. unfold pretty_N_char. by repeat case_match.
Qed.

Lemma slashFree_itoa (z : Z) : slashFree (itoa z).
Proof.
  assert (forall p, slashFree (pretty (N.pos p))) as Hpos.
  { intros p. unfold pretty, pretty_N. rewrite decide_False by done.
    by apply slashFree_pretty_N_go. }
  unfold itoa, pretty, pretty_Z. destruct z as [|p|p]; [done|apply Hpos|].
  apply slashFree_app; [by simpl|apply Hpos].
Qed.

Lemma slashFree_actFilename (taskID : Z) (now : Time) :
  slashFree (actFilename taskID now).
Proof.
  unfold actFilename, format_stamp.
  repeat first [ apply slashFree_app | apply slashFree_pad2 | apply slashFree_pad4
               | apply slashFree_itoa | by simpl ].
Qed.

Lemma actFilename_nonempty (taskID : Z) (now : Time) : actFilename taskID now <> "".
Proof. unfold actFilename. discriminate. Qed.

Lemma realElement_actFilename (taskID : Z) (now : Time) :
  realElement (actFilename taskID now).
Proof.
  split; [apply actFilename_nonempty|]. split; [apply slashFree_actFilename|].
  unfold actFilename. split; discriminate.
Qed.

(** ** Reading the rendered document *)

Lemma tableRows_labelled label value : tableRows (labelled label value) = [].
Proof. reflexivity. Qed.

Lemma tableRows_sectionTitle title size : tableRows (sectionTitle title size) = [].
Proof. reflexivity. Qed.

Lemma tableRows_app (p q : PDF) : tableRows (p ++ q) = tableRows p ++ tableRows q.
Proof. apply filter_app. Qed.

Lemma tableRows_resultRow i r : tableRows (resultRow i r) = resultRow i r.
Proof. reflexivity. Qed.

Lemma tableRows_rangeResults i results :
  tableRows (rangeResults i results) = rangeResults i results.
Proof.
  revert i. induction results as [|r rest IH]; intros i; [done|].
  change (rangeResults i (r :: rest))
    with (resultRow i r ++ rangeResults (S i) rest).
  by rewrite tableRows_app, IH, tableRows_resultRow.
Qed.

Lemma tableRows_drawAct act t results today :
  tableRows (drawAct act t results today) = rangeResults 0 results.
Proof.
  unfold drawAct.
  repeat rewrite tableRows_app.
  rewrite tableRows_rangeResults.
  rewrite !tableRows_labelled, !tableRows_sectionTitle.
  destruct (IsZero (ia_ApprovedAt act));
    destruct (t_Edges_Inspector t) as [ins|];
    destruct (t_Edges_Building t) as [b|];
    [destruct (b_Edges_District b), (b_Edges_JkhUnit b)| |
     destruct (b_Edges_District b), (b_Edges_JkhUnit b)| |
     destruct (b_Edges_District b), (b_Edges_JkhUnit b)| |
     destruct (b_Edges_District b), (b_Edges_JkhUnit b)| ];
    destruct (t_Edges_Checklist t);
    repeat rewrite tableRows_app;
    rewrite ?tableRows_labelled; simpl; by rewrite ?app_nil_r.
Qed.

Lemma length_rangeResults i results :
  length (rangeResults i results) = (4 * length results)%nat.
Proof.
  revert i. induction results as [|r rest IH]; intros i; [done|].
  simpl. rewrite IH. lia.
Qed.

Lemma elementName_resultRow (r : InspectionResult) :
  match ir_Edges_ChecklistElement r with
  | Some ce => match ce_Edges_ElementCatalog ce with
               | Some ec => ec_Name ec
               | None => ""
               end
  | None => ""
  end = elementName r.
Proof.
  unfold elementName. destruct (ir_Edges_ChecklistElement r) as [ce|]; [|done].
  simpl. by destruct (ce_Edges_ElementCatalog ce).
Qed.

(** The loop writes the rows in the order of the slice, numbered from the
    index it starts at. *)
Lemma rowsOf_rangeResults (i : nat) (results : list InspectionResult) :
  length (rowsOf (rangeResults i results)) = length results /\
  forall (k : nat) r, results !! k = Some r ->
    rowsOf (rangeResults i results) !! k
      = Some (mkTableRow (itoa (Z.of_nat (i + k) + 1)) (elementName r)
                (ir_ConditionStatus r) (ir_Comment r)).
Proof.
  revert i. induction results as [|r0 rest IH]; intros i.
  - split; [done|]. intros k r Hk. by rewrite lookup_nil in Hk.
  - destruct (IH (S i)) as [Hlen Hrows].
    change (rowsOf (rangeResults i (r0 :: rest)))
      with (mkTableRow (itoa (Z.of_nat i + 1))
              match ir_Edges_ChecklistElement r0 with
              | Some ce => match ce_Edges_ElementCatalog ce with
                           | Some ec => ec_Name ec
                           | None => ""
                           end
              | None => ""
              end (ir_ConditionStatus r0) (ir_Comment r0)
            :: rowsOf (rangeResults (S i) rest)).
    rewrite elementName_resultRow. split; [simpl; by rewrite Hlen|].
    intros [|k] r Hk; simpl in Hk.
    + injection Hk as <-. simpl. by rewrite Nat.add_0_r.
    + simpl. rewrite (Hrows k r Hk). do 4 f_equal. lia.
Qed.

Lemma tableFollows_drawAct act t results today :
  tableFollows (drawAct act t results today) elementName results.
Proof.
  unfold tableFollows, tableOf. rewrite tableRows_drawAct.
  destruct (rowsOf_rangeResults 0 results) as [Hlen Hrows].
  split; [exact Hlen|]. intros k r Hk. by rewrite (Hrows k r Hk).
Qed.

Lemma elementName_loadResult (d : DB) (r : InspectionResult) :
  elementName (loadResult d r) = catalogName d r.
Proof.
  unfold elementName, catalogName, loadResult. simpl.
  by destruct (findElement d (ir_ChecklistElementID r)).
Qed.

(** The table of a document rendered from the loaded results of a task, in
    terms of the stored rows. *)
Lemma tableFollows_loaded (pdf : PDF) (d : DB) (rows : list InspectionResult) :
  tableFollows pdf elementName (loadResult d <$> rows) ->
  tableFollows pdf (catalogName d) rows.
Proof.
  intros [Hlen Hrows]. split; [by rewrite length_fmap in Hlen|].
  intros k r Hk.
  rewrite (Hrows k (loadResult d r)) by (by rewrite list_lookup_fmap, Hk).
  by rewrite elementName_loadResult.
Qed.

Lemma valueOf_rangeResults label i results tail :
  valueOf label (rangeResults i results ++ tail) = valueOf label tail.
Proof.
  revert i. induction results as [|r rest IH]; intros i; [done|].
  change (rangeResults i (r :: rest) ++ tail)
    with (resultRow i r ++ (rangeResults (S i) rest ++ tail)).
  unfold resultRow. cbn [app valueOf].
  destruct (rangeResults (S i) rest ++ tail) as [|c l] eqn:E.
  - rewrite <- IH with (i := S i). rewrite E. reflexivity.
  - rewrite <- (IH (S i)), E. by destruct c.
Qed.

Lemma paragraphs_app (p q : PDF) : paragraphs (p ++ q) = paragraphs p ++ paragraphs q.
Proof. apply omap_app. Qed.

Lemma paragraphs_rangeResults i results : paragraphs (rangeResults i results) = [].
Proof.
  revert i. induction results as [|r rest IH]; intros i; [done|].
  change (rangeResults i (r :: rest))
    with (resultRow i r ++ rangeResults (S i) rest).
  by rewrite paragraphs_app, IH.
Qed.

Lemma IsZero_decide (t : Time) :
  IsZero t = if decide (t = zeroTime) then true else false.
Proof. unfold IsZero. by destruct (decide _); [rewrite bool_decide_eq_true_2|rewrite bool_decide_eq_false_2]. Qed.

Lemma showsAct_drawAct act t results today :
  showsAct (drawAct act t results today) act.
Proof.
  unfold showsAct, drawAct. rewrite IsZero_decide.
  split; [reflexivity|]. split; [reflexivity|]. split.
  - destruct (decide (ia_ApprovedAt act = zeroTime)); [|reflexivity].
    destruct (t_Edges_Inspector t) as [ins|];
      destruct (t_Edges_Building t) as [b|];
      [destruct (b_Edges_District b), (b_Edges_JkhUnit b)| |
       destruct (b_Edges_District b), (b_Edges_JkhUnit b)| ];
      destruct (t_Edges_Checklist t);
      cbn [app labelled sectionTitle valueOf];
      repeat (rewrite decide_False by (intros [? ?]; discriminate));
      cbn -[valueOf rangeResults];
      rewrite valueOf_rangeResults; reflexivity.
  - repeat rewrite paragraphs_app. rewrite paragraphs_rangeResults.
    destruct (decide (ia_ApprovedAt act = zeroTime));
      destruct (t_Edges_Inspector t) as [ins|];
      destruct (t_Edges_Building t) as [b|];
      [destruct (b_Edges_District b), (b_Edges_JkhUnit b)| |
       destruct (b_Edges_District b), (b_Edges_JkhUnit b)| |
       destruct (b_Edges_District b), (b_Edges_JkhUnit b)| |
       destruct (b_Edges_District b), (b_Edges_JkhUnit b)| ];
      destruct (t_Edges_Checklist t); reflexivity.
Qed.

(** ** The act record: approval *)

Lemma Act_Only_WithTask_run env taskID w :
  faults env OpActOnly = false ->
  Act_Only_WithTask env taskID w =
    (match actsOfTask (db w) taskID with
     | [] => Err ErrNotFound
     | [a] => Ok (Act_WithTask (loadTaskFull (db w) (ia_TaskID a)) a)
     | _ => Err ErrNotSingular
     end, w).
Proof.
  intros Hf. unfold Act_Only_WithTask, fault. run_M. rewrite Hf. simpl.
  by destruct (actsOfTask (db w) taskID) as [|? [|? ?]].
Qed.

Lemma elem_of_actsOfTask (d : DB) (taskID : Z) (a : InspectionAct) :
  actsOfTask d taskID = [a] -> a ∈ inspection_acts d /\ ia_TaskID a = taskID.
Proof.
  intros Hone. assert (a ∈ actsOfTask d taskID) as Hx by (rewrite Hone; left).
  by apply list_elem_of_filter in Hx as [? ?].
Qed.

(** Steps 4 to 7 of [ApproveAct] return [nil] whatever fails, and change the
    database at most by recording a document path on the rows of [act]. *)
Lemma regenerateApproved_swallows env storagePath taskID act w :
  let r := regenerateApproved env storagePath taskID act w in
  fst r = Ok tt /\
  (db (snd r) = db w \/
   exists p, db (snd r) =
     DB_set_acts (updateByID act (Act_SetDocumentPath p) <$> inspection_acts (db w))
       (act_seq (db w)) (db w)).
Proof.
  unfold regenerateApproved. rewrite bind_run.
  set (m4 := if decide (ia_DocumentPath act <> "") then _ else _).
  assert (fst (m4 w) = Ok tt /\ db (snd (m4 w)) = db w) as H4.
  { subst m4. destruct (decide _); [|done]. rewrite bind_try.
    pose proof (preserves_os_Remove (fun d => d) env (ia_DocumentPath act) w) as Hp.
    by destruct (os_Remove env (ia_DocumentPath act) w) as [[[]|err] w1]. }
  destruct (m4 w) as [r4 w4]. simpl in H4. destruct H4 as [-> <-]. clear m4.
  rewrite bind_try.
  pose proof (preserves_Result_All (fun d => d) env taskID w4) as H5.
  destruct (Result_All env taskID w4) as [[results|err] w5]; simpl in *;
    [|by rewrite H5; auto].
  rewrite <- H5. clear H5. rewrite bind_try.
  pose proof (preserves_generatePDF (fun d => d) env act results w5) as H6.
  destruct (generatePDF env act results w5) as [[[pdfData filename]|err] w6];
    simpl in *; [|by rewrite H6; auto].
  rewrite <- H6. clear H6. rewrite bind_try.
  set (fullPath := filepath_Join storagePath filename).
  pose proof (preserves_os_WriteFile (fun d => d) env fullPath pdfData w6) as H7.
  destruct (os_WriteFile env fullPath pdfData w6) as [[[]|err] w7];
    simpl in *; [|by rewrite H7; auto].
  rewrite <- H7. clear H7. rewrite bind_try.
  pose proof (Act_UpdateOne_acts env OpActSetDocumentPath act
                (DocumentPathValidator fullPath) (Act_SetDocumentPath fullPath) w7)
    as [H8 _].
  destruct (Act_UpdateOne env OpActSetDocumentPath act _ _ w7) as [[row|err] w8];
    simpl in *; (split; [done|]); destruct H8 as [-> | ->]; eauto.
Qed.

Lemma Result_All_run env taskID w :
  faults env OpResultAll = false ->
  Result_All env taskID w = (Ok (loadResult (db w) <$> resultsOfTask (db w) taskID), w).
Proof. intros Hf. unfold Result_All, fault. run_M. by rewrite Hf. Qed.

Lemma generatePDF_run env act t results w :
  ia_Edges_Task act = Some t ->
  generatePDF env act results w =
    if faults env OpFontRegular
    then (Err (wrap "failed to load regular font" ErrIO), w)
    else if faults env OpFontBold
    then (Err (wrap "failed to load bold font" ErrIO), w)
    else if faults env OpOutput
    then (Err (wrap "failed to generate PDF" ErrIO),
          mkWorld (db w) (fs w) (logs w) (S (ticks w)))
    else (Ok (drawAct act t results (clock env (ticks w)),
              actFilename (ia_TaskID act) (clock env (S (ticks w)))),
          mkWorld (db w) (fs w) (logs w) (S (S (ticks w)))).
Proof.
  intros Ht. unfold generatePDF, fault, time_Now. rewrite Ht. run_M.
  destruct (faults env OpFontRegular); [done|]. simpl.
  destruct (faults env OpFontBold); [done|]. simpl.
  by destruct (faults env OpOutput).
Qed.

Lemma os_WriteFile_run env path data w :
  os_WriteFile env path data w =
    if faults env OpWriteFile then (Err ErrIO, w)
    else (Ok tt, World_set_fs (<[path := data]> (fs w)) w).
Proof. reflexivity. Qed.

(** Step 4 of [ApproveAct]: afterwards the old file is gone, whether the
    removal succeeded or the file was not there. *)
Lemma removeOld_spec env (path : string) (w : World) :
  faults env OpRemove = false ->
  let m : M unit :=
    if decide (path <> "") then
      r ← try (os_Remove env path);
      match r with
      | Err err => logPrintf ("failed to delete draft PDF: " +:+ Error_string err)
      | Ok _ => mret tt
      end
    else mret tt in
  fst (m w) = Ok tt /\ db (snd (m w)) = db w /\ ticks (snd (m w)) = ticks w /\
  fs (snd (m w)) = if decide (path <> "") then delete path (fs w) else fs w.
Proof.
  intros Hf m. subst m. destruct (decide (path <> "")); [|done].
  rewrite bind_try. unfold os_Remove. rewrite Hf.
  destruct (fs w !! path) eqn:E; simpl; repeat split.
  by rewrite delete_id.
Qed.

Lemma regenerateApproved_clear_run env storagePath taskID act a t w :
  no_faults env ->
  ia_Edges_Task act = Some t ->
  a ∈ inspection_acts (db w) ->
  ia_ID act = ia_ID a ->
  let results := loadResult (db w) <$> resultsOfTask (db w) taskID in
  let pdf := drawAct act t results (clock env (ticks w)) in
  let fullPath :=
    filepath_Join storagePath (actFilename (ia_TaskID act) (clock env (S (ticks w)))) in
  DocumentPathValidator fullPath = true ->
  let r := regenerateApproved env storagePath taskID act w in
  fst r = Ok tt /\
  inspection_acts (db (snd r))
    = updateByID a (Act_SetDocumentPath fullPath) <$> inspection_acts (db w) /\
  fs (snd r) = <[fullPath := pdf]>
                 (if decide (ia_DocumentPath act <> "")
                  then delete (ia_DocumentPath act) (fs w) else fs w).
Proof.
  intros Hnf Ht Hin Hid results pdf fullPath Hv r. subst r.
  unfold regenerateApproved. rewrite bind_run.
  pose proof (removeOld_spec env (ia_DocumentPath act) w (Hnf _)) as H4.
  simpl in H4. destruct H4 as (H4r & H4db & H4t & H4fs).
  match goal with
  | |- context [ (if decide (ia_DocumentPath act <> "") then ?x else ?y) w ] =>
      set (m4 := (if decide (ia_DocumentPath act <> "") then x else y) w) in *
  end.
  destruct m4 as [r4 [db4 fs4 logs4 ticks4]]. simpl in *. subst.
  rewrite bind_try, Result_All_run by apply Hnf. simpl.
  rewrite bind_try, (generatePDF_run env act t) by done.
  rewrite !Hnf. simpl. rewrite bind_try.
  rewrite os_WriteFile_run, Hnf. simpl. rewrite bind_try.
  fold results pdf fullPath.
  edestruct (Act_UpdateOne_run env OpActSetDocumentPath act a
               (DocumentPathValidator fullPath) (Act_SetDocumentPath fullPath))
    as (row & -> & _); [apply Hnf|exact Hv| |exact Hid|]; [exact Hin|].
  simpl. done.
Qed.

(** A failure after the approval is stored leaves its line in the log. *)
Lemma regenerateApproved_logs env storagePath taskID act t w :
  ia_Edges_Task act = Some t ->
  let r := regenerateApproved env storagePath taskID act w in
  (forall line, approveFailureLine env = Some line -> line ∈ logs (snd r)) /\
  (approveFailureLine env = None ->
   faults env OpActSetDocumentPath = true ->
   exists e, ("failed to update document_path: " +:+ Error_string e) ∈ logs (snd r)).
Proof.
  intros Ht. unfold regenerateApproved, approveFailureLine. rewrite bind_run.
  set (m4 := if decide (ia_DocumentPath act <> "") then _ else _).
  assert (fst (m4 w) = Ok tt) as H4.
  { subst m4. destruct (decide _); [|done]. rewrite bind_try.
    by destruct (os_Remove env (ia_DocumentPath act) w) as [[[]|err] w1]. }
  destruct (m4 w) as [r4 w4]. simpl in H4. subst r4. clear m4.
  rewrite bind_try. unfold Result_All, fault. rewrite !bind_run.
  destruct (faults env OpResultAll); simpl.
  { split; [|done]. intros line [= <-]. apply elem_of_app. right. left. }
  rewrite bind_try, (generatePDF_run env act t) by done.
  destruct (faults env OpFontRegular); simpl.
  { split; [|done]. intros line [= <-]. apply elem_of_app. right. left. }
  destruct (faults env OpFontBold); simpl.
  { split; [|done]. intros line [= <-]. apply elem_of_app. right. left. }
  destruct (faults env OpOutput); simpl.
  { split; [|done]. intros line [= <-]. apply elem_of_app. right. left. }
  rewrite bind_try, os_WriteFile_run.
  destruct (faults env OpWriteFile); simpl.
  { split; [|done]. intros line [= <-]. apply elem_of_app. right. left. }
  split; [done|]. intros _ Hf. rewrite bind_try.
  unfold Act_UpdateOne, fault. rewrite Hf.
  destruct (DocumentPathValidator _); simpl.
  - exists ErrIO. apply elem_of_app. left. apply elem_of_app. right. left.
  - exists ErrValidation. apply elem_of_app. left. apply elem_of_app. right. left.
Qed.

Lemma inspection_acts_set v s d : inspection_acts (DB_set_acts v s d) = v.
Proof. reflexivity. Qed.

Lemma updateByID_same_key (act a : InspectionAct) set :
  ia_ID act = ia_ID a -> updateByID act set = updateByID a set.
Proof. intros Hid. unfold updateByID. by rewrite Hid. Qed.

Lemma ApproveAct_run env storagePath taskID w a :
  faults env OpActOnly = false ->
  faults env OpActApprove = false ->
  actsOfTask (db w) taskID = [a] ->
  let now := clock env (ticks w) in
  ApproveAct env storagePath taskID w =
    regenerateApproved env storagePath taskID
      (approve now (Act_WithTask (loadTaskFull (db w) taskID) a))
      (mkWorld (DB_set_acts (updateByID a (approve now) <$> inspection_acts (db w))
                  (act_seq (db w)) (db w))
         (fs w) (logs w) (S (ticks w))).
Proof.
  intros Hq Hu Hone now.
  destruct (elem_of_actsOfTask _ _ _ Hone) as [Hin Htid].
  unfold ApproveAct. rewrite bind_try, Act_Only_WithTask_run, Hone by done.
  simpl. rewrite bind_run. simpl. rewrite bind_try. rewrite Htid.
  edestruct (Act_UpdateOne_run env OpActApprove
               (Act_WithTask (loadTaskFull (db w) taskID) a) a true (approve now))
    as (row & -> & _); [exact Hu|done| |done|]; [exact Hin|].
  done.
Qed.

(** [ApproveAct] in terms of the setters of its two updates. *)
Lemma ApproveAct_spec (env : Env) (storagePath : string)
    (taskID : Z) (w : World) :
  faults env OpActOnly = false ->
  let r := ApproveAct env storagePath taskID w in
  let now := clock env (ticks w) in
  (actsOfTask (db w) taskID = [] -> r = (Err ErrActNotFound, w)) /\
  (forall a, actsOfTask (db w) taskID = [a] ->
     faults env OpActApprove = false ->
       fst r = Ok tt /\
       length (inspection_acts (db (snd r))) = length (inspection_acts (db w)) /\
       exists p, actsOfTask (db (snd r)) taskID
                   = [Act_SetDocumentPath p (approve now a)]) /\
  (forall a t, actsOfTask (db w) taskID = [a] ->
     faults env OpActApprove = false ->
     loadTaskFull (db w) taskID = Some t ->
       (forall line, approveFailureLine env = Some line -> line ∈ logs (snd r)) /\
       (approveFailureLine env = None ->
        faults env OpActSetDocumentPath = true ->
          exists e, ("failed to update document_path: " +:+ Error_string e)
                      ∈ logs (snd r))) /\
  (forall a t, actsOfTask (db w) taskID = [a] ->
     loadTaskFull (db w) taskID = Some t ->
     no_faults env ->
     let results := loadResult (db w) <$> resultsOfTask (db w) taskID in
     let pdf := drawAct (approve now (Act_WithTask (Some t) a)) t results
                  (clock env (S (ticks w))) in
     let fullPath :=
       filepath_Join storagePath (actFilename taskID (clock env (S (S (ticks w))))) in
     DocumentPathValidator fullPath = true ->
       actsOfTask (db (snd r)) taskID = [Act_SetDocumentPath fullPath (approve now a)] /\
       fs (snd r) = <[fullPath := pdf]>
                      (if decide (ia_DocumentPath a <> "")
                       then delete (ia_DocumentPath a) (fs w) else fs w)).
Proof.
  intros Hq r now. subst r. split; [|split; [|split]].
  - intros Hnone. unfold ApproveAct.
    by rewrite bind_try, Act_Only_WithTask_run, Hnone.
  - intros a Hone Hu.
    rewrite (ApproveAct_run env storagePath taskID w a) by done. fold now.
    set (act := approve now (Act_WithTask (loadTaskFull (db w) taskID) a)).
    set (w2 := mkWorld _ _ _ _).
    destruct (regenerateApproved_swallows env storagePath taskID act w2)
      as [Hok Hdb].
    split; [exact Hok|].
    assert (actsOfTask (db w2) taskID = [approve now a]) as Hone2.
    { unfold actsOfTask.
      change (inspection_acts (db w2))
        with (updateByID a (approve now) <$> inspection_acts (db w)).
      rewrite actsOfTask_update by done.
      rewrite Hone. simpl. unfold updateByID. by rewrite decide_True. }
    destruct Hdb as [-> | [p ->]].
    + split; [unfold w2; simpl; by rewrite length_fmap|].
      exists (ia_DocumentPath a). rewrite Hone2. by destruct a.
    + split; [unfold w2; simpl; by rewrite !length_fmap|].
      exists p. unfold actsOfTask at 1. rewrite inspection_acts_set.
      rewrite actsOfTask_update by done. rewrite Hone2. simpl.
      unfold updateByID, act. simpl. by rewrite decide_True.
  - intros a t Hone Hu Ht.
    rewrite (ApproveAct_run env storagePath taskID w a) by done. fold now.
    rewrite Ht. by apply (regenerateApproved_logs env storagePath taskID _ t).
  - intros a t Hone Ht Hnf results pdf fullPath Hv.
    destruct (elem_of_actsOfTask _ _ _ Hone) as [Hin Htid].
    rewrite (ApproveAct_run env storagePath taskID w a) by (try apply Hnf; done).
    fold now. rewrite Ht.
    set (act := approve now (Act_WithTask (Some t) a)).
    set (w2 := mkWorld _ _ _ _).
    destruct (regenerateApproved_clear_run env storagePath taskID act
                (approve now a) t w2) as (_ & Hacts & Hfs); try done.
    { unfold w2. simpl. apply list_elem_of_fmap. exists a. split; [|done].
      unfold updateByID. by rewrite decide_True. }
    { unfold w2, act. simpl. by rewrite Htid. }
    split.
    + unfold actsOfTask at 1. rewrite Hacts.
      rewrite actsOfTask_update by done.
      unfold actsOfTask, w2. simpl db. rewrite inspection_acts_set.
      rewrite actsOfTask_update by done. rewrite Hone. simpl.
      unfold updateByID. simpl.
      destruct (decide (ia_ID a = ia_ID a)); [|done]. simpl.
      rewrite decide_True by done. unfold fullPath. by rewrite Htid.
    + rewrite Hfs. unfold act, w2. simpl. by rewrite Htid.
Qed.

(** C6.  [ApproveAct], when its lookup reaches the store: without an act it
    returns [ErrActNotFound] and changes nothing.  With the act [a] of the
    task, once the approval update goes through, the call returns success
    whatever fails afterwards, no act row is added or removed, and the act
    of the task has the approval time of the clock reading, the status
    "утверждён" and the conclusion "Акт осмотра утверждён координатором.",
    with the key, the task and the creation time of [a]; the first of
    loading the results, rendering and writing the file to fail leaves its
    line in the log, and so does a failed update of the path.  When nothing
    fails, the old document file is removed, the act is rendered anew (the
    document shows the approved act and one table row per result of the
    task), the file is written under the storage path joined with the new
    file name, and that path is recorded on the act. *)
Theorem ApproveAct_commits_then_regenerates (env : Env) (storagePath : string)
    (taskID : Z) (w : World) :
  faults env OpActOnly = false ->
  let r := ApproveAct env storagePath taskID w in
  let now := clock env (ticks w) in
  (actsOfTask (db w) taskID = [] -> r = (Err ErrActNotFound, w)) /\
  (forall a, actsOfTask (db w) taskID = [a] ->
     faults env OpActApprove = false ->
       fst r = Ok tt /\
       length (inspection_acts (db (snd r))) = length (inspection_acts (db w)) /\
       exists a', actsOfTask (db (snd r)) taskID = [a'] /\
                  approvalCommitted now a a') /\
  (forall a t, actsOfTask (db w) taskID = [a] ->
     faults env OpActApprove = false ->
     loadTaskFull (db w) taskID = Some t ->
       (forall line, approveFailureLine env = Some line -> line ∈ logs (snd r)) /\
       (approveFailureLine env = None ->
        faults env OpActSetDocumentPath = true ->
          exists e, ("failed to update document_path: " +:+ Error_string e)
                      ∈ logs (snd r))) /\
  (forall a t, actsOfTask (db w) taskID = [a] ->
     loadTaskFull (db w) taskID = Some t ->
     no_faults env ->
     let filename := actFilename taskID (clock env (S (S (ticks w)))) in
     let fullPath := filepath_Join storagePath filename in
     DocumentPathValidator fullPath = true ->
       exists a' pdf,
         actsOfTask (db (snd r)) taskID = [a'] /\
         approvalCommitted now a a' /\
         ia_DocumentPath a' = fullPath /\
         fs (snd r) = <[fullPath := pdf]>
                        (if decide (ia_DocumentPath a <> "")
                         then delete (ia_DocumentPath a) (fs w) else fs w) /\
         pdf = drawAct (approve now (Act_WithTask (Some t) a)) t
                 (loadResult (db w) <$> resultsOfTask (db w) taskID)
                 (clock env (S (ticks w))) /\
         showsAct pdf a' /\
         tableFollows pdf (catalogName (db w)) (resultsOfTask (db w) taskID) /\
         (cleanDir storagePath -> fullPath = storagePath +:+ "/" +:+ filename)).
Proof.
  intros Hq r now.
  destruct (ApproveAct_spec env storagePath taskID w Hq)
    as (Hnone & Hcommit & Hlogs & Hclear).
  fold r in Hnone, Hcommit, Hlogs, Hclear. fold now in Hcommit, Hclear.
  split; [exact Hnone|]. split; [|split; [exact Hlogs|]].
  - intros a Hone Hu. destruct (Hcommit a Hone Hu) as (Hok & Hlen & p & Hact).
    split; [exact Hok|]. split; [exact Hlen|].
    eexists. split; [exact Hact|]. by repeat split.
  - intros a t Hone Ht Hnf filename fullPath Hv.
    destruct (Hclear a t Hone Ht Hnf Hv) as [Hact Hfs].
    eexists _, _. split; [exact Hact|]. split; [by repeat split|].
    split; [reflexivity|]. split; [exact Hfs|]. split; [reflexivity|].
    split; [exact (showsAct_drawAct (approve now (Act_WithTask (Some t) a)) t _ _)|].
    split.
    + apply tableFollows_loaded, tableFollows_drawAct.
    + intros Hclean. apply filepath_Join_cleanDir; [exact Hclean|].
      apply realElement_actFilename.
Qed.

(** ** The document: stored copy or fresh rendering *)

Lemma readStored_hit env act w data :
  ia_DocumentPath act <> "" ->
  faults env OpReadFile = false ->
  fs w !! ia_DocumentPath act = Some data ->
  readStored env act w = (Ok (Some (data, filepath_Base (ia_DocumentPath act))), w).
Proof.
  intros Hp Hf Hfile. unfold readStored. rewrite decide_True by done.
  rewrite bind_try. unfold os_ReadFile. by rewrite Hf, Hfile.
Qed.

Lemma readStored_miss env act w :
  ia_DocumentPath act = "" \/ fs w !! ia_DocumentPath act = None \/
  faults env OpReadFile = true ->
  let r := readStored env act w in
  fst r = Ok None /\ db (snd r) = db w /\ fs (snd r) = fs w /\
  ticks (snd r) = ticks w.
Proof.
  intros Hmiss. unfold readStored.
  destruct (decide (ia_DocumentPath act <> "")) as [Hp|Hp]; [|done].
  rewrite bind_try. unfold os_ReadFile.
  destruct (faults env OpReadFile); [done|].
  destruct Hmiss as [?|[->|?]]; done.
Qed.

Lemma renderAndStore_run env storagePath taskID act a t w :
  no_faults env ->
  ia_Edges_Task act = Some t ->
  a ∈ inspection_acts (db w) ->
  ia_ID act = ia_ID a ->
  let results := loadResult (db w) <$> resultsOfTask (db w) taskID in
  let pdf := drawAct act t results (clock env (ticks w)) in
  let filename := actFilename (ia_TaskID act) (clock env (S (ticks w))) in
  let fullPath := filepath_Join storagePath filename in
  DocumentPathValidator fullPath = true ->
  let r := renderAndStore env storagePath taskID act w in
  fst r = Ok (pdf, filename) /\
  inspection_acts (db (snd r))
    = updateByID a (Act_SetDocumentPath fullPath) <$> inspection_acts (db w) /\
  fs (snd r) = <[fullPath := pdf]> (fs w).
Proof.
  intros Hnf Ht Hin Hid results pdf filename fullPath Hv r. subst r.
  unfold renderAndStore.
  rewrite bind_try, Result_All_run by apply Hnf. simpl.
  rewrite bind_run, (generatePDF_run env act t) by done.
  rewrite !Hnf. simpl. rewrite bind_try.
  rewrite os_WriteFile_run, Hnf. simpl. rewrite bind_try.
  fold results pdf filename fullPath.
  edestruct (Act_UpdateOne_run env OpActSetDocumentPath act a
               (DocumentPathValidator fullPath) (Act_SetDocumentPath fullPath))
    as (row & -> & _); [apply Hnf|exact Hv| |exact Hid|]; [exact Hin|].
  simpl. done.
Qed.

Lemma renderAndStore_surfaces env storagePath taskID act t w :
  ia_Edges_Task act = Some t ->
  faults env OpResultAll = true \/ faults env OpFontRegular = true \/
  faults env OpFontBold = true \/ faults env OpOutput = true \/
  faults env OpWriteFile = true ->
  let r := renderAndStore env storagePath taskID act w in
  (exists e, fst r = Err e) /\ db (snd r) = db w /\ fs (snd r) = fs w.
Proof.
  intros Ht Hfault. unfold renderAndStore. rewrite bind_try.
  unfold Result_All, fault. rewrite !bind_run.
  destruct (faults env OpResultAll) eqn:E1; simpl; [by eauto|].
  rewrite bind_run, (generatePDF_run env act t) by done.
  destruct (faults env OpFontRegular) eqn:E2; simpl; [by eauto|].
  destruct (faults env OpFontBold) eqn:E3; simpl; [by eauto|].
  destruct (faults env OpOutput) eqn:E4; simpl; [by eauto|].
  rewrite bind_try, os_WriteFile_run.
  destruct (faults env OpWriteFile) eqn:E5; simpl; [by eauto|].
  destruct Hfault as [H|[H|[H|[H|H]]]]; congruence.
Qed.

(** A fresh rendering, step by step: the first of loading the results,
    rendering and writing the file to fail ends the call with its error and
    nothing stored; otherwise the document is returned and written, and the
    path is recorded on the act unless that last update fails, which is
    logged only. *)
Lemma renderAndStore_outcome env storagePath taskID act a t w :
  ia_Edges_Task act = Some t ->
  a ∈ inspection_acts (db w) ->
  ia_ID act = ia_ID a ->
  let results := loadResult (db w) <$> resultsOfTask (db w) taskID in
  let pdf := drawAct act t results (clock env (ticks w)) in
  let filename := actFilename (ia_TaskID act) (clock env (S (ticks w))) in
  let fullPath := filepath_Join storagePath filename in
  let r := renderAndStore env storagePath taskID act w in
  (renderFailure env = None ->
     fst r = Ok (pdf, filename) /\
     fs (snd r) = <[fullPath := pdf]> (fs w) /\
     (faults env OpActSetDocumentPath = false ->
      DocumentPathValidator fullPath = true ->
        inspection_acts (db (snd r))
          = updateByID a (Act_SetDocumentPath fullPath) <$> inspection_acts (db w)) /\
     (faults env OpActSetDocumentPath = true \/
      DocumentPathValidator fullPath = false ->
        db (snd r) = db w /\
        exists e, ("failed to update inspection act with document_path: "
                   +:+ Error_string e) ∈ logs (snd r))) /\
  (forall e, renderFailure env = Some e ->
     fst r = Err e /\ db (snd r) = db w /\ fs (snd r) = fs w).
Proof.
  intros Ht Hin Hid results pdf filename fullPath r. subst r.
  unfold renderAndStore, renderFailure. rewrite bind_try.
  unfold Result_All, fault. rewrite !bind_run.
  destruct (faults env OpResultAll) eqn:E1; simpl.
  { split; [discriminate|]. by intros e [= <-]. }
  rewrite bind_run, (generatePDF_run env act t) by done.
  destruct (faults env OpFontRegular) eqn:E2; simpl.
  { split; [discriminate|]. by intros e [= <-]. }
  destruct (faults env OpFontBold) eqn:E3; simpl.
  { split; [discriminate|]. by intros e [= <-]. }
  destruct (faults env OpOutput) eqn:E4; simpl.
  { split; [discriminate|]. by intros e [= <-]. }
  rewrite bind_try, os_WriteFile_run.
  destruct (faults env OpWriteFile) eqn:E5; simpl.
  { split; [discriminate|]. by intros e [= <-]. }
  split; [|discriminate]. intros _. rewrite bind_try.
  fold results pdf filename fullPath.
  set (w1 := World_set_fs _ _).
  destruct (faults env OpActSetDocumentPath) eqn:E6;
    [|destruct (DocumentPathValidator fullPath) eqn:Ev].
  - unfold Act_UpdateOne, fault. rewrite E6.
    destruct (DocumentPathValidator fullPath); simpl;
      (split; [done|]); (split; [done|]); (split; [discriminate|]); intros _;
      (split; [done|]);
      [exists ErrIO | exists ErrValidation]; apply elem_of_app; right; left.
  - edestruct (Act_UpdateOne_run env OpActSetDocumentPath act a
                 true (Act_SetDocumentPath fullPath) w1)
      as (row & -> & _); [exact E6|done| |exact Hid|]; [exact Hin|].
    simpl. split; [done|]. split; [done|]. split; [done|].
    intros [?|?]; discriminate.
  - unfold Act_UpdateOne. simpl.
    split; [done|]. split; [done|]. split; [discriminate|]. intros _.
    split; [done|]. exists ErrValidation. apply elem_of_app. right. left.
Qed.

(** C7 (as the code has it).  [GeneratePDFForAct], when its lookup reaches
    the store: without an act it returns [ErrActNotFound] and changes
    nothing.  With a recorded path whose file can be read it returns the
    stored bytes under the base name of the path and leaves the world as it
    was (nothing is rendered, written or recorded).  Otherwise it renders:
    when loading the results, rendering or writing the file fails, it
    returns that step's error, with the database and the files untouched;
    when none of them fails it returns the rendered act (the document
    shows the act, with one table row per result of the task) under the new
    file name and has written it under the storage path joined with that
    name.  The path is recorded on the act, which keeps its other columns,
    when that update goes through; when it fails, the failure is logged
    only: the document is returned and stays on disk, and the database is
    as it was. *)
Theorem GeneratePDFForAct_cache_or_render (env : Env) (storagePath : string)
    (taskID : Z) (w : World) :
  faults env OpActOnly = false ->
  let r := GeneratePDFForAct env storagePath taskID w in
  (actsOfTask (db w) taskID = [] -> r = (Err ErrActNotFound, w)) /\
  (forall a data, actsOfTask (db w) taskID = [a] ->
     ia_DocumentPath a <> "" ->
     faults env OpReadFile = false ->
     fs w !! ia_DocumentPath a = Some data ->
       r = (Ok (data, filepath_Base (ia_DocumentPath a)), w)) /\
  (forall a t, actsOfTask (db w) taskID = [a] ->
     loadTaskFull (db w) taskID = Some t ->
     cacheMiss env w a ->
     let filename := actFilename taskID (clock env (S (ticks w))) in
     let fullPath := filepath_Join storagePath filename in
     (forall e, renderFailure env = Some e ->
        fst r = Err e /\ db (snd r) = db w /\ fs (snd r) = fs w) /\
     (renderFailure env = None ->
        exists pdf,
          fst r = Ok (pdf, filename) /\
          fs (snd r) = <[fullPath := pdf]> (fs w) /\
          pdf = drawAct (Act_WithTask (Some t) a) t
                  (loadResult (db w) <$> resultsOfTask (db w) taskID)
                  (clock env (ticks w)) /\
          showsAct pdf a /\
          tableFollows pdf (catalogName (db w)) (resultsOfTask (db w) taskID) /\
          (cleanDir storagePath -> fullPath = storagePath +:+ "/" +:+ filename) /\
          (faults env OpActSetDocumentPath = false ->
           DocumentPathValidator fullPath = true ->
             length (inspection_acts (db (snd r))) = length (inspection_acts (db w)) /\
             exists a', actsOfTask (db (snd r)) taskID = [a'] /\
                        ia_DocumentPath a' = fullPath /\ pathRecorded a a') /\
          (faults env OpActSetDocumentPath = true \/
           DocumentPathValidator fullPath = false ->
             db (snd r) = db w /\
             exists e, ("failed to update inspection act with document_path: "
                        +:+ Error_string e) ∈ logs (snd r)))).
Proof.
  intros Hq r. subst r. unfold GeneratePDFForAct.
  rewrite bind_try, Act_Only_WithTask_run by done.
  split; [|split].
  - by intros ->.
  - intros a data -> Hp Hf Hfile. simpl.
    rewrite bind_run.
    rewrite (readStored_hit env (Act_WithTask (loadTaskFull (db w) (ia_TaskID a)) a)
               w data Hp Hf Hfile).
    done.
  - intros a t Hone Ht Hmiss. cbv zeta.
    destruct (elem_of_actsOfTask _ _ _ Hone) as [Hin Htid].
    rewrite Hone. simpl. rewrite Htid, Ht. rewrite bind_run.
    set (act := Act_WithTask (Some t) a).
    destruct (readStored_miss env act w Hmiss) as (Hr & Hdb & Hfs & Hticks).
    destruct (readStored env act w) as [r1 [db1 fs1 logs1 ticks1]].
    simpl in *. subst.
    destruct (renderAndStore_outcome env storagePath (ia_TaskID a) act a t
                (mkWorld (db w) (fs w) logs1 (ticks w)) eq_refl Hin eq_refl)
      as [Hgood Hbad].
    simpl in Hgood, Hbad.
    split; [exact Hbad|].
    intros Hnone. destruct (Hgood Hnone) as (Hfst & Hfiles & Hrec & Hlost).
    eexists. split; [exact Hfst|]. split; [exact Hfiles|].
    split; [reflexivity|].
    split; [exact (showsAct_drawAct act t _ _)|].
    split; [apply tableFollows_loaded, tableFollows_drawAct|].
    split.
    { intros Hclean. apply filepath_Join_cleanDir; [exact Hclean|].
      apply realElement_actFilename. }
    split; [|exact Hlost].
    intros Hu Hv. split; [by rewrite (Hrec Hu Hv), length_fmap|].
    eexists. split.
    + unfold actsOfTask at 1. rewrite (Hrec Hu Hv). simpl.
      rewrite actsOfTask_update by done. rewrite Hone. simpl.
      unfold updateByID. by rewrite decide_True.
    + split; [done|]. by repeat split.
Qed.

(** ** The results table *)

Lemma generatePDF_Ok env act results w pdf filename w' :
  generatePDF env act results w = (Ok (pdf, filename), w') ->
  exists t,
    ia_Edges_Task act = Some t /\
    pdf = drawAct act t results (clock env (ticks w)) /\
    filename = actFilename (ia_TaskID act) (clock env (S (ticks w))).
Proof.
  destruct (ia_Edges_Task act) as [t|] eqn:Ht.
  - rewrite (generatePDF_run env act t) by done.
    destruct (faults env OpFontRegular); [discriminate|].
    destruct (faults env OpFontBold); [discriminate|].
    destruct (faults env OpOutput); [discriminate|].
    intros [= <- <- <-]. by exists t.
  - unfold generatePDF. rewrite Ht. discriminate.
Qed.

Lemma renderAndStore_Ok env storagePath taskID act w pdf filename w' :
  renderAndStore env storagePath taskID act w = (Ok (pdf, filename), w') ->
  exists t today,
    pdf = drawAct act t (loadResult (db w) <$> resultsOfTask (db w) taskID) today.
Proof.
  unfold renderAndStore. rewrite bind_try.
  unfold Result_All, fault. rewrite !bind_run.
  destruct (faults env OpResultAll); simpl; [discriminate|].
  rewrite bind_run.
  destruct (generatePDF env act _ w) as [[[pdf1 filename1]|err] w1] eqn:Egen;
    [|discriminate].
  apply generatePDF_Ok in Egen as (t & _ & -> & _).
  rewrite bind_try.
  destruct (os_WriteFile env _ _ w1) as [[[]|err] w2]; simpl; [|discriminate].
  rewrite bind_try.
  destruct (Act_UpdateOne env OpActSetDocumentPath act _ _ w2) as [[row|e] w3];
    simpl; intros [= <- _ _]; eauto.
Qed.

(** C8 (as the code has it).  On every rendering the body of the results
    table has one row per result handed to [generatePDF], in the order of
    that slice: row [k] (from 0) is numbered [k + 1] and carries the element
    name, the condition and the comment of the [k]-th result.
    [GeneratePDFForAct] hands over the results of the task as the result
    query returns them: the rows are not sorted by the order index of their
    elements. *)
Theorem results_table_in_query_order (env : Env) :
  (forall act results w pdf filename w',
     generatePDF env act results w = (Ok (pdf, filename), w') ->
     tableFollows pdf elementName results) /\
  (forall storagePath taskID w w' a pdf filename,
     faults env OpActOnly = false ->
     actsOfTask (db w) taskID = [a] ->
     cacheMiss env w a ->
     GeneratePDFForAct env storagePath taskID w = (Ok (pdf, filename), w') ->
     tableFollows pdf (catalogName (db w)) (resultsOfTask (db w) taskID)).
Proof.
  split.
  - intros act results w pdf filename w' Hrun.
    apply generatePDF_Ok in Hrun as (t & _ & -> & _).
    apply tableFollows_drawAct.
  - intros storagePath taskID w w' a pdf filename Hq Hone Hmiss.
    unfold GeneratePDFForAct.
    rewrite bind_try, Act_Only_WithTask_run, Hone by done. simpl.
    rewrite bind_run.
    set (act := Act_WithTask _ a).
    destruct (readStored_miss env act w Hmiss) as (Hr & Hdb & _).
    destruct (readStored env act w) as [r1 w1]. simpl in *. subst r1.
    intros Hrun. apply renderAndStore_Ok in Hrun as (t & today & ->).
    rewrite Hdb. apply tableFollows_loaded, tableFollows_drawAct.
Qed.

(** ** File names of rendered documents *)

Lemma digit_inj (a b : Z) :
  0 <= a <= 9 -> 0 <= b <= 9 -> digit a = digit b -> a = b.
Proof.
  intros Ha Hb. unfold digit.
  rewrite !Z.mod_small by lia. intros H.
  apply (f_equal nat_of_ascii) in H.
  rewrite !nat_ascii_embedding in H by lia. lia.
Qed.

Lemma digit_mod (n : Z) : digit n = digit (n mod 10).
Proof. unfold digit. by rewrite Z.mod_mod. Qed.

(** Linear arithmetic with divisions by constants. *)
Ltac div_lia := Z.div_mod_to_equations; lia.

Lemma pad2_inj (a b : Z) :
  0 <= a <= 99 -> 0 <= b <= 99 -> pad2 a = pad2 b -> a = b.
Proof.
  intros Ha Hb. unfold pad2. intros [= H1 H0].
  rewrite (digit_mod a), (digit_mod b) in H0.
  apply digit_inj in H1; [|div_lia..].
  apply digit_inj in H0; [|div_lia..]. div_lia.
Qed.

Lemma pad4_inj (a b : Z) :
  0 <= a <= 9999 -> 0 <= b <= 9999 -> pad4 a = pad4 b -> a = b.
Proof.
  intros Ha Hb. unfold pad4, pad2. intros [= H3 H2 H1 H0].
  rewrite (digit_mod (a / 100)), (digit_mod (b / 100)) in H2.
  rewrite (digit_mod (a / 10)), (digit_mod (b / 10)) in H1.
  rewrite (digit_mod a), (digit_mod b) in H0.
  apply digit_inj in H3; [|div_lia..].
  apply digit_inj in H2; [|div_lia..].
  apply digit_inj in H1; [|div_lia..].
  apply digit_inj in H0; [|div_lia..]. div_lia.
Qed.

Lemma append_inj_l (s a b : string) : s +:+ a = s +:+ b -> a = b.
Proof. induction s as [|c s IH]; simpl; [done|]. intros [= H]. auto. Qed.

Lemma format_stamp_inj (t1 t2 : Time) :
  valid_time t1 -> valid_time t2 ->
  format_stamp t1 = format_stamp t2 -> toSecond t1 = toSecond t2.
Proof.
  intros (Hy1 & Hm1 & Hd1 & Hh1 & Hi1 & Hs1) (Hy2 & Hm2 & Hd2 & Hh2 & Hi2 & Hs2).
  unfold format_stamp, toSecond. cbn [pad4 pad2 String.append].
  intros [= Y3 Y2 Y1 Y0 M1 M0 D1 D0 H1 H0 I1 I0 S1 S0].
  assert (pad4 (year t1) = pad4 (year t2)) as Hy
    by (unfold pad4, pad2; by rewrite Y3, Y2, Y1, Y0).
  assert (pad2 (month t1) = pad2 (month t2)) as Hm
    by (unfold pad2; by rewrite M1, M0).
  assert (pad2 (day t1) = pad2 (day t2)) as Hd
    by (unfold pad2; by rewrite D1, D0).
  assert (pad2 (hour t1) = pad2 (hour t2)) as Hh
    by (unfold pad2; by rewrite H1, H0).
  assert (pad2 (minute t1) = pad2 (minute t2)) as Hi
    by (unfold pad2; by rewrite I1, I0).
  assert (pad2 (second t1) = pad2 (second t2)) as Hs
    by (unfold pad2; by rewrite S1, S0).
  apply pad4_inj in Hy; [|lia..].
  apply pad2_inj in Hm; [|lia..]. apply pad2_inj in Hd; [|lia..].
  apply pad2_inj in Hh; [|lia..]. apply pad2_inj in Hi; [|lia..].
  apply pad2_inj in Hs; [|lia..].
  by rewrite Hy, Hm, Hd, Hh, Hi, Hs.
Qed.

(** C9 (as the code has it).  The file name of a rendering is made of the
    task id and the clock reading taken after the document is produced, cut
    to whole seconds: for one task, two renderings get the same name exactly
    when their readings fall in the same second. *)
Theorem actFilename_same_iff_same_second (env : Env) (act : InspectionAct)
    (rs1 rs2 : list InspectionResult) (w1 w2 w1' w2' : World)
    (pdf1 pdf2 : PDF) (f1 f2 : string) :
  valid_time (clock env (S (ticks w1))) ->
  valid_time (clock env (S (ticks w2))) ->
  generatePDF env act rs1 w1 = (Ok (pdf1, f1), w1') ->
  generatePDF env act rs2 w2 = (Ok (pdf2, f2), w2') ->
  f1 = actFilename (ia_TaskID act) (clock env (S (ticks w1))) /\
  f2 = actFilename (ia_TaskID act) (clock env (S (ticks w2))) /\
  (f1 = f2 <->
   toSecond (clock env (S (ticks w1))) = toSecond (clock env (S (ticks w2)))).
Proof.
  intros Hv1 Hv2 Hg1 Hg2.
  apply generatePDF_Ok in Hg1 as (_ & _ & _ & ->).
  apply generatePDF_Ok in Hg2 as (_ & _ & _ & ->).
  split; [done|]. split; [done|].
  set (t1 := clock env (S (ticks w1))) in *.
  set (t2 := clock env (S (ticks w2))) in *.
  unfold actFilename. split.
  - intros H. apply append_inj_l in H. apply append_inj_l in H.
    apply append_inj_l in H.
    apply format_stamp_inj; [done..|].
    revert H. unfold format_stamp. cbn [pad4 pad2 String.append].
    intros [= Y3 Y2 Y1 Y0 M1 M0 D1 D0 H1 H0 I1 I0 S1 S0].
    unfold pad4, pad2. congruence.
  - unfold toSecond, format_stamp. intros [= Hy Hm Hd Hh Hi Hs].
    by rewrite Hy, Hm, Hd, Hh, Hi, Hs.
Qed.

(** ** Submitting a task *)

(** C10.  For a task in progress, whatever results have been recorded for it
    (none included), [SubmitTask] answers 200 as soon as its two task
    queries go through: the task is on review afterwards, no result row
    was read or changed, and when the act queries go through as well a task
    without an act has got its draft. *)
Theorem SubmitTask_ignores_results (env : Env) (w : World) (idParam : string)
    (id : Z) (t : Task) :
  strconv_Atoi idParam = Some id ->
  tasks (db w) !! id = Some t ->
  t_Status t = StatusInProgress ->
  faults env OpTaskOnly = false ->
  faults env OpTaskUpdate = false ->
  let r := SubmitTask env idParam w in
  fst r = Ok (mkHTTP 200 "Task submitted for review") /\
  t_Status <$> tasks (db (snd r)) !! id = Some StatusOnReview /\
  inspection_results (db (snd r)) = inspection_results (db w) /\
  (faults env OpActOnly = false -> faults env OpActCreate = false ->
   actsOfTask (db w) id = [] ->
     actCreated (db w) (db (snd r)) id defaultConclusion).
Proof.
  intros Hid Ht Hst Hq Hu r. subst r.
  assert ((t_Status t, StatusOnReview) ∈ legalPairs) as Hlegal
    by (rewrite Hst; compute_done).
  destruct (UpdateTaskStatus_OnReview_acts env w id t Hq Hu Ht Hlegal)
    as (w1 & Hacts & Htask & Hres & Hok & Hdb).
  unfold SubmitTask. rewrite Hid, bind_try.
  destruct (UpdateTaskStatus env id StatusOnReview w) as [r0 w'].
  simpl in Hok, Hdb. subst r0. simpl.
  rewrite Hdb. split; [done|]. split; [|split].
  - rewrite (preserves_CreateOrUpdateAct tasks (fun _ _ _ => eq_refl)).
    by rewrite Htask.
  - by rewrite (preserves_CreateOrUpdateAct inspection_results
                  (fun _ _ _ => eq_refl)).
  - intros Hao Hac Hnone.
    destruct (CreateOrUpdateAct_spec env w1 id defaultConclusion Hao)
      as [Hfirst _].
    unfold actCreated, actsOfTask in *. rewrite Hacts in *.
    apply Hfirst; [done|done|by rewrite Htask].
Qed.

(** ** The statements at the sample installation *)

Lemma no_faults_sample : no_faults Sample.env.
Proof. intros op. reflexivity. Defined.

Lemma foundation_in_checklist (st : Status) :
  elementInChecklist (Sample.db0 st) 10 1.
Proof. exists Sample.foundation. split; [left|done]. Defined.

Lemma UpdateTaskStatus_guards_witness :
  faults Sample.env OpTaskOnly = false /\
  tasks (db (Sample.world0 StatusNew)) !! 7 = None /\
  tasks (db (Sample.world0 StatusNew)) !! 1 = Some (Sample.task1 StatusNew) /\
  ((StatusNew, StatusApproved) ∉ legalPairs) /\
  UpdateTaskStatus Sample.env 7 StatusPending (Sample.world0 StatusNew)
    = (Err ErrTaskNotFound, Sample.world0 StatusNew) /\
  UpdateTaskStatus Sample.env 1 StatusApproved (Sample.world0 StatusNew)
    = (Err ErrInvalidStatusTransition, Sample.world0 StatusNew).
Proof.
  assert ((StatusNew, StatusApproved) ∉ legalPairs) as Hno by compute_done.
  split; [reflexivity|]. split; [reflexivity|]. split; [reflexivity|].
  split; [exact Hno|]. split.
  - apply (UpdateTaskStatus_guards Sample.env (Sample.world0 StatusNew) 7
             StatusPending); reflexivity.
  - apply (UpdateTaskStatus_guards Sample.env (Sample.world0 StatusNew) 1
             StatusApproved) with (t := Sample.task1 StatusNew);
      [reflexivity|reflexivity|exact Hno].
Defined.

Lemma UpdateTaskStatus_persists_then_runs_side_effect_witness :
  faults Sample.rainyEnv OpTaskOnly = false /\
  faults Sample.rainyEnv OpTaskUpdate = false /\
  tasks (db (Sample.world0 StatusInProgress)) !! 1
    = Some (Sample.task1 StatusInProgress) /\
  (StatusInProgress, StatusOnReview) ∈ legalPairs /\
  (exists e w2,
     CreateOrUpdateAct Sample.rainyEnv 1 defaultConclusion
       (snd (NewInspectionActService Sample.rainyEnv "storage/acts"
               (persisted Sample.rainyEnv 1 StatusOnReview
                  (Sample.task1 StatusInProgress)
                  (Sample.world0 StatusInProgress)))) = (Err e, w2)) /\
  fst (UpdateTaskStatus Sample.rainyEnv 1 StatusOnReview
         (Sample.world0 StatusInProgress)) = Ok tt /\
  t_Status <$> tasks (db (snd (UpdateTaskStatus Sample.rainyEnv 1 StatusOnReview
                                 (Sample.world0 StatusInProgress)))) !! 1
    = Some StatusOnReview.
Proof.
  assert ((StatusInProgress, StatusOnReview) ∈ legalPairs) as Hlegal by compute_done.
  destruct (UpdateTaskStatus_persists_then_runs_side_effect Sample.rainyEnv
              (Sample.world0 StatusInProgress) 1 StatusOnReview
              (Sample.task1 StatusInProgress) eq_refl eq_refl eq_refl Hlegal)
    as (Hrun & Hstatus & Htasks & _).
  split; [reflexivity|]. split; [reflexivity|]. split; [reflexivity|].
  split; [exact Hlegal|]. split; [|split].
  - eexists _, _. vm_compute. reflexivity.
  - by rewrite Hrun.
  - rewrite Hrun. simpl snd. rewrite Htasks. exact Hstatus.
Defined.

Lemma CreateOrUpdateResult_guards_witness :
  faults Sample.env OpTaskOnly = false /\
  CreateOrUpdateResult Sample.env 7 (mkRequest 10 "Исправное" None)
    (Sample.world0 StatusInProgress)
    = (Err ErrTaskNotFound, Sample.world0 StatusInProgress) /\
  CreateOrUpdateResult Sample.env 1 (mkRequest 10 "Исправное" None)
    (Sample.world0 StatusPending)
    = (Err ErrTaskNotInProgress, Sample.world0 StatusPending) /\
  CreateOrUpdateResult Sample.env 1 (mkRequest 20 "Исправное" None)
    (Sample.world0 StatusPending)
    = (Err ErrTaskNotInProgress, Sample.world0 StatusPending) /\
  CreateOrUpdateResult Sample.env 1 (mkRequest 20 "Исправное" None)
    (Sample.world0 StatusInProgress)
    = (Err ErrChecklistElementInvalid, Sample.world0 StatusInProgress).
Proof.
  split; [reflexivity|]. split; [|split; [|split]].
  - exact (CreateOrUpdateResult_guards Sample.env (Sample.world0 StatusInProgress)
             7 (mkRequest 10 "Исправное" None) eq_refl).
  - apply (CreateOrUpdateResult_guards Sample.env (Sample.world0 StatusPending)
             1 (mkRequest 10 "Исправное" None) eq_refl). discriminate.
  - apply (CreateOrUpdateResult_guards Sample.env (Sample.world0 StatusPending)
             1 (mkRequest 20 "Исправное" None) eq_refl). discriminate.
  - apply (CreateOrUpdateResult_guards Sample.env (Sample.world0 StatusInProgress)
             1 (mkRequest 20 "Исправное" None) eq_refl); [reflexivity|].
    intros (ce & Hin & Hid & Hcl). simpl in Hin.
    repeat (apply elem_of_cons in Hin as [-> | Hin]; [discriminate|]).
    inversion Hin.
Defined.

Lemma CreateOrUpdateResult_twice_witness :
  no_faults Sample.env /\
  tasks (db (Sample.world0 StatusInProgress)) !! 1
    = Some (Sample.task1 StatusInProgress) /\
  t_Status (Sample.task1 StatusInProgress) = StatusInProgress /\
  elementInChecklist (db (Sample.world0 StatusInProgress)) 10 1 /\
  ConditionStatusValidator "Исправное" = true /\
  ConditionStatusValidator "Аварийное" = true /\
  (length (resultsOfPair (db (Sample.world0 StatusInProgress)) 1 10) <= 1)%nat /\
  exists resp1 w1 resp2 w2 row,
    CreateOrUpdateResult Sample.env 1 (mkRequest 10 "Исправное" (Some "без замечаний"))
      (Sample.world0 StatusInProgress) = (Ok resp1, w1) /\
    CreateOrUpdateResult Sample.env 1 (mkRequest 10 "Аварийное" None) w1
      = (Ok resp2, w2) /\
    resultsOfPair (db w2) 1 10 = [row] /\
    ir_ConditionStatus row = "Аварийное" /\
    ir_Comment row = default "" None /\
    (@None string = None -> ir_Comment row = "").
Proof.
  assert ((length (resultsOfPair (db (Sample.world0 StatusInProgress)) 1 10) <= 1)%nat)
    as Hlen by (vm_compute; lia).
  split; [exact no_faults_sample|]. split; [reflexivity|]. split; [reflexivity|].
  split; [exact (foundation_in_checklist StatusInProgress)|].
  split; [reflexivity|]. split; [reflexivity|]. split; [exact Hlen|].
  apply (CreateOrUpdateResult_twice Sample.env Sample.env
           (Sample.world0 StatusInProgress) 1 (Sample.task1 StatusInProgress) 10
           "Исправное" "Аварийное" (Some "без замечаний") None);
    try reflexivity; try exact Hlen;
    try exact no_faults_sample; exact (foundation_in_checklist StatusInProgress).
Defined.

Lemma CreateOrUpdateAct_one_row_witness :
  let rendered := Act_SetDocumentPath Sample.oldPath Sample.draft in
  let refreshed :=
    snd (CreateOrUpdateAct Sample.env 1 "Замечания устранены." Sample.worldRendered) in
  let first :=
    snd (CreateOrUpdateAct Sample.env 1 defaultConclusion
           (Sample.world0 StatusInProgress)) in
  let again :=
    snd (UpdateTaskStatus Sample.env 1 StatusOnReview Sample.worldRevision) in
  faults Sample.env OpActOnly = false /\
  actsOfTask (db Sample.worldRendered) 1 = [rendered] /\
  faults Sample.env OpActSetConclusion = false /\
  fs refreshed = fs Sample.worldRendered /\
  actKept (db Sample.worldRendered) (db refreshed) 1 rendered /\
  conclusionRefreshed (db refreshed) 1 rendered "Замечания устранены." /\
  actsOfTask (db (Sample.world0 StatusInProgress)) 1 = [] /\
  faults Sample.env OpActCreate = false /\
  is_Some (tasks (db (Sample.world0 StatusInProgress)) !! 1) /\
  actCreated (db (Sample.world0 StatusInProgress)) (db first) 1 defaultConclusion /\
  ia_Status <$> actsOfTask (db first) 1 = ["создан"] /\
  tasks (db Sample.worldRevision) !! 1 = Some (Sample.task1 StatusForRevision) /\
  (StatusForRevision, StatusOnReview) ∈ legalPairs /\
  faults Sample.env OpTaskOnly = false /\
  faults Sample.env OpTaskUpdate = false /\
  actsOfTask (db Sample.worldRevision) 1 = [rendered] /\
  actKept (db Sample.worldRevision) (db again) 1 rendered /\
  conclusionRefreshed (db again) 1 rendered
    "Осмотр выполнен. Ожидает проверки координатором.".
Proof.
  intros rendered refreshed first again.
  assert ((StatusForRevision, StatusOnReview) ∈ legalPairs) as Hlegal
    by compute_done.
  destruct (CreateOrUpdateAct_one_row Sample.env 1 eq_refl) as [Hact Hstatus].
  destruct (Hact Sample.worldRendered "Замечания устранены.") as (Hfs & _ & Hlater).
  destruct (Hlater rendered eq_refl) as (Hkept & Hnew & _).
  destruct (Hact (Sample.world0 StatusInProgress) defaultConclusion)
    as (_ & Hfirst & _).
  destruct Hfirst as [Hcreated Hdrafted]; [reflexivity|reflexivity|by eexists|].
  destruct (Hstatus Sample.worldRevision (Sample.task1 StatusForRevision)
              eq_refl Hlegal eq_refl eq_refl) as [_ Hagain].
  destruct (Hagain rendered eq_refl) as [Hkept2 Hnew2].
  split; [reflexivity|]. split; [reflexivity|]. split; [reflexivity|].
  split; [exact Hfs|]. split; [exact Hkept|]. split; [exact (Hnew eq_refl)|].
  split; [reflexivity|]. split; [reflexivity|]. split; [by eexists|].
  split; [exact Hcreated|]. split; [exact Hdrafted|].
  split; [reflexivity|]. split; [exact Hlegal|].
  split; [reflexivity|]. split; [reflexivity|]. split; [reflexivity|].
  split; [exact Hkept2|]. exact (Hnew2 eq_refl).
Defined.

Lemma cleanDir_storage : cleanDir "storage/acts".
Proof.
  unfold cleanDir. simpl.
  repeat (constructor; [repeat split; discriminate|]). constructor.
Defined.

Lemma ApproveAct_commits_then_regenerates_witness :
  let rendered := Act_SetDocumentPath Sample.oldPath Sample.draft in
  let rainy := ApproveAct Sample.rainyEnv "storage/acts" 1 Sample.worldRendered in
  let clear := ApproveAct Sample.env "storage/acts/" 1 Sample.worldRendered in
  let filename := "act_1_20240517_103015.pdf" in
  let fullPath := "storage/acts/act_1_20240517_103015.pdf" in
  faults Sample.rainyEnv OpActOnly = false /\
  actsOfTask (db Sample.worldRendered) 1 = [rendered] /\
  faults Sample.rainyEnv OpActApprove = false /\
  faults Sample.rainyEnv OpWriteFile = true /\
  fst rainy = Ok tt /\
  (exists a', actsOfTask (db (snd rainy)) 1 = [a'] /\
              approvalCommitted (Sample.at_nsec 0) rendered a') /\
  "failed to fetch results for approved PDF: input/output error" ∈ logs (snd rainy) /\
  ApproveAct Sample.rainyEnv "storage/acts" 1 (Sample.world0 StatusOnReview)
    = (Err ErrActNotFound, Sample.world0 StatusOnReview) /\
  no_faults Sample.env /\
  is_Some (loadTaskFull (db Sample.worldRendered) 1) /\
  DocumentPathValidator fullPath = true /\
  (exists a' pdf,
     actsOfTask (db (snd clear)) 1 = [a'] /\
     approvalCommitted (Sample.at_nsec 0) rendered a' /\
     ia_DocumentPath a' = fullPath /\
     fs (snd clear)
       = <[fullPath := pdf]> (delete Sample.oldPath (fs Sample.worldRendered)) /\
     showsAct pdf a' /\
     tableFollows pdf (catalogName (db Sample.worldRendered))
       (resultsOfTask (db Sample.worldRendered) 1)) /\
  cleanDir "storage/acts" /\
  filepath_Join "storage/acts" filename = "storage/acts" +:+ "/" +:+ filename.
Proof.
  intros rendered rainy clear filename fullPath.
  destruct (ApproveAct_commits_then_regenerates Sample.rainyEnv "storage/acts" 1
              Sample.worldRendered eq_refl) as (_ & Hcommit & Hlogs & _).
  destruct (Hcommit rendered eq_refl eq_refl) as (Hok & _ & Hact).
  edestruct (Hlogs rendered _ eq_refl eq_refl eq_refl) as [Hline _].
  destruct (ApproveAct_commits_then_regenerates Sample.env "storage/acts/" 1
              Sample.worldRendered eq_refl) as (_ & _ & _ & Hclear).
  edestruct (Hclear rendered _ eq_refl eq_refl no_faults_sample eq_refl)
    as (a' & pdf & Hone & Happroved & Hpath & Hfs & _ & Hshows & Htable & _).
  destruct (ApproveAct_commits_then_regenerates Sample.env "storage/acts" 1
              Sample.worldRendered eq_refl) as (_ & _ & _ & Hclean).
  edestruct (Hclean rendered _ eq_refl eq_refl no_faults_sample eq_refl)
    as (_ & _ & _ & _ & _ & _ & _ & _ & _ & Hjoin).
  split; [reflexivity|]. split; [reflexivity|]. split; [reflexivity|].
  split; [reflexivity|]. split; [exact Hok|]. split; [exact Hact|].
  split; [exact (Hline _ eq_refl)|].
  split.
  { apply (ApproveAct_commits_then_regenerates Sample.rainyEnv "storage/acts" 1
             (Sample.world0 StatusOnReview) eq_refl). reflexivity. }
  split; [exact no_faults_sample|]. split; [by eexists|].
  split; [reflexivity|].
  split.
  { exists a', pdf. split; [exact Hone|]. split; [exact Happroved|].
    split; [exact Hpath|]. split; [exact Hfs|]. split; [exact Hshows|].
    exact Htable. }
  split; [exact cleanDir_storage|]. exact (Hjoin cleanDir_storage).
Defined.

Lemma GeneratePDFForAct_cache_or_render_witness :
  let rendered := Act_SetDocumentPath Sample.oldPath Sample.draft in
  let fresh := GeneratePDFForAct Sample.env "storage/acts" 1 Sample.worldReview in
  let unrecorded :=
    GeneratePDFForAct Sample.pathFailEnv "storage/acts/" 1 Sample.worldReview in
  let refused :=
    GeneratePDFForAct Sample.rainyEnv "storage/acts" 1 Sample.worldReview in
  let filename := "act_1_20240517_103015.pdf" in
  let fullPath := "storage/acts/act_1_20240517_103015.pdf" in
  faults Sample.env OpActOnly = false /\
  actsOfTask (db Sample.worldRendered) 1 = [rendered] /\
  Sample.oldPath <> "" /\
  faults Sample.env OpReadFile = false /\
  fs Sample.worldRendered !! Sample.oldPath = Some Sample.oldPDF /\
  GeneratePDFForAct Sample.env "storage/acts" 1 Sample.worldRendered
    = (Ok (Sample.oldPDF, "act_1_20240516_090000.pdf"), Sample.worldRendered) /\
  actsOfTask (db Sample.worldReview) 1 = [Sample.draft] /\
  is_Some (loadTaskFull (db Sample.worldReview) 1) /\
  cacheMiss Sample.env Sample.worldReview Sample.draft /\
  renderFailure Sample.env = None /\
  faults Sample.env OpActSetDocumentPath = false /\
  DocumentPathValidator fullPath = true /\
  cleanDir "storage/acts" /\
  filepath_Join "storage/acts" filename = "storage/acts" +:+ "/" +:+ filename /\
  (exists pdf a',
     fst fresh = Ok (pdf, filename) /\
     fs (snd fresh) = <[fullPath := pdf]> (fs Sample.worldReview) /\
     showsAct pdf Sample.draft /\
     tableFollows pdf (catalogName (db Sample.worldReview))
       (resultsOfTask (db Sample.worldReview) 1) /\
     actsOfTask (db (snd fresh)) 1 = [a'] /\
     ia_DocumentPath a' = fullPath /\ pathRecorded Sample.draft a') /\
  faults Sample.pathFailEnv OpActOnly = false /\
  cacheMiss Sample.pathFailEnv Sample.worldReview Sample.draft /\
  renderFailure Sample.pathFailEnv = None /\
  faults Sample.pathFailEnv OpActSetDocumentPath = true /\
  (exists pdf,
     fst unrecorded = Ok (pdf, filename) /\
     fs (snd unrecorded) = <[fullPath := pdf]> (fs Sample.worldReview) /\
     db (snd unrecorded) = db Sample.worldReview) /\
  faults Sample.rainyEnv OpActOnly = false /\
  cacheMiss Sample.rainyEnv Sample.worldReview Sample.draft /\
  renderFailure Sample.rainyEnv
    = Some (Errorf "failed to fetch inspection results: input/output error") /\
  fst refused = Err (Errorf "failed to fetch inspection results: input/output error") /\
  db (snd refused) = db Sample.worldReview /\
  fs (snd refused) = fs Sample.worldReview.
Proof.
  intros rendered fresh unrecorded refused filename fullPath.
  destruct (GeneratePDFForAct_cache_or_render Sample.env "storage/acts" 1
              Sample.worldRendered eq_refl) as (_ & Hhit & _).
  destruct (GeneratePDFForAct_cache_or_render Sample.env "storage/acts" 1
              Sample.worldReview eq_refl) as (_ & _ & Hfresh).
  destruct (GeneratePDFForAct_cache_or_render Sample.pathFailEnv "storage/acts/" 1
              Sample.worldReview eq_refl) as (_ & _ & Hlost).
  destruct (GeneratePDFForAct_cache_or_render Sample.rainyEnv "storage/acts" 1
              Sample.worldReview eq_refl) as (_ & _ & Hfail).
  assert (cacheMiss Sample.env Sample.worldReview Sample.draft) as Hcm
    by (left; reflexivity).
  assert (cacheMiss Sample.pathFailEnv Sample.worldReview Sample.draft) as Hcm2
    by (left; reflexivity).
  assert (cacheMiss Sample.rainyEnv Sample.worldReview Sample.draft) as Hcm3
    by (left; reflexivity).
  edestruct (Hfresh Sample.draft _ eq_refl eq_refl Hcm) as [_ Hgood].
  destruct (Hgood eq_refl)
    as (pdf & Hfst & Hfs & _ & Hshows & Htable & Hjoin & Hrec & _).
  destruct (Hrec eq_refl eq_refl) as (_ & a' & Hone & Hpath & Hkept).
  edestruct (Hlost Sample.draft _ eq_refl eq_refl Hcm2) as [_ Hgood2].
  destruct (Hgood2 eq_refl) as (pdf2 & Hfst2 & Hfs2 & _ & _ & _ & _ & _ & Hswallow).
  destruct Hswallow as [Hdb2 _]; [by left|].
  edestruct (Hfail Sample.draft _ eq_refl eq_refl Hcm3) as [Hbad _].
  destruct (Hbad _ eq_refl) as (Herr & Hdb3 & Hfs3).
  split; [reflexivity|]. split; [reflexivity|]. split; [discriminate|].
  split; [reflexivity|]. split; [reflexivity|].
  split; [apply (Hhit _ Sample.oldPDF eq_refl); [discriminate|reflexivity..]|].
  split; [reflexivity|]. split; [by eexists|]. split; [exact Hcm|].
  split; [reflexivity|]. split; [reflexivity|]. split; [reflexivity|].
  split; [exact cleanDir_storage|]. split; [exact (Hjoin cleanDir_storage)|].
  split.
  { exists pdf, a'. split; [exact Hfst|]. split; [exact Hfs|].
    split; [exact Hshows|]. split; [exact Htable|]. split; [exact Hone|].
    split; [exact Hpath|exact Hkept]. }
  split; [reflexivity|]. split; [exact Hcm2|]. split; [reflexivity|].
  split; [reflexivity|].
  split.
  { exists pdf2. split; [exact Hfst2|]. split; [exact Hfs2|exact Hdb2]. }
  split; [reflexivity|]. split; [exact Hcm3|]. split; [reflexivity|].
  split; [exact Herr|]. split; [exact Hdb3|exact Hfs3].
Defined.

(** C7, as stated, fails: on the first request for the document of task 1
    the update that records the path on the act fails; the request is
    answered with the document all the same, the file is on disk, the act
    is left without a path, and the failure is in the log only. *)
Lemma GeneratePDFForAct_path_update_failure :
  let r := GeneratePDFForAct Sample.pathFailEnv "storage/acts" 1 Sample.worldReview in
  faults Sample.pathFailEnv OpActSetDocumentPath = true /\
  fst r = Ok (Sample.firstPDF, "act_1_20240517_103015.pdf") /\
  fs (snd r) !! "storage/acts/act_1_20240517_103015.pdf" = Some Sample.firstPDF /\
  ia_DocumentPath <$> inspection_acts (db (snd r)) = [""] /\
  logs (snd r)
    = ["failed to update inspection act with document_path: input/output error"].
Proof. repeat split; vm_compute; reflexivity. Qed.

Lemma results_table_in_query_order_witness :
  faults Sample.env OpActOnly = false /\
  actsOfTask (db Sample.worldReview) 1 = [Sample.draft] /\
  cacheMiss Sample.env Sample.worldReview Sample.draft /\
  GeneratePDFForAct Sample.env "storage/acts" 1 Sample.worldReview
    = (Ok (Sample.firstPDF, Sample.firstName), snd Sample.firstRender) /\
  resultsOfTask (db Sample.worldReview) 1
    = [Sample.roofResult; Sample.foundationResult] /\
  tableFollows Sample.firstPDF (catalogName (db Sample.worldReview))
    [Sample.roofResult; Sample.foundationResult] /\
  tableOf Sample.firstPDF
    = [mkTableRow "1" "Кровля" "Аварийное" "течь";
       mkTableRow "2" "Фундамент" "Исправное" ""].
Proof.
  assert (cacheMiss Sample.env Sample.worldReview Sample.draft) as Hcm
    by (left; reflexivity).
  assert (GeneratePDFForAct Sample.env "storage/acts" 1 Sample.worldReview
            = (Ok (Sample.firstPDF, Sample.firstName), snd Sample.firstRender))
    as Hrun by (vm_compute; reflexivity).
  destruct (results_table_in_query_order Sample.env) as [_ Htable].
  pose proof (Htable "storage/acts" 1 Sample.worldReview (snd Sample.firstRender)
                Sample.draft Sample.firstPDF Sample.firstName
                eq_refl eq_refl Hcm Hrun) as Hfollows.
  split; [reflexivity|]. split; [reflexivity|]. split; [exact Hcm|].
  split; [exact Hrun|]. split; [reflexivity|]. split; [exact Hfollows|].
  destruct Hfollows as [Hlen Hrows].
  pose proof (Hrows 0%nat Sample.roofResult eq_refl) as H0.
  pose proof (Hrows 1%nat Sample.foundationResult eq_refl) as H1.
  destruct (tableOf Sample.firstPDF) as [|row0 [|row1 [|row2 rest]]];
    try discriminate Hlen.
  injection H0 as ->. injection H1 as ->. reflexivity.
Defined.

(** C8, as stated, fails: for task 1 the result query returns the result
    for the roof (second in the checklist) before the one for the
    foundation (first in the checklist), and the table lists the roof
    first. *)
Lemma results_table_not_in_checklist_order :
  let results := loadResult (db Sample.worldReview) <$>
                   resultsOfTask (db Sample.worldReview) 1 in
  exists pdf filename w',
    GeneratePDFForAct Sample.env "storage/acts" 1 Sample.worldReview
      = (Ok (pdf, filename), w') /\
    orderIndexOf <$> results = [2; 1] /\
    tableOf pdf = [mkTableRow "1" "Кровля" "Аварийное" "течь";
                   mkTableRow "2" "Фундамент" "Исправное" ""] /\
    elementColumn pdf = ["Кровля"; "Фундамент"] /\
    elementColumn (rangeResults 0 (checklistOrder results))
      = ["Фундамент"; "Кровля"] /\
    tableRows pdf <> rangeResults 0 (checklistOrder results).
Proof.
  exists Sample.firstPDF, Sample.firstName, (snd Sample.firstRender).
  split; [vm_compute; reflexivity|].
  split; [vm_compute; reflexivity|].
  split; [vm_compute; reflexivity|].
  split; [vm_compute; reflexivity|].
  split; [vm_compute; reflexivity|].
  vm_compute. discriminate.
Qed.

Lemma actFilename_same_iff_same_second_witness :
  valid_time (clock Sample.slowEnv (S (ticks Sample.worldReview))) /\
  valid_time (clock Sample.slowEnv
                (S (ticks (snd (fst (Sample.renderTwice Sample.slowEnv)))))) /\
  generatePDF Sample.slowEnv Sample.loadedDraft [] Sample.worldReview
    = (Ok (Sample.pdfOf (fst (Sample.renderTwice Sample.slowEnv)),
           "act_1_20240517_103001.pdf"),
       snd (fst (Sample.renderTwice Sample.slowEnv))) /\
  generatePDF Sample.slowEnv Sample.loadedDraft []
      (snd (fst (Sample.renderTwice Sample.slowEnv)))
    = (Ok (Sample.pdfOf (snd (Sample.renderTwice Sample.slowEnv)),
           "act_1_20240517_103003.pdf"),
       snd (snd (Sample.renderTwice Sample.slowEnv))) /\
  ("act_1_20240517_103001.pdf" = "act_1_20240517_103003.pdf" <->
   toSecond (clock Sample.slowEnv (S (ticks Sample.worldReview)))
     = toSecond (clock Sample.slowEnv
                   (S (ticks (snd (fst (Sample.renderTwice Sample.slowEnv))))))).
Proof.
  assert (valid_time (clock Sample.slowEnv (S (ticks Sample.worldReview)))) as Hv1
    by (vm_compute; repeat split; discriminate).
  assert (valid_time (clock Sample.slowEnv
            (S (ticks (snd (fst (Sample.renderTwice Sample.slowEnv))))))) as Hv2
    by (vm_compute; repeat split; discriminate).
  assert (generatePDF Sample.slowEnv Sample.loadedDraft [] Sample.worldReview
            = (Ok (Sample.pdfOf (fst (Sample.renderTwice Sample.slowEnv)),
                   "act_1_20240517_103001.pdf"),
               snd (fst (Sample.renderTwice Sample.slowEnv)))) as Hg1
    by (vm_compute; reflexivity).
  assert (generatePDF Sample.slowEnv Sample.loadedDraft []
              (snd (fst (Sample.renderTwice Sample.slowEnv)))
            = (Ok (Sample.pdfOf (snd (Sample.renderTwice Sample.slowEnv)),
                   "act_1_20240517_103003.pdf"),
               snd (snd (Sample.renderTwice Sample.slowEnv)))) as Hg2
    by (vm_compute; reflexivity).
  split; [exact Hv1|]. split; [exact Hv2|]. split; [exact Hg1|].
  split; [exact Hg2|].
  apply (actFilename_same_iff_same_second Sample.slowEnv Sample.loadedDraft
           [] [] _ _ _ _ _ _ _ _ Hv1 Hv2 Hg1 Hg2).
Defined.

(** C9, as stated, fails: two renderings of the act of task 1 taken within
    the same second, at different clock readings, get the same file name. *)
Lemma render_filenames_collide :
  exists pdf1 pdf2 name w1 w2,
    generatePDF Sample.env Sample.loadedDraft [] Sample.worldReview
      = (Ok (pdf1, name), w1) /\
    generatePDF Sample.env Sample.loadedDraft [] w1 = (Ok (pdf2, name), w2) /\
    clock Sample.env (S (ticks Sample.worldReview)) <> clock Sample.env (S (ticks w1)) /\
    name = "act_1_20240517_103015.pdf".
Proof.
  exists (Sample.pdfOf (fst (Sample.renderTwice Sample.env))),
         (Sample.pdfOf (snd (Sample.renderTwice Sample.env))),
         "act_1_20240517_103015.pdf",
         (snd (fst (Sample.renderTwice Sample.env))),
         (snd (snd (Sample.renderTwice Sample.env))).
  split; [vm_compute; reflexivity|].
  split; [vm_compute; reflexivity|].
  split; [vm_compute; discriminate|reflexivity].
Qed.

Lemma SubmitTask_ignores_results_witness :
  strconv_Atoi "1" = Some 1 /\
  tasks (db (Sample.world0 StatusInProgress)) !! 1
    = Some (Sample.task1 StatusInProgress) /\
  t_Status (Sample.task1 StatusInProgress) = StatusInProgress /\
  faults Sample.env OpTaskOnly = false /\
  faults Sample.env OpTaskUpdate = false /\
  inspection_results (db (Sample.world0 StatusInProgress)) = [] /\
  fst (SubmitTask Sample.env "1" (Sample.world0 StatusInProgress))
    = Ok (mkHTTP 200 "Task submitted for review") /\
  actCreated (db (Sample.world0 StatusInProgress))
    (db (snd (SubmitTask Sample.env "1" (Sample.world0 StatusInProgress))))
    1 defaultConclusion.
Proof.
  destruct (SubmitTask_ignores_results Sample.env (Sample.world0 StatusInProgress)
              "1" 1 (Sample.task1 StatusInProgress)
              eq_refl eq_refl eq_refl eq_refl eq_refl)
    as (Hok & _ & _ & Hact).
  split; [reflexivity|]. split; [reflexivity|]. split; [reflexivity|].
  split; [reflexivity|]. split; [reflexivity|]. split; [reflexivity|].
  split; [exact Hok|]. apply Hact; reflexivity.
Defined.

(** ** Paths, on the cases of the tests of path/filepath *)

Example filepath_Clean_cases :
  Forall (fun c => filepath_Clean c.1 = c.2)
    [ ("abc", "abc"); ("abc/def", "abc/def"); ("a/b/c", "a/b/c"); (".", ".");
      ("..", ".."); ("../..", "../.."); ("../../abc", "../../abc");
      ("/abc", "/abc"); ("/", "/"); ("", ".");
      ("abc/", "abc"); ("abc/def/", "abc/def"); ("a/b/c/", "a/b/c");
      ("./", "."); ("../", ".."); ("../../", "../.."); ("/abc/", "/abc");
      ("abc//def//ghi", "abc/def/ghi"); ("abc//", "abc");
      ("abc/./def", "abc/def"); ("/./abc/def", "/abc/def"); ("abc/.", "abc");
      ("abc/def/ghi/../jkl", "abc/def/jkl");
      ("abc/def/../ghi/../jkl", "abc/jkl");
      ("abc/def/..", "abc"); ("abc/def/../..", "."); ("/abc/def/../..", "/");
      ("abc/def/../../..", ".."); ("/abc/def/../../..", "/");
      ("abc/def/../../../ghi/jkl/../../../mno", "../../mno");
      ("/../abc", "/abc"); ("a/../b:/../../c", "../c");
      ("abc/./../def", "def"); ("abc//./../def", "def");
      ("abc/../../././../def", "../../def") ].
Proof. repeat constructor. Qed.

Example filepath_Join_cases :
  Forall (fun c => filepath_Join c.1.1 c.1.2 = c.2)
    [ ("storage/acts", "act_1.pdf", "storage/acts/act_1.pdf");
      ("storage/acts/", "act_1.pdf", "storage/acts/act_1.pdf");
      ("storage//acts/.", "act_1.pdf", "storage/acts/act_1.pdf");
      ("storage/acts/../pdf", "act_1.pdf", "storage/pdf/act_1.pdf");
      ("/var/acts", "act_1.pdf", "/var/acts/act_1.pdf");
      ("/", "act_1.pdf", "/act_1.pdf"); (".", "act_1.pdf", "act_1.pdf");
      ("", "act_1.pdf", "act_1.pdf"); ("a", "", "a"); ("", "", "");
      ("a", "b/c", "a/b/c"); ("a/b", "../../../xyz", "../xyz") ].
Proof. repeat constructor. Qed.

Example filepath_Base_cases :
  Forall (fun c => filepath_Base c.1 = c.2)
    [ ("", "."); (".", "."); ("/.", "."); ("/", "/"); ("////", "/");
      ("x/", "x"); ("abc", "abc"); ("abc/def", "def"); ("a/b/.x", ".x");
      ("a/b/c.", "c."); ("a/b/c.x", "c.x");
      ("storage/acts/act_1_20240516_090000.pdf", "act_1_20240516_090000.pdf") ].
Proof. repeat constructor. Qed.

(** ** A whole inspection, end to end *)

Example inspection_end_to_end :
  let final := Sample.inspection (Sample.world0 StatusNew) in
  (exists pdf, fst final = Ok (pdf, "act_1_20240517_103015.pdf") /\
               elementColumn pdf = ["Кровля"; "Фундамент"]) /\
  t_Status <$> tasks (db (snd final)) !! 1 = Some StatusApproved /\
  ia_Status <$> inspection_acts (db (snd final)) = [statusApproved] /\
  ia_Conclusion <$> inspection_acts (db (snd final)) = [approvedConclusion] /\
  ia_DocumentPath <$> inspection_acts (db (snd final))
    = ["storage/acts/act_1_20240517_103015.pdf"] /\
  length (inspection_results (db (snd final))) = 2%nat.
Proof.
  split; [eexists; split; vm_compute; reflexivity|].
  repeat split; vm_compute; reflexivity.
Qed.

(** * Further properties of the task, result and act code *)

(** ** The state machine of a task *)

Lemma legalPairs_inv (c n : Status) :
  (c, n) ∈ legalPairs ->
  (c = StatusNew /\ (n = StatusPending \/ n = StatusCanceled)) \/
  (c = StatusPending /\ (n = StatusInProgress \/ n = StatusCanceled)) \/
  (c = StatusInProgress /\ (n = StatusOnReview \/ n = StatusCanceled)) \/
  (c = StatusOnReview /\ (n = StatusApproved \/ n = StatusForRevision)) \/
  (c = StatusForRevision /\ (n = StatusOnReview \/ n = StatusCanceled)).
Proof.
  unfold legalPairs. intros H.
  repeat (apply elem_of_cons in H as [H|H]; [injection H as -> ->; tauto|]).
  inversion H.
Qed.

Lemma terminal_not_allowed (c n : Status) :
  c = StatusApproved \/ c = StatusCanceled -> isTransitionAllowed c n = false.
Proof.
  intros Hc. destruct (isTransitionAllowed c n) eqn:E; [|done].
  apply isTransitionAllowed_legal, legalPairs_inv in E.
  destruct Hc as [-> | ->]; repeat (destruct E as [[E _]|E]; [discriminate|]);
    destruct E as [E _]; discriminate.
Qed.

(** X1.  An approved or cancelled task is final: whatever status is asked
    for and whatever fails, [UpdateTaskStatus] returns an error and leaves
    the world as it was; when the lookup reaches the store the error is
    [ErrInvalidStatusTransition]. *)
Theorem terminal_status_is_final (env : Env) (w : World) (id : Z) (t : Task)
    (newStatus : Status) :
  tasks (db w) !! id = Some t ->
  t_Status t = StatusApproved \/ t_Status t = StatusCanceled ->
  (exists e, UpdateTaskStatus env id newStatus w = (Err e, w)) /\
  (faults env OpTaskOnly = false ->
     UpdateTaskStatus env id newStatus w = (Err ErrInvalidStatusTransition, w)).
Proof.
  intros Ht Hfinal. rewrite UpdateTaskStatus_run, Task_Only_run, Ht.
  destruct (faults env OpTaskOnly); simpl.
  - split; [eauto | discriminate].
  - rewrite (terminal_not_allowed _ newStatus Hfinal). split; eauto.
Qed.

Lemma last_cons_default {A} (n c : A) (rest : list A) :
  List.last (n :: rest) c = List.last rest n.
Proof.
  revert n c. induction rest as [|m rest IH]; intros n c; [done|].
  change (List.last (m :: rest) c = List.last (m :: rest) n).
  by rewrite (IH m c), (IH m n).
Qed.

Lemma legalPath_needs_review (c : Status) (path : list Status) :
  legalPath c path ->
  finalStatus c path = StatusApproved ->
  (c = StatusNew ->
     StatusPending ∈ path /\ StatusInProgress ∈ path /\ StatusOnReview ∈ path) /\
  (c = StatusPending -> StatusInProgress ∈ path /\ StatusOnReview ∈ path) /\
  (c = StatusInProgress -> StatusOnReview ∈ path) /\
  (c = StatusForRevision -> StatusOnReview ∈ path) /\
  (c = StatusCanceled -> False).
Proof.
  unfold finalStatus. revert c. induction path as [|n rest IH]; intros c Hpath Hlast.
  - simpl in Hlast. subst c. repeat split; discriminate.
  - destruct Hpath as [Hstep Hrest].
    rewrite last_cons_default in Hlast.
    destruct (IH n Hrest Hlast) as (HNew & HPending & HInProgress & HRevision & HCanceled).
    apply isTransitionAllowed_legal, legalPairs_inv in Hstep.
    destruct Hstep as [[-> [-> | ->]]|[[-> [-> | ->]]|[[-> [-> | ->]]|
                       [[-> [-> | ->]]|[-> [-> | ->]]]]]];
      try (exfalso; by apply HCanceled);
      try (destruct (HPending eq_refl) as [? ?]);
      try (pose proof (HInProgress eq_refl));
      try (pose proof (HRevision eq_refl));
      repeat match goal with |- _ /\ _ => split end;
      intros E; try discriminate E; clear E;
      repeat match goal with |- _ /\ _ => split end;
      first [by left | by right].
Qed.

(** X2.  Approval cannot be reached without the work: every history of
    permitted transitions that takes a new task to Approved passes through
    Pending, InProgress and OnReview. *)
Theorem approval_passes_through_review (path : list Status) :
  legalPath StatusNew path ->
  finalStatus StatusNew path = StatusApproved ->
  StatusPending ∈ path /\ StatusInProgress ∈ path /\ StatusOnReview ∈ path.
Proof.
  intros Hpath Hlast.
  by apply (legalPath_needs_review StatusNew path Hpath Hlast).
Qed.

(** ** What a computation keeps *)

Section Keeps.
Context (P : DB -> Prop).

Lemma keeps_pure {A} (m : M A) : preserves (fun d => d) m -> keeps P m.
Proof. intros Hm w HP. by rewrite (Hm w). Qed.

Lemma keeps_ret {A} (a : A) : keeps P (mret a).
Proof. apply keeps_pure, preserves_ret. Qed.

Lemma keeps_fail {A} (e : Error) : keeps P (@fail A e).
Proof. apply keeps_pure, preserves_fail. Qed.

Lemma keeps_bind {A C} (m : M A) (k : A -> M C) :
  keeps P m -> (forall a, keeps P (k a)) -> keeps P (m ≫= k).
Proof.
  intros Hm Hk w HP. rewrite bind_run. specialize (Hm w HP).
  destruct (m w) as [[a|e] w1]; simpl in *; [by apply Hk | done].
Qed.

Lemma keeps_try {A} (m : M A) : keeps P m -> keeps P (try m).
Proof. intros Hm w HP. specialize (Hm w HP). unfold try. by destruct (m w). Qed.

Lemma keeps_logPrintf line : keeps P (logPrintf line).
Proof. apply keeps_pure, preserves_logPrintf. Qed.

Lemma keeps_getDB : keeps P getDB.
Proof. apply keeps_pure, preserves_getDB. Qed.

Lemma keeps_only {A} (rows : list A) : keeps P (only rows).
Proof. apply keeps_pure, preserves_only. Qed.

Lemma keeps_fault env op : keeps P (fault env op).
Proof. apply keeps_pure, preserves_fault. Qed.

Lemma keeps_cfault cenv op : keeps P (cfault cenv op).
Proof. intros w HP. unfold cfault. by destruct (crudFaults cenv op). Qed.

Lemma keeps_time_Now env : keeps P (time_Now env).
Proof. apply keeps_pure, preserves_time_Now. Qed.

Lemma keeps_os_MkdirAll env path : keeps P (os_MkdirAll env path).
Proof. apply keeps_pure, preserves_os_MkdirAll. Qed.

Lemma keeps_os_Remove env path : keeps P (os_Remove env path).
Proof. apply keeps_pure, preserves_os_Remove. Qed.

Lemma keeps_os_ReadFile env path : keeps P (os_ReadFile env path).
Proof. apply keeps_pure, preserves_os_ReadFile. Qed.

Lemma keeps_os_WriteFile env path data : keeps P (os_WriteFile env path data).
Proof. apply keeps_pure, preserves_os_WriteFile. Qed.

End Keeps.

Create HintDb keeps.
#[local] Hint Resolve keeps_ret keeps_fail keeps_logPrintf keeps_getDB keeps_only
  keeps_fault keeps_cfault keeps_time_Now keeps_os_MkdirAll keeps_os_Remove
  keeps_os_ReadFile keeps_os_WriteFile : keeps.

Ltac keeps :=
  repeat first
    [ solve [eauto with keeps]
    | apply keeps_try
    | match goal with
      | |- keeps _ (match ?x with _ => _ end) => destruct x
      end
    | apply keeps_bind; [|intros ?] ].

(** The queries write nothing. *)
Section KeepsQueries.
Context (P : DB -> Prop).

Lemma keeps_Task_Only env id : keeps P (Task_Only env id).
Proof. unfold Task_Only. keeps. Qed.

Lemma keeps_Task_Only_WithChecklist env id : keeps P (Task_Only_WithChecklist env id).
Proof. unfold Task_Only_WithChecklist. keeps. Qed.

Lemma keeps_Task_Only_WithEdges env id : keeps P (Task_Only_WithEdges env id).
Proof. unfold Task_Only_WithEdges. keeps. Qed.

Lemma keeps_Task_Only_WithElements env id : keeps P (Task_Only_WithElements env id).
Proof. unfold Task_Only_WithElements. keeps. Qed.

Lemma keeps_Act_Only env taskID : keeps P (Act_Only env taskID).
Proof. unfold Act_Only. keeps. Qed.

Lemma keeps_Act_Only_WithTask env taskID : keeps P (Act_Only_WithTask env taskID).
Proof. unfold Act_Only_WithTask. keeps. Qed.

Lemma keeps_Result_All env taskID : keeps P (Result_All env taskID).
Proof. unfold Result_All. keeps. Qed.

Lemma keeps_generatePDF env act results : keeps P (generatePDF env act results).
Proof. unfold generatePDF. keeps. Qed.

Lemma keeps_readStored env act : keeps P (readStored env act).
Proof. unfold readStored. keeps. Qed.

Lemma keeps_NewInspectionActService env path :
  keeps P (NewInspectionActService env path).
Proof. unfold NewInspectionActService. keeps. Qed.

Lemma keeps_User_Exist cenv id : keeps P (User_Exist cenv id).
Proof. unfold User_Exist. keeps. Qed.

Lemma keeps_Building_Exist cenv id : keeps P (Building_Exist cenv id).
Proof. unfold Building_Exist. keeps. Qed.

Lemma keeps_Checklist_Exist cenv id : keeps P (Checklist_Exist cenv id).
Proof. unfold Checklist_Exist. keeps. Qed.

Lemma keeps_Building_Only cenv id : keeps P (Building_Only cenv id).
Proof. unfold Building_Only. keeps. Qed.

Lemma keeps_InspectorUnit_Exist cenv units userID jkhUnitID :
  keeps P (InspectorUnit_Exist cenv units userID jkhUnitID).
Proof. unfold InspectorUnit_Exist. keeps. Qed.

Lemma keeps_Task_All_WithEdges cenv inspectorID status :
  keeps P (Task_All_WithEdges cenv inspectorID status).
Proof. unfold Task_All_WithEdges. keeps. Qed.

Lemma keeps_RetrieveTask env id : keeps P (RetrieveTask env id).
Proof. unfold RetrieveTask. pose proof keeps_Task_Only_WithEdges. keeps. Qed.

Lemma keeps_GetTaskResults env taskID : keeps P (GetTaskResults env taskID).
Proof.
  unfold GetTaskResults.
  pose proof keeps_Task_Only_WithElements. pose proof keeps_Result_All. keeps.
Qed.

Lemma keeps_ListTasks cenv inspectorID status :
  keeps P (ListTasks cenv inspectorID status).
Proof. unfold ListTasks. pose proof keeps_Task_All_WithEdges. keeps. Qed.

Lemma keeps_validateForeignKeys cenv b c i :
  keeps P (validateForeignKeys cenv b c i).
Proof.
  unfold validateForeignKeys.
  pose proof keeps_User_Exist. pose proof keeps_Building_Exist.
  pose proof keeps_Checklist_Exist. keeps.
Qed.

Lemma keeps_GetTask env idParam : keeps P (GetTask env idParam).
Proof. unfold GetTask. pose proof keeps_RetrieveTask. keeps. Qed.

Lemma keeps_GetTaskResultsHandler env idParam :
  keeps P (GetTaskResultsHandler env idParam).
Proof. unfold GetTaskResultsHandler. pose proof keeps_GetTaskResults. keeps. Qed.

Lemma keeps_ListAllTasks cenv statusParam : keeps P (ListAllTasks cenv statusParam).
Proof. unfold ListAllTasks. pose proof keeps_ListTasks. keeps. Qed.

Lemma keeps_ListMyTasks cenv userID statusParam :
  keeps P (ListMyTasks cenv userID statusParam).
Proof. unfold ListMyTasks. pose proof keeps_ListTasks. keeps. Qed.

End KeepsQueries.

(** The writes keep what is closed under them. *)
Section KeepsWrites.
Context (P : DB -> Prop) (HP : Closed P).

Lemma keeps_Task_UpdateOneID_SetStatus env id s :
  keeps P (Task_UpdateOneID_SetStatus env id s).
Proof.
  intros w Hw. unfold Task_UpdateOneID_SetStatus, time_Now, fault. run_M.
  destruct (StatusValidator s); simpl; [|done].
  destruct (faults env OpTaskUpdate); simpl; [done|].
  destruct (tasks (db w) !! id) eqn:Ht; simpl; [|done].
  by apply closed_task_status.
Qed.

Lemma keeps_Task_UpdateOneID_SetInspectorID cenv taskID inspectorID :
  keeps P (Task_UpdateOneID_SetInspectorID cenv taskID inspectorID).
Proof.
  intros w Hw. unfold Task_UpdateOneID_SetInspectorID, time_Now, fault. run_M.
  destruct (faults (core cenv) OpTaskUpdate); simpl; [done|].
  destruct (tasks (db w) !! taskID) eqn:Ht; simpl; [|done].
  destruct (decide _); simpl; [done|].
  by apply closed_task_inspector.
Qed.

Lemma keeps_Task_DeleteOneID cenv id : keeps P (Task_DeleteOneID cenv id).
Proof.
  intros w Hw. unfold Task_DeleteOneID, cfault. run_M.
  destruct (crudFaults cenv OpTaskDelete); simpl; [done|].
  destruct (tasks (db w) !! id) eqn:Ht; simpl; [|done].
  destruct (decide _) as [[Hr Ha]|]; simpl; [|done].
  by apply closed_task_delete.
Qed.

Lemma keeps_Task_Create cenv nextTaskID b c i title priority date description :
  keeps P (Task_Create cenv nextTaskID b c i title priority date description).
Proof.
  intros w Hw. unfold Task_Create, time_Now, cfault. run_M.
  destruct (crudFaults cenv OpTaskCreate); simpl; [done|].
  repeat (destruct (decide (_ = None)); simpl; [done|]).
  destruct (decide _); simpl; [|done].
  by apply closed_task_create.
Qed.

Lemma keeps_Act_UpdateOne env op act ok set :
  (forall a, ia_TaskID (set a) = ia_TaskID a) ->
  keeps P (Act_UpdateOne env op act ok set).
Proof.
  intros Hset w Hw. unfold Act_UpdateOne, fault. run_M.
  destruct ok; simpl; [|done].
  destruct (faults env op); simpl; [done|].
  destruct (filter _ _); simpl; [done|].
  by apply closed_act_update.
Qed.

Lemma keeps_Act_Create env taskID status conclusion :
  keeps P (Act_Create env taskID status conclusion).
Proof.
  intros w Hw. unfold Act_Create, fault, time_Now. run_M.
  destruct (faults env OpActCreate); simpl; [done|].
  destruct (decide _); simpl; [done|].
  destruct (decide _) as [Hnone|]; simpl; [|done].
  by apply (closed_act_create P HP (db w)
              (mkInspectionAct (act_seq (db w) + 1) taskID (clock env (ticks w))
                 zeroTime status conclusion "" None)).
Qed.

Lemma keeps_Result_Delete cenv taskID elementID :
  keeps P (Result_Delete cenv taskID elementID).
Proof.
  intros w Hw. unfold Result_Delete, cfault. run_M.
  destruct (crudFaults cenv OpResultDelete); simpl; [done|].
  by apply closed_result_delete.
Qed.

Lemma keeps_CreateOrUpdateAct env taskID conclusion :
  keeps P (CreateOrUpdateAct env taskID conclusion).
Proof.
  unfold CreateOrUpdateAct.
  pose proof (keeps_Act_Only P). pose proof keeps_Act_Create.
  pose proof (fun env op act ok =>
                keeps_Act_UpdateOne env op act ok (Act_SetConclusion conclusion)
                  (fun a => eq_refl)).
  keeps.
Qed.

Lemma keeps_regenerateApproved env storagePath taskID act :
  keeps P (regenerateApproved env storagePath taskID act).
Proof.
  unfold regenerateApproved.
  pose proof (keeps_Result_All P). pose proof (keeps_generatePDF P).
  pose proof (fun env op act ok p =>
                keeps_Act_UpdateOne env op act ok (Act_SetDocumentPath p)
                  (fun a => eq_refl)).
  keeps.
Qed.

Lemma keeps_ApproveAct env storagePath taskID :
  keeps P (ApproveAct env storagePath taskID).
Proof.
  unfold ApproveAct.
  pose proof (keeps_Act_Only_WithTask P). pose proof keeps_regenerateApproved.
  pose proof (fun env op act ok now =>
                keeps_Act_UpdateOne env op act ok (approve now) (fun a => eq_refl)).
  keeps.
Qed.

Lemma keeps_renderAndStore env storagePath taskID act :
  keeps P (renderAndStore env storagePath taskID act).
Proof.
  unfold renderAndStore.
  pose proof (keeps_Result_All P). pose proof (keeps_generatePDF P).
  pose proof (fun env op act ok p =>
                keeps_Act_UpdateOne env op act ok (Act_SetDocumentPath p)
                  (fun a => eq_refl)).
  keeps.
Qed.

Lemma keeps_GeneratePDFForAct env storagePath taskID :
  keeps P (GeneratePDFForAct env storagePath taskID).
Proof.
  unfold GeneratePDFForAct.
  pose proof (keeps_Act_Only_WithTask P). pose proof (keeps_readStored P).
  pose proof keeps_renderAndStore.
  keeps.
Qed.

Lemma keeps_actIntegration env id newStatus :
  keeps P (actIntegration env id newStatus).
Proof.
  unfold actIntegration.
  pose proof (keeps_NewInspectionActService P).
  pose proof keeps_CreateOrUpdateAct. pose proof keeps_ApproveAct.
  keeps.
Qed.

Lemma keeps_UpdateTaskStatus env id newStatus :
  keeps P (UpdateTaskStatus env id newStatus).
Proof.
  unfold UpdateTaskStatus.
  pose proof (keeps_Task_Only P). pose proof keeps_Task_UpdateOneID_SetStatus.
  pose proof keeps_actIntegration.
  keeps.
Qed.

Lemma keeps_AssignInspector cenv taskID inspectorID :
  keeps P (AssignInspector cenv taskID inspectorID).
Proof.
  unfold AssignInspector.
  pose proof (keeps_User_Exist P). pose proof keeps_Task_UpdateOneID_SetInspectorID.
  keeps.
Qed.

Lemma keeps_DeleteTask cenv id : keeps P (DeleteTask cenv id).
Proof. unfold DeleteTask. pose proof keeps_Task_DeleteOneID. keeps. Qed.

Lemma keeps_DeleteResult cenv taskID elementID :
  keeps P (DeleteResult cenv taskID elementID).
Proof. unfold DeleteResult. pose proof keeps_Result_Delete. keeps. Qed.

Lemma keeps_CreateTask cenv units nextTaskID time_Parse req :
  keeps P (CreateTask cenv units nextTaskID time_Parse req).
Proof.
  unfold CreateTask.
  pose proof (keeps_validateForeignKeys P). pose proof (keeps_Building_Only P).
  pose proof (keeps_InspectorUnit_Exist P). pose proof keeps_Task_Create.
  pose proof (keeps_Task_Only_WithEdges P).
  keeps.
Qed.

Lemma keeps_serve cenv req w : P (db w) -> P (db (serve cenv req w)).
Proof.
  pose proof keeps_CreateTask. pose proof (keeps_ListAllTasks P).
  pose proof (keeps_GetTask P). pose proof keeps_UpdateTaskStatus.
  pose proof keeps_AssignInspector. pose proof keeps_DeleteTask.
  pose proof (keeps_ListMyTasks P). pose proof (closed_upsert P HP).
  pose proof (keeps_GetTaskResultsHandler P). pose proof keeps_DeleteResult.
  pose proof keeps_GeneratePDFForAct.
  destruct req; simpl;
    match goal with |- _ -> P (db (snd (?m w))) => revert w; change (keeps P m) end.
  - unfold CreateTaskHandler. keeps.
  - keeps.
  - keeps.
  - unfold UpdateTaskStatusHandler. keeps.
  - unfold AssignInspectorHandler. keeps.
  - unfold DeleteTaskHandler. keeps.
  - keeps.
  - unfold AcceptTask. keeps.
  - unfold SubmitTask. keeps.
  - unfold CreateOrUpdateResultHandler. keeps.
  - keeps.
  - unfold DeleteResultHandler. keeps.
  - unfold DownloadAct. keeps.
Qed.

Lemma keeps_serveAll history w : P (db w) -> P (db (serveAll history w)).
Proof.
  revert w. induction history as [|[cenv req] rest IH]; intros w Hw; [done|].
  simpl. by apply IH, keeps_serve.
Qed.

End KeepsWrites.

(** ** What the result and task writes leave alone *)

Section ResultFrame.
Context {B : Type} (f : DB -> B).
Hypothesis f_results : forall d v s, f (DB_set_results v s d) = f d.

Lemma preserves_Result_UpdateOne env existing condition comment :
  preserves f (Result_UpdateOne env existing condition comment).
Proof.
  intros w. unfold Result_UpdateOne, fault, time_Now. run_M.
  destruct (ConditionStatusValidator condition); simpl; [|done].
  destruct (faults env OpResultUpdate); simpl; [done|].
  destruct (filter _ _); simpl; [done|]. apply f_results.
Qed.

Lemma preserves_Result_Create env taskID elementID condition comment :
  preserves f (Result_Create env taskID elementID condition comment).
Proof.
  intros w. unfold Result_Create, fault, time_Now. run_M.
  destruct (ConditionStatusValidator condition); simpl; [|done].
  destruct (faults env OpResultCreate); simpl; [done|].
  destruct (decide _); simpl; [done|].
  destruct (decide _); simpl; [done|]. apply f_results.
Qed.

Lemma preserves_validateTaskAndElement env taskID elementID :
  preserves f (validateTaskAndElement env taskID elementID).
Proof. intros w. by rewrite validateTaskAndElement_world. Qed.

Lemma preserves_Result_Only env taskID elementID :
  preserves f (Result_Only env taskID elementID).
Proof. unfold Result_Only. frame. Qed.

Lemma preserves_CreateOrUpdateResult env taskID req :
  preserves f (CreateOrUpdateResult env taskID req).
Proof.
  unfold CreateOrUpdateResult.
  pose proof preserves_Result_UpdateOne. pose proof preserves_Result_Create.
  pose proof preserves_validateTaskAndElement. pose proof preserves_Result_Only.
  pose proof (preserves_Result_Fetch f).
  frame.
Qed.

Lemma preserves_Result_Delete cenv taskID elementID :
  preserves f (Result_Delete cenv taskID elementID).
Proof.
  intros w. unfold Result_Delete, cfault. run_M.
  destruct (crudFaults cenv OpResultDelete); simpl; [done|]. apply f_results.
Qed.

Lemma preserves_DeleteResult cenv taskID elementID :
  preserves f (DeleteResult cenv taskID elementID).
Proof. unfold DeleteResult. pose proof preserves_Result_Delete. frame. Qed.

End ResultFrame.

Lemma validateTaskAndElement_Ok env taskID elementID w w' :
  validateTaskAndElement env taskID elementID w = (Ok tt, w') ->
  exists t, tasks (db w) !! taskID = Some t /\ t_Status t = StatusInProgress /\
            elementInChecklist (db w) elementID (t_ChecklistID t).
Proof.
  rewrite validateTaskAndElement_run, Task_Only_WithChecklist_run.
  destruct (faults env OpTaskOnly); [done|].
  destruct (tasks (db w) !! taskID) as [t|]; [|done]. simpl.
  destruct (decide _) as [|Hst]; [done|]. rewrite Element_Exist_run.
  destruct (faults env OpElementExist); [done|].
  destruct (bool_decide _) eqn:Hin; [|done]. intros _.
  exists t. split; [done|]. split.
  - by destruct (decide (t_Status t = StatusInProgress)).
  - apply elementInChecklist_filter. by apply bool_decide_eq_true in Hin.
Qed.

(** What an upsert does to the table of results, whatever fails. *)
Lemma CreateOrUpdateResult_results env taskID req w :
  let e := req_ChecklistElementID req in
  let w' := snd (CreateOrUpdateResult env taskID req w) in
  inspection_results (db w') = inspection_results (db w) \/
  ((exists t, tasks (db w) !! taskID = Some t /\ t_Status t = StatusInProgress /\
              elementInChecklist (db w) e (t_ChecklistID t)) /\
   ((exists existing,
       resultsOfPair (db w) taskID e = [existing] /\
       inspection_results (db w') =
         (fun r => if decide (ir_ID r = ir_ID existing)
                   then updatedRow (req_ConditionStatus req) (req_Comment req)
                          (clock env (ticks w)) r
                   else r) <$> inspection_results (db w)) \/
    (resultsOfPair (db w) taskID e = [] /\
     inspection_results (db w') =
       inspection_results (db w) ++
         [createdRow env w taskID e (req_ConditionStatus req) (req_Comment req)]))).
Proof.
  intros e w'. subst e w'. unfold CreateOrUpdateResult. rewrite bind_run.
  pose proof (validateTaskAndElement_world env taskID (req_ChecklistElementID req) w)
    as Hw.
  pose proof (validateTaskAndElement_Ok env taskID (req_ChecklistElementID req) w)
    as Hok.
  destruct (validateTaskAndElement env taskID _ w) as [[[]|err] w0];
    simpl in Hw; subst w0; [|by left].
  specialize (Hok w eq_refl).
  rewrite bind_try.
  assert (Result_Only env taskID (req_ChecklistElementID req) w =
            if faults env OpResultOnly then (Err ErrIO, w)
            else only (resultsOfPair (db w) taskID (req_ChecklistElementID req)) w)
    as -> by (unfold Result_Only, fault; run_M;
              by destruct (faults env OpResultOnly)).
  destruct (faults env OpResultOnly); simpl; [by left|].
  rewrite only_run. simpl.
  destruct (resultsOfPair (db w) taskID (req_ChecklistElementID req))
    as [|existing [|]] eqn:Hrows; simpl; [| |by left].
  - rewrite bind_run, bind_try.
    pose proof (Result_Create_results env taskID (req_ChecklistElementID req)
                  (req_ConditionStatus req) (req_Comment req) w) as Hres.
    destruct (Result_Create env taskID _ _ _ w) as [[[]|err] w1]; simpl in *.
    + rewrite bind_try.
      pose proof (preserves_Result_Fetch inspection_results env taskID
                    (req_ChecklistElementID req) w1) as Hfetch.
      destruct (Result_Fetch env taskID (req_ChecklistElementID req) w1)
        as [[row|err] w2]; simpl in *; rewrite Hfetch;
        (destruct Hres as [-> | ->]; [by left|right; split; [done|by right]]).
    + destruct Hres as [-> | ->]; [by left|right; split; [done|by right]].
  - rewrite bind_run, bind_try.
    pose proof (Result_UpdateOne_results env existing (req_ConditionStatus req)
                  (req_Comment req) w) as Hres.
    destruct (Result_UpdateOne env existing _ _ w) as [[[]|err] w1]; simpl in *.
    + rewrite bind_try.
      pose proof (preserves_Result_Fetch inspection_results env taskID
                    (req_ChecklistElementID req) w1) as Hfetch.
      destruct (Result_Fetch env taskID (req_ChecklistElementID req) w1)
        as [[row|err] w2]; simpl in *; rewrite Hfetch;
        (destruct Hres as [-> | ->];
         [by left|right; split; [done|left; by exists existing]]).
    + destruct Hres as [-> | ->];
        [by left|right; split; [done|left; by exists existing]].
Qed.

(** ** The invariants of the store *)

Lemma length_filter_filter {A} (P Q : A -> Prop)
    `{!forall x, Decision (P x)} `{!forall x, Decision (Q x)} (l : list A) :
  (length (filter P (filter Q l)) <= length (filter P l))%nat.
Proof.
  induction l as [|x l IH]; [done|].
  destruct (decide (Q x)); destruct (decide (P x));
    rewrite ?(filter_cons_True Q), ?(filter_cons_False Q) by done;
    rewrite ?(filter_cons_True P), ?(filter_cons_False P) by done;
    simpl; lia.
Qed.

Lemma oneActPerTask_Closed : Closed oneActPerTask.
Proof.
  split; try (intros; assumption).
  - intros d act set Hset Hd taskID. unfold actsOfTask. simpl.
    rewrite actsOfTask_update by done. rewrite length_fmap. apply Hd.
  - intros d act Hd Hnone taskID. unfold actsOfTask in *. simpl.
    rewrite filter_app, length_app.
    destruct (decide (ia_TaskID act = taskID)) as [<-|Hne].
    + rewrite Hnone. by rewrite filter_cons_True.
    + rewrite (filter_cons_False _ act) by done. rewrite filter_nil. simpl.
      pose proof (Hd taskID) as Hone. unfold actsOfTask in Hone. lia.
  - intros env taskID req w Hw t. unfold actsOfTask.
    rewrite (preserves_CreateOrUpdateResult inspection_acts
               (fun _ _ _ => eq_refl) env taskID req w).
    apply Hw.
Qed.

Lemma oneResultPerPair_Closed : Closed oneResultPerPair.
Proof.
  split; try (intros; assumption).
  - intros d taskID elementID Hd t e. unfold resultsOfPair, resultsNotOfPair. simpl.
    etransitivity; [apply length_filter_filter|]. apply Hd.
  - intros env taskID req w Hw t e.
    by apply CreateOrUpdateResult_pairs_unique.
Qed.

Lemma resultsWithinChecklist_Closed : Closed resultsWithinChecklist.
Proof.
  split; try (intros; assumption).
  - intros d id t s now Hd Ht r Hr. destruct (Hd r Hr) as (t0 & Ht0 & Hin).
    simpl. destruct (decide (ir_TaskID r = id)) as [Heq|Hne].
    + rewrite Heq in *. rewrite lookup_insert_eq. eexists. split; [done|].
      rewrite Ht in Ht0. injection Ht0 as ->. exact Hin.
    + rewrite lookup_insert_ne by done. by exists t0.
  - intros d id t i now Hd Ht r Hr. destruct (Hd r Hr) as (t0 & Ht0 & Hin).
    simpl. destruct (decide (ir_TaskID r = id)) as [Heq|Hne].
    + rewrite Heq in *. rewrite lookup_insert_eq. eexists. split; [done|].
      rewrite Ht in Ht0. injection Ht0 as ->. exact Hin.
    + rewrite lookup_insert_ne by done. by exists t0.
  - intros d id Hd Hnone _ r Hr. destruct (Hd r Hr) as (t0 & Ht0 & Hin).
    simpl. exists t0. split; [|done].
    rewrite lookup_delete_ne; [done|]. intros Heq.
    assert (r ∈ resultsOfTask d id) as Hmem
      by (by apply list_elem_of_filter).
    rewrite Hnone in Hmem. by apply elem_of_nil in Hmem.
  - intros d id t Hd Hnone r Hr. destruct (Hd r Hr) as (t0 & Ht0 & Hin).
    simpl. exists t0. split; [|done].
    rewrite lookup_insert_ne; [done|]. intros Heq. congruence.
  - intros d taskID elementID Hd r Hr. simpl in Hr.
    apply list_elem_of_filter in Hr as [_ Hr]. apply (Hd r Hr).
  - intros env taskID req w Hw r.
    pose proof (preserves_CreateOrUpdateResult
                  (fun d => (tasks d, checklist_elements d))
                  (fun _ _ _ => eq_refl) env taskID req w) as Hkeep.
    simpl in Hkeep. injection Hkeep as Htasks Helems.
    assert (forall r0 t,
              tasks (db w) !! ir_TaskID r0 = Some t /\
              elementInChecklist (db w) (ir_ChecklistElementID r0) (t_ChecklistID t) ->
              exists t,
                tasks (db (snd (CreateOrUpdateResult env taskID req w))) !! ir_TaskID r0
                  = Some t /\
                elementInChecklist (db (snd (CreateOrUpdateResult env taskID req w)))
                  (ir_ChecklistElementID r0) (t_ChecklistID t)) as Hmove.
    { intros r0 t [Ht Hin]. exists t. rewrite Htasks. split; [done|].
      unfold elementInChecklist in *. by rewrite Helems. }
    destruct (CreateOrUpdateResult_results env taskID req w)
      as [Hsame|[(t & Ht & _ & Hin) [(existing & _ & Hupd)|[_ Hnew]]]].
    + rewrite Hsame. intros Hr. destruct (Hw r Hr) as (t & ?). by apply (Hmove r t).
    + rewrite Hupd. intros Hr. apply list_elem_of_fmap in Hr as (r0 & -> & Hr0).
      destruct (Hw r0 Hr0) as (t0 & ?).
      destruct (decide _); by apply (Hmove r0 t0).
    + rewrite Hnew. intros Hr. apply elem_of_app in Hr as [Hr|Hr].
      * destruct (Hw r Hr) as (t0 & ?). by apply (Hmove r t0).
      * apply list_elem_of_singleton in Hr as ->. by apply (Hmove _ t).
Qed.

(** X3.  Whatever requests the task, result and act handlers serve, in
    whatever order and with whatever failures, a store in which every task
    has at most one act, every task at most one result per element, and
    every result is of an element of the checklist of its task, stays so. *)
Theorem every_history_keeps_the_store_consistent
    (history : list (CrudEnv * Request)) (w : World) :
  consistent (db w) -> consistent (db (serveAll history w)).
Proof.
  intros (Hacts & Hresults & Hwithin). repeat split.
  - by apply (keeps_serveAll _ oneActPerTask_Closed).
  - by apply (keeps_serveAll _ oneResultPerPair_Closed).
  - by apply (keeps_serveAll _ resultsWithinChecklist_Closed).
Qed.

(** ** What a change of status touches *)

Section TaskFrame.
Context {B : Type} (f : DB -> B).
Hypothesis f_tasks : forall d v, f (DB_set_tasks v d) = f d.

Lemma preserves_Task_Only env id : preserves f (Task_Only env id).
Proof. unfold Task_Only. frame. Qed.

Lemma preserves_Task_UpdateOneID_SetStatus env id s :
  preserves f (Task_UpdateOneID_SetStatus env id s).
Proof.
  intros w. unfold Task_UpdateOneID_SetStatus, time_Now, fault. run_M.
  destruct (StatusValidator s); simpl; [|done].
  destruct (faults env OpTaskUpdate); simpl; [done|].
  destruct (tasks (db w) !! id); simpl; [|done]. apply f_tasks.
Qed.

Lemma preserves_Task_UpdateOneID_SetInspectorID cenv taskID inspectorID :
  preserves f (Task_UpdateOneID_SetInspectorID cenv taskID inspectorID).
Proof.
  intros w. unfold Task_UpdateOneID_SetInspectorID, time_Now, fault. run_M.
  destruct (faults (core cenv) OpTaskUpdate); simpl; [done|].
  destruct (tasks (db w) !! taskID); simpl; [|done].
  destruct (decide _); simpl; [done|]. apply f_tasks.
Qed.

Lemma preserves_Task_DeleteOneID cenv id : preserves f (Task_DeleteOneID cenv id).
Proof.
  intros w. unfold Task_DeleteOneID, cfault. run_M.
  destruct (crudFaults cenv OpTaskDelete); simpl; [done|].
  destruct (tasks (db w) !! id); simpl; [|done].
  destruct (decide _); simpl; [|done]. apply f_tasks.
Qed.

Lemma preserves_User_Exist cenv id : preserves f (User_Exist cenv id).
Proof.
  intros w. unfold User_Exist, cfault. run_M.
  by destruct (crudFaults cenv OpUserExist).
Qed.

Lemma preserves_AssignInspector cenv taskID inspectorID :
  preserves f (AssignInspector cenv taskID inspectorID).
Proof.
  unfold AssignInspector.
  pose proof preserves_User_Exist. pose proof preserves_Task_UpdateOneID_SetInspectorID.
  frame.
Qed.

Lemma preserves_DeleteTask cenv id : preserves f (DeleteTask cenv id).
Proof. unfold DeleteTask. pose proof preserves_Task_DeleteOneID. frame. Qed.

Hypothesis f_acts : forall d v s, f (DB_set_acts v s d) = f d.

Lemma preserves_UpdateTaskStatus env id newStatus :
  preserves f (UpdateTaskStatus env id newStatus).
Proof.
  unfold UpdateTaskStatus.
  pose proof preserves_Task_Only. pose proof preserves_Task_UpdateOneID_SetStatus.
  pose proof (preserves_actIntegration f f_acts).
  frame.
Qed.

End TaskFrame.

Lemma Task_UpdateOneID_SetStatus_tasks env id s w :
  let w' := snd (Task_UpdateOneID_SetStatus env id s w) in
  tasks (db w') = tasks (db w) \/
  exists t, tasks (db w) !! id = Some t /\
            tasks (db w') = <[id := Task_SetStatus s (clock env (ticks w)) t]>
                              (tasks (db w)).
Proof.
  unfold Task_UpdateOneID_SetStatus, time_Now, fault. run_M.
  destruct (StatusValidator s); simpl; [|by left].
  destruct (faults env OpTaskUpdate); simpl; [by left|].
  destruct (tasks (db w) !! id) as [t|] eqn:Ht; simpl; [|by left].
  right. by exists t.
Qed.

(** What [UpdateTaskStatus] does to the table of tasks, whatever fails. *)
Lemma UpdateTaskStatus_tasks env id s w :
  let w' := snd (UpdateTaskStatus env id s w) in
  tasks (db w') = tasks (db w) \/
  exists t, tasks (db w) !! id = Some t /\
            isTransitionAllowed (t_Status t) s = true /\
            tasks (db w') = <[id := Task_SetStatus s (clock env (ticks w)) t]>
                              (tasks (db w)).
Proof.
  simpl. rewrite UpdateTaskStatus_run, Task_Only_run.
  destruct (faults env OpTaskOnly); [by left|].
  destruct (tasks (db w) !! id) as [t|] eqn:Ht; [|by left].
  destruct (isTransitionAllowed (t_Status t) s) eqn:Hallowed; [|by left].
  pose proof (Task_UpdateOneID_SetStatus_tasks env id s w) as Hupd.
  destruct (Task_UpdateOneID_SetStatus env id s w) as [[[]|err] w2]; simpl in Hupd.
  - rewrite (preserves_actIntegration tasks (fun _ _ _ => eq_refl) env id s w2).
    destruct Hupd as [->|(t' & Ht' & ->)]; [by left|].
    right. exists t. rewrite Ht in Ht'. injection Ht' as <-. done.
  - simpl. destruct Hupd as [->|(t' & Ht' & ->)]; [by left|].
    right. exists t. rewrite Ht in Ht'. injection Ht' as <-. done.
Qed.

(** X4.  Whatever fails, [UpdateTaskStatus] writes no result and changes
    no building, checklist, user or other task; of the task itself it
    changes at most the status and [updated_at], and the status only to the
    one requested. *)
Theorem UpdateTaskStatus_touches_one_task (env : Env) (w : World) (id : Z)
    (newStatus : Status) :
  let w' := snd (UpdateTaskStatus env id newStatus w) in
  inspection_results (db w') = inspection_results (db w) /\
  catalogue (db w') = catalogue (db w) /\
  (forall id', id' <> id -> tasks (db w') !! id' = tasks (db w) !! id') /\
  match tasks (db w) !! id with
  | None => tasks (db w') !! id = None
  | Some t =>
      exists t', tasks (db w') !! id = Some t' /\ sameButStatus t t' /\
                 (t' = t \/ t_Status t' = newStatus)
  end.
Proof.
  intros w'. subst w'.
  split; [apply (preserves_UpdateTaskStatus inspection_results
                   (fun _ _ => eq_refl) (fun _ _ _ => eq_refl))|].
  split; [apply (preserves_UpdateTaskStatus catalogue
                   (fun _ _ => eq_refl) (fun _ _ _ => eq_refl))|].
  destruct (UpdateTaskStatus_tasks env id newStatus w)
    as [Hsame|(t & Ht & _ & Hupd)].
  - rewrite Hsame. split; [done|].
    destruct (tasks (db w) !! id) as [t|]; [|done].
    exists t. by repeat split; [..|left].
  - rewrite Hupd, Ht. split.
    + intros id' Hne. by rewrite lookup_insert_ne.
    + rewrite lookup_insert_eq. eexists. split; [done|].
      by repeat split; [..|right].
Qed.

(** ** The document of an act *)

Section PathOnly.
Context (P : DB -> Prop).
Hypothesis P_path : forall d act p,
  P d ->
  P (DB_set_acts (updateByID act (Act_SetDocumentPath p) <$> inspection_acts d)
       (act_seq d) d).

Lemma keeps_recordPath env op act ok p :
  keeps P (Act_UpdateOne env op act ok (Act_SetDocumentPath p)).
Proof.
  intros w Hw. unfold Act_UpdateOne, fault. run_M.
  destruct ok; simpl; [|done].
  destruct (faults env op); simpl; [done|].
  destruct (filter _ _); simpl; [done|].
  by apply P_path.
Qed.

Lemma keeps_path_renderAndStore env storagePath taskID act :
  keeps P (renderAndStore env storagePath taskID act).
Proof.
  unfold renderAndStore.
  pose proof (keeps_Result_All P). pose proof (keeps_generatePDF P).
  pose proof keeps_recordPath.
  keeps.
Qed.

Lemma keeps_path_GeneratePDFForAct env storagePath taskID :
  keeps P (GeneratePDFForAct env storagePath taskID).
Proof.
  unfold GeneratePDFForAct.
  pose proof (keeps_Act_Only_WithTask P). pose proof (keeps_readStored P).
  pose proof keeps_path_renderAndStore.
  keeps.
Qed.

End PathOnly.

Lemma sameButPath_refl (l : list InspectionAct) : Forall2 sameButPath l l.
Proof. induction l; constructor; [by repeat split|done]. Qed.

(** X5.  Asking for the document of an act, whatever fails, changes no
    task, no result and no catalogue table, adds and removes no act, and
    leaves every act its status, conclusion and approval date: at most
    document paths are recorded. *)
Theorem GeneratePDFForAct_records_only_the_path (env : Env)
    (storagePath : string) (taskID : Z) (w : World) :
  onlyPathsDiffer (db w) (db (snd (GeneratePDFForAct env storagePath taskID w))).
Proof.
  apply (keeps_path_GeneratePDFForAct (onlyPathsDiffer (db w))).
  - intros d act p (Ht & Hr & Hc & Ha). repeat split; try done.
    simpl. apply Forall2_fmap_r.
    eapply Forall2_impl; [exact Ha|].
    intros x y (? & ? & ? & ? & ? & ?).
    unfold compose, updateByID, sameButPath. case_match; simpl; auto 10.
  - repeat split. apply sameButPath_refl.
Qed.

Lemma GeneratePDFForAct_hit env storagePath taskID w a data :
  faults env OpActOnly = false ->
  faults env OpReadFile = false ->
  actsOfTask (db w) taskID = [a] ->
  ia_DocumentPath a <> "" ->
  fs w !! ia_DocumentPath a = Some data ->
  GeneratePDFForAct env storagePath taskID w
    = (Ok (data, filepath_Base (ia_DocumentPath a)), w).
Proof.
  intros Hq Hf Hone Hp Hfile. unfold GeneratePDFForAct.
  rewrite bind_try, Act_Only_WithTask_run by done.
  rewrite Hone. simpl. rewrite bind_run.
  by rewrite (readStored_hit env (Act_WithTask (loadTaskFull (db w) (ia_TaskID a)) a)
                w data Hp Hf Hfile).
Qed.

Lemma GeneratePDFForAct_render env storagePath taskID w a t :
  no_faults env ->
  actsOfTask (db w) taskID = [a] ->
  loadTaskFull (db w) taskID = Some t ->
  cacheMiss env w a ->
  let results := loadResult (db w) <$> resultsOfTask (db w) taskID in
  let pdf := drawAct (Act_WithTask (Some t) a) t results (clock env (ticks w)) in
  let filename := actFilename taskID (clock env (S (ticks w))) in
  let fullPath := filepath_Join storagePath filename in
  DocumentPathValidator fullPath = true ->
  let r := GeneratePDFForAct env storagePath taskID w in
  fst r = Ok (pdf, filename) /\
  fs (snd r) = <[fullPath := pdf]> (fs w) /\
  actsOfTask (db (snd r)) taskID = [Act_SetDocumentPath fullPath a].
Proof.
  intros Hnf Hone Ht Hmiss. cbv zeta. intros Hv.
  unfold GeneratePDFForAct.
  rewrite bind_try, Act_Only_WithTask_run by apply Hnf.
  destruct (elem_of_actsOfTask _ _ _ Hone) as [Hin Htid].
  rewrite Hone. simpl. rewrite Htid, Ht. rewrite bind_run.
  set (act := Act_WithTask (Some t) a).
  destruct (readStored_miss env act w Hmiss) as (Hr & Hdb & Hfs & Hticks).
  destruct (readStored env act w) as [r1 [db1 fs1 logs1 ticks1]].
  simpl in *. subst.
  destruct (renderAndStore_run env storagePath (ia_TaskID a) act a t
              (mkWorld (db w) (fs w) logs1 (ticks w)))
    as (Hfst & Hacts & Hfiles); try done.
  split; [exact Hfst|]. split; [exact Hfiles|].
  unfold actsOfTask at 1. rewrite Hacts. simpl.
  rewrite actsOfTask_update by done. rewrite Hone. simpl.
  unfold updateByID. by rewrite decide_True.
Qed.

(** X6.  A document that had to be rendered is stored: the next request
    for it returns the same bytes under the same file name and changes
    nothing, whatever the clock shows then. *)
Theorem second_download_is_served_from_the_store (env env2 : Env)
    (storagePath : string) (taskID : Z) (w : World) (a : InspectionAct) (t : Task) :
  no_faults env ->
  faults env2 OpActOnly = false ->
  faults env2 OpReadFile = false ->
  actsOfTask (db w) taskID = [a] ->
  loadTaskFull (db w) taskID = Some t ->
  cacheMiss env w a ->
  let filename := actFilename taskID (clock env (S (ticks w))) in
  DocumentPathValidator (filepath_Join storagePath filename) = true ->
  let r1 := GeneratePDFForAct env storagePath taskID w in
  let r2 := GeneratePDFForAct env2 storagePath taskID (snd r1) in
  (exists pdf, fst r1 = Ok (pdf, filename)) /\
  fst r2 = fst r1 /\ snd r2 = snd r1.
Proof.
  intros Hnf Hq Hread Hone Ht Hmiss filename Hv r1 r2.
  destruct (GeneratePDFForAct_render env storagePath taskID w a t Hnf Hone Ht Hmiss Hv)
    as (Hfst & Hfs & Hacts).
  fold r1 in Hfst, Hfs, Hacts. fold filename in Hfst, Hfs, Hacts.
  split; [eauto|].
  subst r2.
  rewrite (GeneratePDFForAct_hit env2 storagePath taskID (snd r1)
             (Act_SetDocumentPath (filepath_Join storagePath filename) a)
             (drawAct (Act_WithTask (Some t) a) t
                (loadResult (db w) <$> resultsOfTask (db w) taskID)
                (clock env (ticks w)))); try done.
  - simpl. rewrite Hfst.
    by rewrite filepath_Base_Join by apply realElement_actFilename.
  - simpl. apply filepath_Join_nonempty, actFilename_nonempty.
  - simpl. rewrite Hfs. apply lookup_insert_eq.
Qed.

(** ** Deleting a result *)

Lemma DeleteResult_run cenv taskID elementID w :
  DeleteResult cenv taskID elementID w =
    if crudFaults cenv OpResultDelete
    then (Err (wrap "database error" ErrIO), w)
    else
      let w1 := World_set_db
                  (DB_set_results (resultsNotOfPair (db w) taskID elementID)
                     (result_seq (db w)) (db w)) w in
      if decide (resultsOfPair (db w) taskID elementID = [])
      then (Err ErrResultNotFound, w1) else (Ok tt, w1).
Proof.
  unfold DeleteResult. rewrite bind_try. unfold Result_Delete, cfault. run_M.
  destruct (crudFaults cenv OpResultDelete); simpl; [done|].
  by destruct (resultsOfPair (db w) taskID elementID) as [|r rows].
Qed.

Lemma resultsNotOfPair_none (d : DB) (taskID elementID : Z) :
  resultsOfPair d taskID elementID = [] ->
  resultsNotOfPair d taskID elementID = inspection_results d.
Proof.
  unfold resultsOfPair, resultsNotOfPair.
  induction (inspection_results d) as [|r rows IH]; [done|].
  destruct (decide (ir_TaskID r = taskID /\ ir_ChecklistElementID r = elementID)).
  - by rewrite filter_cons_True.
  - rewrite filter_cons_False by done. intros Hrows.
    rewrite filter_cons_True by done. by rewrite IH.
Qed.

Lemma resultsOfPair_after_delete (d : DB) (taskID elementID t e : Z) seq :
  resultsOfPair (DB_set_results (resultsNotOfPair d taskID elementID) seq d) t e =
    if decide (t = taskID /\ e = elementID) then []
    else resultsOfPair d t e.
Proof.
  unfold resultsOfPair, resultsNotOfPair. simpl.
  induction (inspection_results d) as [|r rows IH]; [by destruct (decide _)|].
  destruct (decide (ir_TaskID r = taskID /\ ir_ChecklistElementID r = elementID))
    as [[Ht He]|Hne].
  - rewrite (filter_cons_False _ r) by tauto. rewrite IH.
    destruct (decide (t = taskID /\ e = elementID)) as [[-> ->]|Hother]; [done|].
    rewrite filter_cons_False; [done|]. intros [? ?]. apply Hother. split; congruence.
  - rewrite (filter_cons_True _ r) by done.
    destruct (decide (ir_TaskID r = t /\ ir_ChecklistElementID r = e)) as [[Ht He]|Hr].
    + rewrite !(filter_cons_True _ r) by done. rewrite IH.
      destruct (decide (t = taskID /\ e = elementID)) as [[-> ->]|Hother]; [|done].
      exfalso. by apply Hne.
    + rewrite !(filter_cons_False _ r) by done. exact IH.
Qed.

Lemma World_same_db (w : World) :
  World_set_db
    (DB_set_results (inspection_results (db w)) (result_seq (db w)) (db w)) w = w.
Proof. destruct w as [[] ? ? ?]. reflexivity. Qed.

(** X7.  [DeleteResult] removes the rows of the (task, element) pair and
    nothing else, whatever the status of the task and whether or not the
    task exists; with no row to remove it answers [ErrResultNotFound], and
    when the database call fails it answers a database error; in both cases
    the world is left as it was. *)
Theorem DeleteResult_removes_exactly_the_pair (cenv : CrudEnv)
    (taskID elementID : Z) (w : World) :
  let r := DeleteResult cenv taskID elementID w in
  (crudFaults cenv OpResultDelete = true ->
     r = (Err (wrap "database error" ErrIO), w)) /\
  (crudFaults cenv OpResultDelete = false ->
   resultsOfPair (db w) taskID elementID = [] ->
     r = (Err ErrResultNotFound, w)) /\
  (crudFaults cenv OpResultDelete = false ->
   resultsOfPair (db w) taskID elementID <> [] ->
     fst r = Ok tt /\
     inspection_results (db (snd r)) = resultsNotOfPair (db w) taskID elementID /\
     resultsOfPair (db (snd r)) taskID elementID = [] /\
     (forall t e, ~ (t = taskID /\ e = elementID) ->
        resultsOfPair (db (snd r)) t e = resultsOfPair (db w) t e) /\
     tasks (db (snd r)) = tasks (db w) /\
     inspection_acts (db (snd r)) = inspection_acts (db w) /\
     catalogue (db (snd r)) = catalogue (db w) /\
     fs (snd r) = fs w).
Proof.
  intros r. subst r. rewrite DeleteResult_run.
  split; [by intros ->|]. split.
  - intros -> Hnone. cbv zeta. rewrite decide_True by done.
    rewrite (resultsNotOfPair_none _ _ _ Hnone). by rewrite World_same_db.
  - intros -> Hsome. cbv zeta. rewrite decide_False by done. simpl.
    split; [done|]. split; [done|].
    split; [rewrite resultsOfPair_after_delete; by rewrite decide_True|].
    split; [|done].
    intros t e Hne. rewrite resultsOfPair_after_delete. by rewrite decide_False.
Qed.

Lemma CreateOrUpdateResult_not_in_progress env taskID req w t :
  faults env OpTaskOnly = false ->
  tasks (db w) !! taskID = Some t ->
  t_Status t <> StatusInProgress ->
  CreateOrUpdateResult env taskID req w = (Err ErrTaskNotInProgress, w).
Proof.
  intros Hf Ht Hst. unfold CreateOrUpdateResult. rewrite bind_run.
  rewrite validateTaskAndElement_run, Task_Only_WithChecklist_run, Hf, Ht. simpl.
  by rewrite decide_True.
Qed.

(** X8.  The guard on the status of the task protects the results against
    being written, not against being deleted: for a task that is not in
    progress [CreateOrUpdateResult] refuses with [ErrTaskNotInProgress],
    while [DeleteResult] removes the result of the same element. *)
Theorem results_of_a_closed_task_can_be_deleted (env : Env) (cenv : CrudEnv)
    (taskID : Z) (req : CreateInspectionResultRequest) (w : World) (t : Task) :
  faults env OpTaskOnly = false ->
  crudFaults cenv OpResultDelete = false ->
  tasks (db w) !! taskID = Some t ->
  t_Status t <> StatusInProgress ->
  resultsOfPair (db w) taskID (req_ChecklistElementID req) <> [] ->
  CreateOrUpdateResult env taskID req w = (Err ErrTaskNotInProgress, w) /\
  fst (DeleteResult cenv taskID (req_ChecklistElementID req) w) = Ok tt /\
  resultsOfPair (db (snd (DeleteResult cenv taskID (req_ChecklistElementID req) w)))
    taskID (req_ChecklistElementID req) = [].
Proof.
  intros Hf Hd Ht Hst Hrows.
  split; [by apply (CreateOrUpdateResult_not_in_progress env taskID req w t)|].
  rewrite DeleteResult_run, Hd. cbv zeta. rewrite decide_False by done. simpl.
  split; [done|]. rewrite resultsOfPair_after_delete. by rewrite decide_True.
Qed.

(** X9.  A document that is stored is served as it is: after a result of
    the task is deleted, the request for the document still returns the
    bytes rendered before. *)
Theorem deleted_result_stays_in_served_document (env : Env) (cenv : CrudEnv)
    (storagePath : string) (taskID elementID : Z) (w : World)
    (a : InspectionAct) (data : PDF) :
  faults env OpActOnly = false ->
  faults env OpReadFile = false ->
  crudFaults cenv OpResultDelete = false ->
  actsOfTask (db w) taskID = [a] ->
  ia_DocumentPath a <> "" ->
  fs w !! ia_DocumentPath a = Some data ->
  resultsOfPair (db w) taskID elementID <> [] ->
  let w1 := snd (DeleteResult cenv taskID elementID w) in
  fst (DeleteResult cenv taskID elementID w) = Ok tt /\
  resultsOfPair (db w1) taskID elementID = [] /\
  GeneratePDFForAct env storagePath taskID w1
    = (Ok (data, filepath_Base (ia_DocumentPath a)), w1).
Proof.
  intros Hq Hread Hd Hone Hp Hfile Hrows w1. subst w1.
  rewrite DeleteResult_run, Hd. cbv zeta. rewrite decide_False by done. simpl.
  split; [done|].
  split; [rewrite resultsOfPair_after_delete; by rewrite decide_True|].
  by apply GeneratePDFForAct_hit.
Qed.

(** X10.  Recording the result of an element that had none and deleting
    it again leaves the table of results as it was. *)
Theorem upsert_then_delete_restores_the_results (env : Env) (cenv : CrudEnv)
    (w : World) (taskID : Z) (t : Task) (elementID : Z) (condition : string)
    (comment : option string) :
  no_faults env ->
  crudFaults cenv OpResultDelete = false ->
  tasks (db w) !! taskID = Some t ->
  t_Status t = StatusInProgress ->
  elementInChecklist (db w) elementID (t_ChecklistID t) ->
  ConditionStatusValidator condition = true ->
  resultsOfPair (db w) taskID elementID = [] ->
  let w1 := snd (CreateOrUpdateResult env taskID
                   (mkRequest elementID condition comment) w) in
  let r2 := DeleteResult cenv taskID elementID w1 in
  length (resultsOfPair (db w1) taskID elementID) = 1%nat /\
  fst r2 = Ok tt /\
  inspection_results (db (snd r2)) = inspection_results (db w).
Proof.
  intros Hnf Hd Ht Hst Hin Hv Hnone w1 r2.
  destruct (CreateOrUpdateResult_once env w taskID t elementID condition comment
              Hnf Ht Hst Hin Hv) as (resp & w' & row & Hrun & _ & _ & Hrow & _).
  { rewrite Hnone. simpl. lia. }
  assert (w1 = w') as -> by (subst w1; by rewrite Hrun).
  pose proof (CreateOrUpdateResult_results env taskID
                (mkRequest elementID condition comment) w) as Heffect.
  rewrite Hrun in Heffect. simpl in Heffect.
  destruct Heffect as [Hsame|[_ [(existing & Hex & _)|[_ Hnew]]]].
  - exfalso. unfold resultsOfPair in Hrow, Hnone. rewrite Hsame, Hnone in Hrow.
    discriminate.
  - rewrite Hnone in Hex. discriminate.
  - split; [by rewrite Hrow|]. subst r2.
    rewrite DeleteResult_run, Hd. cbv zeta.
    rewrite decide_False by (rewrite Hrow; discriminate). simpl.
    split; [done|].
    unfold resultsNotOfPair. rewrite Hnew, filter_app.
    rewrite (filter_cons_False _ (createdRow _ _ _ _ _ _)) by (simpl; tauto).
    rewrite filter_nil, app_nil_r.
    by apply resultsNotOfPair_none.
Qed.

(** ** The summary of the results of a task *)

Lemma GetTaskResults_run env taskID w :
  GetTaskResults env taskID w =
    if faults env OpTaskOnly then (Err (wrap "database error" ErrIO), w)
    else match tasks (db w) !! taskID with
         | None => (Err ErrTaskNotFound, w)
         | Some t =>
             if faults env OpResultAll then (Err (wrap "database error" ErrIO), w)
             else match loadChecklistFull (db w) (t_ChecklistID t) with
                  | None => (Err nilDereference, w)
                  | Some cl =>
                      let results :=
                        loadResult (db w) <$> resultsOfTask (db w) taskID in
                      (Ok (mkTaskResultsSummary (t_ID t) (t_Title t)
                             (Z.of_nat (length (cl_Edges_Elements cl)))
                             (Z.of_nat (length results))
                             (toInspectionResultResponse <$> results)), w)
                  end
         end.
Proof.
  unfold GetTaskResults. rewrite bind_try.
  unfold Task_Only_WithElements, Result_All, fault. run_M.
  destruct (faults env OpTaskOnly); simpl; [done|].
  destruct (tasks (db w) !! taskID) as [t|]; simpl; [|done].
  destruct (faults env OpResultAll); simpl; [done|].
  by destruct (loadChecklistFull (db w) (t_ChecklistID t)).
Qed.

Lemma NoDup_fmap_of_unique {A} (g : A -> Z) (l : list A) :
  (forall e, (length (filter (fun x => g x = e) l) <= 1)%nat) ->
  NoDup (g <$> l).
Proof.
  induction l as [|x l IH]; intros Huniq; [constructor|].
  simpl. constructor.
  - intros Hin. apply list_elem_of_fmap in Hin as (y & Hy & Hmem).
    pose proof (Huniq (g x)) as Hlen.
    rewrite filter_cons_True in Hlen by done. simpl in Hlen.
    assert (y ∈ filter (fun x0 => g x0 = g x) l) as Hy'
      by (by apply list_elem_of_filter).
    destruct (filter (fun x0 => g x0 = g x) l); [by apply elem_of_nil in Hy'|].
    simpl in Hlen. lia.
  - apply IH. intros e. pose proof (Huniq e) as Hlen.
    destruct (decide (g x = e)).
    + rewrite filter_cons_True in Hlen by done. simpl in Hlen. lia.
    + by rewrite filter_cons_False in Hlen.
Qed.

Lemma resultsOfPair_of_task (d : DB) (taskID e : Z) :
  filter (fun r => ir_ChecklistElementID r = e) (resultsOfTask d taskID)
    = resultsOfPair d taskID e.
Proof.
  unfold resultsOfTask, resultsOfPair.
  induction (inspection_results d) as [|r rows IH]; [done|].
  destruct (decide (ir_TaskID r = taskID)) as [Ht|Ht].
  - rewrite (filter_cons_True (fun r => ir_TaskID r = taskID)) by done.
    destruct (decide (ir_ChecklistElementID r = e)) as [He|He].
    + rewrite !filter_cons_True by done. by rewrite IH.
    + rewrite !filter_cons_False by tauto. exact IH.
  - rewrite (filter_cons_False (fun r => ir_TaskID r = taskID)) by done.
    rewrite filter_cons_False by tauto. exact IH.
Qed.

(** In a consistent store the results of a task are no more than the
    elements of its checklist. *)
Lemma results_within_elements (d : DB) (taskID : Z) (t : Task) :
  oneResultPerPair d ->
  resultsWithinChecklist d ->
  tasks d !! taskID = Some t ->
  (length (resultsOfTask d taskID) <=
   length (filter (fun ce => ce_ChecklistID ce = t_ChecklistID t)
             (checklist_elements d)))%nat.
Proof.
  intros Hpair Hwithin Ht.
  rewrite <- (length_fmap ir_ChecklistElementID (resultsOfTask d taskID)).
  rewrite <- (length_fmap ce_ID (filter _ (checklist_elements d))).
  apply submseteq_length, NoDup_submseteq.
  - apply NoDup_fmap_of_unique. intros e. rewrite resultsOfPair_of_task. apply Hpair.
  - intros e He. apply list_elem_of_fmap in He as (r & -> & Hr).
    apply list_elem_of_filter in Hr as [Htask Hr].
    destruct (Hwithin r Hr) as (t' & Ht' & ce & Hce & Hid & Hcl).
    rewrite Htask, Ht in Ht'. injection Ht' as <-.
    apply list_elem_of_fmap. exists ce. split; [done|].
    by apply list_elem_of_filter.
Qed.

Lemma GetTaskResults_world env taskID w :
  snd (GetTaskResults env taskID w) = w.
Proof.
  rewrite GetTaskResults_run.
  destruct (faults env OpTaskOnly); [done|].
  destruct (tasks (db w) !! taskID) as [t|]; [|done].
  destruct (faults env OpResultAll); [done|].
  by destruct (loadChecklistFull (db w) (t_ChecklistID t)).
Qed.

(** X11.  [GetTaskResults] only reads: whatever it returns, the world is
    as before.  In a consistent store the summary it returns never counts
    more completed elements than the checklist of the task has, and the
    count of completed elements is the number of results listed. *)
Theorem GetTaskResults_completed_within_total (env : Env) (taskID : Z)
    (w : World) :
  snd (GetTaskResults env taskID w) = w /\
  (forall s, oneResultPerPair (db w) -> resultsWithinChecklist (db w) ->
     fst (GetTaskResults env taskID w) = Ok s ->
       0 <= trs_CompletedElements s <= trs_TotalElements s /\
       trs_CompletedElements s = Z.of_nat (length (trs_Results s))).
Proof.
  rewrite GetTaskResults_run.
  destruct (faults env OpTaskOnly); [by split|].
  destruct (tasks (db w) !! taskID) as [t|] eqn:Ht; [|by split].
  destruct (faults env OpResultAll); [by split|].
  unfold loadChecklistFull.
  destruct (checklists (db w) !! t_ChecklistID t) as [c|]; simpl; [|by split].
  split; [done|]. intros s Hpair Hwithin [= <-]. simpl.
  rewrite !length_fmap.
  pose proof (results_within_elements (db w) taskID t Hpair Hwithin Ht). lia.
Qed.

(** X12.  Progress is counted by rows: recording the result of an element
    of a task in progress raises the number of completed elements that
    [GetTaskResults] reports by one when the element had no result, and
    leaves it as it was when the result is overwritten; the total does not
    change. *)
Theorem upsert_advances_the_summary (env env' : Env) (w : World) (taskID : Z)
    (t : Task) (cl : Checklist) (elementID : Z) (condition : string)
    (comment : option string) :
  no_faults env ->
  faults env' OpTaskOnly = false ->
  faults env' OpResultAll = false ->
  tasks (db w) !! taskID = Some t ->
  t_Status t = StatusInProgress ->
  checklists (db w) !! t_ChecklistID t = Some cl ->
  elementInChecklist (db w) elementID (t_ChecklistID t) ->
  ConditionStatusValidator condition = true ->
  (length (resultsOfPair (db w) taskID elementID) <= 1)%nat ->
  let w1 := snd (CreateOrUpdateResult env taskID
                   (mkRequest elementID condition comment) w) in
  exists s s1,
    fst (GetTaskResults env' taskID w) = Ok s /\
    fst (GetTaskResults env' taskID w1) = Ok s1 /\
    trs_TotalElements s1 = trs_TotalElements s /\
    trs_CompletedElements s1 =
      trs_CompletedElements s +
      (if decide (resultsOfPair (db w) taskID elementID = []) then 1 else 0).
Proof.
  intros Hnf Hq Hall Ht Hst Hcl Hin Hv Hlen w1.
  destruct (CreateOrUpdateResult_once env w taskID t elementID condition comment
              Hnf Ht Hst Hin Hv Hlen)
    as (resp & w' & row & Hrun & Htasks & Helems & Hrow & _).
  assert (w1 = w') as -> by (subst w1; by rewrite Hrun).
  pose proof (preserves_CreateOrUpdateResult checklists (fun _ _ _ => eq_refl)
                env taskID (mkRequest elementID condition comment) w) as Hcls.
  rewrite Hrun in Hcls. simpl in Hcls.
  pose proof (CreateOrUpdateResult_results env taskID
                (mkRequest elementID condition comment) w) as Heffect.
  rewrite Hrun in Heffect. simpl in Heffect.
  rewrite !GetTaskResults_run, Hq, Hall, Htasks, Ht.
  unfold loadChecklistFull. rewrite Hcls, Hcl. simpl.
  eexists _, _. split; [done|]. split; [done|]. simpl.
  rewrite !length_fmap, Helems. split; [done|].
  unfold resultsOfTask.
  destruct Heffect as [Hsame|[_ [(existing & Hex & Hupd)|[Hnone Hnew]]]].
  - unfold resultsOfPair in Hrow.
    destruct (decide _) as [Hnone|Hsome].
    + rewrite Hsame in Hrow. unfold resultsOfPair in Hnone. rewrite Hnone in Hrow.
      discriminate.
    + rewrite Hsame. lia.
  - rewrite decide_False by (rewrite Hex; discriminate).
    rewrite Hupd, filter_fmap_stable, length_fmap; [lia|].
    intros r. by destruct (decide _).
  - rewrite decide_True by done.
    rewrite Hnew, filter_app, length_app.
    rewrite (filter_cons_True _ (createdRow _ _ _ _ _ _)) by done.
    rewrite filter_nil. simpl. lia.
Qed.

(** ** Reading a task back *)

Lemma RetrieveTask_run env id w :
  RetrieveTask env id w =
    if faults env OpTaskOnly then (Err (wrap "database error" ErrIO), w)
    else match tasks (db w) !! id with
         | None => (Err ErrTaskNotFound, w)
         | Some t => (Ok (toTaskDetailResponse (loadTaskEdges (db w) t)), w)
         end.
Proof.
  unfold RetrieveTask. rewrite bind_try.
  unfold Task_Only_WithEdges, fault. run_M.
  destruct (faults env OpTaskOnly); simpl; [done|].
  by destruct (tasks (db w) !! id).
Qed.

Lemma UpdateTaskStatus_stored env w id newStatus t :
  faults env OpTaskOnly = false ->
  faults env OpTaskUpdate = false ->
  tasks (db w) !! id = Some t ->
  (t_Status t, newStatus) ∈ legalPairs ->
  fst (UpdateTaskStatus env id newStatus w) = Ok tt /\
  tasks (db (snd (UpdateTaskStatus env id newStatus w)))
    = <[id := Task_SetStatus newStatus (clock env (ticks w)) t]> (tasks (db w)).
Proof.
  intros Hq Hu Ht Hlegal.
  rewrite (UpdateTaskStatus_permitted env w id newStatus t Hq Hu Ht Hlegal). simpl.
  split; [done|].
  pose proof (preserves_actIntegration tasks (fun _ _ _ => eq_refl) env id newStatus
                (persisted env id newStatus t w)) as Hkeep.
  by rewrite actIntegration_run in Hkeep.
Qed.

(** X13.  A permitted change of status is what the next reader sees:
    [RetrieveTask] returns the task with the new status and the time of the
    change as [updated_at], and with its other columns as they were. *)
Theorem RetrieveTask_after_UpdateTaskStatus (env env' : Env) (w : World) (id : Z)
    (newStatus : Status) (t : Task) :
  faults env OpTaskOnly = false ->
  faults env OpTaskUpdate = false ->
  faults env' OpTaskOnly = false ->
  tasks (db w) !! id = Some t ->
  (t_Status t, newStatus) ∈ legalPairs ->
  let w' := snd (UpdateTaskStatus env id newStatus w) in
  exists resp,
    RetrieveTask env' id w' = (Ok resp, w') /\
    td_Status resp = newStatus /\
    td_UpdatedAt resp = format_rfc3339 (clock env (ticks w)) /\
    td_ID resp = t_ID t /\ td_Title resp = t_Title t /\
    td_Priority resp = t_Priority t /\ td_Description resp = t_Description t /\
    td_ScheduledDate resp = format_rfc3339 (t_ScheduledDate t) /\
    td_CreatedAt resp = format_rfc3339 (t_CreatedAt t).
Proof.
  intros Hq Hu Hq' Ht Hlegal w'. subst w'.
  destruct (UpdateTaskStatus_stored env w id newStatus t Hq Hu Ht Hlegal)
    as [_ Htasks].
  rewrite RetrieveTask_run, Hq', Htasks, lookup_insert_eq.
  eexists. split; [done|]. by repeat split.
Qed.

(** ** Reassigning and deleting a task *)

Lemma AssignInspector_run cenv taskID inspectorID w :
  AssignInspector cenv taskID inspectorID w =
    if crudFaults cenv OpUserExist then (Err ErrInvalidForeignKey, w)
    else if decide (users (db w) !! inspectorID = None)
    then (Err ErrInvalidForeignKey, w)
    else
      let w1 := mkWorld (db w) (fs w) (logs w) (S (ticks w)) in
      if faults (core cenv) OpTaskUpdate
      then (Err (wrap "database error" ErrIO), w1)
      else match tasks (db w) !! taskID with
           | None => (Err ErrTaskNotFound, w1)
           | Some t =>
               (Ok tt,
                mkWorld
                  (DB_set_tasks
                     (<[taskID := Task_SetInspectorID inspectorID
                                    (clock (core cenv) (ticks w)) t]> (tasks (db w)))
                     (db w))
                  (fs w) (logs w) (S (ticks w)))
           end.
Proof.
  unfold AssignInspector. rewrite bind_try. unfold User_Exist, cfault. run_M.
  destruct (crudFaults cenv OpUserExist); simpl; [done|].
  destruct (users (db w) !! inspectorID) as [u|] eqn:Hu; simpl.
  - unfold Task_UpdateOneID_SetInspectorID, time_Now, fault. run_M.
    destruct (faults (core cenv) OpTaskUpdate); simpl; [done|].
    destruct (tasks (db w) !! taskID); simpl; [|done].
    by rewrite Hu.
  - done.
Qed.

(** X14.  [AssignInspector] looks for the inspector before it looks for the
    task: an unknown inspector, or a failure of that lookup, is answered
    [ErrInvalidForeignKey] with the world untouched, also when the task does
    not exist; with the inspector known, a missing task is answered
    [ErrTaskNotFound]; otherwise the task gets the inspector and a new
    [updated_at] and keeps every other column (key, building, checklist,
    title, priority, status, description, scheduled date, creation time),
    and no other task, no result and no act changes. *)
Theorem AssignInspector_checks_the_inspector_first (cenv : CrudEnv)
    (taskID inspectorID : Z) (w : World) :
  let r := AssignInspector cenv taskID inspectorID w in
  (crudFaults cenv OpUserExist = true \/ users (db w) !! inspectorID = None ->
     r = (Err ErrInvalidForeignKey, w)) /\
  (crudFaults cenv OpUserExist = false ->
   is_Some (users (db w) !! inspectorID) ->
   faults (core cenv) OpTaskUpdate = false ->
     (tasks (db w) !! taskID = None ->
        fst r = Err ErrTaskNotFound /\ db (snd r) = db w) /\
     (forall t, tasks (db w) !! taskID = Some t ->
        fst r = Ok tt /\
        (exists t', tasks (db (snd r)) !! taskID = Some t' /\
                    t_InspectorID t' = inspectorID /\
                    t_UpdatedAt t' = clock (core cenv) (ticks w) /\
                    t_ID t' = t_ID t /\
                    t_BuildingID t' = t_BuildingID t /\
                    t_ChecklistID t' = t_ChecklistID t /\
                    t_Title t' = t_Title t /\
                    t_Priority t' = t_Priority t /\
                    t_Status t' = t_Status t /\
                    t_Description t' = t_Description t /\
                    t_ScheduledDate t' = t_ScheduledDate t /\
                    t_CreatedAt t' = t_CreatedAt t) /\
        (forall id', id' <> taskID ->
           tasks (db (snd r)) !! id' = tasks (db w) !! id') /\
        inspection_results (db (snd r)) = inspection_results (db w) /\
        inspection_acts (db (snd r)) = inspection_acts (db w))).
Proof.
  intros r. subst r. rewrite AssignInspector_run. split.
  - intros [-> | Hnone]; [done|].
    destruct (crudFaults cenv OpUserExist); [done|]. by rewrite decide_True.
  - intros -> [u Hu] ->. rewrite decide_False by congruence. cbv zeta. split.
    + by intros ->.
    + intros t ->. simpl. split; [done|]. split.
      * eexists. rewrite lookup_insert_eq. split; [done|]. by repeat split.
      * split; [|done]. intros id' Hne. by rewrite lookup_insert_ne.
Qed.

Lemma DeleteTask_run cenv id w :
  DeleteTask cenv id w =
    if crudFaults cenv OpTaskDelete then (Err (wrap "database error" ErrIO), w)
    else match tasks (db w) !! id with
         | None => (Err ErrTaskNotFound, w)
         | Some _ =>
             if decide (resultsOfTask (db w) id = [] /\ actsOfTask (db w) id = [])
             then (Ok tt, World_set_db (DB_set_tasks (delete id (tasks (db w))) (db w)) w)
             else (Err (wrap "database error" ErrConstraint), w)
         end.
Proof.
  unfold DeleteTask. rewrite bind_try. unfold Task_DeleteOneID, cfault. run_M.
  destruct (crudFaults cenv OpTaskDelete); simpl; [done|].
  destruct (tasks (db w) !! id); simpl; [|done].
  by destruct (decide _).
Qed.

(** X15.  [DeleteTask] answers [ErrTaskNotFound] for a task that is not
    there and changes nothing; when it succeeds the task is gone, so that
    [RetrieveTask] no longer finds it, every other task is as before, and
    no result or act is left behind without its task. *)
Theorem DeleteTask_removes_one_task (cenv : CrudEnv) (env : Env) (id : Z)
    (w : World) :
  let r := DeleteTask cenv id w in
  (crudFaults cenv OpTaskDelete = false -> tasks (db w) !! id = None ->
     r = (Err ErrTaskNotFound, w)) /\
  (fst r = Ok tt ->
     is_Some (tasks (db w) !! id) /\
     tasks (db (snd r)) !! id = None /\
     (forall id', id' <> id -> tasks (db (snd r)) !! id' = tasks (db w) !! id') /\
     resultsOfTask (db (snd r)) id = [] /\ actsOfTask (db (snd r)) id = [] /\
     inspection_results (db (snd r)) = inspection_results (db w) /\
     inspection_acts (db (snd r)) = inspection_acts (db w) /\
     (faults env OpTaskOnly = false ->
        fst (RetrieveTask env id (snd r)) = Err ErrTaskNotFound)) /\
  (crudFaults cenv OpTaskDelete = false ->
   is_Some (tasks (db w) !! id) ->
   resultsOfTask (db w) id = [] -> actsOfTask (db w) id = [] ->
     fst r = Ok tt).
Proof.
  intros r. subst r. rewrite DeleteTask_run. split; [|split].
  - by intros -> ->.
  - destruct (crudFaults cenv OpTaskDelete); [done|].
    destruct (tasks (db w) !! id) as [t|] eqn:Ht; [|done].
    destruct (decide _) as [[Hr Ha]|]; [|done]. intros _. simpl.
    split; [eauto|]. split; [apply lookup_delete_eq|].
    split; [intros id' Hne; by apply lookup_delete_ne|].
    split; [exact Hr|]. split; [exact Ha|]. split; [done|]. split; [done|].
    intros Hq. rewrite RetrieveTask_run, Hq. simpl. by rewrite lookup_delete_eq.
  - intros -> [t ->] Hr Ha. by rewrite decide_True.
Qed.

(** ** Listing tasks *)

Lemma ListTasks_run cenv inspectorID status w :
  ListTasks cenv inspectorID status w =
    if crudFaults cenv OpTaskAll then (Err (Errorf "database error"), w)
    else (Ok (toTaskResponse <$>
                (loadTaskEdges (db w) <$>
                   filter (taskMatches inspectorID status)
                          (map_to_list (tasks (db w))).*2)), w).
Proof.
  unfold ListTasks. rewrite bind_try. unfold Task_All_WithEdges, cfault. run_M.
  by destruct (crudFaults cenv OpTaskAll).
Qed.

(** X16.  [ListTasks] returns the tasks that pass the filters given and
    nothing else, so a list asked for one inspector shows no task of
    another; the status filter is compared as a string and is not
    validated, so a status that no task can have gives the empty list, not
    an error. *)
Theorem ListTasks_selects_by_the_filters (cenv : CrudEnv)
    (inspectorID : option Z) (status : option string) (w : World) :
  crudFaults cenv OpTaskAll = false ->
  exists l,
    ListTasks cenv inspectorID status w = (Ok l, w) /\
    (forall resp, resp ∈ l <->
       exists id t, tasks (db w) !! id = Some t /\
                    taskMatches inspectorID status t /\
                    resp = toTaskResponse (loadTaskEdges (db w) t)) /\
    (forall resp, resp ∈ l ->
       (forall i, inspectorID = Some i ->
          exists id t, tasks (db w) !! id = Some t /\ t_InspectorID t = i /\
                       tr_ID resp = t_ID t) /\
       (forall s, status = Some s -> tr_Status resp = s)) /\
    (forall s, status = Some s ->
       (forall id t, tasks (db w) !! id = Some t ->
                     StatusValidator (t_Status t) = true) ->
       StatusValidator s = false -> l = []).
Proof.
  intros Hf. rewrite ListTasks_run, Hf. eexists. split; [done|].
  assert (forall resp,
            resp ∈ toTaskResponse <$>
                     (loadTaskEdges (db w) <$>
                        filter (taskMatches inspectorID status)
                               (map_to_list (tasks (db w))).*2) <->
            exists id t, tasks (db w) !! id = Some t /\
                         taskMatches inspectorID status t /\
                         resp = toTaskResponse (loadTaskEdges (db w) t)) as Hmem.
  { intros resp. split.
    - intros Hin. apply list_elem_of_fmap in Hin as (t1 & -> & Hin).
      apply list_elem_of_fmap in Hin as (t & -> & Hin).
      apply list_elem_of_filter in Hin as [Hmatch Hin].
      apply list_elem_of_fmap in Hin as ([id t'] & -> & Hin).
      apply elem_of_map_to_list in Hin. by exists id, t'.
    - intros (id & t & Ht & Hmatch & ->).
      apply list_elem_of_fmap. eexists. split; [done|].
      apply list_elem_of_fmap. eexists. split; [done|].
      apply list_elem_of_filter. split; [done|].
      apply list_elem_of_fmap. exists (id, t). split; [done|].
      by apply elem_of_map_to_list. }
  split; [exact Hmem|]. split.
  - intros resp Hin. apply Hmem in Hin as (id & t & Ht & [Hi Hs] & ->). split.
    + intros i Heq. exists id, t. by rewrite (Hi i Heq).
    + intros s Heq. simpl. by apply Hs.
  - intros s -> Hvalid Hbad.
    destruct (filter _ _) as [|t rest] eqn:Hfilter; [done|]. exfalso.
    assert (t ∈ filter (taskMatches inspectorID (Some s))
                  (map_to_list (tasks (db w))).*2) as Hin
      by (rewrite Hfilter; left).
    apply list_elem_of_filter in Hin as [[_ Hs] Hin].
    apply list_elem_of_fmap in Hin as ([id t'] & -> & Hin).
    apply elem_of_map_to_list in Hin.
    specialize (Hvalid id t' Hin). simpl in Hs.
    rewrite (Hs s eq_refl) in Hvalid. congruence.
Qed.

(** ** Creating a task *)

Lemma validateForeignKeys_run cenv b c i w :
  validateForeignKeys cenv b c i w =
    (if negb (crudFaults cenv OpBuildingExist) &&
        bool_decide (is_Some (buildings (db w) !! b)) &&
        (negb (crudFaults cenv OpChecklistExist) &&
         bool_decide (is_Some (checklists (db w) !! c))) &&
        (negb (crudFaults cenv OpUserExist) &&
         bool_decide (is_Some (users (db w) !! i)))
     then Ok tt else Err ErrInvalidForeignKey, w).
Proof.
  unfold validateForeignKeys, Building_Exist, Checklist_Exist, User_Exist, cfault.
  run_M.
  destruct (crudFaults cenv OpBuildingExist); simpl; [done|].
  destruct (bool_decide (is_Some (buildings (db w) !! b))); simpl; [|done].
  destruct (crudFaults cenv OpChecklistExist); simpl; [done|].
  destruct (bool_decide (is_Some (checklists (db w) !! c))); simpl; [|done].
  destruct (crudFaults cenv OpUserExist); simpl; [done|].
  by destruct (bool_decide (is_Some (users (db w) !! i))).
Qed.

Lemma Task_Create_run cenv nextTaskID b c i title priority date description w :
  Task_Create cenv nextTaskID b c i title priority date description w =
    let w2 := mkWorld (db w) (fs w) (logs w) (S (S (ticks w))) in
    if crudFaults cenv OpTaskCreate then (Err ErrIO, w2)
    else if decide (buildings (db w) !! b = None) then (Err ErrConstraint, w2)
    else if decide (checklists (db w) !! c = None) then (Err ErrConstraint, w2)
    else if decide (users (db w) !! i = None) then (Err ErrConstraint, w2)
    else if decide (tasks (db w) !! nextTaskID = None) then
      let t := mkTask nextTaskID b c i title priority StatusNew
                 (default "" description) date
                 (clock (core cenv) (ticks w)) (clock (core cenv) (S (ticks w)))
                 None None None in
      (Ok t, mkWorld (DB_set_tasks (<[nextTaskID := t]> (tasks (db w))) (db w))
               (fs w) (logs w) (S (S (ticks w))))
    else (Err ErrConstraint, w2).
Proof.
  unfold Task_Create, time_Now, cfault. run_M.
  destruct (crudFaults cenv OpTaskCreate); simpl; [done|].
  destruct (decide (buildings (db w) !! b = None)); simpl; [done|].
  destruct (decide (checklists (db w) !! c = None)); simpl; [done|].
  destruct (decide (users (db w) !! i = None)); simpl; [done|].
  by destruct (decide (tasks (db w) !! nextTaskID = None)).
Qed.

Lemma InspectorUnit_Exist_assigned (units : list InspectorUnit) (userID unitID : Z) :
  filter (fun iu => iu_UserID iu = userID /\ iu_JkhUnitID iu = unitID) units <> []
  <-> assignedTo units userID unitID.
Proof.
  split.
  - destruct (filter _ units) as [|iu rest] eqn:Hf; [done|]. intros _.
    assert (iu ∈ filter (fun iu => iu_UserID iu = userID /\ iu_JkhUnitID iu = unitID)
                   units) as Hin by (rewrite Hf; left).
    apply list_elem_of_filter in Hin as [[? ?] ?]. by exists iu.
  - intros (iu & Hin & Hu & Hj) Hnil.
    assert (iu ∈ filter (fun iu => iu_UserID iu = userID /\ iu_JkhUnitID iu = unitID)
                   units) as Hmem by (by apply list_elem_of_filter).
    rewrite Hnil in Hmem. by apply elem_of_nil in Hmem.
Qed.

Lemma Building_Only_run cenv id w :
  Building_Only cenv id w =
    if crudFaults cenv OpBuildingOnly then (Err ErrIO, w)
    else match buildings (db w) !! id with
         | Some b => (Ok b, w)
         | None => (Err ErrNotFound, w)
         end.
Proof.
  unfold Building_Only, cfault. run_M.
  destruct (crudFaults cenv OpBuildingOnly); simpl; [done|].
  by destruct (buildings (db w) !! id).
Qed.

Lemma InspectorUnit_Exist_run cenv units userID unitID w :
  InspectorUnit_Exist cenv units userID unitID w =
    if crudFaults cenv OpInspectorUnitExist then (Err ErrIO, w)
    else (Ok (bool_decide (assignedTo units userID unitID)), w).
Proof.
  unfold InspectorUnit_Exist, cfault. run_M.
  destruct (crudFaults cenv OpInspectorUnitExist); simpl; [done|].
  f_equal. f_equal. apply bool_decide_ext, InspectorUnit_Exist_assigned.
Qed.

(** The steps of [CreateTask] up to the insert. *)
Lemma CreateTask_run cenv units nextTaskID time_Parse req w :
  CreateTask cenv units nextTaskID time_Parse req w =
    match validateForeignKeys cenv (ctr_BuildingID req) (ctr_ChecklistID req)
            (ctr_InspectorID req) w with
    | (Err e, _) => (Err e, w)
    | (Ok _, _) =>
    if crudFaults cenv OpBuildingOnly then (Err (wrap "database error" ErrIO), w) else
    match buildings (db w) !! ctr_BuildingID req with
    | None => (Err (wrap "database error" ErrNotFound), w)
    | Some b =>
    if decide (b_JkhUnitID b = 0)
    then (Err (Errorf "building has no JKH unit assigned"), w) else
    if crudFaults cenv OpInspectorUnitExist
    then (Err (wrap "database error" ErrIO), w) else
    if decide (assignedTo units (ctr_InspectorID req) (b_JkhUnitID b)) then
      match time_Parse (ctr_ScheduledDate req) with
      | None => (Err (Errorf "invalid scheduled_date format (use ISO 8601)"), w)
      | Some scheduledDate =>
          match Task_Create cenv nextTaskID (ctr_BuildingID req) (ctr_ChecklistID req)
                  (ctr_InspectorID req) (ctr_Title req)
                  (if decide (ctr_Priority req = "") then defaultPriority
                   else ctr_Priority req)
                  scheduledDate (ctr_Description req) w with
          | (Err err, w1) =>
              (Err (Errorf "database error"),
               mkWorld (db w1) (fs w1)
                 (logs w1 ++ ["DB error creating task: " +:+ Error_string err])
                 (ticks w1))
          | (Ok t, w1) =>
              match Task_Only_WithEdges (core cenv) (t_ID t) w1 with
              | (Err err, w2) => (Err (wrap "failed to fetch created task" err), w2)
              | (Ok t', w2) => (Ok (toTaskDetailResponse t'), w2)
              end
          end
      end
    else (Err ErrInspectorNotAssigned, w)
    end
    end.
Proof.
  unfold CreateTask. rewrite bind_run, validateForeignKeys_run.
  destruct (_ && _); [|done].
  rewrite bind_try, Building_Only_run.
  destruct (crudFaults cenv OpBuildingOnly); [done|].
  destruct (buildings (db w) !! ctr_BuildingID req) as [b|]; [|done].
  cbn [fst snd].
  destruct (decide (b_JkhUnitID b = 0)); [done|].
  rewrite bind_try, InspectorUnit_Exist_run.
  destruct (crudFaults cenv OpInspectorUnitExist); [done|].
  cbn [fst snd].
  destruct (decide (assignedTo units _ _)) as [Hyes|Hno].
  - rewrite bool_decide_eq_true_2 by done. cbn [negb].
    destruct (time_Parse (ctr_ScheduledDate req)) as [sd|]; [|done].
    rewrite bind_try.
    destruct (Task_Create cenv nextTaskID _ _ _ _ _ sd _ w) as [[t|err] w1];
      cbn [fst snd]; [|done].
    rewrite bind_try.
    by destruct (Task_Only_WithEdges (core cenv) (t_ID t) w1) as [[t'|err] w2].
  - by rewrite bool_decide_eq_false_2 by done.
Qed.

Lemma Task_Only_WithEdges_run env id w :
  Task_Only_WithEdges env id w =
    if faults env OpTaskOnly then (Err ErrIO, w)
    else match tasks (db w) !! id with
         | Some t => (Ok (loadTaskEdges (db w) t), w)
         | None => (Err ErrNotFound, w)
         end.
Proof.
  unfold Task_Only_WithEdges, fault. run_M.
  destruct (faults env OpTaskOnly); simpl; [done|].
  by destruct (tasks (db w) !! id).
Qed.

(** X17.  Whatever fails, [CreateTask] either stores nothing or stores one
    task under a fresh key, and that task is New, has a priority, names an
    existing building, checklist and inspector, and its inspector is
    assigned to the JKH unit of the building. *)
Theorem CreateTask_stores_a_new_task_or_nothing (cenv : CrudEnv)
    (units : list InspectorUnit) (nextTaskID : Z)
    (time_Parse : string -> option Time) (req : CreateTaskRequest) (w : World) :
  let w' := snd (CreateTask cenv units nextTaskID time_Parse req w) in
  db w' = db w \/
  exists b scheduledDate created updated,
    let t := createdTask nextTaskID req scheduledDate created updated in
    db w' = DB_set_tasks (<[nextTaskID := t]> (tasks (db w))) (db w) /\
    tasks (db w) !! nextTaskID = None /\
    t_Status t = StatusNew /\ t_Priority t <> "" /\
    time_Parse (ctr_ScheduledDate req) = Some scheduledDate /\
    buildings (db w) !! ctr_BuildingID req = Some b /\
    b_JkhUnitID b <> 0 /\
    assignedTo units (ctr_InspectorID req) (b_JkhUnitID b) /\
    is_Some (checklists (db w) !! ctr_ChecklistID req) /\
    is_Some (users (db w) !! ctr_InspectorID req).
Proof.
  intros w'. subst w'. rewrite CreateTask_run, validateForeignKeys_run.
  destruct (_ && _); [|by left].
  destruct (crudFaults cenv OpBuildingOnly); [by left|].
  destruct (buildings (db w) !! ctr_BuildingID req) as [b|] eqn:Hb; [|by left].
  destruct (decide (b_JkhUnitID b = 0)); [by left|].
  destruct (crudFaults cenv OpInspectorUnitExist); [by left|].
  destruct (decide (assignedTo units _ _)) as [Hyes|]; [|by left].
  destruct (time_Parse (ctr_ScheduledDate req)) as [sd|] eqn:Hsd; [|by left].
  rewrite Task_Create_run. cbv zeta.
  destruct (crudFaults cenv OpTaskCreate); [by left|].
  destruct (decide (buildings (db w) !! _ = None)); [by left|].
  destruct (decide (checklists (db w) !! _ = None)) as [|Hc]; [by left|].
  destruct (decide (users (db w) !! _ = None)) as [|Hu]; [by left|].
  destruct (decide (tasks (db w) !! nextTaskID = None)) as [Hfresh|]; [|by left].
  assert ((if decide (ctr_Priority req = "") then defaultPriority
           else ctr_Priority req) <> "") as Hprio
    by (destruct (decide _); [discriminate|done]).
  apply not_eq_None_Some in Hc, Hu.
  rewrite Task_Only_WithEdges_run.
  destruct (faults (core cenv) OpTaskOnly); simpl;
    [|rewrite lookup_insert_eq; simpl];
    (right; exists b, sd, (clock (core cenv) (ticks w)),
                  (clock (core cenv) (S (ticks w))); by repeat split).
Qed.

(** X18.  With nothing failing, a request that names an existing building
    with a JKH unit, an existing checklist, an inspector assigned to that
    unit and a date that parses, under a fresh key, creates the task: the
    response shows it as New with the priority asked for or the default
    one, and [RetrieveTask] returns that same response afterwards. *)
Theorem CreateTask_then_RetrieveTask (cenv : CrudEnv) (env : Env)
    (units : list InspectorUnit) (nextTaskID : Z)
    (time_Parse : string -> option Time) (req : CreateTaskRequest) (w : World)
    (b : Building) (scheduledDate : Time) :
  no_crud_faults cenv ->
  faults env OpTaskOnly = false ->
  buildings (db w) !! ctr_BuildingID req = Some b ->
  b_JkhUnitID b <> 0 ->
  is_Some (checklists (db w) !! ctr_ChecklistID req) ->
  is_Some (users (db w) !! ctr_InspectorID req) ->
  assignedTo units (ctr_InspectorID req) (b_JkhUnitID b) ->
  time_Parse (ctr_ScheduledDate req) = Some scheduledDate ->
  tasks (db w) !! nextTaskID = None ->
  exists resp w',
    CreateTask cenv units nextTaskID time_Parse req w = (Ok resp, w') /\
    td_ID resp = nextTaskID /\
    td_Status resp = StatusNew /\
    td_Title resp = ctr_Title req /\
    td_Priority resp = (if decide (ctr_Priority req = "") then defaultPriority
                        else ctr_Priority req) /\
    td_ScheduledDate resp = format_rfc3339 scheduledDate /\
    td_Building resp = mkBuildingInfo (b_ID b) (b_Address b) /\
    tasks (db w') !! nextTaskID
      = Some (createdTask nextTaskID req scheduledDate
                (clock (core cenv) (ticks w)) (clock (core cenv) (S (ticks w)))) /\
    (forall id, id <> nextTaskID -> tasks (db w') !! id = tasks (db w) !! id) /\
    RetrieveTask env nextTaskID w' = (Ok resp, w').
Proof.
  intros [Hcore Hcrud] Hq Hb Hunit [c Hc] [u Hu] Hassigned Hdate Hfresh.
  rewrite CreateTask_run, validateForeignKeys_run, !Hcrud, Hb, Hc, Hu. simpl.
  rewrite decide_False by done. rewrite decide_True by done. rewrite Hdate.
  rewrite Task_Create_run, Hcrud, Hb, Hc, Hu. cbv zeta.
  rewrite !(decide_False (P:=Some _ = None)) by done.
  rewrite decide_True by done.
  rewrite Task_Only_WithEdges_run, (Hcore OpTaskOnly). simpl.
  rewrite lookup_insert_eq. simpl.
  eexists _, _. split; [done|].
  assert (forall t,
            t_BuildingID t = ctr_BuildingID req ->
            td_Building
              (toTaskDetailResponse
                 (loadTaskEdges
                    (DB_set_tasks (<[nextTaskID := t]> (tasks (db w))) (db w)) t))
            = mkBuildingInfo (b_ID b) (b_Address b)) as Hinfo.
  { intros t Ht. unfold toTaskDetailResponse, loadTaskEdges.
    cbn [td_Building t_Edges_Building buildings DB_set_tasks].
    rewrite Ht, Hb. done. }
  split; [done|]. split; [done|]. split; [done|]. split; [done|].
  split; [done|]. split; [by apply Hinfo|].
  split; [simpl; by rewrite lookup_insert_eq|].
  split; [intros id Hne; simpl; by rewrite lookup_insert_ne|].
  rewrite RetrieveTask_run, Hq. cbn [db tasks DB_set_tasks].
  by rewrite lookup_insert_eq.
Qed.

(** X19.  Whether the inspector serves the JKH unit of the building is
    checked when a task is created and not when it is reassigned: for an
    inspector who is not assigned to the unit, [CreateTask] refuses with
    [ErrInspectorNotAssigned] and stores nothing, while [AssignInspector]
    gives the same inspector any task of that building. *)
Theorem unit_assignment_is_checked_on_creation_only (cenv : CrudEnv)
    (units : list InspectorUnit) (nextTaskID : Z)
    (time_Parse : string -> option Time) (req : CreateTaskRequest) (w : World)
    (b : Building) (taskID : Z) (t : Task) :
  no_crud_faults cenv ->
  buildings (db w) !! ctr_BuildingID req = Some b ->
  b_JkhUnitID b <> 0 ->
  is_Some (checklists (db w) !! ctr_ChecklistID req) ->
  is_Some (users (db w) !! ctr_InspectorID req) ->
  ~ assignedTo units (ctr_InspectorID req) (b_JkhUnitID b) ->
  tasks (db w) !! taskID = Some t ->
  t_BuildingID t = ctr_BuildingID req ->
  CreateTask cenv units nextTaskID time_Parse req w
    = (Err ErrInspectorNotAssigned, w) /\
  fst (AssignInspector cenv taskID (ctr_InspectorID req) w) = Ok tt /\
  t_InspectorID <$>
    tasks (db (snd (AssignInspector cenv taskID (ctr_InspectorID req) w))) !! taskID
    = Some (ctr_InspectorID req).
Proof.
  intros [Hcore Hcrud] Hb Hunit [c Hc] [u Hu] Hno Ht _. split.
  - rewrite CreateTask_run, validateForeignKeys_run, !Hcrud, Hb, Hc, Hu. simpl.
    rewrite decide_False by done. by rewrite decide_False by done.
  - rewrite AssignInspector_run, Hcrud, Hu, (Hcore OpTaskUpdate), Ht.
    rewrite decide_False by done. simpl. split; [done|].
    by rewrite lookup_insert_eq.
Qed.

(** ** The handlers *)

(** How a call of [UpdateTaskStatus] can end. *)
Lemma UpdateTaskStatus_outcome env id s w :
  let r := UpdateTaskStatus env id s w in
  (fst r = Ok tt /\
   exists t, tasks (db w) !! id = Some t /\ (t_Status t, s) ∈ legalPairs /\
             tasks (db (snd r))
               = <[id := Task_SetStatus s (clock env (ticks w)) t]> (tasks (db w))) \/
  (r = (Err ErrTaskNotFound, w) /\ tasks (db w) !! id = None) \/
  (r = (Err ErrInvalidStatusTransition, w) /\
   exists t, tasks (db w) !! id = Some t /\ (t_Status t, s) ∉ legalPairs) \/
  (exists e, fst r = Err (wrap "database error" e) /\
             tasks (db (snd r)) = tasks (db w)).
Proof.
  cbv zeta. rewrite UpdateTaskStatus_run, Task_Only_run.
  destruct (faults env OpTaskOnly); [right; right; right; by eexists|].
  destruct (tasks (db w) !! id) as [t|] eqn:Ht; [|right; left; by split].
  destruct (isTransitionAllowed (t_Status t) s) eqn:Hallowed.
  - apply isTransitionAllowed_legal in Hallowed as Hlegal.
    destruct (faults env OpTaskUpdate) eqn:Hu.
    + right; right; right. exists ErrIO.
      unfold Task_UpdateOneID_SetStatus, time_Now, fault. run_M.
      rewrite (legal_target_valid _ _ Hlegal), Hu. by simpl.
    + left. rewrite (Task_UpdateOneID_SetStatus_run env id s w t Hu Ht
                       (legal_target_valid _ _ Hlegal)).
      rewrite actIntegration_run. simpl. split; [done|]. exists t.
      split; [done|]. split; [done|].
      pose proof (preserves_actIntegration tasks (fun _ _ _ => eq_refl) env id s
                    (persisted env id s t w)) as Hkeep.
      by rewrite actIntegration_run in Hkeep.
  - right; right; left. split; [done|]. exists t. split; [done|].
    intros Hlegal. apply isTransitionAllowed_legal in Hlegal. congruence.
Qed.

Lemma UpdateTaskStatusHandler_run env idParam decoded w :
  UpdateTaskStatusHandler env idParam decoded w =
    match strconv_Atoi idParam with
    | None => (Ok (mkReply 400 (ErrorJSON "Invalid task ID")), w)
    | Some id =>
        match bindUpdateTaskStatusRequest decoded with
        | None =>
            (Ok (mkReply 400 (ErrorJSON "Invalid request or validation failed")), w)
        | Some req =>
            let r := UpdateTaskStatus env id (utsr_Status req) w in
            (Ok match fst r with
                | Ok _ => mkReply 200 (MessageJSON "Task status updated successfully")
                | Err err =>
                    if decide (err = ErrTaskNotFound)
                    then mkReply 404 (ErrorJSON "Task not found")
                    else if decide (err = ErrInvalidStatusTransition)
                    then mkReply 400 (ErrorJSON "Invalid status transition")
                    else mkReply 500 (ErrorJSON "Failed to update task status")
                end, snd r)
        end
    end.
Proof.
  unfold UpdateTaskStatusHandler.
  destruct (strconv_Atoi idParam) as [id|]; [|done].
  destruct (bindUpdateTaskStatusRequest decoded) as [req|]; [|done].
  rewrite bind_try. cbv zeta.
  destruct (UpdateTaskStatus env id (utsr_Status req) w) as [[[]|err] w1]; [done|].
  cbn [fst snd]. by repeat destruct (decide _).
Qed.

Lemma bound_status_iff (s : string) :
  validUpdateTaskStatusRequest (mkUpdateTaskStatusRequest s) = true <->
  StatusValidator s = true /\ s <> StatusNew.
Proof.
  unfold validUpdateTaskStatusRequest, StatusValidator, Statuses, StatusNew. simpl.
  rewrite !bool_decide_eq_true, !elem_of_cons, !elem_of_nil.
  split.
  - intros H. split; [tauto|].
    intros ->. repeat (destruct H as [H|H]; [discriminate|]). done.
  - intros [H Hne]. tauto.
Qed.

Lemma bound_condition_iff (req : CreateInspectionResultRequest) :
  validCreateInspectionResultRequest req = true <->
  1 <= req_ChecklistElementID req /\
  ConditionStatusValidator (req_ConditionStatus req) = true.
Proof.
  unfold validCreateInspectionResultRequest, ConditionStatusValidator,
    ConditionStatuses.
  by rewrite andb_true_iff, !bool_decide_eq_true.
Qed.

(** X20.  What the handlers let through is what the schema accepts: a
    request to change the status is bound exactly when the status is one
    of the schema other than New, and a request to record a result exactly
    when the element id is positive and the condition is one of the schema;
    so the validators of the store never refuse a bound request. *)
Theorem bound_requests_pass_the_schema_validators :
  (forall req, validUpdateTaskStatusRequest req = true <->
     StatusValidator (utsr_Status req) = true /\ utsr_Status req <> StatusNew) /\
  (forall req, validCreateInspectionResultRequest req = true <->
     1 <= req_ChecklistElementID req /\
     ConditionStatusValidator (req_ConditionStatus req) = true) /\
  (forall c n, (c, n) ∈ legalPairs ->
     validUpdateTaskStatusRequest (mkUpdateTaskStatusRequest n) = true).
Proof.
  split; [|split].
  - intros [s]. apply bound_status_iff.
  - apply bound_condition_iff.
  - intros c n Hlegal. apply bound_status_iff. split.
    + by apply (legal_target_valid c).
    + apply legalPairs_inv in Hlegal.
      destruct Hlegal as [[_ [-> | ->]]|[[_ [-> | ->]]|[[_ [-> | ->]]|
                          [[_ [-> | ->]]|[_ [-> | ->]]]]]]; discriminate.
Qed.

(** X21.  The handler of the status route answers 200 only when the task
    was found, the transition is one of the table, and the new status is
    stored; it answers 400 without touching the world for a status outside
    the schema and for New; whenever it answers 400 or 404 the world is as
    before; and a permitted transition of an existing task, with the
    database reachable, is answered 200. *)
Theorem UpdateTaskStatusHandler_replies (env : Env) (idParam : string)
    (decoded : option UpdateTaskStatusRequest) (w : World) :
  let r := UpdateTaskStatusHandler env idParam decoded w in
  (forall id req, strconv_Atoi idParam = Some id -> decoded = Some req ->
     utsr_Status req = StatusNew \/ StatusValidator (utsr_Status req) = false ->
     r = (Ok (mkReply 400 (ErrorJSON "Invalid request or validation failed")), w)) /\
  (forall body, fst r = Ok (mkReply 200 body) ->
     exists id req t,
       strconv_Atoi idParam = Some id /\ decoded = Some req /\
       tasks (db w) !! id = Some t /\
       (t_Status t, utsr_Status req) ∈ legalPairs /\
       t_Status <$> tasks (db (snd r)) !! id = Some (utsr_Status req)) /\
  (forall body, fst r = Ok (mkReply 404 body) \/ fst r = Ok (mkReply 400 body) ->
     snd r = w) /\
  (forall id req t, strconv_Atoi idParam = Some id -> decoded = Some req ->
     faults env OpTaskOnly = false -> faults env OpTaskUpdate = false ->
     tasks (db w) !! id = Some t -> (t_Status t, utsr_Status req) ∈ legalPairs ->
     fst r = Ok (mkReply 200 (MessageJSON "Task status updated successfully"))).
Proof.
  intros r. subst r. rewrite UpdateTaskStatusHandler_run.
  split; [|split; [|split]].
  - intros id req -> -> Hbad. simpl.
    destruct (validUpdateTaskStatusRequest req) eqn:Hvalid; [|done].
    destruct req as [s]. apply bound_status_iff in Hvalid as [Hv Hne].
    simpl in Hbad. destruct Hbad; congruence.
  - intros body.
    destruct (strconv_Atoi idParam) as [id|]; [|discriminate].
    destruct decoded as [req|]; [|discriminate]. simpl.
    destruct (validUpdateTaskStatusRequest req); [|discriminate]. cbv zeta.
    destruct (UpdateTaskStatus_outcome env id (utsr_Status req) w)
      as [(Hok & t & Ht & Hlegal & Htasks)|[[-> _]|[[-> _]|(e & -> & _)]]];
      cbn [fst snd]; try discriminate;
      try (rewrite decide_False by done; rewrite decide_False by done;
           discriminate).
    intros _. exists id, req, t. repeat split; try done.
    by rewrite Htasks, lookup_insert_eq.
  - intros body.
    destruct (strconv_Atoi idParam) as [id|]; [|done].
    destruct (bindUpdateTaskStatusRequest decoded) as [req|]; [|done]. cbv zeta.
    destruct (UpdateTaskStatus_outcome env id (utsr_Status req) w)
      as [(-> & _)|[[-> _]|[[-> _]|(e & -> & _)]]]; cbn [fst snd]; try done;
      try (rewrite decide_False by done; rewrite decide_False by done);
      intros [|]; discriminate.
  - intros id req t -> -> Hq Hu Ht Hlegal. simpl.
    assert (validUpdateTaskStatusRequest req = true) as ->.
    { destruct req as [s]. apply bound_status_iff. split.
      - by apply (legal_target_valid (t_Status t)).
      - simpl in Hlegal. apply legalPairs_inv in Hlegal.
        destruct Hlegal as [[_ [-> | ->]]|[[_ [-> | ->]]|[[_ [-> | ->]]|
                            [[_ [-> | ->]]|[_ [-> | ->]]]]]]; discriminate. }
    cbv zeta.
    by rewrite (UpdateTaskStatus_permitted env w id (utsr_Status req) t Hq Hu Ht Hlegal).
Qed.

(** A change of status that enters neither OnReview nor Approved leaves
    the acts, the files and the log alone. *)
Lemma UpdateTaskStatus_quiet env id s w :
  s <> StatusOnReview -> s <> StatusApproved ->
  let r := UpdateTaskStatus env id s w in
  inspection_acts (db (snd r)) = inspection_acts (db w) /\
  fs (snd r) = fs w /\ logs (snd r) = logs w.
Proof.
  intros Hrev Happ. cbv zeta. rewrite UpdateTaskStatus_run, Task_Only_run.
  destruct (faults env OpTaskOnly); [done|].
  destruct (tasks (db w) !! id) as [t|] eqn:Ht; [|done].
  destruct (isTransitionAllowed (t_Status t) s); [|done].
  assert (let w2 := snd (Task_UpdateOneID_SetStatus env id s w) in
          inspection_acts (db w2) = inspection_acts (db w) /\
          fs w2 = fs w /\ logs w2 = logs w) as Hupd.
  { unfold Task_UpdateOneID_SetStatus, time_Now, fault. run_M.
    destruct (StatusValidator s); simpl; [|done].
    destruct (faults env OpTaskUpdate); simpl; [done|].
    by rewrite Ht. }
  destruct (Task_UpdateOneID_SetStatus env id s w) as [[[]|err] w2];
    simpl in Hupd; [|done].
  rewrite actIntegration_run. unfold afterIntegration.
  rewrite decide_False by done. by rewrite decide_False by done.
Qed.

Lemma AcceptTask_run env idParam w :
  AcceptTask env idParam w =
    match strconv_Atoi idParam with
    | None => (Ok (mkReply 400 (ErrorJSON "Invalid task ID")), w)
    | Some id =>
        let r := UpdateTaskStatus env id StatusInProgress w in
        (Ok match fst r with
            | Ok _ => mkReply 200 (MessageJSON "Task accepted successfully")
            | Err err =>
                if decide (err = ErrTaskNotFound)
                then mkReply 404 (ErrorJSON "Task not found")
                else if decide (err = ErrInvalidStatusTransition)
                then mkReply 400 (ErrorJSON "Task cannot be accepted (invalid status)")
                else mkReply 500 (ErrorJSON "Failed to accept task")
            end, snd r)
    end.
Proof.
  unfold AcceptTask.
  destruct (strconv_Atoi idParam) as [id|]; [|done].
  rewrite bind_try. cbv zeta.
  destruct (UpdateTaskStatus env id StatusInProgress w) as [[[]|err] w1]; [done|].
  cbn [fst snd]. by repeat destruct (decide _).
Qed.

Lemma legal_to_InProgress (c : Status) :
  (c, StatusInProgress) ∈ legalPairs <-> c = StatusPending.
Proof.
  split.
  - intros H. apply legalPairs_inv in H.
    destruct H as [[_ [H|H]]|[[-> _]|[[_ [H|H]]|[[_ [H|H]]|[_ [H|H]]]]]];
      try discriminate H. done.
  - intros ->. unfold legalPairs. do 2 right. left.
Qed.

(** X22.  The accept route takes pending tasks and nothing else: it
    answers 200 only when the task was Pending and is InProgress now, and
    then no act, no file and no log line has been written; a task in any
    other status is answered 400 with the world untouched. *)
Theorem AcceptTask_takes_pending_tasks (env : Env) (idParam : string) (w : World) :
  let r := AcceptTask env idParam w in
  (forall body, fst r = Ok (mkReply 200 body) ->
     exists id t,
       strconv_Atoi idParam = Some id /\ tasks (db w) !! id = Some t /\
       t_Status t = StatusPending /\
       t_Status <$> tasks (db (snd r)) !! id = Some StatusInProgress /\
       inspection_acts (db (snd r)) = inspection_acts (db w) /\
       inspection_results (db (snd r)) = inspection_results (db w) /\
       fs (snd r) = fs w /\ logs (snd r) = logs w) /\
  (forall id t, strconv_Atoi idParam = Some id ->
     faults env OpTaskOnly = false ->
     tasks (db w) !! id = Some t ->
     (t_Status t = StatusPending -> faults env OpTaskUpdate = false ->
        fst r = Ok (mkReply 200 (MessageJSON "Task accepted successfully"))) /\
     (t_Status t <> StatusPending ->
        r = (Ok (mkReply 400 (ErrorJSON "Task cannot be accepted (invalid status)")),
             w))).
Proof.
  intros r. subst r. rewrite AcceptTask_run. split.
  - intros body. destruct (strconv_Atoi idParam) as [id|]; [|discriminate].
    cbv zeta.
    destruct (UpdateTaskStatus_quiet env id StatusInProgress w)
      as (Hacts & Hfs & Hlogs); [done..|].
    pose proof (preserves_UpdateTaskStatus inspection_results
                  (fun _ _ => eq_refl) (fun _ _ _ => eq_refl)
                  env id StatusInProgress w) as Hres.
    destruct (UpdateTaskStatus_outcome env id StatusInProgress w)
      as [(Hok & t & Ht & Hlegal & Htasks)|[[Hr _]|[[Hr _]|(e & Hr & _)]]];
      cbn [fst snd]; rewrite ?Hr; cbn [fst snd]; try discriminate;
      try (rewrite decide_False by done; rewrite decide_False by done;
           discriminate).
    intros _. exists id, t. apply legal_to_InProgress in Hlegal.
    repeat split; try done. by rewrite Htasks, lookup_insert_eq.
  - intros id t -> Hq Ht. cbv zeta. split.
    + intros Hst Hu.
      rewrite (UpdateTaskStatus_permitted env w id StatusInProgress t Hq Hu Ht);
        [done|]. by apply legal_to_InProgress.
    + intros Hst. rewrite UpdateTaskStatus_run, Task_Only_run, Hq, Ht.
      destruct (isTransitionAllowed (t_Status t) StatusInProgress) eqn:Hallowed;
        [|done].
      apply isTransitionAllowed_legal, legal_to_InProgress in Hallowed. done.
Qed.

Lemma GeneratePDFForAct_none env storagePath taskID w :
  faults env OpActOnly = false ->
  actsOfTask (db w) taskID = [] ->
  GeneratePDFForAct env storagePath taskID w = (Err ErrActNotFound, w).
Proof.
  intros Hq Hnone. unfold GeneratePDFForAct.
  rewrite bind_try, Act_Only_WithTask_run by done. by rewrite Hnone.
Qed.

(** X23.  The download route answers 400 for an id that is not a positive
    number and 404 for a task without act, in both cases without touching
    the world; when the document of the act is stored it answers 200 with
    the stored bytes as an attachment named after the stored file, and
    changes nothing. *)
Theorem DownloadAct_replies (env : Env) (storagePath idParam : string) (w : World) :
  let r := DownloadAct env storagePath idParam w in
  (strconv_Atoi idParam = None \/
   (exists id, strconv_Atoi idParam = Some id /\ id <= 0) ->
     r = (Ok (mkReply 400 (ErrorJSON "Invalid task ID")), w)) /\
  (forall id, strconv_Atoi idParam = Some id -> 0 < id ->
     faults env OpActOnly = false ->
     (actsOfTask (db w) id = [] ->
        r = (Ok (mkReply 404 (ErrorJSON "Inspection act not found")), w)) /\
     (forall a data, actsOfTask (db w) id = [a] ->
        ia_DocumentPath a <> "" ->
        faults env OpReadFile = false ->
        fs w !! ia_DocumentPath a = Some data ->
        r = (Ok (mkReply 200
                   (PDFData ("attachment; filename=" +:+ String "034"
                               (filepath_Base (ia_DocumentPath a))
                             +:+ String "034" "") data)), w))).
Proof.
  intros r. subst r. unfold DownloadAct. split.
  - intros [->|(id & -> & Hid)]; [done|]. by rewrite decide_True.
  - intros id -> Hid Hq. rewrite decide_False by lia. rewrite bind_try. split.
    + intros Hnone. by rewrite (GeneratePDFForAct_none env storagePath id w Hq Hnone).
    + intros a data Hone Hp Hread Hfile.
      by rewrite (GeneratePDFForAct_hit env storagePath id w a data Hq Hread Hone
                    Hp Hfile).
Qed.

(** X24.  The reassignment route reports an unknown inspector before a
    missing task: with an inspector id that no user has, the answer is 400
    "Invalid inspector ID" and the world is untouched, also when the task
    does not exist; 404 is the answer for a missing task only when the
    inspector is known. *)
Theorem AssignInspectorHandler_reports_the_inspector_first (cenv : CrudEnv)
    (idParam : string) (id : Z) (req : AssignInspectorRequest) (w : World) :
  strconv_Atoi idParam = Some id ->
  1 <= air_InspectorID req ->
  let r := AssignInspectorHandler cenv idParam (Some req) w in
  (users (db w) !! air_InspectorID req = None ->
     r = (Ok (mkReply 400 (ErrorJSON "Invalid inspector ID")), w)) /\
  (is_Some (users (db w) !! air_InspectorID req) ->
   crudFaults cenv OpUserExist = false ->
   faults (core cenv) OpTaskUpdate = false ->
   tasks (db w) !! id = None ->
     fst r = Ok (mkReply 404 (ErrorJSON "Task not found")) /\ db (snd r) = db w).
Proof.
  intros Hid Hmin r. subst r. unfold AssignInspectorHandler.
  rewrite Hid. simpl. rewrite bool_decide_eq_true_2 by done.
  rewrite bind_try, AssignInspector_run. split.
  - intros Hnone. destruct (crudFaults cenv OpUserExist); [done|].
    by rewrite decide_True.
  - intros [u Hu] -> -> ->. by rewrite decide_False by congruence.
Qed.

(** How the writes of a result end. *)
Lemma Result_UpdateOne_outcome env existing condition comment w :
  let r := Result_UpdateOne env existing condition comment w in
  match fst r with
  | Ok _ =>
      inspection_results (db (snd r)) =
        (fun r => if decide (ir_ID r = ir_ID existing)
                  then updatedRow condition comment (clock env (ticks w)) r else r)
          <$> inspection_results (db w)
  | Err _ => inspection_results (db (snd r)) = inspection_results (db w)
  end.
Proof.
  unfold Result_UpdateOne, fault, time_Now. run_M.
  destruct (ConditionStatusValidator condition); simpl; [|done].
  destruct (faults env OpResultUpdate); simpl; [done|].
  by destruct (filter _ _).
Qed.

Lemma Result_Create_outcome env taskID elementID condition comment w :
  let r := Result_Create env taskID elementID condition comment w in
  match fst r with
  | Ok _ =>
      inspection_results (db (snd r)) =
        inspection_results (db w) ++
          [createdRow env w taskID elementID condition comment]
  | Err _ => inspection_results (db (snd r)) = inspection_results (db w)
  end.
Proof.
  unfold Result_Create, fault, time_Now. run_M.
  destruct (ConditionStatusValidator condition); simpl; [|done].
  destruct (faults env OpResultCreate); simpl; [done|].
  destruct (decide _); simpl; [done|].
  by destruct (decide _).
Qed.

Lemma Result_Fetch_Ok env taskID elementID w row w' :
  Result_Fetch env taskID elementID w = (Ok row, w') ->
  w' = w /\
  exists row0, resultsOfPair (db w) taskID elementID = [row0] /\
               row = loadResult (db w) row0.
Proof.
  unfold Result_Fetch, fault. run_M.
  destruct (faults env OpResultFetch); simpl; [done|].
  rewrite only_run.
  destruct (resultsOfPair (db w) taskID elementID) as [|row0 [|]]; simpl; try done.
  intros [= <- <-]. split; [done|]. by exists row0.
Qed.

(** A successful upsert has stored what was asked. *)
Lemma CreateOrUpdateResult_Ok env taskID req w resp w' :
  CreateOrUpdateResult env taskID req w = (Ok resp, w') ->
  exists row,
    resultsOfPair (db w') taskID (req_ChecklistElementID req) = [row] /\
    ir_ConditionStatus row = req_ConditionStatus req /\
    ir_Comment row = default "" (req_Comment req) /\
    resp = toInspectionResultResponse (loadResult (db w') row).
Proof.
  unfold CreateOrUpdateResult. rewrite bind_run.
  pose proof (validateTaskAndElement_world env taskID (req_ChecklistElementID req) w)
    as Hw.
  destruct (validateTaskAndElement env taskID _ w) as [[[]|err] w0];
    simpl in Hw; subst w0; [|done].
  rewrite bind_try.
  assert (Result_Only env taskID (req_ChecklistElementID req) w =
            if faults env OpResultOnly then (Err ErrIO, w)
            else only (resultsOfPair (db w) taskID (req_ChecklistElementID req)) w)
    as -> by (unfold Result_Only, fault; run_M;
              by destruct (faults env OpResultOnly)).
  destruct (faults env OpResultOnly); simpl; [done|].
  rewrite only_run. simpl.
  destruct (resultsOfPair (db w) taskID (req_ChecklistElementID req))
    as [|existing [|]] eqn:Hrows; simpl; [| |done].
  - rewrite bind_run, bind_try.
    pose proof (Result_Create_outcome env taskID (req_ChecklistElementID req)
                  (req_ConditionStatus req) (req_Comment req) w) as Hres.
    destruct (Result_Create env taskID _ _ _ w) as [[[]|err] w1];
      simpl in Hres; simpl; [|done].
    rewrite bind_try.
    destruct (Result_Fetch env taskID (req_ChecklistElementID req) w1)
      as [[row|err] w2] eqn:Hfetch; simpl; [|done].
    intros [= <- <-].
    apply Result_Fetch_Ok in Hfetch as (-> & row0 & Hrow0 & ->).
    exists row0. split; [done|].
    unfold resultsOfPair in Hrow0, Hrows. rewrite Hres, filter_app, Hrows in Hrow0.
    rewrite filter_cons_True in Hrow0 by done. simpl in Hrow0.
    injection Hrow0 as <-. done.
  - rewrite bind_run, bind_try.
    pose proof (Result_UpdateOne_outcome env existing (req_ConditionStatus req)
                  (req_Comment req) w) as Hres.
    destruct (Result_UpdateOne env existing _ _ w) as [[[]|err] w1];
      simpl in Hres; simpl; [|done].
    rewrite bind_try.
    destruct (Result_Fetch env taskID (req_ChecklistElementID req) w1)
      as [[row|err] w2] eqn:Hfetch; simpl; [|done].
    intros [= <- <-].
    apply Result_Fetch_Ok in Hfetch as (-> & row0 & Hrow0 & ->).
    exists row0. split; [done|].
    unfold resultsOfPair in Hrow0, Hrows.
    rewrite Hres, filter_fmap_stable, Hrows in Hrow0
      by (intros r; by destruct (decide _)).
    simpl in Hrow0. rewrite decide_True in Hrow0 by done.
    injection Hrow0 as <-. done.
Qed.

(** X25.  The result route answers 201 only when the result is stored:
    after a 201 the pair of the task and the element has exactly one row,
    it holds the condition and the comment of the request (the empty
    comment when none was sent), and the body of the answer is that row;
    and a bound request for an element of the checklist of a task in
    progress, with nothing failing, is answered 201. *)
Theorem CreateOrUpdateResultHandler_created_means_stored (env : Env)
    (idParam : string) (decoded : option CreateInspectionResultRequest)
    (w : World) :
  let r := CreateOrUpdateResultHandler env idParam decoded w in
  (forall body, fst r = Ok (mkReply 201 body) ->
     exists taskID req row,
       strconv_Atoi idParam = Some taskID /\ decoded = Some req /\
       resultsOfPair (db (snd r)) taskID (req_ChecklistElementID req) = [row] /\
       ir_ConditionStatus row = req_ConditionStatus req /\
       ir_Comment row = default "" (req_Comment req) /\
       body = ResultJSON (toInspectionResultResponse (loadResult (db (snd r)) row))) /\
  (forall taskID req t,
     strconv_Atoi idParam = Some taskID -> decoded = Some req ->
     validCreateInspectionResultRequest req = true ->
     no_faults env ->
     tasks (db w) !! taskID = Some t ->
     t_Status t = StatusInProgress ->
     elementInChecklist (db w) (req_ChecklistElementID req) (t_ChecklistID t) ->
     (length (resultsOfPair (db w) taskID (req_ChecklistElementID req)) <= 1)%nat ->
     exists body, fst r = Ok (mkReply 201 body)).
Proof.
  intros r. subst r. unfold CreateOrUpdateResultHandler. split.
  - intros body. destruct (strconv_Atoi idParam) as [taskID|]; [|discriminate].
    destruct decoded as [req|]; [|discriminate]. simpl.
    destruct (validCreateInspectionResultRequest req); [|discriminate].
    rewrite bind_try.
    destruct (CreateOrUpdateResult env taskID req w) as [[resp|err] w1] eqn:Hrun;
      cbn [fst snd].
    + intros [= <-].
      destruct (CreateOrUpdateResult_Ok env taskID req w resp w1 Hrun)
        as (row & Hrow & Hc & Hm & ->).
      exists taskID, req, row. by repeat split.
    + repeat destruct (decide _); discriminate.
  - intros taskID req t -> -> Hvalid Hnf Ht Hst Hin Hlen. simpl. rewrite Hvalid.
    rewrite bind_try.
    apply bound_condition_iff in Hvalid as [_ Hv].
    destruct req as [e c m]. simpl in *.
    destruct (CreateOrUpdateResult_once env w taskID t e c m Hnf Ht Hst Hin Hv Hlen)
      as (resp & w' & row & -> & _).
    by eexists.
Qed.

(** ** Approval and the document served afterwards *)

Lemma ApproveAct_clear env storagePath taskID w a t :
  no_faults env ->
  actsOfTask (db w) taskID = [a] ->
  loadTaskFull (db w) taskID = Some t ->
  let now := clock env (ticks w) in
  let results := loadResult (db w) <$> resultsOfTask (db w) taskID in
  let pdf := drawAct (approve now (Act_WithTask (Some t) a)) t results
               (clock env (S (ticks w))) in
  let fullPath :=
    filepath_Join storagePath (actFilename taskID (clock env (S (S (ticks w))))) in
  DocumentPathValidator fullPath = true ->
  let r := ApproveAct env storagePath taskID w in
  fst r = Ok tt /\
  actsOfTask (db (snd r)) taskID = [Act_SetDocumentPath fullPath (approve now a)] /\
  fs (snd r) = <[fullPath := pdf]>
                 (if decide (ia_DocumentPath a <> "")
                  then delete (ia_DocumentPath a) (fs w) else fs w).
Proof.
  intros Hnf Hone Ht now results pdf fullPath Hv r. subst r.
  destruct (elem_of_actsOfTask _ _ _ Hone) as [Hin Htid].
  rewrite (ApproveAct_run env storagePath taskID w a) by (try apply Hnf; done).
  fold now. rewrite Ht.
  set (act := approve now (Act_WithTask (Some t) a)).
  set (w2 := mkWorld _ _ _ _).
  destruct (regenerateApproved_clear_run env storagePath taskID act
              (approve now a) t w2) as (Hok & Hacts & Hfs); try done.
  { unfold w2. simpl. apply list_elem_of_fmap. exists a. split; [|done].
    unfold updateByID. by rewrite decide_True. }
  { unfold w2, act. simpl. by rewrite Htid. }
  split; [exact Hok|]. split.
  - unfold actsOfTask at 1. rewrite Hacts.
    rewrite actsOfTask_update by done.
    unfold actsOfTask, w2. simpl db. rewrite inspection_acts_set.
    rewrite actsOfTask_update by done. rewrite Hone. simpl.
    unfold updateByID. simpl.
    destruct (decide (ia_ID a = ia_ID a)); [|done]. simpl.
    rewrite decide_True by done. unfold fullPath. by rewrite Htid.
  - rewrite Hfs. unfold act, w2. simpl. by rewrite Htid.
Qed.

(** X26.  After an approval in which nothing fails, the document served
    is the approved one: the act is approved and dated and points to the
    storage path joined with the new file name (for a storage path written
    clean: the path, a separator, the name), the draft file it pointed to
    is removed, and the next request for the document returns the
    rendering made at approval, which shows the approved act, under its
    file name, from the store. *)
Theorem approved_document_is_what_is_served (env env2 : Env)
    (storagePath : string) (taskID : Z) (w : World) (a : InspectionAct) (t : Task) :
  no_faults env ->
  faults env2 OpActOnly = false ->
  faults env2 OpReadFile = false ->
  actsOfTask (db w) taskID = [a] ->
  loadTaskFull (db w) taskID = Some t ->
  let now := clock env (ticks w) in
  let results := loadResult (db w) <$> resultsOfTask (db w) taskID in
  let pdf := drawAct (approve now (Act_WithTask (Some t) a)) t results
               (clock env (S (ticks w))) in
  let filename := actFilename taskID (clock env (S (S (ticks w)))) in
  let fullPath := filepath_Join storagePath filename in
  DocumentPathValidator fullPath = true ->
  let w1 := snd (ApproveAct env storagePath taskID w) in
  GeneratePDFForAct env2 storagePath taskID w1 = (Ok (pdf, filename), w1) /\
  (exists a', actsOfTask (db w1) taskID = [a'] /\
              approvalCommitted now a a' /\
              ia_DocumentPath a' = fullPath /\
              showsAct pdf a') /\
  (cleanDir storagePath -> fullPath = storagePath +:+ "/" +:+ filename) /\
  (ia_DocumentPath a <> "" -> ia_DocumentPath a <> fullPath ->
     fs w1 !! ia_DocumentPath a = None).
Proof.
  intros Hnf Hq Hread Hone Ht now results pdf filename fullPath Hv w1.
  destruct (ApproveAct_clear env storagePath taskID w a t Hnf Hone Ht Hv)
    as (_ & Hacts & Hfs).
  fold w1 in Hacts, Hfs. fold now in Hacts, Hfs. fold fullPath in Hacts, Hfs.
  split; [|split; [|split]].
  - rewrite (GeneratePDFForAct_hit env2 storagePath taskID w1
               (Act_SetDocumentPath fullPath (approve now a)) pdf); try done.
    + simpl. unfold fullPath.
      by rewrite filepath_Base_Join by apply realElement_actFilename.
    + simpl. apply filepath_Join_nonempty, actFilename_nonempty.
    + simpl. rewrite Hfs. apply lookup_insert_eq.
  - eexists. split; [exact Hacts|]. split; [by repeat split|].
    split; [reflexivity|].
    exact (showsAct_drawAct (approve now (Act_WithTask (Some t) a)) t _ _).
  - intros Hclean. apply filepath_Join_cleanDir; [exact Hclean|].
    apply realElement_actFilename.
  - intros Hp Hne. rewrite Hfs, lookup_insert_ne by done.
    rewrite decide_True by done. apply lookup_delete_eq.
Qed.

(** ** Deleting a building *)

Lemma DeleteBuilding_run cenv id w :
  DeleteBuilding cenv id w =
    if crudFaults cenv OpBuildingDelete then (Err (wrap "database error" ErrIO), w)
    else match buildings (db w) !! id with
         | None => (Err ErrBuildingNotFound, w)
         | Some _ =>
             if decide (noTaskOfBuilding (db w) id)
             then (Ok tt,
                   World_set_db (DB_set_buildings (delete id (buildings (db w))) (db w)) w)
             else (Err (Errorf "building has active dependencies (tasks)"), w)
         end.
Proof.
  unfold DeleteBuilding. rewrite bind_try. unfold Building_DeleteOneID, cfault. run_M.
  destruct (crudFaults cenv OpBuildingDelete); simpl; [done|].
  destruct (buildings (db w) !! id); simpl; [|done].
  by destruct (decide _).
Qed.

(** X27.  [DeleteBuilding] never takes the building away from a task:
    whatever fails, the tasks are as before and every task whose building
    was there still has it.  A building that a task refers to is refused
    with the world untouched, a building that is not there is answered
    [ErrBuildingNotFound], and a building without tasks is removed alone. *)
Theorem DeleteBuilding_keeps_the_buildings_of_tasks (cenv : CrudEnv) (id : Z)
    (w : World) :
  let r := DeleteBuilding cenv id w in
  tasks (db (snd r)) = tasks (db w) /\
  (forall taskID t, tasks (db w) !! taskID = Some t ->
     is_Some (buildings (db w) !! t_BuildingID t) ->
     is_Some (buildings (db (snd r)) !! t_BuildingID t)) /\
  (crudFaults cenv OpBuildingDelete = false ->
     (buildings (db w) !! id = None -> r = (Err ErrBuildingNotFound, w)) /\
     (forall taskID t, is_Some (buildings (db w) !! id) ->
        tasks (db w) !! taskID = Some t -> t_BuildingID t = id ->
        r = (Err (Errorf "building has active dependencies (tasks)"), w)) /\
     (is_Some (buildings (db w) !! id) -> noTaskOfBuilding (db w) id ->
        fst r = Ok tt /\
        buildings (db (snd r)) = delete id (buildings (db w)))).
Proof.
  intros r. subst r. rewrite DeleteBuilding_run.
  destruct (crudFaults cenv OpBuildingDelete); [by repeat split|].
  destruct (buildings (db w) !! id) as [b|] eqn:Hb.
  - destruct (decide (noTaskOfBuilding (db w) id)) as [Hfree|Hused]; simpl.
    + split; [done|]. split.
      * intros taskID t Ht Hhas. rewrite lookup_delete_ne; [done|].
        intros Heq. by apply (Hfree taskID t Ht).
      * intros _. split; [done|]. split; [|done].
        intros taskID t _ Ht Hid. exfalso. by apply (Hfree taskID t Ht).
    + split; [done|]. split; [done|]. intros _. split; [done|]. split; [done|].
      by intros _ Hfree.
  - split; [done|]. split; [done|]. intros _. split; [done|].
    split; [intros taskID t [? ?]; done | intros [? ?]; done].
Qed.

(** ** The routes that read *)

(** X28.  The routes that read tasks and results write nothing: whatever
    fails and whatever they answer, [GetTask], [GetTaskResults] and the two
    task lists leave the world exactly as it was.  (The download of an act
    is not among them: it stores the document it renders.) *)
Theorem read_routes_change_nothing (cenv : CrudEnv) (w : World)
    (idParam statusParam : string) (userID : option Z) :
  snd (GetTask (core cenv) idParam w) = w /\
  snd (GetTaskResultsHandler (core cenv) idParam w) = w /\
  snd (ListAllTasks cenv statusParam w) = w /\
  snd (ListMyTasks cenv userID statusParam w) = w.
Proof.
  split; [|split; [|split]].
  - unfold GetTask. destruct (strconv_Atoi idParam) as [id|]; [|done].
    rewrite bind_try, RetrieveTask_run.
    destruct (faults (core cenv) OpTaskOnly); [done|].
    by destruct (tasks (db w) !! id).
  - unfold GetTaskResultsHandler. destruct (strconv_Atoi idParam) as [id|]; [|done].
    rewrite bind_try.
    pose proof (GetTaskResults_world (core cenv) id w) as Hsame.
    destruct (GetTaskResults (core cenv) id w) as [[s|err] w1]; simpl in *;
      subst w1; [done|].
    by destruct (decide _).
  - unfold ListAllTasks. cbv zeta. rewrite bind_try, ListTasks_run.
    by destruct (crudFaults cenv OpTaskAll).
  - unfold ListMyTasks. destruct userID as [i|]; [|done]. cbv zeta.
    rewrite bind_try, ListTasks_run.
    by destruct (crudFaults cenv OpTaskAll).
Qed.

(** ** The further statements at the sample installation *)

Lemma no_crud_faults_office : no_crud_faults Office.cenv.
Proof. split; [exact no_faults_sample | intros op; reflexivity]. Defined.

Lemma consistent_db0 (st : Status) : consistent (Sample.db0 st).
Proof.
  split; [|split].
  - intros taskID. simpl. lia.
  - intros taskID elementID. simpl. lia.
  - intros r Hr. simpl in Hr. inversion Hr.
Defined.

Lemma consistent_dbReview : consistent Sample.dbReview.
Proof.
  split; [|split].
  - intros taskID. unfold actsOfTask. simpl.
    etransitivity; [apply length_filter|]. simpl. lia.
  - intros taskID elementID. unfold resultsOfPair. simpl.
    rewrite !filter_cons, filter_nil. simpl.
    repeat case_decide; simpl; lia.
  - intros r Hr. simpl in Hr. exists (Sample.task1 StatusOnReview).
    apply elem_of_cons in Hr as [-> | Hr].
    + split; [reflexivity|]. exists Sample.roof. split; [right; left|done].
    + apply list_elem_of_singleton in Hr as ->.
      split; [reflexivity|]. exists Sample.foundation. split; [left|done].
Defined.

Lemma terminal_status_is_final_witness :
  tasks (db (Sample.world0 StatusApproved)) !! 1
    = Some (Sample.task1 StatusApproved) /\
  faults Sample.rainyEnv OpTaskOnly = false /\
  UpdateTaskStatus Sample.rainyEnv 1 StatusOnReview (Sample.world0 StatusApproved)
    = (Err ErrInvalidStatusTransition, Sample.world0 StatusApproved).
Proof.
  split; [reflexivity|]. split; [reflexivity|].
  apply (terminal_status_is_final Sample.rainyEnv (Sample.world0 StatusApproved) 1
           (Sample.task1 StatusApproved) StatusOnReview eq_refl (or_introl eq_refl)).
  reflexivity.
Defined.

Lemma approval_passes_through_review_witness :
  legalPath StatusNew Office.career /\
  finalStatus StatusNew Office.career = StatusApproved /\
  StatusPending ∈ Office.career /\ StatusInProgress ∈ Office.career /\
  StatusOnReview ∈ Office.career.
Proof.
  assert (legalPath StatusNew Office.career) as Hpath
    by (simpl; repeat split; vm_compute; reflexivity).
  split; [exact Hpath|]. split; [reflexivity|].
  exact (approval_passes_through_review Office.career Hpath eq_refl).
Defined.

Lemma every_history_keeps_the_store_consistent_witness :
  consistent (db (Sample.world0 StatusNew)) /\
  consistent (db (serveAll Office.day (Sample.world0 StatusNew))).
Proof.
  split; [apply consistent_db0|].
  apply (every_history_keeps_the_store_consistent Office.day
           (Sample.world0 StatusNew)).
  apply consistent_db0.
Defined.

Lemma second_download_is_served_from_the_store_witness :
  no_faults Sample.env /\
  faults Sample.slowEnv OpActOnly = false /\
  faults Sample.slowEnv OpReadFile = false /\
  actsOfTask (db Sample.worldReview) 1 = [Sample.draft] /\
  is_Some (loadTaskFull (db Sample.worldReview) 1) /\
  cacheMiss Sample.env Sample.worldReview Sample.draft /\
  DocumentPathValidator
    (filepath_Join "storage/acts"
       (actFilename 1 (clock Sample.env (S (ticks Sample.worldReview))))) = true /\
  fst (GeneratePDFForAct Sample.slowEnv "storage/acts" 1 (snd Sample.firstRender))
    = fst Sample.firstRender /\
  snd (GeneratePDFForAct Sample.slowEnv "storage/acts" 1 (snd Sample.firstRender))
    = snd Sample.firstRender.
Proof.
  assert (exists t, loadTaskFull (db Sample.worldReview) 1 = Some t) as [t Ht]
    by (eexists; reflexivity).
  assert (cacheMiss Sample.env Sample.worldReview Sample.draft) as Hmiss
    by (left; reflexivity).
  destruct (second_download_is_served_from_the_store Sample.env Sample.slowEnv
              "storage/acts" 1 Sample.worldReview Sample.draft t
              no_faults_sample eq_refl eq_refl eq_refl Ht Hmiss eq_refl)
    as (_ & Hfst & Hsnd).
  split; [exact no_faults_sample|]. split; [reflexivity|]. split; [reflexivity|].
  split; [reflexivity|]. split; [by exists t|]. split; [exact Hmiss|].
  split; [reflexivity|]. split; [exact Hfst | exact Hsnd].
Defined.

Lemma DeleteResult_removes_exactly_the_pair_witness :
  crudFaults Office.cenv OpResultDelete = false /\
  resultsOfPair (db Sample.worldReview) 1 11 <> [] /\
  resultsOfPair (db Sample.worldReview) 1 12 = [] /\
  fst (DeleteResult Office.cenv 1 11 Sample.worldReview) = Ok tt /\
  resultsOfPair (db (snd (DeleteResult Office.cenv 1 11 Sample.worldReview))) 1 11
    = [] /\
  resultsOfPair (db (snd (DeleteResult Office.cenv 1 11 Sample.worldReview))) 1 10
    = resultsOfPair (db Sample.worldReview) 1 10 /\
  DeleteResult Office.cenv 1 12 Sample.worldReview
    = (Err ErrResultNotFound, Sample.worldReview).
Proof.
  assert (resultsOfPair (db Sample.worldReview) 1 11 <> []) as Hsome by discriminate.
  destruct (DeleteResult_removes_exactly_the_pair Office.cenv 1 11 Sample.worldReview)
    as (_ & _ & Hdel).
  destruct (Hdel eq_refl Hsome) as (Hok & _ & Hgone & Hother & _).
  destruct (DeleteResult_removes_exactly_the_pair Office.cenv 1 12 Sample.worldReview)
    as (_ & Hnone & _).
  split; [reflexivity|]. split; [exact Hsome|]. split; [reflexivity|].
  split; [exact Hok|]. split; [exact Hgone|].
  split; [apply Hother; intros [_ ?]; discriminate|].
  exact (Hnone eq_refl eq_refl).
Defined.

Lemma results_of_a_closed_task_can_be_deleted_witness :
  faults Sample.env OpTaskOnly = false /\
  crudFaults Office.cenv OpResultDelete = false /\
  tasks (db Sample.worldReview) !! 1 = Some (Sample.task1 StatusOnReview) /\
  t_Status (Sample.task1 StatusOnReview) <> StatusInProgress /\
  resultsOfPair (db Sample.worldReview) 1 11 <> [] /\
  CreateOrUpdateResult Sample.env 1 (mkRequest 11 "Исправное" None) Sample.worldReview
    = (Err ErrTaskNotInProgress, Sample.worldReview) /\
  fst (DeleteResult Office.cenv 1 11 Sample.worldReview) = Ok tt /\
  resultsOfPair (db (snd (DeleteResult Office.cenv 1 11 Sample.worldReview))) 1 11
    = [].
Proof.
  assert (t_Status (Sample.task1 StatusOnReview) <> StatusInProgress) as Hst
    by discriminate.
  assert (resultsOfPair (db Sample.worldReview) 1 11 <> []) as Hsome by discriminate.
  split; [reflexivity|]. split; [reflexivity|]. split; [reflexivity|].
  split; [exact Hst|]. split; [exact Hsome|].
  exact (results_of_a_closed_task_can_be_deleted Sample.env Office.cenv 1
           (mkRequest 11 "Исправное" None) Sample.worldReview
           (Sample.task1 StatusOnReview) eq_refl eq_refl eq_refl Hst Hsome).
Defined.

Lemma deleted_result_stays_in_served_document_witness :
  faults Sample.env OpActOnly = false /\
  faults Sample.env OpReadFile = false /\
  crudFaults Office.cenv OpResultDelete = false /\
  actsOfTask (db Sample.worldRendered) 1
    = [Act_SetDocumentPath Sample.oldPath Sample.draft] /\
  Sample.oldPath <> "" /\
  fs Sample.worldRendered !! Sample.oldPath = Some Sample.oldPDF /\
  resultsOfPair (db Sample.worldRendered) 1 11 <> [] /\
  fst (DeleteResult Office.cenv 1 11 Sample.worldRendered) = Ok tt /\
  resultsOfPair (db (snd (DeleteResult Office.cenv 1 11 Sample.worldRendered))) 1 11
    = [] /\
  GeneratePDFForAct Sample.env "storage/acts" 1
    (snd (DeleteResult Office.cenv 1 11 Sample.worldRendered))
    = (Ok (Sample.oldPDF, filepath_Base Sample.oldPath),
       snd (DeleteResult Office.cenv 1 11 Sample.worldRendered)).
Proof.
  assert (Sample.oldPath <> "") as Hp by discriminate.
  assert (resultsOfPair (db Sample.worldRendered) 1 11 <> []) as Hsome
    by discriminate.
  split; [reflexivity|]. split; [reflexivity|]. split; [reflexivity|].
  split; [reflexivity|]. split; [exact Hp|]. split; [reflexivity|].
  split; [exact Hsome|].
  exact (deleted_result_stays_in_served_document Sample.env Office.cenv
           "storage/acts" 1 11 Sample.worldRendered
           (Act_SetDocumentPath Sample.oldPath Sample.draft) Sample.oldPDF
           eq_refl eq_refl eq_refl eq_refl Hp eq_refl Hsome).
Defined.

Lemma upsert_then_delete_restores_the_results_witness :
  no_faults Sample.env /\
  crudFaults Office.cenv OpResultDelete = false /\
  tasks (db (Sample.world0 StatusInProgress)) !! 1
    = Some (Sample.task1 StatusInProgress) /\
  elementInChecklist (db (Sample.world0 StatusInProgress)) 10 1 /\
  ConditionStatusValidator "Исправное" = true /\
  resultsOfPair (db (Sample.world0 StatusInProgress)) 1 10 = [] /\
  fst (DeleteResult Office.cenv 1 10
         (snd (CreateOrUpdateResult Sample.env 1 (mkRequest 10 "Исправное" None)
                 (Sample.world0 StatusInProgress)))) = Ok tt /\
  inspection_results
    (db (snd (DeleteResult Office.cenv 1 10
                (snd (CreateOrUpdateResult Sample.env 1
                        (mkRequest 10 "Исправное" None)
                        (Sample.world0 StatusInProgress))))))
    = inspection_results (db (Sample.world0 StatusInProgress)).
Proof.
  destruct (upsert_then_delete_restores_the_results Sample.env Office.cenv
              (Sample.world0 StatusInProgress) 1 (Sample.task1 StatusInProgress)
              10 "Исправное" None no_faults_sample eq_refl eq_refl eq_refl
              (foundation_in_checklist StatusInProgress) eq_refl eq_refl)
    as (_ & Hok & Hback).
  split; [exact no_faults_sample|]. split; [reflexivity|]. split; [reflexivity|].
  split; [exact (foundation_in_checklist StatusInProgress)|].
  split; [reflexivity|]. split; [reflexivity|].
  split; [exact Hok | exact Hback].
Defined.

Lemma GetTaskResults_completed_within_total_witness :
  oneResultPerPair (db Sample.worldReview) /\
  resultsWithinChecklist (db Sample.worldReview) /\
  exists s,
    fst (GetTaskResults Sample.env 1 Sample.worldReview) = Ok s /\
    snd (GetTaskResults Sample.env 1 Sample.worldReview) = Sample.worldReview /\
    0 <= trs_CompletedElements s <= trs_TotalElements s /\
    trs_CompletedElements s = 2 /\ trs_TotalElements s = 2.
Proof.
  destruct consistent_dbReview as (_ & Hpair & Hwithin).
  destruct (GetTaskResults_completed_within_total Sample.env 1 Sample.worldReview)
    as [Hsame Hcount].
  split; [exact Hpair|]. split; [exact Hwithin|].
  eexists. split; [reflexivity|]. split; [exact Hsame|].
  split; [apply (Hcount _ Hpair Hwithin eq_refl)|]. split; reflexivity.
Defined.

Lemma upsert_advances_the_summary_witness :
  no_faults Sample.env /\
  tasks (db (Sample.world0 StatusInProgress)) !! 1
    = Some (Sample.task1 StatusInProgress) /\
  checklists (db (Sample.world0 StatusInProgress)) !! 1
    = Some (mkChecklist 1 "Весенний" "spring" []) /\
  elementInChecklist (db (Sample.world0 StatusInProgress)) 10 1 /\
  ConditionStatusValidator "Исправное" = true /\
  (length (resultsOfPair (db (Sample.world0 StatusInProgress)) 1 10) <= 1)%nat /\
  exists s s1,
    fst (GetTaskResults Sample.slowEnv 1 (Sample.world0 StatusInProgress)) = Ok s /\
    fst (GetTaskResults Sample.slowEnv 1
           (snd (CreateOrUpdateResult Sample.env 1 (mkRequest 10 "Исправное" None)
                   (Sample.world0 StatusInProgress)))) = Ok s1 /\
    trs_TotalElements s1 = trs_TotalElements s /\
    trs_CompletedElements s1 = trs_CompletedElements s + 1.
Proof.
  assert ((length (resultsOfPair (db (Sample.world0 StatusInProgress)) 1 10) <= 1)%nat)
    as Hlen by (vm_compute; lia).
  destruct (upsert_advances_the_summary Sample.env Sample.slowEnv
              (Sample.world0 StatusInProgress) 1 (Sample.task1 StatusInProgress)
              (mkChecklist 1 "Весенний" "spring" []) 10 "Исправное" None
              no_faults_sample eq_refl eq_refl eq_refl eq_refl eq_refl
              (foundation_in_checklist StatusInProgress) eq_refl Hlen)
    as (s & s1 & Hs & Hs1 & Htotal & Hdone).
  split; [exact no_faults_sample|]. split; [reflexivity|]. split; [reflexivity|].
  split; [exact (foundation_in_checklist StatusInProgress)|].
  split; [reflexivity|]. split; [exact Hlen|].
  exists s, s1. split; [exact Hs|]. split; [exact Hs1|]. split; [exact Htotal|].
  exact Hdone.
Defined.

Lemma RetrieveTask_after_UpdateTaskStatus_witness :
  faults Sample.env OpTaskOnly = false /\
  faults Sample.env OpTaskUpdate = false /\
  tasks (db (Sample.world0 StatusNew)) !! 1 = Some (Sample.task1 StatusNew) /\
  (StatusNew, StatusPending) ∈ legalPairs /\
  exists resp,
    fst (RetrieveTask Sample.slowEnv 1
           (snd (UpdateTaskStatus Sample.env 1 StatusPending
                   (Sample.world0 StatusNew)))) = Ok resp /\
    td_Status resp = StatusPending /\
    td_UpdatedAt resp = "2024-05-17T10:30:15Z" /\
    td_Title resp = "Весенний осмотр".
Proof.
  assert ((StatusNew, StatusPending) ∈ legalPairs) as Hlegal by compute_done.
  destruct (RetrieveTask_after_UpdateTaskStatus Sample.env Sample.slowEnv
              (Sample.world0 StatusNew) 1 StatusPending (Sample.task1 StatusNew)
              eq_refl eq_refl eq_refl eq_refl Hlegal)
    as (resp & Hrun & Hstatus & Hupdated & _ & Htitle & _).
  split; [reflexivity|]. split; [reflexivity|]. split; [reflexivity|].
  split; [exact Hlegal|].
  exists resp. split; [by rewrite Hrun|]. split; [exact Hstatus|].
  split; [exact Hupdated | exact Htitle].
Defined.

Lemma AssignInspector_checks_the_inspector_first_witness :
  users (db (Office.world2 StatusPending)) !! 9 = None /\
  tasks (db (Office.world2 StatusPending)) !! 7 = None /\
  AssignInspector Office.cenv 7 9 (Office.world2 StatusPending)
    = (Err ErrInvalidForeignKey, Office.world2 StatusPending) /\
  is_Some (users (db (Office.world2 StatusPending)) !! 2) /\
  fst (AssignInspector Office.cenv 7 2 (Office.world2 StatusPending))
    = Err ErrTaskNotFound /\
  tasks (db (Office.world2 StatusPending)) !! 1 = Some (Sample.task1 StatusPending) /\
  fst (AssignInspector Office.cenv 1 2 (Office.world2 StatusPending)) = Ok tt /\
  exists t',
    tasks (db (snd (AssignInspector Office.cenv 1 2 (Office.world2 StatusPending))))
      !! 1 = Some t' /\
    t_InspectorID t' = 2 /\ t_Status t' = StatusPending /\
    t_ID t' = 1 /\ t_Title t' = "Весенний осмотр" /\ t_Priority t' = "обычный" /\
    t_CreatedAt t' = Sample.at_nsec 0.
Proof.
  assert (is_Some (users (db (Office.world2 StatusPending)) !! 2)) as Huser
    by (eexists; reflexivity).
  destruct (AssignInspector_checks_the_inspector_first Office.cenv 7 9
              (Office.world2 StatusPending)) as [Hunknown _].
  destruct (AssignInspector_checks_the_inspector_first Office.cenv 7 2
              (Office.world2 StatusPending)) as [_ Hmissing].
  destruct (Hmissing eq_refl Huser eq_refl) as [Hnotask _].
  destruct (AssignInspector_checks_the_inspector_first Office.cenv 1 2
              (Office.world2 StatusPending)) as [_ Hknown].
  destruct (Hknown eq_refl Huser eq_refl) as [_ Hassign].
  destruct (Hassign (Sample.task1 StatusPending) eq_refl)
    as (Hok & (t' & Ht' & Hi & _ & Hid & _ & _ & Htitle & Hprio & Hs & _ & _
              & Hcreated) & _).
  split; [reflexivity|]. split; [reflexivity|].
  split; [exact (Hunknown (or_intror eq_refl))|]. split; [exact Huser|].
  split; [exact (proj1 (Hnotask eq_refl))|]. split; [reflexivity|].
  split; [exact Hok|]. exists t'. split; [exact Ht'|]. split; [exact Hi|].
  split; [exact Hs|]. split; [exact Hid|]. split; [exact Htitle|].
  split; [exact Hprio|exact Hcreated].
Defined.

Lemma DeleteTask_removes_one_task_witness :
  crudFaults Office.cenv OpTaskDelete = false /\
  tasks (db (Sample.world0 StatusNew)) !! 7 = None /\
  DeleteTask Office.cenv 7 (Sample.world0 StatusNew)
    = (Err ErrTaskNotFound, Sample.world0 StatusNew) /\
  fst (DeleteTask Office.cenv 1 (Sample.world0 StatusNew)) = Ok tt /\
  tasks (db (snd (DeleteTask Office.cenv 1 (Sample.world0 StatusNew)))) !! 1 = None /\
  fst (RetrieveTask Sample.env 1
         (snd (DeleteTask Office.cenv 1 (Sample.world0 StatusNew))))
    = Err ErrTaskNotFound.
Proof.
  destruct (DeleteTask_removes_one_task Office.cenv Sample.env 7
              (Sample.world0 StatusNew)) as (Hmissing & _ & _).
  destruct (DeleteTask_removes_one_task Office.cenv Sample.env 1
              (Sample.world0 StatusNew)) as (_ & Hgone & Hclean).
  assert (fst (DeleteTask Office.cenv 1 (Sample.world0 StatusNew)) = Ok tt) as Hok
    by (apply Hclean; [reflexivity|eexists; reflexivity|reflexivity|reflexivity]).
  destruct (Hgone Hok) as (_ & Hnone & _ & _ & _ & _ & _ & Hread).
  split; [reflexivity|]. split; [reflexivity|].
  split; [exact (Hmissing eq_refl eq_refl)|]. split; [exact Hok|].
  split; [exact Hnone | exact (Hread eq_refl)].
Defined.

Lemma ListTasks_selects_by_the_filters_witness :
  crudFaults Office.cenv OpTaskAll = false /\
  StatusValidator "Done" = false /\
  exists l l',
    ListTasks Office.cenv (Some 1) (Some StatusPending) (Sample.world0 StatusPending)
      = (Ok l, Sample.world0 StatusPending) /\
    toTaskResponse (loadTaskEdges (db (Sample.world0 StatusPending))
                      (Sample.task1 StatusPending)) ∈ l /\
    ListTasks Office.cenv None (Some "Done") (Sample.world0 StatusPending)
      = (Ok l', Sample.world0 StatusPending) /\
    l' = [].
Proof.
  destruct (ListTasks_selects_by_the_filters Office.cenv (Some 1)
              (Some StatusPending) (Sample.world0 StatusPending) eq_refl)
    as (l & Hrun & Hmem & _).
  destruct (ListTasks_selects_by_the_filters Office.cenv None (Some "Done")
              (Sample.world0 StatusPending) eq_refl)
    as (l' & Hrun' & _ & _ & Hempty).
  split; [reflexivity|]. split; [reflexivity|].
  exists l, l'. split; [exact Hrun|]. split.
  - apply Hmem. exists 1, (Sample.task1 StatusPending).
    split; [reflexivity|]. split; [|reflexivity].
    split; intros ? [= <-]; reflexivity.
  - split; [exact Hrun'|].
    apply (Hempty "Done" eq_refl); [|reflexivity].
    intros id t Ht. simpl in Ht.
    apply lookup_singleton_Some in Ht as [_ <-]. reflexivity.
Defined.

Lemma CreateTask_then_RetrieveTask_witness :
  no_crud_faults Office.cenv /\
  faults Sample.env OpTaskOnly = false /\
  buildings (db (Sample.world0 StatusNew)) !! 1
    = Some (mkBuilding 1 "ул. Ленина, 1" 1975 1 1 None None) /\
  assignedTo Office.units 1 1 /\
  Office.time_Parse "2024-06-01T09:00:00Z" = Some (mkTime 2024 6 1 9 0 0 0) /\
  tasks (db (Sample.world0 StatusNew)) !! 2 = None /\
  exists resp w',
    CreateTask Office.cenv Office.units 2 Office.time_Parse (Office.autumn 1)
      (Sample.world0 StatusNew) = (Ok resp, w') /\
    td_ID resp = 2 /\ td_Status resp = StatusNew /\
    td_Priority resp = defaultPriority /\
    td_ScheduledDate resp = "2024-06-01T09:00:00Z" /\
    RetrieveTask Sample.env 2 w' = (Ok resp, w').
Proof.
  assert (assignedTo Office.units 1 1) as Hassigned
    by (exists (mkInspectorUnit 1 1 1); split; [left|split; reflexivity]).
  assert (is_Some (checklists (db (Sample.world0 StatusNew)) !! 1)) as Hc
    by (eexists; reflexivity).
  assert (is_Some (users (db (Sample.world0 StatusNew)) !! 1)) as Hu
    by (eexists; reflexivity).
  assert (b_JkhUnitID (mkBuilding 1 "ул. Ленина, 1" 1975 1 1 None None) <> 0)
    as Hunit by discriminate.
  destruct (CreateTask_then_RetrieveTask Office.cenv Sample.env Office.units 2
              Office.time_Parse (Office.autumn 1) (Sample.world0 StatusNew)
              (mkBuilding 1 "ул. Ленина, 1" 1975 1 1 None None)
              (mkTime 2024 6 1 9 0 0 0)
              no_crud_faults_office eq_refl eq_refl Hunit Hc Hu Hassigned
              eq_refl eq_refl)
    as (resp & w' & Hrun & Hid & Hst & _ & Hprio & Hdate & _ & _ & _ & Hread).
  split; [exact no_crud_faults_office|]. split; [reflexivity|].
  split; [reflexivity|]. split; [exact Hassigned|]. split; [reflexivity|].
  split; [reflexivity|].
  exists resp, w'. split; [exact Hrun|]. split; [exact Hid|]. split; [exact Hst|].
  split; [exact Hprio|]. split; [exact Hdate | exact Hread].
Defined.

Lemma unit_assignment_is_checked_on_creation_only_witness :
  no_crud_faults Office.cenv /\
  is_Some (users (db (Office.world2 StatusNew)) !! 2) /\
  ~ assignedTo Office.units 2 1 /\
  tasks (db (Office.world2 StatusNew)) !! 1 = Some (Sample.task1 StatusNew) /\
  CreateTask Office.cenv Office.units 2 Office.time_Parse (Office.autumn 2)
    (Office.world2 StatusNew) = (Err ErrInspectorNotAssigned, Office.world2 StatusNew) /\
  fst (AssignInspector Office.cenv 1 2 (Office.world2 StatusNew)) = Ok tt /\
  t_InspectorID <$>
    tasks (db (snd (AssignInspector Office.cenv 1 2 (Office.world2 StatusNew)))) !! 1
    = Some 2.
Proof.
  assert (is_Some (users (db (Office.world2 StatusNew)) !! 2)) as Hu
    by (eexists; reflexivity).
  assert (is_Some (checklists (db (Office.world2 StatusNew)) !! 1)) as Hc
    by (eexists; reflexivity).
  assert (~ assignedTo Office.units 2 1) as Hno.
  { intros (iu & Hin & Huser & _). apply list_elem_of_singleton in Hin as ->.
    discriminate. }
  assert (b_JkhUnitID (mkBuilding 1 "ул. Ленина, 1" 1975 1 1 None None) <> 0)
    as Hunit by discriminate.
  split; [exact no_crud_faults_office|]. split; [exact Hu|]. split; [exact Hno|].
  split; [reflexivity|].
  exact (unit_assignment_is_checked_on_creation_only Office.cenv Office.units 2
           Office.time_Parse (Office.autumn 2) (Office.world2 StatusNew)
           (mkBuilding 1 "ул. Ленина, 1" 1975 1 1 None None) 1
           (Sample.task1 StatusNew) no_crud_faults_office eq_refl Hunit Hc Hu Hno
           eq_refl eq_refl).
Defined.

Lemma UpdateTaskStatusHandler_replies_witness :
  strconv_Atoi "1" = Some 1 /\
  UpdateTaskStatusHandler Sample.env "1"
    (Some (mkUpdateTaskStatusRequest StatusNew)) (Sample.world0 StatusPending)
    = (Ok (mkReply 400 (ErrorJSON "Invalid request or validation failed")),
       Sample.world0 StatusPending) /\
  (StatusPending, StatusInProgress) ∈ legalPairs /\
  fst (UpdateTaskStatusHandler Sample.env "1"
         (Some (mkUpdateTaskStatusRequest StatusInProgress))
         (Sample.world0 StatusPending))
    = Ok (mkReply 200 (MessageJSON "Task status updated successfully")) /\
  exists id req t,
    strconv_Atoi "1" = Some id /\
    tasks (db (Sample.world0 StatusPending)) !! id = Some t /\
    t_Status <$>
      tasks (db (snd (UpdateTaskStatusHandler Sample.env "1"
                        (Some (mkUpdateTaskStatusRequest StatusInProgress))
                        (Sample.world0 StatusPending)))) !! id
      = Some (utsr_Status req).
Proof.
  assert ((StatusPending, StatusInProgress) ∈ legalPairs) as Hlegal by compute_done.
  destruct (UpdateTaskStatusHandler_replies Sample.env "1"
              (Some (mkUpdateTaskStatusRequest StatusNew))
              (Sample.world0 StatusPending)) as (Hnew & _).
  destruct (UpdateTaskStatusHandler_replies Sample.env "1"
              (Some (mkUpdateTaskStatusRequest StatusInProgress))
              (Sample.world0 StatusPending)) as (_ & Hstored & _ & Hgo).
  pose proof (Hgo 1 (mkUpdateTaskStatusRequest StatusInProgress)
                (Sample.task1 StatusPending) eq_refl eq_refl eq_refl eq_refl
                eq_refl Hlegal) as Hok.
  destruct (Hstored _ Hok) as (id & req & t & Hid & _ & Ht & _ & Hst).
  split; [reflexivity|].
  split; [exact (Hnew 1 _ eq_refl eq_refl (or_introl eq_refl))|].
  split; [exact Hlegal|]. split; [exact Hok|].
  exists id, req, t. split; [exact Hid|]. split; [exact Ht | exact Hst].
Defined.

Lemma AcceptTask_takes_pending_tasks_witness :
  strconv_Atoi "1" = Some 1 /\
  faults Sample.env OpTaskOnly = false /\
  faults Sample.env OpTaskUpdate = false /\
  fst (AcceptTask Sample.env "1" (Sample.world0 StatusPending))
    = Ok (mkReply 200 (MessageJSON "Task accepted successfully")) /\
  inspection_acts (db (snd (AcceptTask Sample.env "1" (Sample.world0 StatusPending))))
    = inspection_acts (db (Sample.world0 StatusPending)) /\
  AcceptTask Sample.env "1" (Sample.world0 StatusNew)
    = (Ok (mkReply 400 (ErrorJSON "Task cannot be accepted (invalid status)")),
       Sample.world0 StatusNew).
Proof.
  destruct (AcceptTask_takes_pending_tasks Sample.env "1"
              (Sample.world0 StatusPending)) as [Hsound Hpending].
  destruct (Hpending 1 (Sample.task1 StatusPending) eq_refl eq_refl eq_refl)
    as [Hgo _].
  pose proof (Hgo eq_refl eq_refl) as Hok.
  destruct (Hsound _ Hok) as (id & t & _ & _ & _ & _ & Hacts & _).
  destruct (AcceptTask_takes_pending_tasks Sample.env "1"
              (Sample.world0 StatusNew)) as [_ Hnew].
  destruct (Hnew 1 (Sample.task1 StatusNew) eq_refl eq_refl eq_refl) as [_ Hno].
  split; [reflexivity|]. split; [reflexivity|]. split; [reflexivity|].
  split; [exact Hok|]. split; [exact Hacts|].
  apply Hno. discriminate.
Defined.

Lemma DownloadAct_replies_witness :
  strconv_Atoi "0" = Some 0 /\
  DownloadAct Sample.env "storage/acts" "0" Sample.worldRendered
    = (Ok (mkReply 400 (ErrorJSON "Invalid task ID")), Sample.worldRendered) /\
  strconv_Atoi "1" = Some 1 /\
  actsOfTask (db (Sample.world0 StatusPending)) 1 = [] /\
  DownloadAct Sample.env "storage/acts" "1" (Sample.world0 StatusPending)
    = (Ok (mkReply 404 (ErrorJSON "Inspection act not found")),
       Sample.world0 StatusPending) /\
  fs Sample.worldRendered !! Sample.oldPath = Some Sample.oldPDF /\
  DownloadAct Sample.env "storage/acts" "1" Sample.worldRendered
    = (Ok (mkReply 200
             (PDFData ("attachment; filename=" +:+ String "034"
                         "act_1_20240516_090000.pdf" +:+ String "034" "")
                Sample.oldPDF)), Sample.worldRendered).
Proof.
  destruct (DownloadAct_replies Sample.env "storage/acts" "0" Sample.worldRendered)
    as [Hbad _].
  destruct (DownloadAct_replies Sample.env "storage/acts" "1"
              (Sample.world0 StatusPending)) as [_ Hpending].
  destruct (Hpending 1 eq_refl eq_refl eq_refl) as [Hnone _].
  destruct (DownloadAct_replies Sample.env "storage/acts" "1" Sample.worldRendered)
    as [_ Hrendered].
  destruct (Hrendered 1 eq_refl eq_refl eq_refl) as [_ Hhit].
  split; [reflexivity|].
  split; [apply Hbad; right; exists 0; split; [reflexivity|lia]|].
  split; [reflexivity|]. split; [reflexivity|]. split; [exact (Hnone eq_refl)|].
  split; [reflexivity|].
  apply (Hhit (Act_SetDocumentPath Sample.oldPath Sample.draft) Sample.oldPDF);
    [reflexivity|discriminate|reflexivity|reflexivity].
Defined.

Lemma AssignInspectorHandler_reports_the_inspector_first_witness :
  strconv_Atoi "7" = Some 7 /\
  tasks (db (Office.world2 StatusNew)) !! 7 = None /\
  users (db (Office.world2 StatusNew)) !! 9 = None /\
  AssignInspectorHandler Office.cenv "7" (Some (mkAssignInspectorRequest 9))
    (Office.world2 StatusNew)
    = (Ok (mkReply 400 (ErrorJSON "Invalid inspector ID")), Office.world2 StatusNew) /\
  fst (AssignInspectorHandler Office.cenv "7" (Some (mkAssignInspectorRequest 2))
         (Office.world2 StatusNew))
    = Ok (mkReply 404 (ErrorJSON "Task not found")).
Proof.
  assert (1 <= air_InspectorID (mkAssignInspectorRequest 9)) as H9 by (simpl; lia).
  assert (1 <= air_InspectorID (mkAssignInspectorRequest 2)) as H2 by (simpl; lia).
  destruct (AssignInspectorHandler_reports_the_inspector_first Office.cenv "7" 7
              (mkAssignInspectorRequest 9) (Office.world2 StatusNew) eq_refl H9)
    as [Hunknown _].
  destruct (AssignInspectorHandler_reports_the_inspector_first Office.cenv "7" 7
              (mkAssignInspectorRequest 2) (Office.world2 StatusNew) eq_refl H2)
    as [_ Hknown].
  split; [reflexivity|]. split; [reflexivity|]. split; [reflexivity|].
  split; [exact (Hunknown eq_refl)|].
  apply Hknown; [eexists; reflexivity|reflexivity..].
Defined.

Lemma CreateOrUpdateResultHandler_created_means_stored_witness :
  strconv_Atoi "1" = Some 1 /\
  validCreateInspectionResultRequest (mkRequest 10 "Исправное" None) = true /\
  no_faults Sample.env /\
  elementInChecklist (db (Sample.world0 StatusInProgress)) 10 1 /\
  exists body taskID req row,
    fst (CreateOrUpdateResultHandler Sample.env "1"
           (Some (mkRequest 10 "Исправное" None)) (Sample.world0 StatusInProgress))
      = Ok (mkReply 201 body) /\
    resultsOfPair
      (db (snd (CreateOrUpdateResultHandler Sample.env "1"
                  (Some (mkRequest 10 "Исправное" None))
                  (Sample.world0 StatusInProgress))))
      taskID (req_ChecklistElementID req) = [row] /\
    ir_ConditionStatus row = req_ConditionStatus req /\
    ir_Comment row = default "" (req_Comment req).
Proof.
  assert ((length (resultsOfPair (db (Sample.world0 StatusInProgress)) 1 10) <= 1)%nat)
    as Hlen by (vm_compute; lia).
  destruct (CreateOrUpdateResultHandler_created_means_stored Sample.env "1"
              (Some (mkRequest 10 "Исправное" None))
              (Sample.world0 StatusInProgress)) as [Hsound Hgo].
  destruct (Hgo 1 (mkRequest 10 "Исправное" None) (Sample.task1 StatusInProgress)
              eq_refl eq_refl eq_refl no_faults_sample eq_refl eq_refl
              (foundation_in_checklist StatusInProgress) Hlen) as [body Hok].
  destruct (Hsound body Hok) as (taskID & req & row & _ & _ & Hrow & Hc & Hm & _).
  split; [reflexivity|]. split; [reflexivity|]. split; [exact no_faults_sample|].
  split; [exact (foundation_in_checklist StatusInProgress)|].
  exists body, taskID, req, row.
  split; [exact Hok|]. split; [exact Hrow|]. split; [exact Hc | exact Hm].
Defined.

Lemma approved_document_is_what_is_served_witness :
  let w1 := snd (ApproveAct Sample.env "storage/acts/" 1 Sample.worldRendered) in
  let rendered := Act_SetDocumentPath Sample.oldPath Sample.draft in
  no_faults Sample.env /\
  actsOfTask (db Sample.worldRendered) 1 = [rendered] /\
  is_Some (loadTaskFull (db Sample.worldRendered) 1) /\
  DocumentPathValidator
    (filepath_Join "storage/acts/"
       (actFilename 1 (clock Sample.env (S (S (ticks Sample.worldRendered)))))) = true /\
  (exists pdf a',
     GeneratePDFForAct Sample.slowEnv "storage/acts/" 1 w1
       = (Ok (pdf, "act_1_20240517_103015.pdf"), w1) /\
     actsOfTask (db w1) 1 = [a'] /\
     approvalCommitted (Sample.at_nsec 0) rendered a' /\
     ia_DocumentPath a' = "storage/acts/act_1_20240517_103015.pdf" /\
     showsAct pdf a') /\
  fs w1 !! Sample.oldPath = None.
Proof.
  intros w1 rendered.
  assert (exists t, loadTaskFull (db Sample.worldRendered) 1 = Some t) as [t Ht]
    by (eexists; reflexivity).
  destruct (approved_document_is_what_is_served Sample.env Sample.slowEnv
              "storage/acts/" 1 Sample.worldRendered rendered t
              no_faults_sample eq_refl eq_refl eq_refl Ht eq_refl)
    as (Hserved & (a' & Ha' & Happroved & Hpath & Hshows) & _ & Hgone).
  split; [exact no_faults_sample|]. split; [reflexivity|]. split; [by exists t|].
  split; [reflexivity|].
  split.
  { eexists _, a'. split; [exact Hserved|]. split; [exact Ha'|].
    split; [exact Happroved|]. split; [exact Hpath|exact Hshows]. }
  apply Hgone; discriminate.
Defined.

Lemma DeleteBuilding_keeps_the_buildings_of_tasks_witness :
  crudFaults Office.cenv OpBuildingDelete = false /\
  tasks (db (Sample.world0 StatusNew)) !! 1 = Some (Sample.task1 StatusNew) /\
  t_BuildingID (Sample.task1 StatusNew) = 1 /\
  DeleteBuilding Office.cenv 1 (Sample.world0 StatusNew)
    = (Err (Errorf "building has active dependencies (tasks)"),
       Sample.world0 StatusNew) /\
  buildings (db (Sample.world0 StatusNew)) !! 7 = None /\
  DeleteBuilding Office.cenv 7 (Sample.world0 StatusNew)
    = (Err ErrBuildingNotFound, Sample.world0 StatusNew).
Proof.
  destruct (DeleteBuilding_keeps_the_buildings_of_tasks Office.cenv 1
              (Sample.world0 StatusNew)) as (_ & _ & Hone).
  destruct (Hone eq_refl) as (_ & Hused & _).
  destruct (DeleteBuilding_keeps_the_buildings_of_tasks Office.cenv 7
              (Sample.world0 StatusNew)) as (_ & _ & Hseven).
  destruct (Hseven eq_refl) as (Hmissing & _).
  split; [reflexivity|]. split; [reflexivity|]. split; [reflexivity|].
  split; [apply (Hused 1 (Sample.task1 StatusNew));
          [eexists; reflexivity|reflexivity|reflexivity]|].
  split; [reflexivity|]. exact (Hmissing eq_refl).
Defined.
